(** * libforest: the decision-tree learners of [classifier_learning.cpp]

    A shallow embedding of the four learners of
    [src/src/classifier_learning.cpp] (axis-aligned, projective,
    dot-product and online) together with the properties stated about
    them.

    Conventions of the embedding.
    - C++ [int] is [Z]; the one product that can leave the range of
      [int] is [intMul].  Indices into arrays are [nat].
    - A finite C++ [float] or [double] is the rational it denotes; the
      feature values of the data are dyadic rationals ([representable]),
      as every finite float is.
      The arithmetic on feature values and thresholds is IEEE 754
      arithmetic: a sum, difference or product is the exact result rounded
      to the nearest binary32 or binary64 value, ties to even, with
      overflow to an infinity ([float], [binary32], [binary64]).  The
      objectives of the candidate splits and the leaf vectors, which the
      code obtains from functions of [Platform], are kept as rationals.
    - A [BOOST_ASSERT] that fails ends the call with [AssertFails], a
      C++ exception that leaves it with [Throws]; an access outside an
      array ends it with [Undefined].
    - The parts of libforest and of the C++ standard library that the
      file uses but does not define (the histogram's entropy, [std::log],
      the random engines, ...) are the fields of the class [Platform]. *)

From Stdlib Require Import ZArith QArith Qabs Qminmax Qround Lia Lqa.
From Stdlib Require SpecFloat.
From stdpp Require Import base option list sorting.

Local Open Scope Z_scope.

(** ** Outcomes of a call *)

Inductive outcome (A : Type) : Type :=
| Returns (a : A)
| AssertFails (line : Z)
| Throws (line : Z)
| Undefined
| OutOfFuel.
Arguments Returns {A} a.
Arguments AssertFails {A} line.
Arguments Throws {A} line.
Arguments Undefined {A}.
Arguments OutOfFuel {A}.

#[global] Instance outcome_ret : MRet outcome := fun A a => Returns a.
#[global] Instance outcome_bind : MBind outcome := fun A B k m =>
  match m with
  | Returns a => k a
  | AssertFails l => AssertFails l
  | Throws l => Throws l
  | Undefined => Undefined
  | OutOfFuel => OutOfFuel
  end.

(** [BOOST_ASSERT(b)] at source line [line]. *)
Definition BOOST_ASSERT (line : Z) (b : bool) : outcome unit :=
  if b then Returns tt else AssertFails line.

(** [v.reserve(n)] and [v.resize(n)] of a [std::vector] at source line
    [line], with an [int] argument: a negative [n] converts to a size
    above [max_size()], and the call throws [std::length_error]. *)
Definition vectorSize (line : Z) (n : Z) : outcome unit :=
  if n <? 0 then Throws line else Returns tt.

(** [a*b] on [int]: signed overflow is undefined. *)
Definition intMul (a b : Z) : outcome Z :=
  if (- 2 ^ 31 <=? a * b) && (a * b <? 2 ^ 31) then Returns (a * b) else Undefined.

(** The call ran to its end. *)
Definition returned {A : Type} (o : outcome A) : bool :=
  match o with
  | Returns _ => true
  | _ => false
  end.

(** Two calls end the same way, with results related by [R]. *)
Definition sameOutcome {A : Type} (R : A -> A -> Prop) (o1 o2 : outcome A) : Prop :=
  match o1, o2 with
  | Returns a1, Returns a2 => R a1 a2
  | AssertFails l1, AssertFails l2 => l1 = l2
  | Throws l1, Throws l2 => l1 = l2
  | Undefined, Undefined => True
  | OutOfFuel, OutOfFuel => True
  | _, _ => False
  end.

(** ** Floats

    The value of a [float] or of a [double]: a rational, an infinity or
    NaN.  (The two zeros are one value: the file divides by no float and
    takes no sign of a zero.) *)

Definition Qltb (a b : Q) : bool := negb (Qle_bool b a).

Inductive float : Type :=
| Finite (q : Q)
| Infinite (negative : bool)
| NotANumber.
Coercion Finite : Q >-> float.

(** The value of a float of the specification of IEEE 754 of the
    Standard Library: a finite one is its mantissa times a power of two
    (as a reduced fraction). *)
Definition valueOf (x : SpecFloat.spec_float) : float :=
  match x with
  | SpecFloat.S754_zero _ => Finite 0
  | SpecFloat.S754_infinity s => Infinite s
  | SpecFloat.S754_nan => NotANumber
  | SpecFloat.S754_finite s m e =>
      Finite (Qred (inject_Z (if s then Z.neg m else Z.pos m) * 2 ^ e))
  end.

(** The dyadic rational [q], rounded to the nearest value of the format
    with [prec] bits of precision and exponents below [emax], ties to
    even; beyond the largest value of the format it is an infinity. *)
Definition round (prec emax : Z) (q : Q) : float :=
  let r := Qred q in
  valueOf (SpecFloat.binary_normalize prec emax (Qnum r) (- Z.log2 (Z.pos (Qden r))) false).

(** [float] and [double] *)
Definition binary32 : Q -> float := round 24 128.
Definition binary64 : Q -> float := round 53 1024.

(** [x + y], [-x], [x - y] and [x * y], rounded by [rnd] *)
Definition fadd (rnd : Q -> float) (x y : float) : float :=
  match x, y with
  | NotANumber, _ | _, NotANumber => NotANumber
  | Infinite a, Infinite b => if Bool.eqb a b then x else NotANumber
  | Infinite _, Finite _ => x
  | Finite _, Infinite _ => y
  | Finite a, Finite b => rnd (a + b)%Q
  end.

Definition fopp (x : float) : float :=
  match x with
  | Finite q => Finite (- q)
  | Infinite s => Infinite (negb s)
  | NotANumber => NotANumber
  end.

Definition fsub (rnd : Q -> float) (x y : float) : float := fadd rnd x (fopp y).

Definition fmul (rnd : Q -> float) (x y : float) : float :=
  match x, y with
  | NotANumber, _ | _, NotANumber => NotANumber
  | Infinite a, Infinite b => Infinite (xorb a b)
  | Infinite a, Finite q | Finite q, Infinite a =>
      if Qeq_bool q 0 then NotANumber else Infinite (xorb a (Qltb q 0))
  | Finite a, Finite b => rnd (a * b)%Q
  end.

(** [std::abs(x)] *)
Definition fabs (x : float) : float :=
  match x with
  | Finite q => Finite (Qabs q)
  | Infinite _ => Infinite false
  | NotANumber => NotANumber
  end.

(** [x < y]: false when one of the two is NaN. *)
Definition fltb (x y : float) : bool :=
  match x, y with
  | NotANumber, _ | _, NotANumber => false
  | Finite a, Finite b => Qltb a b
  | Finite _, Infinite s => negb s
  | Infinite s, Finite _ => s
  | Infinite a, Infinite b => a && negb b
  end.

(** [std::max(x, y)]: [(x < y) ? y : x] *)
Definition fmax (x y : float) : float := if fltb x y then y else x.

Arguments round : simpl never.
Arguments fadd : simpl never.
Arguments fsub : simpl never.
Arguments fmul : simpl never.
Arguments fabs : simpl never.
Arguments fltb : simpl never.
Arguments fmax : simpl never.

(** The reduced denominator of [q] is a power of two, as that of every
    finite binary float is. *)
Definition representable (q : Q) : bool :=
  let d := Qden (Qred q) in
  Pos.eqb d (Pos.shiftl_nat 1 (Pos.to_nat (Pos.size d) - 1)).

(** The literals [1e-6f] and [1e-6]: the binary32 value and the binary64
    value nearest to a millionth, [8796093 / 2^43] and
    [4722366482869645 / 2^72]. *)
Definition eps32 : Q := 8796093 # 8796093022208.
Definition eps64 : Q := 4722366482869645 # 4722366482869645213696.

(** The literals [1e35] and [1e20]. *)
Definition huge : Q := inject_Z (10 ^ 35).
Definition large : Q := inject_Z (10 ^ 20).

(** ** Data points (Eigen vectors of floats) *)

Abbreviation DataPoint := (list Q) (only parsing).

(** [x(d)] *)
Definition coeff (x : DataPoint) (d : nat) : Q := default 0%Q (x !! d).

(** [DataPoint::Zero(D)] *)
Definition Zero (D : nat) : DataPoint := replicate D 0%Q.

(** [v /= s] *)
Definition scale_div (v : DataPoint) (s : Q) : DataPoint :=
  map (fun c => (c / s)%Q) v.

(** ** The data storage (libforest/data.h; interface of the spec, section 6) *)

Record DataStorage := mkStorage {
  getDimensionality : Z;
  getClasscount : Z;
  examples : list (DataPoint * nat)
}.

Definition getSize (s : DataStorage) : Z := Z.of_nat (length (examples s)).
Definition getDataPoint (s : DataStorage) (n : nat) : DataPoint :=
  default [] (fst <$> examples s !! n).
Definition getClassLabel (s : DataStorage) (n : nat) : nat :=
  default 0%nat (snd <$> examples s !! n).

(** Every label is a class of the storage, every point has the storage's
    dimension and every feature value is a dyadic rational. *)
Definition wf_example (s : DataStorage) (e : DataPoint * nat) : Prop :=
  (Z.of_nat (snd e) < getClasscount s) /\
  Z.of_nat (length (fst e)) = getDimensionality s /\
  Forall (fun v => representable v = true) (fst e).

Definition wf_storage (s : DataStorage) : Prop :=
  0 <= getDimensionality s /\ Forall (wf_example s) (examples s).

(** ** The class histogram

    Modelled from the spec: [EfficientEntropyHistogram] is declared in
    libforest/learning_tools.h, which is not among the sources; section 3
    and 4.1 of the spec give its counts, mass, purity and operations.  Its
    entropy is a field of [Platform]. *)

Module EfficientEntropyHistogram.

Abbreviation t := (list Z) (only parsing).

Definition create (C : Z) : t := replicate (Z.to_nat C) 0.
Definition getSize (h : t) : Z := Z.of_nat (length h).
Definition at_ (h : t) (c : nat) : Z := default 0 (h !! c).
Definition getMass (h : t) : Z := foldr Z.add 0 h.
Definition addOne (c : nat) (h : t) : t := alter Z.succ c h.
Definition subOne (c : nat) (h : t) : t := alter Z.pred c h.
Definition reset (h : t) : t := replicate (length h) 0.
Definition resize (C : Z) (h : t) : t := resize (Z.to_nat C) 0 h.

(** Pure: at most one bucket is not zero. *)
Definition isPure (h : t) : bool :=
  Nat.leb (length (filter (fun c : Z => c <> 0) (h : list Z))) 1.

End EfficientEntropyHistogram.

Module H := EfficientEntropyHistogram.

(** ** The tree

    Modelled from the spec: the tree classes are declared in
    libforest/classifier.h, which is not among the sources; sections 3 and
    4.2 of the spec give the node table, [addNode] and [splitNode]
    (two children appended as a contiguous pair, one level below their
    parent, the parent's histogram cleared). *)

Inductive SplitDescriptor : Type :=
| NoSplit
| AxisAligned (splitFeature : Z) (threshold : float)
| SparseProjection (projection : DataPoint)
| DotProduct (projection1 projection2 : DataPoint) (threshold : float).

Record NodeConfig := mkConfig {
  depth : Z;
  split : SplitDescriptor;
  leftChild : option nat
}.

(** The data of a node: the leaf's log-probability vector and, for the
    online tree, the statistics of the candidate splits. *)
Record NodeData := mkData {
  histogram : list Q;
  nodeStatistics : H.t;
  nodeFeatures : list nat;
  nodeThresholds : list (list Q);
  leftChildStatistics : list H.t;
  rightChildStatistics : list H.t
}.

Definition freshData : NodeData := mkData [] [] [] [] [] [].
Definition freshConfig (d : Z) : NodeConfig := mkConfig d NoSplit None.

Abbreviation Tree := (list (NodeConfig * NodeData)) (only parsing).

Definition getNumNodes (t : Tree) : Z := Z.of_nat (length t).
Definition getNodeConfig (t : Tree) (node : nat) : NodeConfig :=
  default (freshConfig 0) (fst <$> t !! node).
Definition getNodeData (t : Tree) (node : nat) : NodeData :=
  default freshData (snd <$> t !! node).
Definition getDepth (c : NodeConfig) : Z := depth c.

Definition setNodeConfig (node : nat) (c : NodeConfig) (t : Tree) : Tree :=
  alter (fun n => (c, snd n)) node t.
Definition setNodeData (node : nat) (d : NodeData) (t : Tree) : Tree :=
  alter (fun n => (fst n, d)) node t.

Definition setHistogram (h : list Q) (d : NodeData) : NodeData :=
  mkData h (nodeStatistics d) (nodeFeatures d) (nodeThresholds d)
         (leftChildStatistics d) (rightChildStatistics d).

(** [tree->getNodeConfig(node)] receives its split descriptor. *)
Definition setSplit (node : nat) (s : SplitDescriptor) (t : Tree) : Tree :=
  let c := getNodeConfig t node in
  setNodeConfig node (mkConfig (depth c) s (leftChild c)) t.

(** [addNode]: a fresh node at the end of the table; its index. *)
Definition addNode (t : Tree) : Tree * nat :=
  (t ++ [(freshConfig 0, freshData)], length t).

(** [splitNode]: two children after the last node, one level below
    [node]; the index of the left one. *)
Definition splitNode (node : nat) (t : Tree) : Tree * nat :=
  let c := getNodeConfig t node in
  let left := length t in
  let t1 := setNodeConfig node (mkConfig (depth c) (split c) (Some left)) t in
  let t2 := setNodeData node (setHistogram [] (getNodeData t1 node)) t1 in
  (t2 ++ [(freshConfig (depth c + 1), freshData);
          (freshConfig (depth c + 1), freshData)], left).

(** ** What the file takes from its environment *)

Class Platform := {
  (** [std::log] and [std::sqrt] of <cmath> *)
  flog : Q -> Q;
  fsqrt : Q -> Q;
  (** Eigen: the inner product [a.adjoint()*b] and [x.squaredNorm()] of
      vectors of floats, a [float]; the order in which the products are
      summed and rounded is not fixed by the source *)
  fdot : DataPoint -> DataPoint -> float;
  fsquaredNorm : DataPoint -> float;
  (** [EfficientEntropyHistogram::getEntropy] (libforest/learning_tools.h) *)
  getEntropy : H.t -> Q;
  (** The engines of <random>: [std::mt19937] and
      [std::default_random_engine], with the distributions drawn from them *)
  Engine : Type;
  seed_engine : Z -> Engine;
  uniform_int : Z -> Z -> Engine -> Z * Engine;
  uniform_int_range : forall lo hi e,
    lo <= hi -> lo <= fst (uniform_int lo hi e) <= hi;
  poisson : Q -> Engine -> Z * Engine;
  (** [std::shuffle(first, last, engine)] *)
  shuffle : Engine -> list nat -> list nat;
  shuffle_perm : forall e l, shuffle e l ≡ₚ l;
  (** [Util::sampleTwo] and [Util::getRandomEntry] (libforest/util.h) *)
  sampleTwo : Z -> Engine -> (Z * Z) * Engine;
  sampleTwo_range : forall hi e,
    1 <= hi ->
    0 <= fst (fst (sampleTwo hi e)) <= hi /\ 0 <= snd (fst (sampleTwo hi e)) <= hi;
  getRandomEntry : list nat -> Engine -> nat * Engine;
  (** [RandomThresholdGenerator] (libforest/learning_tools.h) *)
  ThresholdGenerator : Type;
  tg_getSize : ThresholdGenerator -> Z;
  tg_sample : nat -> ThresholdGenerator -> Q * ThresholdGenerator
}.

(** ** Routing

    Modelled from the spec: [findLeafNode] is defined in
    libforest/classifier.h, which is not among the sources; section 6 of
    the spec gives it as the traversal by the split descriptors, which
    test an example as the learners do when they partition. *)

(** The side of a split an example falls on: [true] is the left child. *)
Definition goesLeft `{Platform} (s : SplitDescriptor) (x : DataPoint) : bool :=
  match s with
  | NoSplit => false
  | AxisAligned f t => fltb (coeff x (Z.to_nat f)) t
  | SparseProjection p => fltb (fdot p x) 0%Q
  | DotProduct p1 p2 t => fltb (fsub binary32 (fdot x p2) (fdot x p1)) t
  end.

(** [findLeafNode]: follow the split descriptors from the root. *)
Fixpoint findLeafNode_from `{Platform} (fuel : nat) (t : Tree) (x : DataPoint) (node : nat) : nat :=
  match fuel with
  | O => node
  | S fuel' =>
      match leftChild (getNodeConfig t node) with
      | None => node
      | Some l =>
          if goesLeft (split (getNodeConfig t node)) x
          then findLeafNode_from fuel' t x l
          else findLeafNode_from fuel' t x (S l)
      end
  end.

Definition findLeafNode `{Platform} (t : Tree) (x : DataPoint) : nat :=
  findLeafNode_from (length t) t x 0%nat.

(** ** The generators (lines 19-20)

    [static std::random_device rd] is the values it will deliver and the
    number already drawn; [static std::mt19937 g(rd())] is an engine.
    The generator that [AbstractDataStorage::bootstrap] draws from is not
    passed to it by this file (lines 71, 328 and 569) and belongs to the
    data library: it is the third component, [sampler]. *)

Record random_device := mkDevice {
  source : nat -> Z;
  drawn : nat
}.

(** [rd()] *)
Definition rd_draw (r : random_device) : Z * random_device :=
  (source r (drawn r), mkDevice (source r) (S (drawn r))).

(** Two devices deliver the same values from now on. *)
Definition sameDraws (r1 r2 : random_device) : Prop :=
  forall k, source r1 (drawn r1 + k) = source r2 (drawn r2 + k).

Record Globals `{Platform} := mkGlobals {
  rd : random_device;
  g : Engine;
  sampler : Engine
}.
Arguments mkGlobals {_} rd g sampler.

(** ** The learners' configuration *)

Record Learner `{Platform} := mkLearner {
  numFeatures : Z;
  useBootstrap : bool;
  numBootstrapExamples : Z;
  maxDepth : Z;
  minSplitExamples : Z;
  minChildSplitExamples : Z;
  smoothingParameter : Q;
  (** the online learner's *)
  numThresholds : Z;
  minSplitObjective : Q;
  bootstrapLambda : Q;
  thresholdGenerator : ThresholdGenerator
}.
Arguments mkLearner {_}.

Section Learners.

Context `{P : Platform}.

(** ** [updateLeafNodeHistogram] (lines 29-43) *)

Definition smoothed (hist : H.t) (smoothing : Q) (c : nat) : Q :=
  flog ((inject_Z (H.at_ hist c) + smoothing)
        / (inject_Z (H.getMass hist) + inject_Z (H.getSize hist) * smoothing))%Q.

Definition updateLeafNodeHistogram (leafNodeHistogram : list Q) (hist : H.t)
    (smoothing : Q) (useBootstrap : bool) : outcome (list Q) :=
  let C := H.getSize hist in
  let v := resize (Z.to_nat C) 0%Q leafNodeHistogram in
  _ ← BOOST_ASSERT 34 (0 <? Z.of_nat (length v));
  if negb useBootstrap
  then Returns (foldl (fun v c => <[c := smoothed hist smoothing c]> v) v
                      (seq 0 (Z.to_nat C)))
  else Returns v.

(** The two statements that finalize [node] as a leaf (lines 157-158,
    240-241 and their copies in the other learners): the histogram of the
    node is updated and asserted not to be empty. *)
Definition finalizeLeaf (line : Z) (t : Tree) (node : nat) (hist : H.t)
    (smoothing : Q) (useBootstrap : bool) : outcome Tree :=
  v ← updateLeafNodeHistogram (histogram (getNodeData t node)) hist smoothing useBootstrap;
  let t' := setNodeData node (setHistogram v (getNodeData t node)) t in
  _ ← BOOST_ASSERT line (0 <? Z.of_nat (length (histogram (getNodeData t' node))));
  Returns t'.

(** ** The depth bound and the steps of a tree *)

(** Every node lies at depth at most [m] (the root, at depth 0, when [m]
    is negative), and every node that has children lies above depth [m]. *)
Definition depthBounded (m : Z) (t : Tree) : Prop :=
  forall k, (k < length t)%nat ->
    depth (getNodeConfig t k) <= Z.max 0 m /\
    (leftChild (getNodeConfig t k) <> None -> depth (getNodeConfig t k) < m).

(** What a turn of a learner does to the tree: it changes the data of a
    node, or it gives a node above the maximal depth a split descriptor
    and two children. *)
Definition treeStep (L : Learner) (t t' : Tree) : Prop :=
  (exists node d, t' = setNodeData node d t) \/
  (exists node desc,
      depth (getNodeConfig t node) < maxDepth L /\
      t' = fst (splitNode node (setSplit node desc t))).

(** ** What the batch learners share *)

(** The state of a batch learner's loop: the tree, the stack of nodes
    still to split (its back first), the example array of every node
    ([None] once released) with its size, the array the features are
    shuffled in (axis-aligned learner), the local engine (projective and
    dot-product learners) and the file-static device. *)
Record State := mkState {
  tree : Tree;
  splitStack : list nat;
  trainingExamples : list (option (list nat));
  trainingExamplesSizes : list Z;
  sampledFeatures : list nat;
  engine : Engine;
  device : random_device
}.

(** What one turn of the loop did. *)
Inductive Event : Type :=
| Finalized (node : nat) (hist : H.t)
| Committed (node : nat) (N : Z) (parent leftList rightList : list nat)
            (leftSize rightSize leftCounter rightCounter : Z).

(** Two states of a batch learner that differ at most in the device,
    which delivers the same values to both from now on. *)
Definition sameState (s1 s2 : State) : Prop :=
  tree s1 = tree s2 /\ splitStack s1 = splitStack s2 /\
  trainingExamples s1 = trainingExamples s2 /\
  trainingExamplesSizes s1 = trainingExamplesSizes s2 /\
  sampledFeatures s1 = sampledFeatures s2 /\ engine s1 = engine s2 /\
  sameDraws (device s1) (device s2).

(** A turn that commits a split of the node with the examples [l]: the
    two counters came down to zero, the two new arrays have the sizes
    recorded for them, hold together the examples of the node, and
    neither is smaller than the configured minimum. *)
Definition exactPartition (L : Learner) (l : list nat) (ev : Event) : Prop :=
  match ev with
  | Finalized _ _ => True
  | Committed node N parent leftList rightList leftSize rightSize leftCounter rightCounter =>
      parent ≡ₚ l /\ N = Z.of_nat (length l) /\
      leftCounter = 0 /\ rightCounter = 0 /\
      leftSize + rightSize = N /\
      Z.of_nat (length leftList) = leftSize /\ Z.of_nat (length rightList) = rightSize /\
      leftList ++ rightList ≡ₚ parent /\
      minChildSplitExamples L <= leftSize /\ minChildSplitExamples L <= rightSize
  end.

(** [trainingExamples[node]] with [trainingExamplesSizes[node]]: the first
    [N] cells of the array. *)
Definition exampleList (s : State) (node : nat) : outcome (list nat * Z) :=
  match trainingExamples s !! node, trainingExamplesSizes s !! node with
  | Some (Some l), Some N =>
      if (0 <=? N) && (N <=? Z.of_nat (length l))
      then Returns (take (Z.to_nat N) l, N)
      else Undefined
  | _, _ => Undefined
  end.

(** Lines 143-148: the histogram of the node's examples. *)
Definition nodeHistogram (storage : DataStorage) (C : Z) (l : list nat) : H.t :=
  foldl (fun h n => H.addOne (getClassLabel storage n) h) (H.create C) l.

(** Lines 154, 423, 659 and 943: the node is not split. *)
Definition stops (L : Learner) (hist : H.t) (d : Z) : bool :=
  (H.getMass hist <? minSplitExamples L) || H.isPure hist || (maxDepth L <=? d).


(** [arr[--counter] = n] *)
Definition storeBack (arr : list nat) (counter : Z) (n : nat) : outcome (list nat * Z) :=
  let counter' := counter - 1 in
  if (0 <=? counter') && (counter' <? Z.of_nat (length arr))
  then Returns (<[Z.to_nat counter' := n]> arr, counter')
  else Undefined.

(** Lines 257-272, 515-528 and 750-765: every example of the node goes to
    the left or to the right array, filled from its end. *)
Fixpoint partitionExamples (isLeft : nat -> bool) (l : list nat)
    (leftList rightList : list nat) (bestLeftMass bestRightMass : Z)
    : outcome (list nat * list nat * Z * Z) :=
  match l with
  | [] => Returns (leftList, rightList, bestLeftMass, bestRightMass)
  | n :: l' =>
      if isLeft n
      then '(leftList', bestLeftMass') ← storeBack leftList bestLeftMass n;
           partitionExamples isLeft l' leftList' rightList bestLeftMass' bestRightMass
      else '(rightList', bestRightMass') ← storeBack rightList bestRightMass n;
           partitionExamples isLeft l' leftList rightList' bestLeftMass bestRightMass'
  end.


(** [new int[size]] *)
Definition newArray (size : Z) : list nat := replicate (Z.to_nat size) 0%nat.

(** The end of a turn that splits [node]: the children's arrays join the
    table, the node is split, the children are pushed and the node's
    array is released. *)
Definition commit (s : State) (node : nat) (stack : list nat) (desc : SplitDescriptor)
    (leftList rightList : list nat) (leftSize rightSize : Z)
    (sampled : list nat) (e : Engine) (r : random_device) : State * nat :=
  let '(t, leftChild) := splitNode node (setSplit node desc (tree s)) in
  (mkState t
           (S leftChild :: leftChild :: stack)
           (<[node := None]> (trainingExamples s ++ [Some leftList; Some rightList]))
           (trainingExamplesSizes s ++ [leftSize; rightSize])
           sampled e r,
   leftChild).

(** The end of a turn that makes [node] a leaf. *)
Definition release (s : State) (node : nat) (stack : list nat) (t : Tree)
    (sampled : list nat) (e : Engine) (r : random_device) : State :=
  mkState t stack (<[node := None]> (trainingExamples s))
          (trainingExamplesSizes s) sampled e r.

(** The best split found so far (the variables of lines 165-169). *)
Record Best := mkBest {
  bestThreshold : float;
  bestFeature : Z;
  bestObjective : Q;
  bestLeftMass : Z;
  bestRightMass : Z
}.

(** ** Bootstrap and the refresh of the leaf histograms

    Modelled from the spec: [AbstractDataStorage::bootstrap] and
    [TreeLearningTools::updateHistograms] are defined in files that are
    not among the sources.  Section 6 of the spec: [bootstrap] draws the
    requested number of examples with replacement and returns them with
    the mask of the indices drawn (from the generator of the data
    library, [sampler]).  Section 4.3: the refresh routes every example of the full
    data set down the finished tree, counts the labels per leaf and
    smooths. *)

Fixpoint bootstrap_draws (k : nat) (dataStorage : DataStorage) (e : Engine)
    (acc : list (DataPoint * nat)) (sampled : list bool)
    : list (DataPoint * nat) * list bool * Engine :=
  match k with
  | O => (acc, sampled, e)
  | S k' =>
      let '(i, e') := uniform_int 0 (getSize dataStorage - 1) e in
      match examples dataStorage !! Z.to_nat i with
      | Some ex =>
          bootstrap_draws k' dataStorage e' (acc ++ [ex]) (<[Z.to_nat i := true]> sampled)
      | None => bootstrap_draws k' dataStorage e' acc sampled
      end
  end.

Definition bootstrap (count : Z) (dataStorage : DataStorage) (gl : Globals)
    : DataStorage * list bool * Globals :=
  let '(exs, sampled, e) :=
    bootstrap_draws (Z.to_nat count) dataStorage (sampler gl) []
                    (replicate (length (examples dataStorage)) false) in
  (mkStorage (getDimensionality dataStorage) (getClasscount dataStorage) exs,
   sampled, mkGlobals (rd gl) (g gl) e).

Definition smoothedVector (hist : H.t) (smoothing : Q) : list Q :=
  map (smoothed hist smoothing) (seq 0 (length hist)).

Definition routedTo (t : Tree) (dataStorage : DataStorage) (node : nat) : list nat :=
  filter (fun n => findLeafNode t (getDataPoint dataStorage n) = node)
         (seq 0 (length (examples dataStorage))).

Definition updateHistograms (t : Tree) (dataStorage : DataStorage) (smoothing : Q) : Tree :=
  imap (fun node n =>
          match leftChild (fst n) with
          | Some _ => n
          | None =>
              (fst n,
               setHistogram
                 (smoothedVector
                    (nodeHistogram dataStorage (getClasscount dataStorage)
                                   (routedTo t dataStorage node))
                    smoothing)
                 (snd n))
          end) t.

(** ** [DecisionTreeLearner::learn] (lines 45-310) *)

(** [storage->getDataPoint(n)(feature)] *)
Definition featureValue (storage : DataStorage) (feature : nat) (n : nat) : Q :=
  coeff (getDataPoint storage n) feature.

(** [std::sort(list, list + N, cp)] with the [FeatureComparator] of
    [feature]: the examples in non-decreasing order of the feature. *)
Definition featureLe (storage : DataStorage) (feature : nat) : relation nat :=
  fun a b => (featureValue storage feature a <= featureValue storage feature b)%Q.

#[global] Instance featureLe_dec storage feature : RelDecision (featureLe storage feature).
Proof.
  intros a b. unfold featureLe.
  destruct (Qle_bool (featureValue storage feature a) (featureValue storage feature b)) eqn:E.
  - left. apply Qle_bool_iff. exact E.
  - right. intros Hle. apply Qle_bool_iff in Hle. congruence.
Defined.

Definition sortByFeature (storage : DataStorage) (feature : nat) (l : list nat) : list nat :=
  merge_sort (featureLe storage feature) l.

(** Lines 204-206: the two values lie too close together.  The
    difference is a [float]; the two sums with the [double] literal, their
    maximum and its product with the [float] literal are [double]s. *)
Definition tooClose (leftValue rightValue : Q) : bool :=
  let diff := fabs (fsub binary32 rightValue leftValue) in
  fltb diff (fmul binary64 eps32
               (fmax (fabs (fadd binary64 rightValue eps64))
                     (fabs (fadd binary64 leftValue eps64)))).

(** Lines 191-229: the sweep over the sorted examples of one feature. *)
Fixpoint sweep (storage : DataStorage) (feature : nat) (rest : list nat)
    (leftValue : Q) (leftClass : nat) (leftHistogram rightHistogram : H.t)
    (best : Best) : Best :=
  match rest with
  | [] => best
  | n :: rest' =>
      let leftHistogram := H.addOne leftClass leftHistogram in
      let rightHistogram := H.subOne leftClass rightHistogram in
      let rightValue := featureValue storage feature n in
      if tooClose leftValue rightValue
      then sweep storage feature rest' rightValue (getClassLabel storage n)
                 leftHistogram rightHistogram best
      else
        let localObjective := (getEntropy leftHistogram + getEntropy rightHistogram)%Q in
        let best' :=
          if Qltb localObjective (bestObjective best)
          then mkBest (fadd binary32 leftValue rightValue) (Z.of_nat feature)
                      localObjective
                      (H.getMass leftHistogram) (H.getMass rightHistogram)
          else best in
        sweep storage feature rest' rightValue (getClassLabel storage n)
              leftHistogram rightHistogram best'
  end.

(** [best] records a split point of the examples [L]: two neighbours
    [a], [b] in an ordering of [L] by the feature of [best] that the test
    of line 206 does not skip, the sum of their values, and the numbers of
    examples up to [a] and from [b] on. *)
Definition splitPoint (storage : DataStorage) (L : list nat) (best : Best) : Prop :=
  exists feature pre a b post,
    bestFeature best = Z.of_nat feature /\
    pre ++ a :: b :: post ≡ₚ L /\
    StronglySorted (featureLe storage feature) (pre ++ a :: b :: post) /\
    tooClose (featureValue storage feature a) (featureValue storage feature b) = false /\
    bestThreshold best
    = fadd binary32 (featureValue storage feature a) (featureValue storage feature b) /\
    bestLeftMass best = Z.of_nat (length pre) + 1 /\
    bestRightMass best = Z.of_nat (length post) + 1.

Definition goodBest (storage : DataStorage) (L : list nat) (best : Best) : Prop :=
  bestFeature best = -1 \/ splitPoint storage L best.

(** Lines 175-230: the loop over the sampled features; the example array
    is sorted in place for every feature. *)
Fixpoint optimise (storage : DataStorage) (hist : H.t) (C : Z) (sampled : list nat)
    (fs : list nat) (l : list nat) (best : Best) : outcome (Best * list nat) :=
  match fs with
  | [] => Returns (best, l)
  | f :: fs' =>
      match sampled !! f with
      | None => Undefined
      | Some feature =>
          match sortByFeature storage feature l with
          | [] => Undefined
          | n0 :: rest =>
              optimise storage hist C sampled fs' (n0 :: rest)
                (sweep storage feature rest (featureValue storage feature n0)
                       (getClassLabel storage n0) (H.create C) hist best)
          end
      end
  end.

(** Lines 129-297: one turn of the loop. *)
Definition DecisionTreeLearner_turn (L : Learner) (storage : DataStorage)
    (_numFeatures C : Z) (s : State) : outcome (State * Event) :=
  match splitStack s with
  | [] => Undefined
  | node :: stack =>
      '(trainingExampleList, N) ← exampleList s node;
      let hist := nodeHistogram storage C trainingExampleList in
      if stops L hist (getDepth (getNodeConfig (tree s) node))
      then
        t ← finalizeLeaf 158 (tree s) node hist (smoothingParameter L) (useBootstrap L);
        Returns (release s node stack t (sampledFeatures s) (engine s) (device s),
                 Finalized node hist)
      else
        let '(sd, r) := rd_draw (device s) in
        let sampled := shuffle (seed_engine sd) (sampledFeatures s) in
        '(best, sorted) ← optimise storage hist C sampled (seq 0 (Z.to_nat _numFeatures))
                                   trainingExampleList (mkBest 0%Q (-1) huge 0 N);
        (* line 233: bestThreshold *= 0.5f *)
        let threshold := fmul binary32 (bestThreshold best) (1 # 2)%Q in
        if (bestFeature best <? 0)
           || (bestLeftMass best <? minChildSplitExamples L)
           || (bestRightMass best <? minChildSplitExamples L)
        then
          t ← finalizeLeaf 241 (tree s) node hist (smoothingParameter L) (useBootstrap L);
          Returns (release s node stack t sampled (engine s) r, Finalized node hist)
        else
          '(leftList, rightList, leftCounter, rightCounter) ←
            partitionExamples
              (fun n => fltb (featureValue storage (Z.to_nat (bestFeature best)) n) threshold)
              sorted (newArray (bestLeftMass best)) (newArray (bestRightMass best))
              (bestLeftMass best) (bestRightMass best);
          _ ← BOOST_ASSERT 285 (leftCounter =? 0);
          _ ← BOOST_ASSERT 286 (rightCounter =? 0);
          Returns (fst (commit s node stack (AxisAligned (bestFeature best) threshold)
                               leftList rightList (bestLeftMass best) (bestRightMass best)
                               sampled (engine s) r),
                   Committed node N sorted leftList rightList
                             (bestLeftMass best) (bestRightMass best)
                             leftCounter rightCounter)
  end.

(** Lines 126-298: the loop, for at most [fuel] turns. *)
Fixpoint DecisionTreeLearner_loop (fuel : nat) (L : Learner) (storage : DataStorage)
    (_numFeatures C : Z) (s : State) : outcome State :=
  match splitStack s with
  | [] => Returns s
  | _ :: _ =>
      match fuel with
      | O => OutOfFuel
      | S fuel' =>
          '(s', _) ← DecisionTreeLearner_turn L storage _numFeatures C s;
          DecisionTreeLearner_loop fuel' L storage _numFeatures C s'
      end
  end.

(** Modelled from the spec's dependencies: [fastlog2] is defined in a
    header of libforest that is not among the sources.  It approximates
    the binary logarithm from the bits of its argument; at 0 it gives
    about -127, from 1 on a value that truncates to a non-negative [int].
    [static_cast<int>(fastlog2(N))], of which line 90 uses the sign. *)
Definition fastlog2 (N : Z) : Z := if N <=? 0 then -127 else Z.log2 N.

(** The state before the first turn (lines 84-123 and their copies). *)
Definition initialState (storage : DataStorage) (e : Engine) (r : random_device) : State :=
  mkState (fst (addNode [])) [0%nat]
          [Some (seq 0 (length (examples storage)))]
          [getSize storage]
          (seq 0 (Z.to_nat (getDimensionality storage)))
          e r.

Definition DecisionTreeLearner_learn (L : Learner) (dataStorage : DataStorage)
    (gl : Globals) (fuel : nat) : outcome (Tree * Globals) :=
  _ ← BOOST_ASSERT 50 (numFeatures L <=? getDimensionality dataStorage);
  let _numBootstrapExamples :=
    if numBootstrapExamples L <? 0 then getSize dataStorage else numBootstrapExamples L in
  let _numFeatures :=
    if numFeatures L <? 0 then Z.sqrt (getDimensionality dataStorage) else numFeatures L in
  let '(storage, _, gl1) :=
    if useBootstrap L then bootstrap _numBootstrapExamples dataStorage gl
    else (dataStorage, [], gl) in
  (* line 90: splitStack.reserve(static_cast<int>(fastlog2(storage->getSize()))) *)
  _ ← vectorSize 90 (fastlog2 (getSize storage));
  s ← DecisionTreeLearner_loop fuel L storage _numFeatures (getClasscount storage)
        (initialState storage (g gl1) (rd gl1));
  let t := if useBootstrap L
           then updateHistograms (tree s) dataStorage (smoothingParameter L)
           else tree s in
  Returns (t, mkGlobals (device s) (g gl1) (sampler gl1)).

(** ** [ProjectiveDecisionTreeLearner::learn] (lines 316-550) *)

(** Lines 466-477 and 697-710: the examples on the left of a candidate
    split move from the right histogram to the left one. *)
Fixpoint countLeft (storage : DataStorage) (isLeft : nat -> bool) (l : list nat)
    (leftHistogram rightHistogram : H.t) : H.t * H.t :=
  match l with
  | [] => (leftHistogram, rightHistogram)
  | n :: l' =>
      if isLeft n
      then countLeft storage isLeft l'
                     (H.addOne (getClassLabel storage n) leftHistogram)
                     (H.subOne (getClassLabel storage n) rightHistogram)
      else countLeft storage isLeft l' leftHistogram rightHistogram
  end.

(** [projection(d) = v] *)
Definition setCoeff (projection : DataPoint) (d : Z) (v : Q) : outcome DataPoint :=
  if (0 <=? d) && (d <? Z.of_nat (length projection))
  then Returns (<[Z.to_nat d := v]> projection)
  else Undefined.

(** Lines 454-457: [sparsity] coefficients of the projection receive +1
    or -1 (the right-hand side of the assignment is drawn first). *)
Fixpoint sampleSigns (sparsity : nat) (D : Z) (projection : DataPoint) (e : Engine)
    : outcome (DataPoint * Engine) :=
  match sparsity with
  | O => Returns (projection, e)
  | S k =>
      let '(b, e1) := uniform_int 0 1 e in
      let '(d, e2) := uniform_int 0 (D - 1) e1 in
      projection' ← setCoeff projection d (inject_Z (2 * b - 1));
      sampleSigns k D projection' e2
  end.

Definition sparsity : nat := 3.

(** Lines 443-458. *)
Definition sampleProjection (D : Z) (e : Engine) : outcome (DataPoint * Engine) :=
  '(projection, e') ← sampleSigns sparsity D (Zero (Z.to_nat D)) e;
  Returns (scale_div projection (fsqrt (inject_Z (Z.of_nat sparsity))), e').

(** The best projection found so far (lines 434-437). *)
Record BestProjection := mkBestProjection {
  bestProjection : DataPoint;
  bestObjectiveP : Q;
  bestLeftMassP : Z;
  bestRightMassP : Z
}.

(** The masses recorded with the best projection are the numbers of
    examples on its two sides. *)
Definition countedP (storage : DataStorage) (l : list nat) (best : BestProjection) : Prop :=
  Z.of_nat (length (filter (fun n => fltb (fdot (bestProjection best)
                                                 (getDataPoint storage n)) 0%Q) l))
  = bestLeftMassP best /\
  Z.of_nat (length (filter (fun n => negb (fltb (fdot (bestProjection best)
                                                       (getDataPoint storage n)) 0%Q)) l))
  = bestRightMassP best.

(** Lines 440-491: [numFeatures] candidate projections. *)
Fixpoint optimiseProjection (k : nat) (storage : DataStorage) (hist : H.t) (C D : Z)
    (l : list nat) (e : Engine) (best : BestProjection)
    : outcome (BestProjection * Engine) :=
  match k with
  | O => Returns (best, e)
  | S k' =>
      '(projection, e') ← sampleProjection D e;
      let '(leftHistogram, rightHistogram) :=
        countLeft storage (fun n => fltb (fdot projection (getDataPoint storage n)) 0%Q)
                  l (H.create C) hist in
      let localObjective := (getEntropy leftHistogram + getEntropy rightHistogram)%Q in
      optimiseProjection k' storage hist C D l e'
        (if Qltb localObjective (bestObjectiveP best)
         then mkBestProjection projection localObjective
                               (H.getMass leftHistogram) (H.getMass rightHistogram)
         else best)
  end.

(** Lines 382-538: one turn of the loop. *)
Definition ProjectiveDecisionTreeLearner_turn (L : Learner) (storage : DataStorage)
    (C D : Z) (s : State) : outcome (State * Event) :=
  match splitStack s with
  | [] => Undefined
  | node :: stack =>
      '(trainingExampleList, N) ← exampleList s node;
      let hist := nodeHistogram storage C trainingExampleList in
      if stops L hist (getDepth (getNodeConfig (tree s) node))
      then
        t ← finalizeLeaf 427 (tree s) node hist (smoothingParameter L) (useBootstrap L);
        Returns (release s node stack t (sampledFeatures s) (engine s) (device s),
                 Finalized node hist)
      else
        '(best, e) ← optimiseProjection (Z.to_nat (numFeatures L)) storage hist C D
                        trainingExampleList (engine s)
                        (mkBestProjection (Zero (Z.to_nat D)) huge 0 N);
        if Qltb large (bestObjectiveP best)
           || (bestLeftMassP best <? minChildSplitExamples L)
           || (bestRightMassP best <? minChildSplitExamples L)
        then
          t ← finalizeLeaf 499 (tree s) node hist (smoothingParameter L) (useBootstrap L);
          Returns (release s node stack t (sampledFeatures s) e (device s),
                   Finalized node hist)
        else
          '(leftList, rightList, leftCounter, rightCounter) ←
            partitionExamples
              (fun n => fltb (fdot (bestProjection best) (getDataPoint storage n)) 0%Q)
              trainingExampleList
              (newArray (bestLeftMassP best)) (newArray (bestRightMassP best))
              (bestLeftMassP best) (bestRightMassP best);
          Returns (fst (commit s node stack (SparseProjection (bestProjection best))
                               leftList rightList (bestLeftMassP best) (bestRightMassP best)
                               (sampledFeatures s) e (device s)),
                   Committed node N trainingExampleList leftList rightList
                             (bestLeftMassP best) (bestRightMassP best)
                             leftCounter rightCounter)
  end.

Fixpoint ProjectiveDecisionTreeLearner_loop (fuel : nat) (L : Learner)
    (storage : DataStorage) (C D : Z) (s : State) : outcome State :=
  match splitStack s with
  | [] => Returns s
  | _ :: _ =>
      match fuel with
      | O => OutOfFuel
      | S fuel' =>
          '(s', _) ← ProjectiveDecisionTreeLearner_turn L storage C D s;
          ProjectiveDecisionTreeLearner_loop fuel' L storage C D s'
      end
  end.

Definition ProjectiveDecisionTreeLearner_learn (L : Learner) (dataStorage : DataStorage)
    (gl : Globals) (fuel : nat) : outcome (Tree * Globals) :=
  let '(storage, _, gl1) :=
    if useBootstrap L then bootstrap (numBootstrapExamples L) dataStorage gl
    else (dataStorage, [], gl) in
  (* line 371: std::mt19937 g(rd()) *)
  let '(sd, r) := rd_draw (rd gl1) in
  s ← ProjectiveDecisionTreeLearner_loop fuel L storage
        (getClasscount storage) (getDimensionality storage)
        (initialState storage (seed_engine sd) r);
  let t := if useBootstrap L
           then updateHistograms (tree s) dataStorage (smoothingParameter L)
           else tree s in
  Returns (t, mkGlobals (device s) (g gl1) (sampler gl1)).

(** ** [DotProductDecisionTreeLearner::learn] (lines 557-789) *)

(** Lines 633-642: the examples of the node, by class. *)
Definition sortedPointIndices (storage : DataStorage) (C : Z) (l : list nat) : list (list nat) :=
  foldl (fun v n => alter (fun ns => ns ++ [n]) (getClassLabel storage n) v)
        (replicate (Z.to_nat C) []) l.

(** Lines 645-652: the classes present in the node. *)
Definition classLabels (hist : H.t) : list nat :=
  filter (fun c => H.at_ hist c <> 0) (seq 0 (length hist)).

(** The best pair of anchors found so far (lines 670-675). *)
Record BestAnchors := mkBestAnchors {
  bestThresholdD : float;
  bestProjection1 : DataPoint;
  bestProjection2 : DataPoint;
  bestObjectiveD : Q;
  bestLeftMassD : Z;
  bestRightMassD : Z
}.

(** Lines 701-704 and 753-757: the discriminant of an example, the
    [float] difference of its inner products with the two anchors, is
    below the threshold. *)
Definition belowBisector (storage : DataStorage) (x1 x2 : DataPoint) (threshold : float)
    (n : nat) : bool :=
  fltb (fsub binary32 (fdot (getDataPoint storage n) x2) (fdot (getDataPoint storage n) x1))
       threshold.

(** The masses recorded with the best anchors are the numbers of
    examples on the two sides of their bisector. *)
Definition countedD (storage : DataStorage) (l : list nat) (best : BestAnchors) : Prop :=
  Z.of_nat (length (filter (fun n => belowBisector storage (bestProjection1 best)
                                       (bestProjection2 best) (bestThresholdD best) n) l))
  = bestLeftMassD best /\
  Z.of_nat (length (filter (fun n => negb (belowBisector storage (bestProjection1 best)
                                             (bestProjection2 best) (bestThresholdD best) n)) l))
  = bestRightMassD best.

(** Lines 678-726: [numFeatures] candidate pairs of anchors. *)
Fixpoint optimiseAnchors (k : nat) (storage : DataStorage) (hist : H.t) (C : Z)
    (l : list nat) (e : Engine) (best : BestAnchors)
    : outcome (BestAnchors * Engine) :=
  match k with
  | O => Returns (best, e)
  | S k' =>
      let labels := classLabels hist in
      let byClass := sortedPointIndices storage C l in
      let '(twoClassLabels, e1) := sampleTwo (Z.of_nat (length labels) - 1) e in
      match labels !! Z.to_nat (fst twoClassLabels), labels !! Z.to_nat (snd twoClassLabels) with
      | Some c1, Some c2 =>
          match byClass !! c1, byClass !! c2 with
          | Some ns1, Some ns2 =>
              let '(n1, e2) := getRandomEntry ns1 e1 in
              let '(n2, e3) := getRandomEntry ns2 e2 in
              let x1 := getDataPoint storage n1 in
              let x2 := getDataPoint storage n2 in
              (* line 690: the product with the double 0.5 is exact, and
                 rounded once when it is stored in the float *)
              let threshold :=
                fmul binary32 (1 # 2)%Q
                     (fsub binary32 (fsquaredNorm x2) (fsquaredNorm x1)) in
              let '(leftHistogram, rightHistogram) :=
                countLeft storage (belowBisector storage x1 x2 threshold) l (H.create C) hist in
              let localObjective := (getEntropy leftHistogram + getEntropy rightHistogram)%Q in
              optimiseAnchors k' storage hist C l e3
                (if Qltb localObjective (bestObjectiveD best)
                 then mkBestAnchors threshold x1 x2 localObjective
                                    (H.getMass leftHistogram) (H.getMass rightHistogram)
                 else best)
          | _, _ => Undefined
          end
      | _, _ => Undefined
      end
  end.

(** Lines 618-777: one turn of the loop. *)
Definition DotProductDecisionTreeLearner_turn (L : Learner) (storage : DataStorage)
    (C D : Z) (s : State) : outcome (State * Event) :=
  match splitStack s with
  | [] => Undefined
  | node :: stack =>
      '(trainingExampleList, N) ← exampleList s node;
      let hist := nodeHistogram storage C trainingExampleList in
      if stops L hist (getDepth (getNodeConfig (tree s) node))
      then
        t ← finalizeLeaf 663 (tree s) node hist (smoothingParameter L) (useBootstrap L);
        Returns (release s node stack t (sampledFeatures s) (engine s) (device s),
                 Finalized node hist)
      else
        '(best, e) ← optimiseAnchors (Z.to_nat (numFeatures L)) storage hist C
                        trainingExampleList (engine s)
                        (mkBestAnchors 0%Q (Zero (Z.to_nat D)) (Zero (Z.to_nat D)) huge 0 N);
        if Qltb large (bestObjectiveD best)
           || (bestLeftMassD best <? minChildSplitExamples L)
           || (bestRightMassD best <? minChildSplitExamples L)
        then
          t ← finalizeLeaf 734 (tree s) node hist (smoothingParameter L) (useBootstrap L);
          Returns (release s node stack t (sampledFeatures s) e (device s),
                   Finalized node hist)
        else
          '(leftList, rightList, leftCounter, rightCounter) ←
            partitionExamples
              (belowBisector storage (bestProjection1 best) (bestProjection2 best)
                             (bestThresholdD best))
              trainingExampleList
              (newArray (bestLeftMassD best)) (newArray (bestRightMassD best))
              (bestLeftMassD best) (bestRightMassD best);
          Returns (fst (commit s node stack
                               (DotProduct (bestProjection1 best) (bestProjection2 best)
                                           (bestThresholdD best))
                               leftList rightList (bestLeftMassD best) (bestRightMassD best)
                               (sampledFeatures s) e (device s)),
                   Committed node N trainingExampleList leftList rightList
                             (bestLeftMassD best) (bestRightMassD best)
                             leftCounter rightCounter)
  end.

Fixpoint DotProductDecisionTreeLearner_loop (fuel : nat) (L : Learner)
    (storage : DataStorage) (C D : Z) (s : State) : outcome State :=
  match splitStack s with
  | [] => Returns s
  | _ :: _ =>
      match fuel with
      | O => OutOfFuel
      | S fuel' =>
          '(s', _) ← DotProductDecisionTreeLearner_turn L storage C D s;
          DotProductDecisionTreeLearner_loop fuel' L storage C D s'
      end
  end.

Definition DotProductDecisionTreeLearner_learn (L : Learner) (dataStorage : DataStorage)
    (gl : Globals) (fuel : nat) : outcome (Tree * Globals) :=
  let '(storage, _, gl1) :=
    if useBootstrap L then bootstrap (numBootstrapExamples L) dataStorage gl
    else (dataStorage, [], gl) in
  (* line 612: std::mt19937 g(rd()) *)
  let '(sd, r) := rd_draw (rd gl1) in
  s ← DotProductDecisionTreeLearner_loop fuel L storage
        (getClasscount storage) (getDimensionality storage)
        (initialState storage (seed_engine sd) r);
  let t := if useBootstrap L
           then updateHistograms (tree s) dataStorage (smoothingParameter L)
           else tree s in
  Returns (t, mkGlobals (device s) (g gl1) (sampler gl1)).

(** ** [OnlineDecisionTreeLearner] (lines 795-1027) *)

(** A loop whose body may fail. *)
Fixpoint forEach {A S : Type} (l : list A) (body : A -> S -> outcome S) (s : S) : outcome S :=
  match l with
  | [] => Returns s
  | a :: l' => s' ← body a s; forEach l' body s'
  end.

(** [statistics[index].addOne(label)] *)
Definition addOneAt (statistics : list H.t) (index : nat) (label : nat) : outcome (list H.t) :=
  match statistics !! index with
  | Some h => Returns (<[index := H.addOne label h]> statistics)
  | None => Undefined
  end.

(** The slot of threshold [t] of feature [f]: [t + numThresholds*f]. *)
Definition slot (L : Learner) (f t : nat) : nat :=
  (t + Z.to_nat (numThresholds L) * f)%nat.

(** Lines 806-815: the example is counted on one side of threshold [t]
    of feature [f]. *)
Definition routeExample (L : Learner) (features : list nat) (ts : list Q)
    (x : DataPoint) (label : nat) (f t : nat) (st : list H.t * list H.t)
    : outcome (list H.t * list H.t) :=
  match features !! f, ts !! t with
  | Some feature, Some threshold =>
      if Qltb (coeff x feature) threshold
      then lefts ← addOneAt (fst st) (slot L f t) label; Returns (lefts, snd st)
      else rights ← addOneAt (snd st) (slot L f t) label; Returns (fst st, rights)
  | _, _ => Undefined
  end.

(** Lines 795-818. *)
Definition OnlineDecisionTreeLearner_updateSplitStatistics (L : Learner)
    (leftChildStatistics rightChildStatistics : list H.t)
    (features : list nat) (thresholds : list (list Q))
    (x : DataPoint) (label : nat) : outcome (list H.t * list H.t) :=
  forEach (seq 0 (Z.to_nat (numFeatures L)))
    (fun f st =>
       match thresholds !! f with
       | None => Undefined
       | Some ts =>
           forEach (seq 0 (length ts)) (routeExample L features ts x label f) st
       end)
    (leftChildStatistics, rightChildStatistics).

(** Lines 905-911: at most ten more samples while the [float] difference
    of the threshold and the one before it is within [1e-6f]. *)
Fixpoint resample (tries : nat) (feature : nat) (previous current : Q)
    (tg : ThresholdGenerator) : Q * ThresholdGenerator :=
  match tries with
  | O => (current, tg)
  | S tries' =>
      if fltb (fabs (fsub binary32 current previous)) eps32
      then let '(c, tg') := tg_sample feature tg in
           resample tries' feature previous c tg'
      else (current, tg)
  end.

(** Lines 896-920: the thresholds of one feature. *)
Fixpoint sampleThresholds (count : nat) (feature : nat) (previous : option Q)
    (tg : ThresholdGenerator) : list Q * ThresholdGenerator :=
  match count with
  | O => ([], tg)
  | S count' =>
      let '(c, tg1) := tg_sample feature tg in
      let '(c', tg2) :=
        match previous with
        | Some p => resample 10 feature p c tg1
        | None => (c, tg1)
        end in
      let '(rest, tg3) := sampleThresholds count' feature (Some c') tg2 in
      (c' :: rest, tg3)
  end.

(** Lines 876-921: the thresholds of every feature of the leaf. *)
Fixpoint sampleAllThresholds (L : Learner) (D : Z) (nodeFeatures : list nat)
    (tg : ThresholdGenerator) : outcome (list (list Q) * ThresholdGenerator) :=
  match nodeFeatures with
  | [] => Returns ([], tg)
  | feature :: rest =>
      _ ← BOOST_ASSERT 880 (Z.of_nat feature <? D);
      let '(ts, tg1) := sampleThresholds (Z.to_nat (numThresholds L)) feature None tg in
      '(tss, tg2) ← sampleAllThresholds L D rest tg1;
      Returns (ts :: tss, tg2)
  end.

(** The online learner between two examples: the tree, the learner (its
    threshold generator advances), the array the features are shuffled in
    and the file-static generators. *)
Record OnlineState := mkOnline {
  otree : Tree;
  learner : Learner;
  features : list nat;
  globals : Globals
}.

Definition withGenerator (L : Learner) (tg : ThresholdGenerator) : Learner :=
  mkLearner (numFeatures L) (useBootstrap L) (numBootstrapExamples L) (maxDepth L)
            (minSplitExamples L) (minChildSplitExamples L) (smoothingParameter L)
            (numThresholds L) (minSplitObjective L) (bootstrapLambda L) tg.

Definition withNumFeatures (L : Learner) (n : Z) : Learner :=
  mkLearner n (useBootstrap L) (numBootstrapExamples L) (maxDepth L)
            (minSplitExamples L) (minChildSplitExamples L) (smoothingParameter L)
            (numThresholds L) (minSplitObjective L) (bootstrapLambda L)
            (thresholdGenerator L).

(** Lines 860-922: the first visit of a leaf samples its features and
    thresholds and zeroes the statistics of every slot.  The two tables
    of slots are resized to [numFeatures*numThresholds] cells (lines
    864-865) and the features to [numFeatures] cells (lines 867-868),
    which throws for a negative size.  (Every slot [t + numThresholds*f]
    of the two tables is then resized and reset, so the tables end as
    [numFeatures*numThresholds] zeroed histograms.) *)
Definition prepareLeaf (C D : Z) (st : OnlineState) (d : NodeData)
    : outcome (OnlineState * NodeData) :=
  let L := learner st in
  if H.getSize (nodeStatistics d) <=? 0
  then
    size ← intMul (numFeatures L) (numThresholds L);
    _ ← vectorSize 864 size;
    _ ← vectorSize 867 (numFeatures L);
    let '(sd, r) := rd_draw (rd (globals st)) in
    let shuffled := shuffle (seed_engine sd) (features st) in
    if Z.of_nat (length shuffled) <? numFeatures L then Undefined
    else
      let nodeFeatures := take (Z.to_nat (numFeatures L)) shuffled in
      '(thresholds, tg) ← sampleAllThresholds L D nodeFeatures (thresholdGenerator L);
      let slots := Z.to_nat size in
      Returns (mkOnline (otree st) (withGenerator L tg) shuffled
                        (mkGlobals r (g (globals st)) (sampler (globals st))),
               mkData (histogram d) (H.resize C (nodeStatistics d))
                      nodeFeatures thresholds
                      (replicate slots (H.create C)) (replicate slots (H.create C)))
  else Returns (st, d).

(** Lines 931-938: the example enters the statistics [K] times. *)
Fixpoint accumulate (K : nat) (L : Learner) (d : NodeData) (x : DataPoint) (label : nat)
    : outcome NodeData :=
  match K with
  | O => Returns d
  | S K' =>
      '(lefts, rights) ← OnlineDecisionTreeLearner_updateSplitStatistics L
                          (leftChildStatistics d) (rightChildStatistics d)
                          (nodeFeatures d) (nodeThresholds d) x label;
      accumulate K' L
        (mkData (histogram d) (H.addOne label (nodeStatistics d))
                (nodeFeatures d) (nodeThresholds d) lefts rights)
        x label
  end.

(** The best slot found so far (lines 953-955). *)
Record BestSlot := mkBestSlot {
  bestObjectiveO : Q;
  bestThresholdO : Z;
  bestFeatureO : Z
}.

(** The slots in the order of the scan of lines 957-978. *)
Definition scanOrder (L : Learner) : list (nat * nat) :=
  f ← seq 0 (Z.to_nat (numFeatures L));
  t ← seq 0 (Z.to_nat (numThresholds L));
  [(f, t)].

(** Lines 966-968: the gain of a slot. *)
Definition gain (d : NodeData) (hl hr : H.t) : Q :=
  (getEntropy (nodeStatistics d) - getEntropy hl - getEntropy hr)%Q.

(** Lines 961-976: one slot of the scan. *)
Definition scanSlot (L : Learner) (d : NodeData) (ft : nat * nat) (best : BestSlot)
    : outcome BestSlot :=
  match leftChildStatistics d !! slot L (fst ft) (snd ft),
        rightChildStatistics d !! slot L (fst ft) (snd ft) with
  | Some hl, Some hr =>
      if (minChildSplitExamples L <? H.getMass hl)
         && (minChildSplitExamples L <? H.getMass hr)
      then
        if Qltb (bestObjectiveO best) (gain d hl hr)
        then Returns (mkBestSlot (gain d hl hr)
                                 (Z.of_nat (snd ft)) (Z.of_nat (fst ft)))
        else Returns best
      else Returns best
  | _, _ => Undefined
  end.

(** What a visit did: the leaf kept accumulating, or it was split. *)
Inductive OnlineEvent : Type :=
| Kept (leaf : nat)
| Split (leaf leftChild : nat) (best : BestSlot).

(** Lines 947 and 984-985: the leaf is not split; its histogram follows
    its statistics. *)
Definition keepLeaf (st : OnlineState) (leaf : nat) (d : NodeData)
    : outcome (OnlineState * OnlineEvent) :=
  v ← updateLeafNodeHistogram (histogram d) (nodeStatistics d)
        (smoothingParameter (learner st)) false;
  Returns (mkOnline (setNodeData leaf (setHistogram v d) (otree st))
                    (learner st) (features st) (globals st),
           Kept leaf).

(** Lines 994-1022: the tree after [leaf], with the data [d], has been
    split by [desc]: the children receive the smoothed statistics [hl]
    and [hr]; the leaf keeps its class histogram and loses the statistics
    of its slots and its vector. *)
Definition splitTree (L : Learner) (leaf : nat) (d : NodeData) (desc : SplitDescriptor)
    (hl hr : H.t) (t : Tree) : Tree :=
  let '(t2, leftChild) := splitNode leaf (setSplit leaf desc (setNodeData leaf d t)) in
  let rightChild := S leftChild in
  let t3 := setNodeData leftChild
              (setHistogram (smoothedVector hl (smoothingParameter L))
                            (getNodeData t2 leftChild)) t2 in
  let t4 := setNodeData rightChild
              (setHistogram (smoothedVector hr (smoothingParameter L))
                            (getNodeData t3 rightChild)) t3 in
  setNodeData leaf (mkData [] (nodeStatistics d) [] [] [] []) t4.

(** Lines 990-1022: the leaf is split at the best slot. *)
Definition splitLeaf (D : Z) (st : OnlineState) (leaf : nat) (d : NodeData) (best : BestSlot)
    : outcome (OnlineState * OnlineEvent) :=
  let L := learner st in
  _ ← BOOST_ASSERT 990 (0 <=? bestFeatureO best);
  let f := Z.to_nat (bestFeatureO best) in
  let t := Z.to_nat (bestThresholdO best) in
  match nodeFeatures d !! f with
  | None => Undefined
  | Some feature =>
      _ ← BOOST_ASSERT 991 (Z.of_nat feature <? D);
      match nodeThresholds d !! f ≫= (fun ts => ts !! t),
            leftChildStatistics d !! slot L f t,
            rightChildStatistics d !! slot L f t with
      | Some threshold, Some hl, Some hr =>
          let t1 := setSplit leaf (AxisAligned (Z.of_nat feature) (Finite threshold))
                             (setNodeData leaf d (otree st)) in
          let '(t2, leftChild) := splitNode leaf t1 in
          let rightChild := S leftChild in
          vl ← updateLeafNodeHistogram (histogram (getNodeData t2 leftChild)) hl
                 (smoothingParameter L) false;
          let t3 := setNodeData leftChild (setHistogram vl (getNodeData t2 leftChild)) t2 in
          vr ← updateLeafNodeHistogram (histogram (getNodeData t3 rightChild)) hr
                 (smoothingParameter L) false;
          let t4 := setNodeData rightChild (setHistogram vr (getNodeData t3 rightChild)) t3 in
          let t5 := setNodeData leaf (mkData [] (nodeStatistics d) [] [] [] []) t4 in
          Returns (mkOnline t5 L (features st) (globals st), Split leaf leftChild best)
      | _, _, _ => Undefined
      end
  end.

(** Lines 848-938: the leaf of the example is made ready, and the example
    is counted in its statistics. *)
Definition countExample (C D : Z) (st : OnlineState) (x : DataPoint) (label : nat)
    : outcome (OnlineState * NodeData) :=
  let leaf := findLeafNode (otree st) x in
  '(st1, d1) ← prepareLeaf C D st (getNodeData (otree st) leaf);
  let L := learner st1 in
  let '(K, gl) :=
    if useBootstrap L
    then let '(k, e) := poisson (bootstrapLambda L) (g (globals st1)) in
         (k, mkGlobals (rd (globals st1)) e (sampler (globals st1)))
    else (1, globals st1) in
  d2 ← accumulate (Z.to_nat K) L d1 x label;
  Returns (mkOnline (otree st1) L (features st1) gl, d2).

(** Lines 953-978: the scan of the slots. *)
Definition bestSlot (L : Learner) (d : NodeData) : outcome BestSlot :=
  forEach (scanOrder L) (scanSlot L d) (mkBestSlot 0 (-1) (-1)).

(** Lines 940-1022: the leaf is kept or split. *)
Definition decideSplit (D : Z) (st : OnlineState) (leaf : nat) (depth : Z) (d : NodeData)
    : outcome (OnlineState * OnlineEvent) :=
  let L := learner st in
  if stops L (nodeStatistics d) depth
  then keepLeaf st leaf d
  else
    best ← bestSlot L d;
    if Qltb (bestObjectiveO best) (minSplitObjective L)
    then keepLeaf st leaf d
    else splitLeaf D st leaf d best.

(** Lines 846-1022: the visit of one example. *)
Definition OnlineDecisionTreeLearner_visit (C D : Z) (st : OnlineState)
    (x : DataPoint) (label : nat) : outcome (OnlineState * OnlineEvent) :=
  let leaf := findLeafNode (otree st) x in
  let depth := getDepth (getNodeConfig (otree st) leaf) in
  '(st2, d2) ← countExample C D st x label;
  decideSplit D st2 leaf depth d2.

(** A slot is considered by the scan when the masses of both of its
    sides are above [minChildSplitExamples] (line 964). *)
Definition qualifies (L : Learner) (d : NodeData) (ft : nat * nat) : Prop :=
  exists hl hr,
    leftChildStatistics d !! slot L (fst ft) (snd ft) = Some hl /\
    rightChildStatistics d !! slot L (fst ft) (snd ft) = Some hr /\
    minChildSplitExamples L < H.getMass hl /\
    minChildSplitExamples L < H.getMass hr.

(** The gain of a slot of the leaf. *)
Definition slotGain (L : Learner) (d : NodeData) (ft : nat * nat) : Q :=
  match leftChildStatistics d !! slot L (fst ft) (snd ft),
        rightChildStatistics d !! slot L (fst ft) (snd ft) with
  | Some hl, Some hr => gain d hl hr
  | _, _ => 0%Q
  end.

(** [best] is what the scan of the slots [scanned] leaves: no considered
    slot has a larger gain, and either no considered slot has a gain
    above zero and [best] is as it was initialised, or [best] is a
    considered slot with its gain, which is above zero. *)
Definition bestSlotOf (L : Learner) (d : NodeData) (scanned : list (nat * nat))
    (best : BestSlot) : Prop :=
  (forall ft, ft ∈ scanned -> qualifies L d ft ->
              (slotGain L d ft <= bestObjectiveO best)%Q) /\
  ((bestObjectiveO best = 0%Q /\ bestThresholdO best = -1 /\ bestFeatureO best = -1) \/
   (exists f t, (f, t) ∈ scanned /\ qualifies L d (f, t) /\
                bestObjectiveO best = slotGain L d (f, t) /\
                (0 < bestObjectiveO best)%Q /\
                bestThresholdO best = Z.of_nat t /\ bestFeatureO best = Z.of_nat f)).

(** The data of a leaf whose slots have been set up (lines 860-922) for
    [C] classes. *)
Definition leafPrepared (L : Learner) (C D : Z) (d : NodeData) : Prop :=
  0 < C /\ length (nodeStatistics d) = Z.to_nat C /\
  length (nodeFeatures d) = Z.to_nat (numFeatures L) /\
  Forall (fun feature => Z.of_nat feature < D) (nodeFeatures d) /\
  length (nodeThresholds d) = Z.to_nat (numFeatures L) /\
  Forall (fun ts => length ts = Z.to_nat (numThresholds L)) (nodeThresholds d) /\
  length (leftChildStatistics d) = Z.to_nat (numFeatures L * numThresholds L) /\
  length (rightChildStatistics d) = Z.to_nat (numFeatures L * numThresholds L) /\
  Forall (fun h => length h = Z.to_nat C) (leftChildStatistics d) /\
  Forall (fun h => length h = Z.to_nat C) (rightChildStatistics d).

(** The two tables of slots hold [n] histograms of [c] classes each. *)
Definition sameSizes (n c : nat) (s : list H.t * list H.t) : Prop :=
  length (fst s) = n /\ length (snd s) = n /\
  Forall (fun h => length h = c) (fst s) /\ Forall (fun h => length h = c) (snd s).

(** The shape of a tree: its nodes with their depths, splits and
    children, without the data of the nodes. *)
Definition treeStructure (t : Tree) : list NodeConfig := fst <$> t.

(** Lines 844-1023: the examples of the storage, in order. *)
Fixpoint OnlineDecisionTreeLearner_loop (C D : Z) (exs : list (DataPoint * nat))
    (st : OnlineState) : outcome OnlineState :=
  match exs with
  | [] => Returns st
  | (x, label) :: exs' =>
      '(st', _) ← OnlineDecisionTreeLearner_visit C D st x label;
      OnlineDecisionTreeLearner_loop C D exs' st'
  end.

(** Lines 820-1027.  The learner is returned with the tree: [learn] sets
    its [numFeatures] (line 837) and advances its threshold generator. *)
Definition OnlineDecisionTreeLearner_learn (L : Learner) (storage : DataStorage)
    (t : Tree) (gl : Globals) : outcome (Tree * Learner * Globals) :=
  let D := getDimensionality storage in
  let C := getClasscount storage in
  _ ← BOOST_ASSERT 830 ((1 <=? numFeatures L) && (numFeatures L <=? D));
  _ ← BOOST_ASSERT 831 (tg_getSize (thresholdGenerator L) =? D);
  _ ← BOOST_ASSERT 834 (0 <? getNumNodes t);
  let L1 := withNumFeatures L (Z.min (numFeatures L) D) in
  st ← OnlineDecisionTreeLearner_loop C D (examples storage)
         (mkOnline t L1 (seq 0 (Z.to_nat D)) gl);
  Returns (otree st, learner st, globals st).

End Learners.

(** The tree of a call that returned. *)
Definition returnedTree `{Platform} (o : outcome (Tree * Globals)) : option Tree :=
  match o with
  | Returns (t, _) => Some t
  | _ => None
  end.

(** The event of a visit that returned. *)
Definition eventOf `{Platform} (o : outcome (OnlineState * OnlineEvent)) : option OnlineEvent :=
  match o with
  | Returns (_, ev) => Some ev
  | _ => None
  end.

(** ** A platform to run the learners on

    Rational stand-ins for the functions of [Platform], used to evaluate
    the learners on concrete inputs: the entropy of the spec (section 3,
    [-sum count * log2 (count / mass)], with the logarithm rounded down; it
    is exact on the counts 0, 1, 2 and 4 used below), a linear
    congruential engine, a shuffle that inserts every element at a drawn
    position and a threshold generator that delivers a given list.  The
    inner product sums the binary32 products from the first coefficient
    on, in binary32. *)

Module Reference.

Definition log2_term (c : Z) : Z := c * Z.log2 c.

Definition entropy (h : H.t) : Q :=
  inject_Z (log2_term (H.getMass h) - foldr Z.add 0 (map log2_term h)).

Definition log (q : Q) : Q := (2 * (q - 1) / (q + 1))%Q.

Definition sqrt (q : Q) : Q :=
  (inject_Z (Z.sqrt (Qfloor (q * inject_Z (10 ^ 12)))) / inject_Z (10 ^ 6))%Q.

Fixpoint dot_from (acc : float) (a b : DataPoint) : float :=
  match a, b with
  | x :: a', y :: b' => dot_from (fadd binary32 acc (fmul binary32 x y)) a' b'
  | _, _ => acc
  end.

Definition dot (a b : DataPoint) : float := dot_from 0%Q a b.

Definition next (e : Z) : Z := (16807 * e) mod 2147483647.

Definition uniform (lo hi : Z) (e : Z) : Z * Z :=
  (lo + next e mod (hi - lo + 1), next e).

Definition poisson_draw (lambda : Q) (e : Z) : Z * Z :=
  (next e mod (2 * Qceiling lambda + 1), next e).

Fixpoint shuffle_into (e : Z) (l acc : list nat) : list nat :=
  match l with
  | [] => acc
  | x :: l' =>
      let i := Z.to_nat (fst (uniform 0 (Z.of_nat (length acc)) e)) in
      shuffle_into (next e) l' (take i acc ++ x :: drop i acc)
  end.

Definition insertion_shuffle (e : Z) (l : list nat) : list nat := shuffle_into e l [].

Definition twoDistinct (hi : Z) (e : Z) : (Z * Z) * Z :=
  let '(a, e1) := uniform 0 hi e in
  let '(b, e2) := uniform 0 (hi - 1) e1 in
  ((a, if b <? a then b else b + 1), e2).

Definition randomEntry (l : list nat) (e : Z) : nat * Z :=
  let '(i, e') := uniform 0 (Z.of_nat (length l) - 1) e in
  (default 0%nat (l !! Z.to_nat i), e').

(** The thresholds still to deliver, and the size of the generator. *)
Definition generator : Type := Z * list Q.

Definition sample (feature : nat) (tg : generator) : Q * generator :=
  match snd tg with
  | [] => (0%Q, tg)
  | q :: qs => (q, (fst tg, qs))
  end.

Lemma uniform_range lo hi e : lo <= hi -> lo <= fst (uniform lo hi e) <= hi.
Proof.
  intros Hle. unfold uniform. simpl.
  pose proof (Z.mod_pos_bound (next e) (hi - lo + 1)). lia.
Qed.

Lemma twoDistinct_range hi e :
  1 <= hi ->
  0 <= fst (fst (twoDistinct hi e)) <= hi /\ 0 <= snd (fst (twoDistinct hi e)) <= hi.
Proof.
  intros Hhi. unfold twoDistinct, uniform. simpl.
  pose proof (Z.mod_pos_bound (next e) (hi - 0 + 1)).
  pose proof (Z.mod_pos_bound (next (next e)) (hi - 1 - 0 + 1)).
  destruct (_ <? _); lia.
Qed.

Lemma shuffle_into_perm e l acc : shuffle_into e l acc ≡ₚ l ++ acc.
Proof.
  revert e acc. induction l as [|x l IH]; intros e acc; simpl; [done|].
  rewrite IH. rewrite <- !Permutation_middle. by rewrite take_drop.
Qed.

Lemma insertion_shuffle_perm e l : insertion_shuffle e l ≡ₚ l.
Proof. unfold insertion_shuffle. rewrite shuffle_into_perm. by rewrite app_nil_r. Qed.

#[global] Instance platform : Platform := {|
  flog := log;
  fsqrt := sqrt;
  fdot := dot;
  fsquaredNorm := fun x => dot x x;
  getEntropy := entropy;
  Engine := Z;
  seed_engine := fun z => z;
  uniform_int := uniform;
  uniform_int_range := uniform_range;
  poisson := poisson_draw;
  shuffle := insertion_shuffle;
  shuffle_perm := insertion_shuffle_perm;
  sampleTwo := twoDistinct;
  sampleTwo_range := twoDistinct_range;
  getRandomEntry := randomEntry;
  ThresholdGenerator := generator;
  tg_getSize := fst;
  tg_sample := sample
|}.

(** A learner with the given knobs and no smoothing, bootstrap off. *)
Definition config (numFeatures maxDepth minSplit minChild : Z) : Learner :=
  mkLearner numFeatures false 0 maxDepth minSplit minChild 0 0 0 0 (0, []).

(** The data set of section 8 of the spec: one feature, two classes. *)
Definition fourPoints : DataStorage :=
  mkStorage 1 2 [([0%Q], 0%nat); ([1%Q], 0%nat);
                 ([inject_Z 10], 1%nat); ([inject_Z 11], 1%nat)].

Definition globals0 : Globals := mkGlobals (mkDevice (fun k => Z.of_nat k + 1) 0) 1 1.

(** The state of a batch learner before its first turn on the four
    points, and after a turn that makes the root a leaf (maximal depth 0). *)
Definition rootState : State :=
  initialState fourPoints 1 (mkDevice (fun k => Z.of_nat k + 1) 0).


(** The state after the first turn of the axis-aligned learner on the
    four points (maximal depth 5). *)
Definition splitState : State :=
  match DecisionTreeLearner_turn (config 1 5 1 1) fourPoints 1 2 rootState with
  | Returns (s, _) => s
  | _ => rootState
  end.

(** An online learner with one feature and one threshold for each leaf,
    taken from [thresholds], which splits at the gain [minObjective]. *)
Definition onlineConfig (minObjective : Q) (thresholds : list Q) : Learner :=
  mkLearner 1 false 0 5 1 0 0 1 minObjective 0 (1, thresholds).

(** Two points of two classes, on the two sides of 5. *)
Definition twoPoints : DataStorage :=
  mkStorage 1 2 [([0%Q], 0%nat); ([inject_Z 10], 1%nat)].

(** The online learner before its first example, with a root only, and
    after it has visited the first of the two points. *)
Definition onlineState0 (minObjective : Q) : OnlineState :=
  mkOnline (fst (addNode [])) (onlineConfig minObjective [inject_Z 5]) [0%nat] globals0.

Definition onlineState1 (minObjective : Q) : OnlineState :=
  match OnlineDecisionTreeLearner_visit 2 1 (onlineState0 minObjective) [0%Q] 0 with
  | Returns (st, _) => st
  | _ => onlineState0 minObjective
  end.


(** The online learner after the second of the two points. *)
Definition onlineState2 (minObjective : Q) : OnlineState :=
  match OnlineDecisionTreeLearner_visit 2 1 (onlineState1 minObjective) [inject_Z 10] 1 with
  | Returns (st, _) => st
  | _ => onlineState1 minObjective
  end.

(** What the axis-aligned learner returns on the four points. *)
Definition learned : Tree * Globals :=
  match DecisionTreeLearner_learn (config 1 5 1 1) fourPoints globals0 10 with
  | Returns r => r
  | _ => ([], globals0)
  end.

(** Two points of one class. *)
Definition oneClass : DataStorage :=
  mkStorage 1 2 [([0%Q], 0%nat); ([1%Q], 0%nat)].

(** Four points with two features; each feature separates the classes. *)
Definition twoFeatures : DataStorage :=
  mkStorage 2 2 [([0%Q; 0%Q], 0%nat); ([1%Q; inject_Z 2], 0%nat);
                 ([inject_Z 10; inject_Z 20], 1%nat); ([inject_Z 11; inject_Z 22], 1%nat)].

(** The file-static generators after the axis-aligned learner has run on
    [twoFeatures]. *)
Definition globalsAfter : Globals :=
  match DecisionTreeLearner_learn (config 1 5 1 1) twoFeatures globals0 10 with
  | Returns (_, gl) => gl
  | _ => globals0
  end.

(** Generators that have delivered one value and will deliver what
    [globals0] delivers. *)
Definition globals1 : Globals := mkGlobals (mkDevice (fun k => Z.of_nat k) 1) 1 1.

(** What the online learner returns on the two points, from a tree with
    a root only. *)
Definition onlineLearned : Tree * Learner * Globals :=
  match OnlineDecisionTreeLearner_learn (onlineConfig 0 [inject_Z 5]) twoPoints
          (fst (addNode [])) globals0 with
  | Returns r => r
  | _ => ([], onlineConfig 0 [inject_Z 5], globals0)
  end.

(** The state in which the loop of the axis-aligned learner ends on the
    four points. *)
Definition finalState : State :=
  match DecisionTreeLearner_loop 10 (config 1 5 1 1) fourPoints 1 2 rootState with
  | Returns s => s
  | _ => rootState
  end.


(** An online learner whose one threshold, 100, lies above the two
    points: after the first of the two points, and what it has counted at
    the root when it visits the second. *)
Definition onlineFar1 : OnlineState :=
  match OnlineDecisionTreeLearner_visit 2 1
          (mkOnline (fst (addNode [])) (onlineConfig 0 [inject_Z 100]) [0%nat] globals0)
          [0%Q] 0 with
  | Returns (st, _) => st
  | _ => mkOnline (fst (addNode [])) (onlineConfig 0 [inject_Z 100]) [0%nat] globals0
  end.

Definition onlineFarCounted : OnlineState * NodeData :=
  match countExample 2 1 onlineFar1 [inject_Z 10] 1 with
  | Returns c => c
  | _ => (onlineFar1, freshData)
  end.

(** Two points of two classes whose values, [-8796095 / 2^43] and
    [-8796094 / 2^43] ([-0x1.0c6f7ep-20] and [-0x1.0c6f7cp-20]), are
    neighbours among the binary32 values, and two more, [-8796094 / 2^43]
    and [-8796093 / 2^43]; the test of line 206 skips neither pair.  Two
    points whose values, [2^127] and [1.5 * 2^127], have a sum above the
    largest binary32 value.  The states of the axis-aligned learner before
    its first turn on them. *)
Definition closePoints : DataStorage :=
  mkStorage 1 2 [([(-8796095 # 8796093022208)%Q], 0%nat);
                 ([(-8796094 # 8796093022208)%Q], 1%nat)].

Definition closerPoints : DataStorage :=
  mkStorage 1 2 [([(-8796094 # 8796093022208)%Q], 0%nat);
                 ([(-8796093 # 8796093022208)%Q], 1%nat)].

Definition hugePoints : DataStorage :=
  mkStorage 1 2 [([inject_Z (2 ^ 127)], 0%nat); ([inject_Z (3 * 2 ^ 126)], 1%nat)].

Definition closeState : State :=
  initialState closePoints 1 (mkDevice (fun k => Z.of_nat k + 1) 0).

Definition closerState : State :=
  initialState closerPoints 1 (mkDevice (fun k => Z.of_nat k + 1) 0).

Definition hugeState : State :=
  initialState hugePoints 1 (mkDevice (fun k => Z.of_nat k + 1) 0).

(** The state after the first turn on the two close points. *)
Definition closeSplit : State :=
  match DecisionTreeLearner_turn (config 1 5 1 1) closePoints 1 2 closeState with
  | Returns (s, _) => s
  | _ => closeState
  end.

(** Two points of two classes, [16339879 / 2^24] and [16339905 / 2^24],
    whose squares and product round in binary32, and the states of the
    dot-product learner before and after its first turn on them. *)
Definition nearPoints : DataStorage :=
  mkStorage 1 2 [([(16339879 # 16777216)%Q], 0%nat);
                 ([(16339905 # 16777216)%Q], 1%nat)].

Definition nearState : State :=
  initialState nearPoints 2 (mkDevice (fun k => Z.of_nat k + 1) 0).

Definition nearSplit : State :=
  match DotProductDecisionTreeLearner_turn (config 1 5 1 1) nearPoints 2 1 nearState with
  | Returns (s, _) => s
  | _ => nearState
  end.

End Reference.

(** ** Predicates of the properties *)

(** [x == y] on floats. *)
Definition feq (x y : float) : Prop :=
  match x, y with
  | Finite a, Finite b => (a == b)%Q
  | Infinite a, Infinite b => a = b
  | _, _ => False
  end.

(** The inner product, the squared norm and the squared Euclidean
    distance of points, without rounding. *)
Fixpoint inner (a b : DataPoint) : Q :=
  match a, b with
  | x :: a', y :: b' => (x * y + inner a' b')%Q
  | _, _ => 0%Q
  end.

Definition squaredNorm (x : DataPoint) : Q := inner x x.

Definition squaredDistance (x y : DataPoint) : Q :=
  squaredNorm (zip_with Qminus x y).

(** The threshold of line 690 for the anchors [x1] and [x2]. *)
Definition bisectorThreshold `{Platform} (x1 x2 : DataPoint) : float :=
  fmul binary32 (1 # 2)%Q (fsub binary32 (fsquaredNorm x2) (fsquaredNorm x1)).

(** No operation of lines 690 and 701-704 rounds on the point [x] and the
    anchors [x1] and [x2]: the discriminant and the threshold are the
    values of their expressions. *)
Definition bisectorExact `{Platform} (x x1 x2 : DataPoint) : Prop :=
  feq (fsub binary32 (fdot x x2) (fdot x x1)) (Finite (inner x x2 - inner x x1)) /\
  feq (bisectorThreshold x1 x2) (Finite ((1 # 2) * (squaredNorm x2 - squaredNorm x1))).

(** The value of an example that a split descriptor compares, and the
    threshold it compares it with. *)
Definition decisionValue `{Platform} (s : SplitDescriptor) (x : DataPoint) : float :=
  match s with
  | NoSplit => NotANumber
  | AxisAligned f _ => coeff x (Z.to_nat f)
  | SparseProjection p => fdot p x
  | DotProduct p1 p2 _ => fsub binary32 (fdot x p2) (fdot x p1)
  end.

Definition thresholdOf (s : SplitDescriptor) : float :=
  match s with
  | NoSplit => NotANumber
  | AxisAligned _ t => t
  | SparseProjection _ => 0%Q
  | DotProduct _ _ t => t
  end.

(** Lines 806-815: [after] is [before] with one more example of class
    [label] on one side of slot [k]. *)
Definition routed (label : nat) (isLeft : bool) (before after : list H.t * list H.t)
    (k : nat) : Prop :=
  if isLeft
  then fst after !! k = H.addOne label <$> fst before !! k /\
       snd after !! k = snd before !! k
  else fst after !! k = fst before !! k /\
       snd after !! k = H.addOne label <$> snd before !! k.

(** The statistics of the two sides of every slot of a leaf add up, class
    by class, to the statistics of the leaf. *)
Definition slotsAddUp `{Platform} (L : Learner) (d : NodeData) : Prop :=
  forall f t hl hr,
    (f < Z.to_nat (numFeatures L))%nat -> (t < Z.to_nat (numThresholds L))%nat ->
    leftChildStatistics d !! slot L f t = Some hl ->
    rightChildStatistics d !! slot L f t = Some hr ->
    forall c, H.at_ hl c + H.at_ hr c = H.at_ (nodeStatistics d) c.

(** The coefficients that lines 454-457 leave in a projection: zero, one
    or minus one. *)
Definition isSign (c : Q) : Prop := c = 0%Q \/ c = inject_Z 1 \/ c = inject_Z (-1).

(** The number of coefficients of a vector that are not zero. *)
Definition nonzeros (v : DataPoint) : nat :=
  length (filter (fun c => negb (Qeq_bool c 0)) v).

(** *** Well-formed trees and runs of the batch learners *)

(** [j] is one of the two children of [k]. *)
Definition isChild (t : Tree) (k j : nat) : Prop :=
  exists l, leftChild (getNodeConfig t k) = Some l /\ (j = l \/ j = S l).

(** The tree has a root of depth 0; the two children of a node are a
    pair of nodes next to each other, after the node in the table and one
    level below it; every node but the root is a child of exactly one
    node. *)
Definition wellFormed (t : Tree) : Prop :=
  (0 < length t)%nat /\ depth (getNodeConfig t 0) = 0 /\
  (forall k l, (k < length t)%nat -> leftChild (getNodeConfig t k) = Some l ->
     (k < l)%nat /\ (S l < length t)%nat /\
     depth (getNodeConfig t l) = depth (getNodeConfig t k) + 1 /\
     depth (getNodeConfig t (S l)) = depth (getNodeConfig t k) + 1) /\
  (forall j, (0 < j < length t)%nat ->
     exists k, (k < length t)%nat /\ isChild t k j /\
               forall k', (k' < length t)%nat -> isChild t k' j -> k' = k).

(** A node with children has a split descriptor that is [good] and no
    leaf vector; a node without children has no descriptor and, unless it
    is still [pending], a leaf vector with an entry for each of the [C]
    classes. *)
Definition leavesAndSplits (good : SplitDescriptor -> Prop) (C : Z) (pending : list nat)
    (t : Tree) : Prop :=
  forall k, (k < length t)%nat ->
    match leftChild (getNodeConfig t k) with
    | Some _ => good (split (getNodeConfig t k)) /\ histogram (getNodeData t k) = []
    | None => split (getNodeConfig t k) = NoSplit /\
              (k ∉ pending -> length (histogram (getNodeData t k)) = Z.to_nat C)
    end.

(** What a turn of a batch learner does to the state: the node on top of
    the stack is popped and its array released; the node is made a leaf,
    or it is split by a [good] descriptor and its two children are pushed
    with their arrays. *)
Definition turnShape `{Platform} (good : SplitDescriptor -> Prop) (storage : DataStorage)
    (C : Z) (L : Learner) (s s' : State) (ev : Event) : Prop :=
  exists node stack l N,
    splitStack s = node :: stack /\ exampleList s node = Returns (l, N) /\
    sampledFeatures s' ≡ₚ sampledFeatures s /\
    match ev with
    | Finalized node' hist =>
        node' = node /\ hist = nodeHistogram storage C l /\
        (exists line,
           finalizeLeaf line (tree s) node hist (smoothingParameter L) (useBootstrap L)
           = Returns (tree s')) /\
        splitStack s' = stack /\
        trainingExamples s' = <[node := None]> (trainingExamples s) /\
        trainingExamplesSizes s' = trainingExamplesSizes s
    | Committed node' N' parent leftList rightList leftSize rightSize _ _ =>
        node' = node /\ N' = N /\
        stops L (nodeHistogram storage C l) (getDepth (getNodeConfig (tree s) node)) = false /\
        (exists desc, good desc /\
           tree s' = fst (splitNode node (setSplit node desc (tree s)))) /\
        splitStack s' = S (length (tree s)) :: length (tree s) :: stack /\
        trainingExamples s'
        = <[node := None]> (trainingExamples s ++ [Some leftList; Some rightList]) /\
        trainingExamplesSizes s' = trainingExamplesSizes s ++ [leftSize; rightSize]
    end.

(** The state of a batch learner between two turns: the tree is
    well-formed; its nodes are leaves and splits as in [leavesAndSplits];
    the nodes on the stack are different nodes of the tree without
    children, and they are the nodes that have an array. *)
Definition runInvariant `{Platform} (good : SplitDescriptor -> Prop) (C : Z) (s : State)
    : Prop :=
  wellFormed (tree s) /\ leavesAndSplits good C (splitStack s) (tree s) /\
  length (trainingExamples s) = length (tree s) /\
  length (trainingExamplesSizes s) = length (tree s) /\
  NoDup (splitStack s) /\
  (forall node, node ∈ splitStack s <->
                exists arr, trainingExamples s !! node = Some (Some arr)) /\
  (forall node, node ∈ splitStack s -> leftChild (getNodeConfig (tree s) node) = None).

(** The size recorded for an array is its length. *)
Definition sizesRecorded `{Platform} (s : State) : Prop :=
  forall node arr, trainingExamples s !! node = Some (Some arr) ->
                   trainingExamplesSizes s !! node = Some (Z.of_nat (length arr)).

(** The arrays of the children of a committed split have the sizes
    recorded for them, which add up to the size of the node. *)
Definition sizesAgree (ev : Event) : Prop :=
  match ev with
  | Finalized _ _ => True
  | Committed _ N _ leftList rightList leftSize rightSize _ _ =>
      Z.of_nat (length leftList) = leftSize /\ Z.of_nat (length rightList) = rightSize /\
      leftSize + rightSize = N
  end.

(** Both children of a committed split have an example. *)
Definition childrenNonEmpty (ev : Event) : Prop :=
  match ev with
  | Finalized _ _ => True
  | Committed _ _ _ _ _ leftSize rightSize _ _ => 1 <= leftSize /\ 1 <= rightSize
  end.

(** The turns a node of [N] examples can take, itself and the nodes below
    it, when every child has an example: [2N - 1], and one turn when it has
    no example. *)
Definition weight (N : Z) : Z := 2 * Z.max N 1 - 1.

Definition stackWeight `{Platform} (s : State) : Z :=
  foldr (fun node w => weight (default 0 (trainingExamplesSizes s !! node)) + w) 0
        (splitStack s).

(** The kinds of split the three batch learners commit. *)
Definition isAxisAligned (D : Z) (desc : SplitDescriptor) : Prop :=
  exists feature threshold, desc = AxisAligned feature threshold /\ 0 <= feature < D.

Definition isSparseProjection (desc : SplitDescriptor) : Prop :=
  exists projection, desc = SparseProjection projection.

Definition isDotProduct (desc : SplitDescriptor) : Prop :=
  exists x1 x2 threshold, desc = DotProduct x1 x2 threshold.

(** The nodes of the tree and the nodes still to come, when every child
    has an example. *)
Definition potential `{Platform} (s : State) : Z :=
  Z.of_nat (length (tree s)) + stackWeight s - Z.of_nat (length (splitStack s)).

(** The loop of the three batch learners (lines 126-298, 379-539 and
    615-778), over the turn of one of them. *)
Fixpoint loopWith `{Platform} (turn : State -> outcome (State * Event)) (fuel : nat)
    (s : State) : outcome State :=
  match splitStack s with
  | [] => Returns s
  | _ :: _ =>
      match fuel with
      | O => OutOfFuel
      | S fuel' => '(s', _) ← turn s; loopWith turn fuel' s'
      end
  end.

(** The storage a batch learner works on (lines 58-77, 326-333 and
    567-574): the data, or a bootstrap sample of it. *)
Definition DecisionTreeLearner_storage `{Platform} (L : Learner) (dataStorage : DataStorage)
    (gl : Globals) : DataStorage :=
  if useBootstrap L
  then fst (fst (bootstrap (if numBootstrapExamples L <? 0 then getSize dataStorage
                            else numBootstrapExamples L) dataStorage gl))
  else dataStorage.

Definition candidateLearner_storage `{Platform} (L : Learner) (dataStorage : DataStorage)
    (gl : Globals) : DataStorage :=
  if useBootstrap L
  then fst (fst (bootstrap (numBootstrapExamples L) dataStorage gl))
  else dataStorage.

(** The tree [t] is the tree [t0], grown: the nodes of [t0] are nodes of
    [t], at their depths, and the nodes of [t0] that have children keep
    their split and their children. *)
Definition grownFrom (t0 t : Tree) : Prop :=
  (length t0 <= length t)%nat /\
  forall k, (k < length t0)%nat ->
    depth (getNodeConfig t k) = depth (getNodeConfig t0 k) /\
    (leftChild (getNodeConfig t0 k) <> None -> getNodeConfig t k = getNodeConfig t0 k).

(** The arrays of the children of a committed split are what the
    partition loop leaves when it sends an example to the left as the
    split descriptor written to the node does. *)
Definition partitionedBy `{Platform} (storage : DataStorage) (s' : State) (ev : Event)
    : Prop :=
  match ev with
  | Finalized _ _ => True
  | Committed node _ parent leftList rightList leftSize rightSize leftCounter rightCounter =>
      partitionExamples
        (fun n => goesLeft (split (getNodeConfig (tree s') node)) (getDataPoint storage n))
        parent (newArray leftSize) (newArray rightSize) leftSize rightSize
      = Returns (leftList, rightList, leftCounter, rightCounter)
  end.

(** The examples of every node that has an array are the examples that
    the tree routes to the node, and the vector of every finished leaf is
    the smoothed histogram of the examples routed to it. *)
Definition routedInvariant `{Platform} (storage : DataStorage) (C : Z) (smoothing : Q)
    (s : State) : Prop :=
  (forall node arr, trainingExamples s !! node = Some (Some arr) ->
                    arr ≡ₚ routedTo (tree s) storage node) /\
  (forall k, (k < length (tree s))%nat -> leftChild (getNodeConfig (tree s) k) = None ->
             k ∉ splitStack s ->
             histogram (getNodeData (tree s) k)
             = smoothedVector (nodeHistogram storage C (routedTo (tree s) storage k))
                              smoothing).

(** The nodes of [t] with children had children in [t0] already, or
    carry a [good] split. *)
Definition splitsOf (good : SplitDescriptor -> Prop) (t0 t : Tree) : Prop :=
  forall k, (k < length t)%nat -> leftChild (getNodeConfig t k) <> None ->
    ((k < length t0)%nat /\ leftChild (getNodeConfig t0 k) <> None) \/
    good (split (getNodeConfig t k)).


(** * Properties *)

Section Arrays.

Context `{P : Platform}.

(** ** Comparisons of rationals *)

Lemma Qltb_lt a b : Qltb a b = true <-> (a < b)%Q.
Proof.
  unfold Qltb. rewrite negb_true_iff. split.
  - intros H. apply Qnot_le_lt. intros Hle. apply Qle_bool_iff in Hle. congruence.
  - intros H. destruct (Qle_bool b a) eqn:E; [|done].
    apply Qle_bool_iff in E. exfalso. eapply Qlt_not_le; eauto.
Qed.

Lemma Qltb_ge a b : Qltb a b = false <-> (b <= a)%Q.
Proof.
  unfold Qltb. rewrite negb_false_iff. apply Qle_bool_iff.
Qed.


(** ** Arrays written from their end *)

Lemma storeBack_ok arr counter n :
  0 < counter <= Z.of_nat (length arr) ->
  storeBack arr counter n = Returns (<[Z.to_nat (counter - 1) := n]> arr, counter - 1).
Proof.
  intros H. unfold storeBack.
  destruct (0 <=? counter - 1) eqn:E1; [|lia].
  destruct (counter - 1 <? Z.of_nat (length arr)) eqn:E2; [|lia]. done.
Qed.

Lemma storeBack_inv arr counter n arr' counter' :
  storeBack arr counter n = Returns (arr', counter') ->
  0 < counter <= Z.of_nat (length arr) /\
  counter' = counter - 1 /\ arr' = <[Z.to_nat (counter - 1) := n]> arr.
Proof.
  unfold storeBack. intros H.
  destruct (0 <=? counter - 1) eqn:E1; [|done].
  destruct (counter - 1 <? Z.of_nat (length arr)) eqn:E2; [|done].
  simpl in H. inversion H; subst. repeat split; lia.
Qed.

Lemma drop_written (arr : list nat) counter (n : nat) :
  0 < counter <= Z.of_nat (length arr) ->
  drop (Z.to_nat (counter - 1)) (<[Z.to_nat (counter - 1) := n]> arr)
  = n :: drop (Z.to_nat counter) arr.
Proof.
  intros H. rewrite drop_insert_ge by lia. rewrite Nat.sub_diag.
  destruct (arr !! Z.to_nat (counter - 1)) as [x|] eqn:E.
  - rewrite (drop_S _ _ _ E). simpl. do 2 f_equal. lia.
  - apply lookup_ge_None in E. lia.
Qed.

(** What the partition loop leaves: the counters went down by the number
    of examples on each side, and the cells below the old counters hold
    those examples, the last one first. *)
Lemma partitionExamples_inv (p : nat -> bool) l : forall LA RA lc rc LA' RA' lc' rc',
  partitionExamples p l LA RA lc rc = Returns (LA', RA', lc', rc') ->
  lc' = lc - Z.of_nat (length (filter (fun n => p n) l)) /\
  rc' = rc - Z.of_nat (length (filter (fun n => negb (p n)) l)) /\
  (0 <= lc' \/ lc' = lc) /\ (0 <= rc' \/ rc' = rc) /\
  LA' = take (Z.to_nat lc') LA ++ reverse (filter (fun n => p n) l) ++ drop (Z.to_nat lc) LA /\
  RA' = take (Z.to_nat rc') RA ++ reverse (filter (fun n => negb (p n)) l) ++ drop (Z.to_nat rc) RA.
Proof.
  induction l as [|n l IH]; intros LA RA lc rc LA' RA' lc' rc' Hrun; simpl in Hrun.
  - inversion Hrun; subst. simpl. rewrite !take_drop. repeat split; try lia; auto.
  - destruct (p n) eqn:Hp.
    + destruct (storeBack LA lc n) as [[LA1 lc1]| | | |] eqn:Hs; try done. simpl in Hrun.
      apply storeBack_inv in Hs as (Hlc & -> & ->).
      apply IH in Hrun as (-> & -> & H1 & H2 & -> & ->).
      rewrite filter_cons_True by (by rewrite Hp).
      rewrite filter_cons_False by (rewrite Hp; simpl; auto).
      simpl length. repeat split; try lia; auto.
      rewrite reverse_cons, <- !app_assoc. simpl.
      rewrite take_insert_ge by lia. rewrite drop_written by lia.
      done.
    + destruct (storeBack RA rc n) as [[RA1 rc1]| | | |] eqn:Hs; try done. simpl in Hrun.
      apply storeBack_inv in Hs as (Hrc & -> & ->).
      apply IH in Hrun as (-> & -> & H1 & H2 & -> & ->).
      rewrite filter_cons_False by (rewrite Hp; simpl; auto).
      rewrite filter_cons_True by (by rewrite Hp).
      simpl length. repeat split; try lia; auto.
      rewrite reverse_cons, <- !app_assoc. simpl.
      rewrite take_insert_ge by lia. rewrite drop_written by lia.
      done.
Qed.

(** The loop runs to its end when every array has room for its side. *)
Lemma partitionExamples_runs (p : nat -> bool) l : forall LA RA lc rc,
  Z.of_nat (length (filter (fun n => p n) l)) <= lc <= Z.of_nat (length LA) ->
  Z.of_nat (length (filter (fun n => negb (p n)) l)) <= rc <= Z.of_nat (length RA) ->
  exists LA' RA' lc' rc',
    partitionExamples p l LA RA lc rc = Returns (LA', RA', lc', rc').
Proof.
  induction l as [|n l IH]; intros LA RA lc rc Hl Hr; simpl.
  - eauto.
  - destruct (p n) eqn:Hp.
    + rewrite filter_cons_True in Hl by (by rewrite Hp).
      rewrite filter_cons_False in Hr by (rewrite Hp; simpl; auto).
      simpl length in Hl.
      rewrite storeBack_ok by lia. simpl.
      apply IH; rewrite ?length_insert; lia.
    + rewrite filter_cons_False in Hl by (rewrite Hp; simpl; auto).
      rewrite filter_cons_True in Hr by (by rewrite Hp).
      simpl length in Hr.
      rewrite storeBack_ok by lia. simpl.
      apply IH; rewrite ?length_insert; lia.
Qed.

End Arrays.

(** ** Loops whose body may fail *)

Section Loops.

Context {A S : Type}.

Lemma forEach_app (l k : list A) (body : A -> S -> outcome S) (s : S) :
  forEach (l ++ k) body s = (s' ← forEach l body s; forEach k body s').
Proof.
  revert s. induction l as [|a l IH]; intros s; simpl; [done|].
  destruct (body a s); simpl; auto.
Qed.

(** A property kept by every turn of the body is kept by the loop. *)
Lemma forEach_invariant (Q : S -> Prop) (l : list A) (body : A -> S -> outcome S) :
  (forall a s s', a ∈ l -> Q s -> body a s = Returns s' -> Q s') ->
  forall s s', Q s -> forEach l body s = Returns s' -> Q s'.
Proof.
  induction l as [|a l IH]; intros Hbody s s' HQ Hrun; simpl in Hrun.
  - by inversion Hrun; subst.
  - destruct (body a s) as [s1| | | |] eqn:E; try done. simpl in Hrun.
    eapply IH; [| |exact Hrun].
    + intros a' t t' Ha'. apply Hbody. by right.
    + eapply Hbody; [|exact HQ|exact E]. by left.
Qed.

End Loops.

(** ** The side of the threshold itself *)

Section Routing.

Context `{P : Platform}.


(** An example that is not on the left of the split is written to the
    right array and not to the left one. *)
(** What a partition that brought both counters to zero wrote. *)
Lemma partitionExamples_lists (p : nat -> bool) l leftSize rightSize leftList rightList :
  partitionExamples p l (newArray leftSize) (newArray rightSize) leftSize rightSize
  = Returns (leftList, rightList, 0, 0) ->
  leftList = reverse (filter (fun n => p n) l) /\
  rightList = reverse (filter (fun n => negb (p n)) l).
Proof.
  intros Hrun.
  apply partitionExamples_inv in Hrun as (E1 & E2 & _ & _ & -> & ->).
  cbn [Z.to_nat take app].
  rewrite !drop_ge by (unfold newArray; rewrite length_replicate; lia).
  by rewrite !app_nil_r.
Qed.


(** *** The statistics of the online learner's slots *)

Lemma addOneAt_inv statistics index label statistics' :
  addOneAt statistics index label = Returns statistics' ->
  exists h, statistics !! index = Some h /\
            statistics' = <[index := H.addOne label h]> statistics.
Proof.
  unfold addOneAt. destruct (statistics !! index) as [h|] eqn:E; [|done].
  intros Hr. inversion Hr; subst. eauto.
Qed.

Lemma routeExample_other L features ts x label f t st st' k :
  routeExample L features ts x label f t st = Returns st' ->
  slot L f t <> k ->
  fst st' !! k = fst st !! k /\ snd st' !! k = snd st !! k.
Proof.
  unfold routeExample. intros Hr Hk.
  destruct (features !! f) as [feature|]; [|done].
  destruct (ts !! t) as [threshold|]; [|done].
  destruct (Qltb (coeff x feature) threshold).
  - destruct (addOneAt (fst st) (slot L f t) label) as [a| | | |] eqn:E; try done.
    simpl in Hr. inversion Hr; subst. simpl.
    apply addOneAt_inv in E as (h & _ & ->).
    by rewrite list_lookup_insert_ne.
  - destruct (addOneAt (snd st) (slot L f t) label) as [a| | | |] eqn:E; try done.
    simpl in Hr. inversion Hr; subst. simpl.
    apply addOneAt_inv in E as (h & _ & ->).
    by rewrite list_lookup_insert_ne.
Qed.


(** Two turns of the inner loops write different slots. *)
Lemma slot_inj L f t f' t' :
  (t < Z.to_nat (numThresholds L))%nat -> (t' < Z.to_nat (numThresholds L))%nat ->
  slot L f t = slot L f' t' -> f = f' /\ t = t'.
Proof.
  unfold slot. intros Ht Ht' E.
  assert (f = f') by nia. subst. split; [done|lia].
Qed.

End Routing.

Section OnlineRouting.

Context `{P : Platform}.

(** Turns of the inner loop for other slots leave slot [k] as it is. *)
Lemma routeExample_frame L features ts x label f (l : list nat) k st st' :
  (forall t, t ∈ l -> slot L f t <> k) ->
  forEach l (routeExample L features ts x label f) st = Returns st' ->
  fst st' !! k = fst st !! k /\ snd st' !! k = snd st !! k.
Proof.
  intros Hk Hrun.
  apply (forEach_invariant
           (fun s => fst s !! k = fst st !! k /\ snd s !! k = snd st !! k)
           l (routeExample L features ts x label f)) with (s := st); auto.
  intros t s s' Ht [H1 H2] Hbody.
  apply routeExample_other with (k := k) in Hbody as [E1 E2]; [|by apply Hk].
  by rewrite E1, E2.
Qed.


End OnlineRouting.

(** ** Histograms *)

Section Histograms.

Lemma getMass_alter (f : Z -> Z) (d : Z) (c : nat) (h : H.t) :
  (forall z, f z = z + d) -> (c < length h)%nat ->
  H.getMass (alter f c h) = H.getMass h + d.
Proof.
  intros Hf. revert c. unfold H.getMass.
  change (alter f) with (list_alter f).
  induction h as [|z h IH]; intros c Hc; simpl in *; [lia|].
  destruct c as [|c]; simpl.
  - rewrite Hf. lia.
  - rewrite IH by lia. lia.
Qed.

Lemma getMass_addOne c h :
  (c < length h)%nat -> H.getMass (H.addOne c h) = H.getMass h + 1.
Proof. intros. apply getMass_alter; [intros; lia|done]. Qed.

Lemma getMass_subOne c h :
  (c < length h)%nat -> H.getMass (H.subOne c h) = H.getMass h - 1.
Proof. intros. apply getMass_alter; [intros; lia|done]. Qed.

Lemma length_addOne c h : length (H.addOne c h) = length h.
Proof. apply length_alter. Qed.

Lemma length_subOne c h : length (H.subOne c h) = length h.
Proof. apply length_alter. Qed.

Lemma length_create C : length (H.create C) = Z.to_nat C.
Proof. apply length_replicate. Qed.

Lemma getMass_create C : H.getMass (H.create C) = 0.
Proof.
  unfold H.create, H.getMass. induction (Z.to_nat C); simpl; lia.
Qed.

Lemma isPure_create C : H.isPure (H.create C) = true.
Proof.
  unfold H.isPure, H.create.
  replace (filter (fun c : Z => c <> 0) (replicate (Z.to_nat C) 0 : list Z)) with (@nil Z);
    [done|].
  induction (Z.to_nat C) as [|k IH]; simpl; [done|].
  rewrite filter_cons_False by auto. done.
Qed.

Lemma length_nodeHistogram storage C l :
  length (nodeHistogram storage C l) = Z.to_nat C.
Proof.
  unfold nodeHistogram.
  assert (forall h, length (foldl (fun h n => H.addOne (getClassLabel storage n) h) h l)
                    = length h) as ->.
  { induction l as [|n l IH]; intros h; simpl; [done|].
    by rewrite IH, length_addOne. }
  apply length_create.
Qed.

(** Every example of a node is counted once when the labels are classes
    of the histogram. *)
Lemma getMass_nodeHistogram storage C l :
  Forall (fun n => (getClassLabel storage n < Z.to_nat C)%nat) l ->
  H.getMass (nodeHistogram storage C l) = Z.of_nat (length l).
Proof.
  unfold nodeHistogram. intros Hl.
  assert (forall h, length h = Z.to_nat C ->
            H.getMass (foldl (fun h n => H.addOne (getClassLabel storage n) h) h l)
            = H.getMass h + Z.of_nat (length l)) as ->.
  { induction Hl as [|n l Hn Hl IH]; intros h Hh; simpl; [lia|].
    rewrite IH by (by rewrite length_addOne).
    rewrite getMass_addOne by lia. lia. }
  - rewrite getMass_create. lia.
  - apply length_create.
Qed.

End Histograms.

(** ** Leaves *)

Section Leaves.

Context `{P : Platform}.

Lemma fill_seq {A : Type} (f : nat -> A) (v : list A) (k : nat) :
  (k <= length v)%nat ->
  foldl (fun v c => <[c := f c]> v) v (seq 0 k) = map f (seq 0 k) ++ drop k v.
Proof.
  induction k as [|k IH]; intros Hk; [done|].
  rewrite seq_S, foldl_snoc, map_app, IH by lia. simpl.
  rewrite insert_app_r_alt by (rewrite length_map, length_seq; lia).
  rewrite length_map, length_seq, Nat.sub_diag, <- app_assoc. f_equal.
  destruct (v !! k) as [x|] eqn:E.
  - rewrite (drop_S _ _ _ E). done.
  - apply lookup_ge_None in E. lia.
Qed.

(** [updateLeafNodeHistogram]: without bootstrap the vector receives the
    smoothed log-probability of every class; with bootstrap it is only
    resized. *)
Lemma updateLeafNodeHistogram_inv leafNodeHistogram hist smoothing boot v :
  updateLeafNodeHistogram leafNodeHistogram hist smoothing boot = Returns v ->
  (0 < length hist)%nat /\
  v = if boot then resize (length hist) 0%Q leafNodeHistogram
      else smoothedVector hist smoothing.
Proof.
  unfold updateLeafNodeHistogram, H.getSize, BOOST_ASSERT.
  rewrite Nat2Z.id, length_resize.
  destruct (0 <? Z.of_nat (length hist)) eqn:E; [|done]. simpl.
  intros Hv. split; [lia|]. destruct boot; simpl in Hv; inversion Hv; subst; [done|].
  rewrite fill_seq by (by rewrite length_resize).
  rewrite drop_ge by (by rewrite length_resize). by rewrite app_nil_r.
Qed.

Lemma updateLeafNodeHistogram_runs leafNodeHistogram hist smoothing boot :
  (0 < length hist)%nat ->
  exists v, updateLeafNodeHistogram leafNodeHistogram hist smoothing boot = Returns v.
Proof.
  intros Hh. unfold updateLeafNodeHistogram, H.getSize, BOOST_ASSERT.
  rewrite Nat2Z.id, length_resize.
  destruct (0 <? Z.of_nat (length hist)) eqn:E; [|lia]. simpl.
  destruct boot; simpl; eauto.
Qed.


Lemma getNodeData_setNodeData t node d :
  (node < length t)%nat -> getNodeData (setNodeData node d t) node = d.
Proof.
  intros Hn. unfold getNodeData, setNodeData.
  rewrite list_lookup_alter_eq.
  destruct (t !! node) eqn:E; [done|]. apply lookup_ge_None in E. lia.
Qed.

Lemma getNodeData_setNodeData_ne t node node' d :
  node <> node' -> getNodeData (setNodeData node d t) node' = getNodeData t node'.
Proof.
  intros Hn. unfold getNodeData, setNodeData. by rewrite list_lookup_alter_ne.
Qed.

Lemma getNodeConfig_setNodeData t node node' d :
  getNodeConfig (setNodeData node d t) node' = getNodeConfig t node'.
Proof.
  unfold getNodeConfig, setNodeData.
  destruct (decide (node = node')) as [->|Hn].
  - rewrite list_lookup_alter_eq. by destruct (t !! node').
  - by rewrite list_lookup_alter_ne.
Qed.

Lemma length_setNodeData t node d : length (setNodeData node d t) = length t.
Proof. apply length_alter. Qed.

(** [finalizeLeaf]: the node exists, its histogram is the vector of
    [updateLeafNodeHistogram] and nothing else changes. *)
Lemma finalizeLeaf_inv line t node hist smoothing boot t' :
  finalizeLeaf line t node hist smoothing boot = Returns t' ->
  (node < length t)%nat /\ (0 < length hist)%nat /\
  t' = setNodeData node
         (setHistogram (if boot
                        then resize (length hist) 0%Q (histogram (getNodeData t node))
                        else smoothedVector hist smoothing)
                       (getNodeData t node)) t.
Proof.
  unfold finalizeLeaf. intros Hf.
  destruct (updateLeafNodeHistogram (histogram (getNodeData t node)) hist smoothing boot)
    as [v| | | |] eqn:E; try done.
  simpl in Hf. apply updateLeafNodeHistogram_inv in E as [Hh ->].
  unfold BOOST_ASSERT in Hf.
  match type of Hf with context [if (0 <? ?z) then _ else _] =>
    destruct (0 <? z) eqn:Eb end; [|done].
  simpl in Hf. inversion Hf; subst. split; [|done].
  destruct (decide (node < length t)%nat) as [|Hge]; [done|].
  unfold getNodeData at 1 in Eb. unfold setNodeData in Eb.
  rewrite list_lookup_alter_eq in Eb.
  rewrite (proj2 (lookup_ge_None t node)) in Eb by lia. simpl in Eb. done.
Qed.

Lemma finalizeLeaf_runs line t node hist smoothing boot :
  (node < length t)%nat -> (0 < length hist)%nat ->
  exists t', finalizeLeaf line t node hist smoothing boot = Returns t'.
Proof.
  intros Hn Hh. unfold finalizeLeaf.
  destruct (updateLeafNodeHistogram_runs (histogram (getNodeData t node)) hist smoothing boot Hh)
    as [v Hv].
  pose proof Hv as Hv'. apply updateLeafNodeHistogram_inv in Hv' as [_ Ev].
  rewrite Hv. simpl. rewrite getNodeData_setNodeData by done. simpl.
  unfold BOOST_ASSERT.
  assert (0 < length v)%nat.
  { rewrite Ev. destruct boot.
    - by rewrite length_resize.
    - unfold smoothedVector. by rewrite length_map, length_seq. }
  destruct (0 <? Z.of_nat (length v)) eqn:E; [|lia]. simpl. eauto.
Qed.

End Leaves.

(** ** Floats *)

Section Floats.


(** What lies below a value that is below a threshold is below the
    threshold. *)
Lemma fltb_below (a b : Q) (t : float) :
  (a <= b)%Q -> fltb b t = true -> fltb a t = true.
Proof.
  intros Hab. unfold fltb. destruct t as [q|sg|]; try done.
  rewrite !Qltb_lt. intros Hb. eapply Qle_lt_trans; eauto.
Qed.

(** A test that holds of everything before what it holds of cuts a
    sorted list in two: it holds of the first cells, as many as it holds
    of, and of no other. *)
Lemma sorted_cut {A : Type} (R : relation A) (p : A -> bool) (l : list A) :
  StronglySorted R l ->
  (forall x y, R y x -> p x = true -> p y = true) ->
  Forall (fun x => p x = true) (take (length (filter (fun x => p x) l)) l) /\
  Forall (fun x => p x = false) (drop (length (filter (fun x => p x) l)) l).
Proof.
  intros Hs Hmono. induction Hs as [|x l Hs IH Hx]; [by split; constructor|].
  destruct (p x) eqn:Hp.
  - rewrite filter_cons_True by (by rewrite Hp). simpl.
    destruct IH as [IH1 IH2]. split; [by constructor|done].
  - rewrite filter_cons_False by (rewrite Hp; auto).
    assert (Hnone : Forall (fun y => p y = false) l).
    { eapply Forall_impl; [exact Hx|]. intros y Hxy. simpl in Hxy.
      destruct (p y) eqn:Hy; [|done]. rewrite (Hmono y x) in Hp; done. }
    assert (E : filter (fun x => p x) l = []).
    { clear -Hnone. induction Hnone as [|y l Hy _ IH]; [done|].
      rewrite filter_cons_False by (rewrite Hy; auto). done. }
    rewrite E. simpl. split; [constructor|by constructor].
Qed.

End Floats.

(** ** Well-formed storages *)

Section Storage.

Lemma representable_zero : representable 0 = true.
Proof. reflexivity. Qed.

Lemma featureValue_representable storage feature n :
  wf_storage storage -> representable (featureValue storage feature n) = true.
Proof.
  intros [_ Hwf]. unfold featureValue, coeff, getDataPoint.
  destruct (examples storage !! n) as [[x c]|] eqn:E; simpl; [|done].
  rewrite Forall_lookup in Hwf. apply Hwf in E as (_ & _ & Hx). simpl in Hx.
  destruct (x !! feature) as [v|] eqn:Ev; simpl; [|done].
  rewrite Forall_lookup in Hx. by apply Hx in Ev.
Qed.

Lemma getClassLabel_valid storage n :
  wf_storage storage -> 0 < getClasscount storage ->
  (getClassLabel storage n < Z.to_nat (getClasscount storage))%nat.
Proof.
  intros [_ Hwf] HC. unfold getClassLabel.
  destruct (examples storage !! n) as [[x c]|] eqn:E; simpl; [|lia].
  rewrite Forall_lookup in Hwf. apply Hwf in E as (Hc & _). simpl in Hc. lia.
Qed.

Lemma labels_valid storage (l : list nat) :
  wf_storage storage -> 0 < getClasscount storage ->
  Forall (fun n => (getClassLabel storage n < Z.to_nat (getClasscount storage))%nat) l.
Proof.
  intros Hwf HC. apply Forall_forall. intros n _. by apply getClassLabel_valid.
Qed.

End Storage.

(** ** The sweep of the axis-aligned learner *)

Section Sweep.

Context `{P : Platform}.

#[local] Instance featureLe_trans storage feature : Transitive (featureLe storage feature).
Proof. intros a b c. unfold featureLe. apply Qle_trans. Qed.

#[local] Instance featureLe_total storage feature : Total (featureLe storage feature).
Proof.
  intros a b. unfold featureLe.
  destruct (Qlt_le_dec (featureValue storage feature a) (featureValue storage feature b));
    [left; by apply Qlt_le_weak|by right].
Qed.

Lemma sortByFeature_perm storage feature l : sortByFeature storage feature l ≡ₚ l.
Proof. apply merge_sort_Permutation. Qed.

Lemma sortByFeature_sorted storage feature l :
  StronglySorted (featureLe storage feature) (sortByFeature storage feature l).
Proof. apply StronglySorted_merge_sort; apply _. Qed.

Lemma sweep_good storage C feature L rest : forall pre a0 lh rh best,
  Forall (fun n => (getClassLabel storage n < C)%nat) L ->
  pre ++ a0 :: rest ≡ₚ L ->
  StronglySorted (featureLe storage feature) (pre ++ a0 :: rest) ->
  length lh = C -> length rh = C ->
  H.getMass lh = Z.of_nat (length pre) ->
  H.getMass rh = Z.of_nat (length rest) + 1 ->
  goodBest storage L best ->
  goodBest storage L
    (sweep storage feature rest (featureValue storage feature a0)
           (getClassLabel storage a0) lh rh best).
Proof.
  induction rest as [|n rest IH]; intros pre a0 lh rh best HL Hperm Hsorted Hlh Hrh Hml Hmr Hbest;
    simpl; [done|].
  assert (Ha0 : (getClassLabel storage a0 < C)%nat).
  { rewrite Forall_forall in HL. apply HL. rewrite <- Hperm.
    apply elem_of_app. right. by left. }
  assert (Hperm' : (pre ++ [a0]) ++ n :: rest ≡ₚ L) by (by rewrite <- app_assoc).
  assert (Hsorted' : StronglySorted (featureLe storage feature) ((pre ++ [a0]) ++ n :: rest))
    by (by rewrite <- app_assoc).
  assert (Hml' : H.getMass (H.addOne (getClassLabel storage a0) lh)
                 = Z.of_nat (length (pre ++ [a0]))).
  { rewrite getMass_addOne by lia. rewrite length_app. simpl. lia. }
  assert (Hmr' : H.getMass (H.subOne (getClassLabel storage a0) rh)
                 = Z.of_nat (length rest) + 1).
  { rewrite getMass_subOne by lia. simpl length in Hmr. lia. }
  destruct (tooClose (featureValue storage feature a0) (featureValue storage feature n)) eqn:Hclose.
  - apply (IH (pre ++ [a0])); auto; by rewrite ?length_addOne, ?length_subOne.
  - apply (IH (pre ++ [a0])); auto; try by rewrite ?length_addOne, ?length_subOne.
    destruct (Qltb _ (bestObjective best)); [|done].
    right. exists feature, pre, a0, n, rest. simpl.
    repeat split; auto.
    + rewrite Hml', length_app. simpl. lia.
Qed.

(** The loop over the features keeps a split point of the node's
    examples, and leaves the examples in some order. *)
Lemma optimise_good storage C hist sampled fs : forall L l best best' l',
  Forall (fun n => (getClassLabel storage n < Z.to_nat C)%nat) L ->
  l ≡ₚ L -> length hist = Z.to_nat C -> H.getMass hist = Z.of_nat (length L) ->
  goodBest storage L best ->
  optimise storage hist C sampled fs l best = Returns (best', l') ->
  goodBest storage L best' /\ l' ≡ₚ L.
Proof.
  induction fs as [|f fs IH]; intros L l best best' l' HL Hperm Hh Hm Hbest Hrun;
    simpl in Hrun.
  - inversion Hrun; subst. done.
  - destruct (sampled !! f) as [feature|]; [|done].
    pose proof (sortByFeature_perm storage feature l) as Hp.
    pose proof (sortByFeature_sorted storage feature l) as Hs.
    destruct (sortByFeature storage feature l) as [|n0 rest]; [done|].
    apply IH with (L := L) in Hrun; auto.
    + by rewrite Hp.
    + apply (sweep_good storage (Z.to_nat C) feature L rest [] n0); auto.
      * simpl. by rewrite Hp.
      * apply length_create.
      * apply getMass_create.
      * rewrite Hm, <- Hperm, <- Hp. simpl length. lia.
Qed.

Lemma optimise_runs storage C hist sampled fs : forall l best,
  l <> [] -> Forall (fun f => (f < length sampled)%nat) fs ->
  exists best' l', optimise storage hist C sampled fs l best = Returns (best', l').
Proof.
  induction fs as [|f fs IH]; intros l best Hl Hfs; simpl; [eauto|].
  inversion Hfs as [|? ? Hf Hfs']; subst.
  destruct (sampled !! f) as [feature|] eqn:E;
    [|apply lookup_ge_None in E; lia].
  pose proof (sortByFeature_perm storage feature l) as Hp.
  destruct (sortByFeature storage feature l) as [|n0 rest].
  - apply Permutation_nil_l in Hp. done.
  - apply IH; done.
Qed.

Lemma filter_all {A : Type} (Q : A -> Prop) `{forall x, Decision (Q x)} (l : list A) :
  Forall Q l -> filter Q l = l.
Proof.
  induction 1 as [|x l Hx Hl IH]; [done|].
  rewrite filter_cons_True by done. by rewrite IH.
Qed.

Lemma filter_none {A : Type} (Q : A -> Prop) `{forall x, Decision (Q x)} (l : list A) :
  Forall (fun x => ~ Q x) l -> filter Q l = [].
Proof.
  induction 1 as [|x l Hx Hl IH]; [done|].
  by rewrite filter_cons_False.
Qed.

(** When as many examples lie below a threshold as there are up to [a]
    in the order of the feature, [a] lies below the threshold and its
    neighbour [b] does not. *)
Lemma splitPoint_between storage feature (pre post : list nat) a b l (t : float) :
  StronglySorted (featureLe storage feature) (pre ++ a :: b :: post) ->
  l ≡ₚ pre ++ a :: b :: post ->
  length (filter (fun n => fltb (featureValue storage feature n) t) l) = S (length pre) ->
  fltb (featureValue storage feature a) t = true /\
  fltb (featureValue storage feature b) t = false.
Proof.
  intros Hs Hperm Hlen. rewrite Hperm in Hlen.
  destruct (sorted_cut (featureLe storage feature)
              (fun n => fltb (featureValue storage feature n) t) _ Hs) as [Ht Hd].
  { intros x y Hyx. by apply fltb_below. }
  rewrite Hlen in Ht, Hd.
  replace (pre ++ a :: b :: post) with ((pre ++ [a]) ++ b :: post) in Ht, Hd
    by (by rewrite <- app_assoc).
  assert (El : S (length pre) = length (pre ++ [a])) by (rewrite length_app; simpl; lia).
  rewrite El in Ht, Hd. rewrite take_app_length in Ht. rewrite drop_app_length in Hd.
  split.
  - apply Forall_app in Ht as [_ Ha]. by apply Forall_inv in Ha.
  - by apply Forall_inv in Hd.
Qed.

End Sweep.

(** ** The node table *)

Section Trees.

Lemma getNodeConfig_lookup (t : Tree) node c d :
  t !! node = Some (c, d) -> getNodeConfig t node = c.
Proof. unfold getNodeConfig. by intros ->. Qed.

Lemma getNodeConfig_app_l (t k : Tree) node :
  (node < length t)%nat -> getNodeConfig (t ++ k) node = getNodeConfig t node.
Proof. intros H. unfold getNodeConfig. by rewrite lookup_app_l. Qed.

Lemma getNodeData_app_l (t k : Tree) node :
  (node < length t)%nat -> getNodeData (t ++ k) node = getNodeData t node.
Proof. intros H. unfold getNodeData. by rewrite lookup_app_l. Qed.

Lemma getNodeConfig_setNodeConfig (t : Tree) node c :
  (node < length t)%nat -> getNodeConfig (setNodeConfig node c t) node = c.
Proof.
  intros Hn. unfold getNodeConfig, setNodeConfig. rewrite list_lookup_alter_eq.
  destruct (t !! node) eqn:E; [done|]. apply lookup_ge_None in E. lia.
Qed.

Lemma getNodeConfig_setNodeConfig_ne (t : Tree) node node' c :
  node <> node' -> getNodeConfig (setNodeConfig node c t) node' = getNodeConfig t node'.
Proof.
  intros Hn. unfold getNodeConfig, setNodeConfig. by rewrite list_lookup_alter_ne.
Qed.

Lemma getNodeData_setNodeConfig (t : Tree) node node' c :
  getNodeData (setNodeConfig node c t) node' = getNodeData t node'.
Proof.
  unfold getNodeData, setNodeConfig.
  destruct (decide (node = node')) as [->|Hn].
  - rewrite list_lookup_alter_eq. by destruct (t !! node').
  - by rewrite list_lookup_alter_ne.
Qed.

Lemma length_setNodeConfig (t : Tree) node c : length (setNodeConfig node c t) = length t.
Proof. apply length_alter. Qed.

Lemma length_setSplit (t : Tree) node desc : length (setSplit node desc t) = length t.
Proof. apply length_setNodeConfig. Qed.

Lemma length_splitNode (t : Tree) node :
  length (fst (splitNode node t)) = (length t + 2)%nat /\ snd (splitNode node t) = length t.
Proof.
  unfold splitNode. simpl.
  rewrite length_app, length_setNodeData, length_setNodeConfig. simpl. lia.
Qed.

(** The configurations after [node] has received [desc] and has been
    split: [node] keeps its depth and has [desc] and the left child; the
    two children lie one level below; every other node is as before. *)
Lemma getNodeConfig_split (t : Tree) node desc k :
  getNodeConfig (fst (splitNode node (setSplit node desc t))) k =
  if decide (k = node /\ (node < length t)%nat)
  then mkConfig (depth (getNodeConfig t node)) desc (Some (length t))
  else if decide (k = length t \/ k = S (length t))
       then freshConfig (depth (getNodeConfig t node) + 1)
       else getNodeConfig t k.
Proof.
  unfold splitNode. simpl. rewrite length_setSplit.
  set (t0 := setSplit node desc t).
  assert (Hc0 : forall j, j <> node -> getNodeConfig t0 j = getNodeConfig t j).
  { intros j Hj. unfold t0, setSplit. by rewrite getNodeConfig_setNodeConfig_ne. }
  assert (Hd0 : depth (getNodeConfig t0 node) = depth (getNodeConfig t node)).
  { unfold t0, setSplit. destruct (decide (node < length t)%nat).
    - by rewrite getNodeConfig_setNodeConfig.
    - unfold getNodeConfig, setNodeConfig. rewrite list_lookup_alter_eq.
      by rewrite (proj2 (lookup_ge_None t node)) by lia. }
  assert (Hlen : length t0 = length t) by apply length_setSplit.
  destruct (decide (k < length t)%nat) as [Hk|Hk].
  - rewrite getNodeConfig_app_l
      by (rewrite length_setNodeData, length_setNodeConfig; lia).
    rewrite getNodeConfig_setNodeData.
    destruct (decide (k = node /\ (node < length t)%nat)) as [[-> Hn]|Hne].
    + rewrite getNodeConfig_setNodeConfig by lia. rewrite Hd0. f_equal.
      unfold t0, setSplit. by rewrite getNodeConfig_setNodeConfig.
    + rewrite decide_False by lia.
      rewrite getNodeConfig_setNodeConfig_ne by (intros ->; apply Hne; split; [done|lia]).
      apply Hc0. intros ->. apply Hne. split; [done|lia].
  - rewrite decide_False by lia. unfold getNodeConfig at 1.
    rewrite lookup_app_r by (rewrite length_setNodeData, length_setNodeConfig; lia).
    rewrite length_setNodeData, length_setNodeConfig, Hlen.
    destruct (decide (k = length t \/ k = S (length t))) as [[->| ->]|Hne].
    + rewrite Nat.sub_diag. simpl. by rewrite Hd0.
    + replace (S (length t) - length t)%nat with 1%nat by lia. simpl. by rewrite Hd0.
    + destruct (k - length t)%nat as [|[|j]] eqn:E; try lia. simpl.
      unfold getNodeConfig. by rewrite (proj2 (lookup_ge_None t k)) by lia.
Qed.

Lemma length_commit_tree (t : Tree) node desc :
  length (fst (splitNode node (setSplit node desc t))) = (length t + 2)%nat.
Proof. rewrite (proj1 (length_splitNode _ _)), length_setSplit. done. Qed.

End Trees.

(** ** One turn of the axis-aligned learner *)

Section AxisAlignedTurn.

Context `{P : Platform}.

Lemma exampleList_inv s node l N :
  exampleList s node = Returns (l, N) ->
  0 <= N /\ Z.of_nat (length l) = N /\
  exists arr, trainingExamples s !! node = Some (Some arr) /\ l = take (Z.to_nat N) arr.
Proof.
  unfold exampleList.
  destruct (trainingExamples s !! node) as [[arr|]|]; try done.
  destruct (trainingExamplesSizes s !! node) as [N'|]; try done.
  destruct (0 <=? N') eqn:E1; [|done].
  destruct (N' <=? Z.of_nat (length arr)) eqn:E2; [|done]. simpl.
  intros Hr. inversion Hr; subst. repeat split; [lia| |eauto].
  rewrite length_take. lia.
Qed.

Lemma nodeHistogram_nil storage C : nodeHistogram storage C [] = H.create C.
Proof. done. Qed.

(** A node that is not stopped has examples. *)
Lemma stops_false_nonempty L storage C l d :
  stops L (nodeHistogram storage C l) d = false -> l <> [].
Proof.
  unfold stops. intros Hs ->. rewrite nodeHistogram_nil, isPure_create in Hs.
  by rewrite orb_true_r in Hs.
Qed.

(** What a partition into arrays of exactly the sizes of the two sides
    leaves. *)
Lemma partitionExamples_exact (p : nat -> bool) l leftSize rightSize :
  Z.of_nat (length (filter (fun n => p n) l)) = leftSize ->
  Z.of_nat (length (filter (fun n => negb (p n)) l)) = rightSize ->
  partitionExamples p l (newArray leftSize) (newArray rightSize) leftSize rightSize
  = Returns (reverse (filter (fun n => p n) l),
             reverse (filter (fun n => negb (p n)) l), 0, 0).
Proof.
  intros Hl Hr.
  destruct (partitionExamples_runs p l (newArray leftSize) (newArray rightSize)
              leftSize rightSize) as (LA' & RA' & lc' & rc' & Hrun).
  { unfold newArray. rewrite length_replicate. lia. }
  { unfold newArray. rewrite length_replicate. lia. }
  rewrite Hrun.
  apply partitionExamples_inv in Hrun as (-> & -> & _ & _ & -> & ->).
  rewrite Hl, Hr, !Z.sub_diag. simpl.
  rewrite !drop_ge by (unfold newArray; rewrite length_replicate; lia).
  by rewrite !app_nil_r.
Qed.

Lemma filter_partition_perm (p : nat -> bool) (l : list nat) :
  reverse (filter (fun n => p n) l) ++ reverse (filter (fun n => negb (p n)) l) ≡ₚ l.
Proof.
  rewrite !reverse_Permutation.
  induction l as [|n l IH]; [done|].
  destruct (p n) eqn:Hp.
  - rewrite filter_cons_True by (by rewrite Hp).
    rewrite filter_cons_False by (rewrite Hp; simpl; auto).
    simpl. by rewrite IH.
  - rewrite filter_cons_False by (rewrite Hp; simpl; auto).
    rewrite filter_cons_True by (by rewrite Hp).
    rewrite <- Permutation_middle. by rewrite IH.
Qed.

Lemma filter_partition_length (p : nat -> bool) (l : list nat) :
  (length (filter (fun n => p n) l) + length (filter (fun n => negb (p n)) l)
   = length l)%nat.
Proof.
  rewrite <- (length_reverse (filter (fun n => p n) l)).
  rewrite <- (length_reverse (filter (fun n => negb (p n)) l)).
  rewrite <- length_app. by rewrite filter_partition_perm.
Qed.

Lemma tree_commit s node stack desc leftList rightList leftSize rightSize sampled e r :
  tree (fst (commit s node stack desc leftList rightList leftSize rightSize sampled e r))
  = fst (splitNode node (setSplit node desc (tree s))).
Proof.
  unfold commit.
  by destruct (splitNode node (setSplit node desc (tree s))).
Qed.

(** A turn of the axis-aligned learner that returned, from a state whose
    top node has its examples.  When it committed a split, the assertions
    of lines 285-286 have passed: the partition is exact, and the
    threshold lies above the value of [a] and not above the value of its
    neighbour [b], the two examples the best split was found between. *)
Lemma DecisionTreeLearner_turn_spec L storage _numFeatures s node stack l N s' ev :
  wf_storage storage -> 0 < getClasscount storage ->
  splitStack s = node :: stack ->
  exampleList s node = Returns (l, N) ->
  DecisionTreeLearner_turn L storage _numFeatures (getClasscount storage) s
  = Returns (s', ev) ->
  exactPartition L l ev /\
  match ev with
  | Finalized node' hist =>
      node' = node /\ hist = nodeHistogram storage (getClasscount storage) l /\
      exists line,
        finalizeLeaf line (tree s) node hist (smoothingParameter L) (useBootstrap L)
        = Returns (tree s')
  | Committed node' _ parent leftList rightList leftSize rightSize _ _ =>
      node' = node /\
      stops L (nodeHistogram storage (getClasscount storage) l)
            (getDepth (getNodeConfig (tree s) node)) = false /\
      exists best feature pre a b post,
        bestFeature best = Z.of_nat feature /\
        pre ++ a :: b :: post ≡ₚ l /\
        StronglySorted (featureLe storage feature) (pre ++ a :: b :: post) /\
        tooClose (featureValue storage feature a) (featureValue storage feature b) = false /\
        bestThreshold best
        = fadd binary32 (featureValue storage feature a) (featureValue storage feature b) /\
        leftSize = Z.of_nat (length pre) + 1 /\
        rightSize = Z.of_nat (length post) + 1 /\
        tree s' = fst (splitNode node
                         (setSplit node
                            (AxisAligned (bestFeature best)
                                         (fmul binary32 (bestThreshold best) (1 # 2)%Q))
                            (tree s))) /\
        fltb (featureValue storage feature a)
             (fmul binary32 (bestThreshold best) (1 # 2)%Q) = true /\
        fltb (featureValue storage feature b)
             (fmul binary32 (bestThreshold best) (1 # 2)%Q) = false /\
        leftList
        = reverse (filter (fun n => fltb (featureValue storage feature n)
                                         (fmul binary32 (bestThreshold best) (1 # 2)%Q))
                          parent) /\
        rightList
        = reverse (filter (fun n => negb (fltb (featureValue storage feature n)
                                               (fmul binary32 (bestThreshold best)
                                                     (1 # 2)%Q)))
                          parent)
  end.
Proof.
  intros Hwf HC Hstack Hl Hturn.
  pose proof (exampleList_inv _ _ _ _ Hl) as (HN & HlN & _).
  unfold DecisionTreeLearner_turn in Hturn. rewrite Hstack, Hl in Hturn.
  cbn [mbind outcome_bind] in Hturn.
  set (C := getClasscount storage) in *.
  set (hist := nodeHistogram storage C l) in *.
  destruct (stops L hist (getDepth (getNodeConfig (tree s) node))) eqn:Hstop.
  { destruct (finalizeLeaf 158 _ _ _ _ _) as [t'| | | |] eqn:Ht'; try done.
    cbn [mbind outcome_bind] in Hturn. inversion Hturn; subst. simpl.
    repeat split; eauto. }
  destruct (rd_draw (device s)) as [sd r].
  destruct (optimise _ _ _ _ _ _ _) as [[best sorted]| | | |] eqn:Hopt; try done.
  cbn [mbind outcome_bind] in Hturn.
  apply optimise_good with (L := l) in Hopt as [Hgood Hsorted]; auto.
  2:{ by apply labels_valid. }
  2:{ unfold hist. apply length_nodeHistogram. }
  2:{ unfold hist. apply getMass_nodeHistogram. by apply labels_valid. }
  2:{ by left. }
  destruct ((bestFeature best <? 0)
            || (bestLeftMass best <? minChildSplitExamples L)
            || (bestRightMass best <? minChildSplitExamples L)) eqn:Hcheck.
  { destruct (finalizeLeaf 241 _ _ _ _ _) as [t'| | | |] eqn:Ht'; try done.
    cbn [mbind outcome_bind] in Hturn. inversion Hturn; subst. simpl.
    repeat split; eauto. }
  apply orb_false_iff in Hcheck as [Hcheck Hright].
  apply orb_false_iff in Hcheck as [Hfeature Hleft].
  destruct Hgood as [Hgood|Hgood]; [lia|].
  destruct Hgood as (feature & pre & a & b & post & Hf & Hperm & Hs & Hclose & Ht & Hml & Hmr).
  destruct (partitionExamples _ _ _ _ _ _) as [[[[leftList rightList] lc] rc]| | | |] eqn:Hpart;
    try done.
  cbn [mbind outcome_bind] in Hturn. unfold BOOST_ASSERT in Hturn.
  destruct (lc =? 0) eqn:Elc; [|done]. cbn [mbind outcome_bind] in Hturn.
  destruct (rc =? 0) eqn:Erc; [|done]. cbn [mbind outcome_bind] in Hturn.
  apply Z.eqb_eq in Elc, Erc. subst lc rc.
  inversion Hturn; subst s' ev. clear Hturn.
  rewrite Hf, Nat2Z.id in Hpart.
  pose proof (partitionExamples_inv _ _ _ _ _ _ _ _ _ _ Hpart) as (Hcl & Hcr & _).
  apply partitionExamples_lists in Hpart as [El Er].
  set (t := fmul binary32 (bestThreshold best) (1 # 2)%Q) in *.
  pose proof (filter_partition_length
                (fun n => fltb (featureValue storage feature n) t) sorted) as Hsum.
  rewrite Hsorted in Hsum at 3.
  split.
  - simpl. rewrite El, Er, !length_reverse.
    repeat split; auto; try lia.
    apply (filter_partition_perm (fun n => fltb (featureValue storage feature n) t)).
  - split; [done|]. split; [done|].
    exists best, feature, pre, a, b, post.
    destruct (splitPoint_between storage feature pre post a b sorted t) as [Ha Hb]; auto.
    { by rewrite Hsorted. }
    { lia. }
    repeat split; auto; try lia; try apply tree_commit.
Qed.

End AxisAlignedTurn.

(** ** One turn of the projective and of the dot-product learner *)

Section CandidateTurns.

Context `{P : Platform}.

(** The candidate loop moves exactly the examples on the left. *)
Lemma countLeft_mass storage C (p : nat -> bool) l : forall lh rh,
  Forall (fun n => (getClassLabel storage n < C)%nat) l ->
  length lh = C -> length rh = C ->
  H.getMass (fst (countLeft storage p l lh rh))
  = H.getMass lh + Z.of_nat (length (filter (fun n => p n) l)) /\
  H.getMass (snd (countLeft storage p l lh rh))
  = H.getMass rh - Z.of_nat (length (filter (fun n => p n) l)).
Proof.
  induction l as [|n l IH]; intros lh rh Hl Hlh Hrh; simpl; [lia|].
  inversion Hl as [|? ? Hn Hl']; subst.
  destruct (p n) eqn:Hp.
  - rewrite filter_cons_True by (by rewrite Hp).
    destruct (IH (H.addOne (getClassLabel storage n) lh)
                 (H.subOne (getClassLabel storage n) rh)) as [E1 E2];
      rewrite ?length_addOne, ?length_subOne; auto.
    rewrite E1, E2, getMass_addOne, getMass_subOne by lia. simpl length. lia.
  - rewrite filter_cons_False by (rewrite Hp; simpl; auto).
    by apply IH.
Qed.

(** The objective of a best split that is still as it was initialised
    is above the bound of lines 494 and 729. *)
Lemma large_below_huge : Qltb large huge = true.
Proof. vm_compute. reflexivity. Qed.

Lemma filter_never (p : nat -> bool) (l : list nat) :
  (forall n, p n = false) ->
  filter (fun n => p n) l = [] /\ filter (fun n => negb (p n)) l = l.
Proof.
  intros Hp. split.
  - apply filter_none. apply Forall_forall. intros n _. rewrite Hp. simpl. auto.
  - apply filter_all. apply Forall_forall. intros n _. by rewrite Hp.
Qed.

(** *** The projective learner *)

Lemma sampleSigns_runs k D : forall projection e,
  0 < D -> length projection = Z.to_nat D ->
  exists projection' e', sampleSigns k D projection e = Returns (projection', e').
Proof.
  induction k as [|k IH]; intros projection e HD Hlen; simpl; [eauto|].
  destruct (uniform_int 0 1 e) as [b e1].
  pose proof (uniform_int_range 0 (D - 1) e1) as Hrange.
  destruct (uniform_int 0 (D - 1) e1) as [d e2]. simpl in Hrange.
  unfold setCoeff.
  destruct (0 <=? d) eqn:E1; [|lia].
  destruct (d <? Z.of_nat (length projection)) eqn:E2; [|lia]. simpl.
  apply IH; [done|]. by rewrite length_insert.
Qed.

Lemma sampleProjection_runs D e :
  0 < D -> exists projection e', sampleProjection D e = Returns (projection, e').
Proof.
  intros HD. unfold sampleProjection.
  destruct (sampleSigns_runs sparsity D (Zero (Z.to_nat D)) e HD)
    as (p & e' & Hp); [apply length_replicate|].
  rewrite Hp. simpl. eauto.
Qed.

Lemma optimiseProjection_spec k storage C D l : forall e best,
  0 < D ->
  Forall (fun n => (getClassLabel storage n < Z.to_nat C)%nat) l ->
  countedP storage l best \/ bestObjectiveP best = huge ->
  exists best' e',
    optimiseProjection k storage (nodeHistogram storage C l) C D l e best
    = Returns (best', e') /\
    (countedP storage l best' \/ bestObjectiveP best' = huge).
Proof.
  induction k as [|k IH]; intros e best HD Hl Hbest; simpl; [eauto|].
  destruct (sampleProjection_runs D e HD) as (projection & e' & Hp).
  rewrite Hp. simpl.
  pose proof (countLeft_mass storage (Z.to_nat C)
                (fun n => fltb (fdot projection (getDataPoint storage n)) 0%Q)
                l (H.create C) (nodeHistogram storage C l) Hl (length_create C)
                (length_nodeHistogram storage C l)) as [E1 E2].
  pose proof (filter_partition_length
                (fun n => fltb (fdot projection (getDataPoint storage n)) 0%Q) l) as Hfl.
  cbv beta in E1, E2, Hfl.
  destruct (countLeft storage _ l (H.create C) (nodeHistogram storage C l))
    as [lh rh]. cbn [fst snd] in E1, E2.
  apply IH; auto.
  destruct (Qltb _ (bestObjectiveP best)); [|done].
  left. split; simpl.
  - rewrite E1, getMass_create. reflexivity.
  - rewrite E2, getMass_nodeHistogram by done. lia.
Qed.

Lemma ProjectiveDecisionTreeLearner_turn_spec L storage s node stack l N :
  wf_storage storage -> 0 < getClasscount storage -> 0 < getDimensionality storage ->
  splitStack s = node :: stack -> (node < length (tree s))%nat ->
  exampleList s node = Returns (l, N) ->
  exists s' ev,
    ProjectiveDecisionTreeLearner_turn L storage (getClasscount storage)
      (getDimensionality storage) s = Returns (s', ev) /\
    exactPartition L l ev /\
    match ev with
    | Finalized node' hist =>
        node' = node /\ hist = nodeHistogram storage (getClasscount storage) l /\
        exists line,
          finalizeLeaf line (tree s) node hist (smoothingParameter L) (useBootstrap L)
          = Returns (tree s')
    | Committed node' _ parent leftList rightList _ _ _ _ =>
        node' = node /\
        stops L (nodeHistogram storage (getClasscount storage) l)
              (getDepth (getNodeConfig (tree s) node)) = false /\
        exists projection,
          tree s' = fst (splitNode node (setSplit node (SparseProjection projection) (tree s)))
    end.
Proof.
  intros Hwf HC HD Hstack Hnode Hl.
  pose proof (exampleList_inv _ _ _ _ Hl) as (HN & HlN & _).
  unfold ProjectiveDecisionTreeLearner_turn. rewrite Hstack, Hl. simpl.
  set (C := getClasscount storage) in *. set (D := getDimensionality storage) in *.
  set (hist := nodeHistogram storage C l).
  assert (Hhist : (0 < length hist)%nat).
  { unfold hist. rewrite length_nodeHistogram. lia. }
  destruct (stops L hist (getDepth (getNodeConfig (tree s) node))) eqn:Hstop.
  { destruct (finalizeLeaf_runs 427 (tree s) node hist (smoothingParameter L)
                (useBootstrap L) Hnode Hhist) as [t' Ht'].
    rewrite Ht'. simpl. eexists _, _. split; [reflexivity|]. simpl.
    repeat split; eauto. }
  destruct (optimiseProjection_spec (Z.to_nat (numFeatures L)) storage C D l (engine s)
              (mkBestProjection (Zero (Z.to_nat D)) huge 0 N))
    as (best & e & Hopt & Hcounted); auto.
  { by apply labels_valid. }
  fold hist in Hopt. rewrite Hopt. simpl.
  destruct (Qltb large (bestObjectiveP best)
            || (bestLeftMassP best <? minChildSplitExamples L)
            || (bestRightMassP best <? minChildSplitExamples L)) eqn:Hcheck.
  { destruct (finalizeLeaf_runs 499 (tree s) node hist (smoothingParameter L)
                (useBootstrap L) Hnode Hhist) as [t' Ht'].
    rewrite Ht'. simpl. eexists _, _. split; [reflexivity|]. simpl.
    repeat split; eauto. }
  apply orb_false_iff in Hcheck as [Hcheck Hright].
  apply orb_false_iff in Hcheck as [Hfound Hleft].
  destruct Hcounted as [[Hcl Hcr]|Hinit];
    [|by rewrite Hinit, large_below_huge in Hfound].
  rewrite (partitionExamples_exact _ l _ _ Hcl Hcr). simpl.
  assert (Hsum : bestLeftMassP best + bestRightMassP best = N).
  { rewrite <- Hcl, <- Hcr, <- HlN, <- Nat2Z.inj_add. f_equal.
    apply filter_partition_length. }
  eexists _, _. split; [reflexivity|]. split.
  - simpl. repeat split; auto; try lia.
    + rewrite length_reverse. exact Hcl.
    + rewrite length_reverse. exact Hcr.
    + apply (filter_partition_perm
               (fun n => fltb (fdot (bestProjection best) (getDataPoint storage n)) 0%Q)).
  - split; [done|]. split; [done|]. eexists. apply tree_commit.
Qed.

End CandidateTurns.

(** *** The dot-product learner *)

Section DotProductTurn.

Context `{P : Platform}.

Lemma at_app_r (h1 h2 : list Z) (c : nat) :
  H.at_ (h1 ++ h2) (length h1 + c) = H.at_ h2 c.
Proof.
  unfold H.at_. rewrite lookup_app_r by lia.
  by replace (length h1 + c - length h1)%nat with c by lia.
Qed.

(** The classes present are as many as the buckets that are not zero. *)
Lemma classLabels_length (h : list Z) :
  length (classLabels h) = length (filter (fun c : Z => c <> 0) h).
Proof.
  unfold classLabels.
  assert (Hgen : forall (h2 h1 : list Z),
             length (filter (fun c => H.at_ (h1 ++ h2) c <> 0) (seq (length h1) (length h2)))
             = length (filter (fun c : Z => c <> 0) h2)).
  { induction h2 as [|z h2 IH]; intros h1; [done|]. simpl.
    specialize (IH (h1 ++ [z])). rewrite <- app_assoc, length_app in IH. simpl in IH.
    replace (length h1 + 1)%nat with (S (length h1)) in IH by lia.
    assert (Hz : H.at_ (h1 ++ z :: h2) (length h1) = z).
    { unfold H.at_. rewrite lookup_app_r by lia. by rewrite Nat.sub_diag. }
    destruct (decide (z = 0)) as [->|Hne].
    - rewrite filter_cons_False by (rewrite Hz; auto).
      rewrite (filter_cons_False (fun c : Z => c <> 0)) by auto. exact IH.
    - rewrite filter_cons_True by (by rewrite Hz).
      rewrite (filter_cons_True (fun c : Z => c <> 0)) by auto. simpl. by rewrite IH. }
  apply (Hgen h []).
Qed.

Lemma classLabels_bound (h : list Z) c :
  c ∈ classLabels h -> (c < length h)%nat.
Proof.
  unfold classLabels. rewrite list_elem_of_filter, elem_of_seq. lia.
Qed.

Lemma classLabels_two (h : list Z) :
  H.isPure h = false -> (2 <= length (classLabels h))%nat.
Proof.
  unfold H.isPure. rewrite classLabels_length. intros Hp.
  apply Nat.leb_gt in Hp. lia.
Qed.

Lemma length_sortedPointIndices storage C l :
  length (sortedPointIndices storage C l) = Z.to_nat C.
Proof.
  unfold sortedPointIndices.
  assert (forall v : list (list nat),
            length (foldl (fun v n => alter (fun ns => ns ++ [n])
                                            (getClassLabel storage n) v) v l)
            = length v) as ->.
  { induction l as [|n l IH]; intros v; simpl; [done|].
    by rewrite IH, length_alter. }
  apply length_replicate.
Qed.

Lemma optimiseAnchors_spec k storage C l : forall e best,
  Forall (fun n => (getClassLabel storage n < Z.to_nat C)%nat) l ->
  H.isPure (nodeHistogram storage C l) = false ->
  countedD storage l best \/ bestObjectiveD best = huge ->
  exists best' e',
    optimiseAnchors k storage (nodeHistogram storage C l) C l e best
    = Returns (best', e') /\
    (countedD storage l best' \/ bestObjectiveD best' = huge).
Proof.
  induction k as [|k IH]; intros e best Hl Hpure Hbest; simpl; [eauto|].
  set (hist := nodeHistogram storage C l) in *.
  pose proof (classLabels_two hist Hpure) as Htwo.
  pose proof (sampleTwo_range (Z.of_nat (length (classLabels hist)) - 1) e) as Hrange.
  destruct (sampleTwo (Z.of_nat (length (classLabels hist)) - 1) e) as [[i1 i2] e1].
  simpl in Hrange. destruct Hrange as [Hi1 Hi2]; [lia|]. simpl.
  destruct (classLabels hist !! Z.to_nat i1) as [c1|] eqn:Ec1;
    [|apply lookup_ge_None in Ec1; lia].
  destruct (classLabels hist !! Z.to_nat i2) as [c2|] eqn:Ec2;
    [|apply lookup_ge_None in Ec2; lia].
  assert (Hc1 : (c1 < Z.to_nat C)%nat).
  { apply list_elem_of_lookup_2 in Ec1. apply classLabels_bound in Ec1.
    unfold hist in Ec1. by rewrite length_nodeHistogram in Ec1. }
  assert (Hc2 : (c2 < Z.to_nat C)%nat).
  { apply list_elem_of_lookup_2 in Ec2. apply classLabels_bound in Ec2.
    unfold hist in Ec2. by rewrite length_nodeHistogram in Ec2. }
  destruct (sortedPointIndices storage C l !! c1) as [ns1|] eqn:En1;
    [|apply lookup_ge_None in En1; rewrite length_sortedPointIndices in En1; lia].
  destruct (sortedPointIndices storage C l !! c2) as [ns2|] eqn:En2;
    [|apply lookup_ge_None in En2; rewrite length_sortedPointIndices in En2; lia].
  destruct (getRandomEntry ns1 e1) as [n1 e2].
  destruct (getRandomEntry ns2 e2) as [n2 e3].
  set (x1 := getDataPoint storage n1). set (x2 := getDataPoint storage n2).
  set (threshold := fmul binary32 (1 # 2)%Q
                         (fsub binary32 (fsquaredNorm x2) (fsquaredNorm x1))).
  pose proof (countLeft_mass storage (Z.to_nat C) (belowBisector storage x1 x2 threshold)
                l (H.create C) hist Hl (length_create C)
                (length_nodeHistogram storage C l)) as [E1 E2].
  pose proof (filter_partition_length (belowBisector storage x1 x2 threshold) l) as Hfl.
  destruct (countLeft storage _ l (H.create C) hist) as [lh rh]. cbn [fst snd] in E1, E2.
  apply IH; auto.
  destruct (Qltb _ (bestObjectiveD best)); [|done].
  left. unfold countedD.
  cbn [bestProjection1 bestProjection2 bestThresholdD bestLeftMassD bestRightMassD].
  split.
  - rewrite E1, getMass_create. reflexivity.
  - rewrite E2. unfold hist. rewrite getMass_nodeHistogram by done. lia.
Qed.

Lemma DotProductDecisionTreeLearner_turn_spec L storage s node stack l N :
  wf_storage storage -> 0 < getClasscount storage ->
  splitStack s = node :: stack -> (node < length (tree s))%nat ->
  exampleList s node = Returns (l, N) ->
  exists s' ev,
    DotProductDecisionTreeLearner_turn L storage (getClasscount storage)
      (getDimensionality storage) s = Returns (s', ev) /\
    exactPartition L l ev /\
    match ev with
    | Finalized node' hist =>
        node' = node /\ hist = nodeHistogram storage (getClasscount storage) l /\
        exists line,
          finalizeLeaf line (tree s) node hist (smoothingParameter L) (useBootstrap L)
          = Returns (tree s')
    | Committed node' _ parent leftList rightList _ _ _ _ =>
        node' = node /\
        stops L (nodeHistogram storage (getClasscount storage) l)
              (getDepth (getNodeConfig (tree s) node)) = false /\
        exists x1 x2 threshold,
          tree s' = fst (splitNode node (setSplit node (DotProduct x1 x2 threshold) (tree s)))
    end.
Proof.
  intros Hwf HC Hstack Hnode Hl.
  pose proof (exampleList_inv _ _ _ _ Hl) as (HN & HlN & _).
  unfold DotProductDecisionTreeLearner_turn. rewrite Hstack, Hl. simpl.
  set (C := getClasscount storage) in *. set (D := getDimensionality storage) in *.
  set (hist := nodeHistogram storage C l).
  assert (Hhist : (0 < length hist)%nat).
  { unfold hist. rewrite length_nodeHistogram. lia. }
  destruct (stops L hist (getDepth (getNodeConfig (tree s) node))) eqn:Hstop.
  { destruct (finalizeLeaf_runs 663 (tree s) node hist (smoothingParameter L)
                (useBootstrap L) Hnode Hhist) as [t' Ht'].
    rewrite Ht'. simpl. eexists _, _. split; [reflexivity|]. simpl.
    repeat split; eauto. }
  destruct (optimiseAnchors_spec (Z.to_nat (numFeatures L)) storage C l (engine s)
              (mkBestAnchors 0%Q (Zero (Z.to_nat D)) (Zero (Z.to_nat D)) huge 0 N))
    as (best & e & Hopt & Hcounted); auto.
  { by apply labels_valid. }
  { unfold stops in Hstop. fold hist.
    destruct (H.isPure hist); [|done]. by rewrite orb_true_r in Hstop. }
  fold hist in Hopt. rewrite Hopt. simpl.
  destruct (Qltb large (bestObjectiveD best)
            || (bestLeftMassD best <? minChildSplitExamples L)
            || (bestRightMassD best <? minChildSplitExamples L)) eqn:Hcheck.
  { destruct (finalizeLeaf_runs 734 (tree s) node hist (smoothingParameter L)
                (useBootstrap L) Hnode Hhist) as [t' Ht'].
    rewrite Ht'. simpl. eexists _, _. split; [reflexivity|]. simpl.
    repeat split; eauto. }
  apply orb_false_iff in Hcheck as [Hcheck Hright].
  apply orb_false_iff in Hcheck as [Hfound Hleft].
  destruct Hcounted as [[Hcl Hcr]|Hinit];
    [|by rewrite Hinit, large_below_huge in Hfound].
  rewrite (partitionExamples_exact _ l _ _ Hcl Hcr). simpl.
  assert (Hsum : bestLeftMassD best + bestRightMassD best = N).
  { rewrite <- Hcl, <- Hcr, <- HlN, <- Nat2Z.inj_add. f_equal.
    apply filter_partition_length. }
  eexists _, _. split; [reflexivity|]. split.
  - simpl. repeat split; auto; try lia.
    + rewrite length_reverse. exact Hcl.
    + rewrite length_reverse. exact Hcr.
    + apply (filter_partition_perm
               (belowBisector storage (bestProjection1 best) (bestProjection2 best)
                              (bestThresholdD best))).
  - split; [done|]. split; [done|]. eexists _, _, _. apply tree_commit.
Qed.

End DotProductTurn.

(** ** Leaves of the batch learners *)

Section BatchLeaves.

Context `{P : Platform}.






End BatchLeaves.


(** ** Committed splits *)

Section CommittedSplits.

Context `{P : Platform}.


(** C5, amended.  When the axis-aligned learner commits a split of a
    node, the threshold stored in the node is the midpoint of the feature
    values of two examples of the node, as binary32 arithmetic gives it:
    the [float] sum of the two values, multiplied by [0.5f].  The two
    examples are neighbours in an ordering of the node's examples by the
    stored feature, and the test of line 206 does not skip them (a pair
    that it holds of is skipped).  The threshold is finite, lies above the
    value of the first and is not above the value of the second. *)
Theorem threshold_is_midpoint L storage _numFeatures s node stack l N s'
    N' parent leftList rightList leftSize rightSize leftCounter rightCounter :
  wf_storage storage -> 0 < getClasscount storage ->
  splitStack s = node :: stack -> (node < length (tree s))%nat ->
  exampleList s node = Returns (l, N) ->
  DecisionTreeLearner_turn L storage _numFeatures (getClasscount storage) s
  = Returns (s', Committed node N' parent leftList rightList
                           leftSize rightSize leftCounter rightCounter) ->
  exists feature pre a b post threshold,
    pre ++ a :: b :: post ≡ₚ l /\
    StronglySorted (featureLe storage feature) (pre ++ a :: b :: post) /\
    tooClose (featureValue storage feature a) (featureValue storage feature b) = false /\
    fmul binary32 (fadd binary32 (featureValue storage feature a)
                                 (featureValue storage feature b)) (1 # 2)%Q
    = Finite threshold /\
    split (getNodeConfig (tree s') node) = AxisAligned (Z.of_nat feature) (Finite threshold) /\
    (featureValue storage feature a < threshold)%Q /\
    (threshold <= featureValue storage feature b)%Q.
Proof.
  intros Hwf HC Hstack Hnode Hl Hrun.
  destruct (DecisionTreeLearner_turn_spec L storage _numFeatures s node stack l N
              _ _ Hwf HC Hstack Hl Hrun) as (_ & _ & _ & Hev).
  destruct Hev as (best & feature & pre & a & b & post & Hf & Hperm & Hsorted & Hclose & Ht
                   & _ & _ & Htree & Ha & Hb & _).
  rewrite Ht in Ha, Hb, Htree.
  destruct (fmul binary32 _ _) as [q|sg|] eqn:Eq.
  - exists feature, pre, a, b, post, q.
    unfold fltb in Ha, Hb. apply Qltb_lt in Ha. apply Qltb_ge in Hb.
    repeat split; auto.
    rewrite Htree, getNodeConfig_split.
    rewrite decide_True by done. simpl. by rewrite Hf.
  - unfold fltb in Ha, Hb. destruct sg; done.
  - done.
Qed.



(** The arrays of a committed split are what the partition loop leaves
    when it tests the examples as the descriptor written to the node
    does. *)
Lemma DecisionTreeLearner_turn_partitioned L storage _numFeatures C s s' ev :
  (forall node stack, splitStack s = node :: stack -> (node < length (tree s))%nat) ->
  DecisionTreeLearner_turn L storage _numFeatures C s = Returns (s', ev) ->
  partitionedBy storage s' ev.
Proof.
  unfold DecisionTreeLearner_turn. intros Hin Hrun.
  destruct (splitStack s) as [|n stack] eqn:Hstack; [done|].
  specialize (Hin n stack eq_refl).
  destruct (exampleList s n) as [[l N]| | | |] eqn:El; try done.
  cbn [mbind outcome_bind] in Hrun.
  destruct (stops L _ _) eqn:Hstop.
  - destruct (finalizeLeaf 158 _ _ _ _ _) as [t| | | |] eqn:Ef; try done.
    cbn [mbind outcome_bind] in Hrun. by inversion Hrun; subst.
  - cbn [rd_draw] in Hrun.
    destruct (optimise _ _ _ _ _ _ _) as [[best sorted]| | | |] eqn:Eo; try done.
    cbn [mbind outcome_bind] in Hrun.
    destruct (_ || _) eqn:Echeck.
    + destruct (finalizeLeaf 241 _ _ _ _ _) as [t| | | |] eqn:Ef; try done.
      cbn [mbind outcome_bind] in Hrun. by inversion Hrun; subst.
    + destruct (partitionExamples _ _ _ _ _ _) as [[[[LA RA] lc] rc]| | | |] eqn:Ep; try done.
      cbn [mbind outcome_bind] in Hrun. unfold BOOST_ASSERT in Hrun.
      destruct (lc =? 0); [|done]. destruct (rc =? 0); [|done].
      cbn [mbind outcome_bind] in Hrun.
      match type of Hrun with Returns (?a, ?b) = _ =>
        assert (Hs' : a = s') by congruence; assert (Hev : b = ev) by congruence end.
      rewrite <- Hev, <- Hs'. cbn [partitionedBy].
      rewrite tree_commit, getNodeConfig_split. rewrite decide_True by done. cbn [split].
      exact Ep.
Qed.

Lemma ProjectiveDecisionTreeLearner_turn_partitioned L storage C D s s' ev :
  (forall node stack, splitStack s = node :: stack -> (node < length (tree s))%nat) ->
  ProjectiveDecisionTreeLearner_turn L storage C D s = Returns (s', ev) ->
  partitionedBy storage s' ev.
Proof.
  unfold ProjectiveDecisionTreeLearner_turn. intros Hin Hrun.
  destruct (splitStack s) as [|n stack] eqn:Hstack; [done|].
  specialize (Hin n stack eq_refl).
  destruct (exampleList s n) as [[l N]| | | |] eqn:El; try done.
  cbn [mbind outcome_bind] in Hrun.
  destruct (stops L _ _) eqn:Hstop.
  - destruct (finalizeLeaf 427 _ _ _ _ _) as [t| | | |] eqn:Ef; try done.
    cbn [mbind outcome_bind] in Hrun. by inversion Hrun; subst.
  - destruct (optimiseProjection _ _ _ _ _ _ _ _) as [[best e]| | | |] eqn:Eo; try done.
    cbn [mbind outcome_bind] in Hrun.
    destruct (_ || _) eqn:Echeck.
    + destruct (finalizeLeaf 499 _ _ _ _ _) as [t| | | |] eqn:Ef; try done.
      cbn [mbind outcome_bind] in Hrun. by inversion Hrun; subst.
    + destruct (partitionExamples _ _ _ _ _ _) as [[[[LA RA] lc] rc]| | | |] eqn:Ep; try done.
      cbn [mbind outcome_bind] in Hrun.
      match type of Hrun with Returns (?a, ?b) = _ =>
        assert (Hs' : a = s') by congruence; assert (Hev : b = ev) by congruence end.
      rewrite <- Hev, <- Hs'. cbn [partitionedBy].
      rewrite tree_commit, getNodeConfig_split. rewrite decide_True by done. cbn [split].
      exact Ep.
Qed.

Lemma DotProductDecisionTreeLearner_turn_partitioned L storage C D s s' ev :
  (forall node stack, splitStack s = node :: stack -> (node < length (tree s))%nat) ->
  DotProductDecisionTreeLearner_turn L storage C D s = Returns (s', ev) ->
  partitionedBy storage s' ev.
Proof.
  unfold DotProductDecisionTreeLearner_turn. intros Hin Hrun.
  destruct (splitStack s) as [|n stack] eqn:Hstack; [done|].
  specialize (Hin n stack eq_refl).
  destruct (exampleList s n) as [[l N]| | | |] eqn:El; try done.
  cbn [mbind outcome_bind] in Hrun.
  destruct (stops L _ _) eqn:Hstop.
  - destruct (finalizeLeaf 663 _ _ _ _ _) as [t| | | |] eqn:Ef; try done.
    cbn [mbind outcome_bind] in Hrun. by inversion Hrun; subst.
  - destruct (optimiseAnchors _ _ _ _ _ _ _) as [[best e]| | | |] eqn:Eo; try done.
    cbn [mbind outcome_bind] in Hrun.
    destruct (_ || _) eqn:Echeck.
    + destruct (finalizeLeaf 734 _ _ _ _ _) as [t| | | |] eqn:Ef; try done.
      cbn [mbind outcome_bind] in Hrun. by inversion Hrun; subst.
    + destruct (partitionExamples _ _ _ _ _ _) as [[[[LA RA] lc] rc]| | | |] eqn:Ep; try done.
      cbn [mbind outcome_bind] in Hrun.
      match type of Hrun with Returns (?a, ?b) = _ =>
        assert (Hs' : a = s') by congruence; assert (Hev : b = ev) by congruence end.
      rewrite <- Hev, <- Hs'. cbn [partitionedBy].
      rewrite tree_commit, getNodeConfig_split. rewrite decide_True by done. cbn [split].
      exact Ep.
Qed.


End CommittedSplits.

Lemma wf_fourPoints : wf_storage Reference.fourPoints.
Proof.
  split; [done|]. unfold Reference.fourPoints. simpl.
  repeat constructor.
Qed.


(** The first turn of the axis-aligned learner on the four points stores
    the threshold 11/2, the midpoint of the values 1 and 10 of the
    examples 1 and 2, which binary32 arithmetic gives exactly. *)
Lemma threshold_is_midpoint_witness :
  DecisionTreeLearner_turn (Reference.config 1 5 1 1) Reference.fourPoints 1 2
    Reference.rootState
  = Returns (Reference.splitState,
             Committed 0 4 [0; 1; 2; 3]%nat [1; 0]%nat [3; 2]%nat 2 2 0 0) /\
  exists feature pre a b post threshold,
    pre ++ a :: b :: post ≡ₚ [0; 1; 2; 3]%nat /\
    StronglySorted (featureLe Reference.fourPoints feature) (pre ++ a :: b :: post) /\
    tooClose (featureValue Reference.fourPoints feature a)
             (featureValue Reference.fourPoints feature b) = false /\
    fmul binary32 (fadd binary32 (featureValue Reference.fourPoints feature a)
                                 (featureValue Reference.fourPoints feature b)) (1 # 2)%Q
    = Finite threshold /\
    split (getNodeConfig (tree Reference.splitState) 0)
    = AxisAligned (Z.of_nat feature) (Finite threshold) /\
    (featureValue Reference.fourPoints feature a < threshold)%Q /\
    (threshold <= featureValue Reference.fourPoints feature b)%Q.
Proof.
  assert (Hrun : DecisionTreeLearner_turn (Reference.config 1 5 1 1) Reference.fourPoints 1 2
                   Reference.rootState
                 = Returns (Reference.splitState,
                            Committed 0 4 [0; 1; 2; 3]%nat [1; 0]%nat [3; 2]%nat 2 2 0 0))
    by reflexivity.
  split; [exact Hrun|].
  apply (threshold_is_midpoint (Reference.config 1 5 1 1) Reference.fourPoints 1
           Reference.rootState 0%nat [] [0; 1; 2; 3]%nat 4 Reference.splitState
           4 [0; 1; 2; 3]%nat [1; 0]%nat [3; 2]%nat 2 2 0 0).
  - exact wf_fourPoints.
  - reflexivity.
  - reflexivity.
  - simpl. lia.
  - reflexivity.
  - exact Hrun.
Defined.

(** C5 as stated fails: the midpoint is rounded.  The two points with the
    neighbouring binary32 values [-8796095 / 2^43] and [-8796094 / 2^43],
    of two classes, are not skipped by the test of line 206; the [float]
    sum of the two values, halved, is the second value.  The turn commits
    the split of the root with this threshold, which is not the midpoint
    of the two values and does not lie strictly between them. *)
Lemma threshold_is_an_observed_value :
  tooClose (featureValue Reference.closePoints 0 0) (featureValue Reference.closePoints 0 1)
  = false /\
  DecisionTreeLearner_turn (Reference.config 1 5 1 1) Reference.closePoints 1 2
    Reference.closeState
  = Returns (Reference.closeSplit, Committed 0 2 [0; 1]%nat [0%nat] [1%nat] 1 1 0 0) /\
  (exists threshold,
     split (getNodeConfig (tree Reference.closeSplit) 0) = AxisAligned 0 threshold) /\
  feq (thresholdOf (split (getNodeConfig (tree Reference.closeSplit) 0)))
      (featureValue Reference.closePoints 0 1) /\
  ~ feq (thresholdOf (split (getNodeConfig (tree Reference.closeSplit) 0)))
        ((featureValue Reference.closePoints 0 0
          + featureValue Reference.closePoints 0 1) / 2)%Q /\
  fltb (thresholdOf (split (getNodeConfig (tree Reference.closeSplit) 0)))
       (featureValue Reference.closePoints 0 1) = false.
Proof.
  split; [by vm_compute|]. split; [reflexivity|]. split.
  { vm_compute. by eexists. }
  split; [by vm_compute|].
  split; [intros H; vm_compute in H; done|by vm_compute].
Qed.


(** ** Thresholds that do not separate *)

Lemma closerPoints_turn :
  DecisionTreeLearner_turn (Reference.config 1 5 1 1) Reference.closerPoints 1 2
    Reference.closerState = Undefined.
Proof. reflexivity. Qed.

Lemma hugePoints_turn :
  DecisionTreeLearner_turn (Reference.config 1 5 1 1) Reference.hugePoints 1 2
    Reference.hugeState = Undefined.
Proof. reflexivity. Qed.

(** The first turn of the axis-aligned learner without bootstrap. *)
Lemma DecisionTreeLearner_learn_first_turn `{P : Platform} (L : Learner)
    (dataStorage : DataStorage) (gl : Globals) (fuel : nat) :
  numFeatures L <= getDimensionality dataStorage ->
  useBootstrap L = false ->
  0 < getSize dataStorage ->
  DecisionTreeLearner_learn L dataStorage gl (S fuel)
  = ('(s, _) ← DecisionTreeLearner_turn L dataStorage
                 (if numFeatures L <? 0 then Z.sqrt (getDimensionality dataStorage)
                  else numFeatures L)
                 (getClasscount dataStorage) (initialState dataStorage (g gl) (rd gl));
     s' ← DecisionTreeLearner_loop fuel L dataStorage
            (if numFeatures L <? 0 then Z.sqrt (getDimensionality dataStorage)
             else numFeatures L)
            (getClasscount dataStorage) s;
     Returns (tree s', mkGlobals (device s') (g gl) (sampler gl))).
Proof.
  intros Hnf Hboot Hsize. unfold DecisionTreeLearner_learn, BOOST_ASSERT, vectorSize, fastlog2.
  rewrite Hboot, (proj2 (Z.leb_le _ _) Hnf).
  rewrite (proj2 (Z.leb_gt _ _) Hsize).
  rewrite (proj2 (Z.ltb_ge _ _) (Z.log2_nonneg _)).
  cbn [mbind outcome_bind DecisionTreeLearner_loop initialState splitStack].
  by destruct (DecisionTreeLearner_turn _ _ _ _ _) as [[s ev]| | | |].
Qed.

(** X20.  The axis-aligned learner does not return a tree on every data
    set of two classes.  The values [-8796094 / 2^43] and
    [-8796093 / 2^43] are not skipped by the test of line 206, and their
    [float] sum, halved, is the first of them: no example lies below the
    threshold, and the partition loop, which was to write one example to
    each array, writes the second one before the first cell of the right
    array (line 270).  The sum of [2^127] and [1.5 * 2^127] is the [float]
    infinity: both examples lie below the threshold, and the loop writes
    before the first cell of the left array (line 266).  No split is
    committed, however many turns the learner is given. *)
Theorem rounded_threshold_does_not_separate (fuel : nat) :
  (tooClose (featureValue Reference.closerPoints 0 0)
            (featureValue Reference.closerPoints 0 1) = false /\
   feq (fmul binary32 (fadd binary32 (featureValue Reference.closerPoints 0 0)
                                     (featureValue Reference.closerPoints 0 1)) (1 # 2)%Q)
       (featureValue Reference.closerPoints 0 0) /\
   DecisionTreeLearner_learn (Reference.config 1 5 1 1) Reference.closerPoints
                             Reference.globals0 (S fuel) = Undefined) /\
  (tooClose (featureValue Reference.hugePoints 0 0)
            (featureValue Reference.hugePoints 0 1) = false /\
   fmul binary32 (fadd binary32 (featureValue Reference.hugePoints 0 0)
                                (featureValue Reference.hugePoints 0 1)) (1 # 2)%Q
   = Infinite false /\
   DecisionTreeLearner_learn (Reference.config 1 5 1 1) Reference.hugePoints
                             Reference.globals0 (S fuel) = Undefined).
Proof.
  split; (split; [by vm_compute|]; split; [by vm_compute|]).
  - rewrite DecisionTreeLearner_learn_first_turn by done.
    change (DecisionTreeLearner_turn _ _ _ _ _) with
      (DecisionTreeLearner_turn (Reference.config 1 5 1 1) Reference.closerPoints 1 2
         Reference.closerState).
    by rewrite closerPoints_turn.
  - rewrite DecisionTreeLearner_learn_first_turn by done.
    change (DecisionTreeLearner_turn _ _ _ _ _) with
      (DecisionTreeLearner_turn (Reference.config 1 5 1 1) Reference.hugePoints 1 2
         Reference.hugeState).
    by rewrite hugePoints_turn.
Qed.

(** ** The check of the feature count *)

Section FeatureCount.

Context `{P : Platform}.

(** C6, as the code has it.  When the configured feature count exceeds
    the dimensionality of the data set, the axis-aligned learner fails
    the assertion of line 50 and the online learner the assertion of
    line 830, whatever the other arguments are.  (The projective and the
    dot-product learner make no such check: for them the count is the
    number of candidate splits tried per node.) *)
Theorem feature_count_is_checked L dataStorage gl fuel t :
  getDimensionality dataStorage < numFeatures L ->
  DecisionTreeLearner_learn L dataStorage gl fuel = AssertFails 50 /\
  OnlineDecisionTreeLearner_learn L dataStorage t gl = AssertFails 830.
Proof.
  intros Hgt. split.
  - unfold DecisionTreeLearner_learn, BOOST_ASSERT.
    destruct (numFeatures L <=? getDimensionality dataStorage) eqn:E; [lia|done].
  - unfold OnlineDecisionTreeLearner_learn, BOOST_ASSERT.
    destruct (numFeatures L <=? getDimensionality dataStorage) eqn:E; [lia|].
    by rewrite andb_false_r.
Qed.

End FeatureCount.

(** Five features asked of the one-dimensional four-point data set. *)
Lemma feature_count_is_checked_witness :
  getDimensionality Reference.fourPoints < numFeatures (Reference.config 5 5 1 1) /\
  DecisionTreeLearner_learn (Reference.config 5 5 1 1) Reference.fourPoints
    Reference.globals0 10 = AssertFails 50 /\
  OnlineDecisionTreeLearner_learn (Reference.config 5 5 1 1) Reference.fourPoints
    [] Reference.globals0 = AssertFails 830.
Proof.
  split; [reflexivity|].
  apply (feature_count_is_checked (Reference.config 5 5 1 1) Reference.fourPoints
           Reference.globals0 10 []).
  reflexivity.
Defined.

(** With five features asked of the one-dimensional four-point data set,
    the projective and the dot-product learner return a tree of three
    nodes. *)
Lemma feature_count_not_checked :
  getDimensionality Reference.fourPoints < numFeatures (Reference.config 5 5 1 1) /\
  length <$> returnedTree (ProjectiveDecisionTreeLearner_learn (Reference.config 5 5 1 1)
                             Reference.fourPoints Reference.globals0 10) = Some 3%nat /\
  length <$> returnedTree (DotProductDecisionTreeLearner_learn (Reference.config 5 5 1 1)
                             Reference.fourPoints Reference.globals0 10) = Some 3%nat.
Proof.
  split; [reflexivity|]. split; vm_compute; reflexivity.
Qed.

(** ** The depth of the nodes *)

Section Depth.

Context `{P : Platform}.

Lemma depthBounded_setNodeData m t node d :
  depthBounded m t -> depthBounded m (setNodeData node d t).
Proof.
  intros Ht k Hk. rewrite length_setNodeData in Hk.
  rewrite getNodeConfig_setNodeData. by apply Ht.
Qed.

Lemma depthBounded_split m t node desc :
  depthBounded m t -> depth (getNodeConfig t node) < m ->
  depthBounded m (fst (splitNode node (setSplit node desc t))).
Proof.
  intros Ht Hd k Hk. rewrite length_commit_tree in Hk.
  rewrite getNodeConfig_split.
  destruct (decide (k = node /\ (node < length t)%nat)) as [[-> Hn]|Hne].
  - simpl. split; [|done]. apply Ht. done.
  - destruct (decide (k = length t \/ k = S (length t))) as [Hnew|Hold].
    + simpl. split; [lia|done].
    + apply Ht. lia.
Qed.

Lemma depthBounded_treeStep L t t' :
  treeStep L t t' -> depthBounded (maxDepth L) t -> depthBounded (maxDepth L) t'.
Proof.
  intros [(node & d & ->)|(node & desc & Hd & ->)] Ht.
  - by apply depthBounded_setNodeData.
  - by apply depthBounded_split.
Qed.

Lemma depthBounded_root m : depthBounded m (fst (addNode [])).
Proof.
  intros k Hk. simpl in Hk. destruct k as [|k]; [|lia].
  unfold getNodeConfig. simpl. split; [lia|done].
Qed.

Lemma getNodeConfig_updateHistograms t dataStorage smoothing k :
  getNodeConfig (updateHistograms t dataStorage smoothing) k = getNodeConfig t k.
Proof.
  unfold getNodeConfig, updateHistograms. rewrite list_lookup_imap.
  destruct (t !! k) as [[c d]|]; simpl; [|done].
  by destruct (leftChild c).
Qed.

Lemma length_updateHistograms t dataStorage smoothing :
  length (updateHistograms t dataStorage smoothing) = length t.
Proof. apply length_imap. Qed.

Lemma depthBounded_updateHistograms m t dataStorage smoothing :
  depthBounded m t -> depthBounded m (updateHistograms t dataStorage smoothing).
Proof.
  intros Ht k Hk. rewrite length_updateHistograms in Hk.
  rewrite getNodeConfig_updateHistograms. by apply Ht.
Qed.

Lemma stops_false_depth L hist d : stops L hist d = false -> d < maxDepth L.
Proof.
  unfold stops. intros Hs. apply orb_false_iff in Hs as [_ Hs]. lia.
Qed.

(** *** The turns of the batch learners change the tree by a step *)

Lemma finalizeLeaf_treeStep L line t node hist smoothing boot t' :
  finalizeLeaf line t node hist smoothing boot = Returns t' -> treeStep L t t'.
Proof.
  intros Hf. apply finalizeLeaf_inv in Hf as (_ & _ & ->). left. eauto.
Qed.

Lemma DecisionTreeLearner_turn_treeStep L storage _numFeatures C s s' ev :
  DecisionTreeLearner_turn L storage _numFeatures C s = Returns (s', ev) ->
  treeStep L (tree s) (tree s').
Proof.
  unfold DecisionTreeLearner_turn. intros Hrun.
  destruct (splitStack s) as [|n stack]; [done|].
  destruct (exampleList s n) as [[l N]| | | |] eqn:El; try done.
  cbn [mbind outcome_bind] in Hrun.
  destruct (stops L _ _) eqn:Hstop.
  - destruct (finalizeLeaf 158 _ _ _ _ _) as [t| | | |] eqn:Ef; try done.
    cbn [mbind outcome_bind] in Hrun. inversion Hrun; subst.
    eapply finalizeLeaf_treeStep; eauto.
  - cbn [rd_draw] in Hrun.
    destruct (optimise _ _ _ _ _ _ _) as [[best sorted]| | | |]; try done.
    cbn [mbind outcome_bind] in Hrun.
    destruct (_ || _).
    + destruct (finalizeLeaf 241 _ _ _ _ _) as [t| | | |] eqn:Ef; try done.
      cbn [mbind outcome_bind] in Hrun. inversion Hrun; subst.
      eapply finalizeLeaf_treeStep; eauto.
    + destruct (partitionExamples _ _ _ _ _ _) as [[[[LA RA] lc] rc]| | | |]; try done.
      cbn [mbind outcome_bind] in Hrun. unfold BOOST_ASSERT in Hrun.
      destruct (lc =? 0); [|done]. destruct (rc =? 0); [|done].
      cbn [mbind outcome_bind] in Hrun.
      match type of Hrun with Returns (?a, _) = _ =>
        assert (Hs' : a = s') by congruence end.
      rewrite <- Hs', tree_commit. right. eexists _, _. split; [|reflexivity].
      eapply stops_false_depth; eauto.
Qed.

Lemma ProjectiveDecisionTreeLearner_turn_treeStep L storage C D s s' ev :
  ProjectiveDecisionTreeLearner_turn L storage C D s = Returns (s', ev) ->
  treeStep L (tree s) (tree s').
Proof.
  unfold ProjectiveDecisionTreeLearner_turn. intros Hrun.
  destruct (splitStack s) as [|n stack]; [done|].
  destruct (exampleList s n) as [[l N]| | | |] eqn:El; try done.
  cbn [mbind outcome_bind] in Hrun.
  destruct (stops L _ _) eqn:Hstop.
  - destruct (finalizeLeaf 427 _ _ _ _ _) as [t| | | |] eqn:Ef; try done.
    cbn [mbind outcome_bind] in Hrun. inversion Hrun; subst.
    eapply finalizeLeaf_treeStep; eauto.
  - destruct (optimiseProjection _ _ _ _ _ _ _ _) as [[best e]| | | |]; try done.
    cbn [mbind outcome_bind] in Hrun.
    destruct (_ || _).
    + destruct (finalizeLeaf 499 _ _ _ _ _) as [t| | | |] eqn:Ef; try done.
      cbn [mbind outcome_bind] in Hrun. inversion Hrun; subst.
      eapply finalizeLeaf_treeStep; eauto.
    + destruct (partitionExamples _ _ _ _ _ _) as [[[[LA RA] lc] rc]| | | |]; try done.
      cbn [mbind outcome_bind] in Hrun.
      match type of Hrun with Returns (?a, _) = _ =>
        assert (Hs' : a = s') by congruence end.
      rewrite <- Hs', tree_commit. right. eexists _, _. split; [|reflexivity].
      eapply stops_false_depth; eauto.
Qed.

Lemma DotProductDecisionTreeLearner_turn_treeStep L storage C D s s' ev :
  DotProductDecisionTreeLearner_turn L storage C D s = Returns (s', ev) ->
  treeStep L (tree s) (tree s').
Proof.
  unfold DotProductDecisionTreeLearner_turn. intros Hrun.
  destruct (splitStack s) as [|n stack]; [done|].
  destruct (exampleList s n) as [[l N]| | | |] eqn:El; try done.
  cbn [mbind outcome_bind] in Hrun.
  destruct (stops L _ _) eqn:Hstop.
  - destruct (finalizeLeaf 663 _ _ _ _ _) as [t| | | |] eqn:Ef; try done.
    cbn [mbind outcome_bind] in Hrun. inversion Hrun; subst.
    eapply finalizeLeaf_treeStep; eauto.
  - destruct (optimiseAnchors _ _ _ _ _ _ _) as [[best e]| | | |]; try done.
    cbn [mbind outcome_bind] in Hrun.
    destruct (_ || _).
    + destruct (finalizeLeaf 734 _ _ _ _ _) as [t| | | |] eqn:Ef; try done.
      cbn [mbind outcome_bind] in Hrun. inversion Hrun; subst.
      eapply finalizeLeaf_treeStep; eauto.
    + destruct (partitionExamples _ _ _ _ _ _) as [[[[LA RA] lc] rc]| | | |]; try done.
      cbn [mbind outcome_bind] in Hrun.
      match type of Hrun with Returns (?a, _) = _ =>
        assert (Hs' : a = s') by congruence end.
      rewrite <- Hs', tree_commit. right. eexists _, _. split; [|reflexivity].
      eapply stops_false_depth; eauto.
Qed.

(** *** The loops *)

Lemma DecisionTreeLearner_loop_invariant (Inv : State -> Prop) L storage _numFeatures C :
  (forall s s' ev, Inv s ->
     DecisionTreeLearner_turn L storage _numFeatures C s = Returns (s', ev) -> Inv s') ->
  forall fuel s s', Inv s ->
    DecisionTreeLearner_loop fuel L storage _numFeatures C s = Returns s' -> Inv s'.
Proof.
  intros Hturn fuel. induction fuel as [|fuel IH]; intros s s' Hs Hrun; simpl in Hrun.
  - destruct (splitStack s); [by inversion Hrun; subst|done].
  - destruct (splitStack s); [by inversion Hrun; subst|].
    destruct (DecisionTreeLearner_turn L storage _numFeatures C s) as [[s1 ev]| | | |] eqn:E;
      try done.
    cbn [mbind outcome_bind] in Hrun. eapply IH; [|exact Hrun]. eapply Hturn; eauto.
Qed.

Lemma ProjectiveDecisionTreeLearner_loop_invariant (Inv : State -> Prop) L storage C D :
  (forall s s' ev, Inv s ->
     ProjectiveDecisionTreeLearner_turn L storage C D s = Returns (s', ev) -> Inv s') ->
  forall fuel s s', Inv s ->
    ProjectiveDecisionTreeLearner_loop fuel L storage C D s = Returns s' -> Inv s'.
Proof.
  intros Hturn fuel. induction fuel as [|fuel IH]; intros s s' Hs Hrun; simpl in Hrun.
  - destruct (splitStack s); [by inversion Hrun; subst|done].
  - destruct (splitStack s); [by inversion Hrun; subst|].
    destruct (ProjectiveDecisionTreeLearner_turn L storage C D s) as [[s1 ev]| | | |] eqn:E;
      try done.
    cbn [mbind outcome_bind] in Hrun. eapply IH; [|exact Hrun]. eapply Hturn; eauto.
Qed.

Lemma DotProductDecisionTreeLearner_loop_invariant (Inv : State -> Prop) L storage C D :
  (forall s s' ev, Inv s ->
     DotProductDecisionTreeLearner_turn L storage C D s = Returns (s', ev) -> Inv s') ->
  forall fuel s s', Inv s ->
    DotProductDecisionTreeLearner_loop fuel L storage C D s = Returns s' -> Inv s'.
Proof.
  intros Hturn fuel. induction fuel as [|fuel IH]; intros s s' Hs Hrun; simpl in Hrun.
  - destruct (splitStack s); [by inversion Hrun; subst|done].
  - destruct (splitStack s); [by inversion Hrun; subst|].
    destruct (DotProductDecisionTreeLearner_turn L storage C D s) as [[s1 ev]| | | |] eqn:E;
      try done.
    cbn [mbind outcome_bind] in Hrun. eapply IH; [|exact Hrun]. eapply Hturn; eauto.
Qed.

(** *** The trees the batch learners return *)

Lemma DecisionTreeLearner_learn_depth L dataStorage gl fuel t gl' :
  DecisionTreeLearner_learn L dataStorage gl fuel = Returns (t, gl') ->
  depthBounded (maxDepth L) t.
Proof.
  unfold DecisionTreeLearner_learn, BOOST_ASSERT. intros Hrun.
  destruct (numFeatures L <=? getDimensionality dataStorage); [|done].
  cbn [mbind outcome_bind] in Hrun.
  destruct (if useBootstrap L then _ else _) as [[storage sampled] gl1].
  destruct (vectorSize 90 _) as [[]| | | |]; try done.
  cbn [mbind outcome_bind] in Hrun.
  destruct (DecisionTreeLearner_loop _ _ _ _ _ _) as [s| | | |] eqn:Eloop; try done.
  cbn [mbind outcome_bind] in Hrun. inversion Hrun; subst.
  apply (DecisionTreeLearner_loop_invariant
           (fun s => depthBounded (maxDepth L) (tree s))) in Eloop.
  - destruct (useBootstrap L); [by apply depthBounded_updateHistograms|done].
  - intros s0 s1 ev Hs0 Hturn. eapply depthBounded_treeStep; [|exact Hs0].
    eapply DecisionTreeLearner_turn_treeStep; eauto.
  - apply depthBounded_root.
Qed.

Lemma ProjectiveDecisionTreeLearner_learn_depth L dataStorage gl fuel t gl' :
  ProjectiveDecisionTreeLearner_learn L dataStorage gl fuel = Returns (t, gl') ->
  depthBounded (maxDepth L) t.
Proof.
  unfold ProjectiveDecisionTreeLearner_learn. intros Hrun.
  destruct (if useBootstrap L then _ else _) as [[storage sampled] gl1].
  cbn [rd_draw] in Hrun.
  destruct (ProjectiveDecisionTreeLearner_loop _ _ _ _ _ _) as [s| | | |] eqn:Eloop; try done.
  cbn [mbind outcome_bind] in Hrun. inversion Hrun; subst.
  apply (ProjectiveDecisionTreeLearner_loop_invariant
           (fun s => depthBounded (maxDepth L) (tree s))) in Eloop.
  - destruct (useBootstrap L); [by apply depthBounded_updateHistograms|done].
  - intros s0 s1 ev Hs0 Hturn. eapply depthBounded_treeStep; [|exact Hs0].
    eapply ProjectiveDecisionTreeLearner_turn_treeStep; eauto.
  - apply depthBounded_root.
Qed.

Lemma DotProductDecisionTreeLearner_learn_depth L dataStorage gl fuel t gl' :
  DotProductDecisionTreeLearner_learn L dataStorage gl fuel = Returns (t, gl') ->
  depthBounded (maxDepth L) t.
Proof.
  unfold DotProductDecisionTreeLearner_learn. intros Hrun.
  destruct (if useBootstrap L then _ else _) as [[storage sampled] gl1].
  cbn [rd_draw] in Hrun.
  destruct (DotProductDecisionTreeLearner_loop _ _ _ _ _ _) as [s| | | |] eqn:Eloop; try done.
  cbn [mbind outcome_bind] in Hrun. inversion Hrun; subst.
  apply (DotProductDecisionTreeLearner_loop_invariant
           (fun s => depthBounded (maxDepth L) (tree s))) in Eloop.
  - destruct (useBootstrap L); [by apply depthBounded_updateHistograms|done].
  - intros s0 s1 ev Hs0 Hturn. eapply depthBounded_treeStep; [|exact Hs0].
    eapply DotProductDecisionTreeLearner_turn_treeStep; eauto.
  - apply depthBounded_root.
Qed.

End Depth.

(** ** One visit of the online learner *)

Section OnlineVisit.

Context `{P : Platform}.

Lemma keepLeaf_inv st leaf d st' ev :
  keepLeaf st leaf d = Returns (st', ev) ->
  (0 < length (nodeStatistics d))%nat /\ ev = Kept leaf /\
  st' = mkOnline (setNodeData leaf
                    (setHistogram (smoothedVector (nodeStatistics d)
                                                  (smoothingParameter (learner st))) d)
                    (otree st))
                 (learner st) (features st) (globals st).
Proof.
  unfold keepLeaf. intros Hk.
  destruct (updateLeafNodeHistogram _ _ _ _) as [v| | | |] eqn:Ev; try done.
  cbn [mbind outcome_bind] in Hk.
  apply updateLeafNodeHistogram_inv in Ev as [Hlen ->].
  inversion Hk; subst. done.
Qed.


(** The tree after the leaf has been split at a slot: the leaf has the
    feature and the threshold of the slot and no statistics but its own
    histogram of classes, and the two children carry the smoothed
    statistics of the two sides of the slot. *)
Lemma splitLeaf_inv D st leaf d best st' ev :
  splitLeaf D st leaf d best = Returns (st', ev) ->
  0 <= bestFeatureO best /\
  exists feature (threshold : Q) hl hr,
    nodeFeatures d !! Z.to_nat (bestFeatureO best) = Some feature /\
    Z.of_nat feature < D /\
    nodeThresholds d !! Z.to_nat (bestFeatureO best)
      ≫= (fun ts => ts !! Z.to_nat (bestThresholdO best)) = Some threshold /\
    leftChildStatistics d
      !! slot (learner st) (Z.to_nat (bestFeatureO best)) (Z.to_nat (bestThresholdO best))
    = Some hl /\
    rightChildStatistics d
      !! slot (learner st) (Z.to_nat (bestFeatureO best)) (Z.to_nat (bestThresholdO best))
    = Some hr /\
    (0 < length hl)%nat /\ (0 < length hr)%nat /\
    ev = Split leaf (length (otree st)) best /\
    learner st' = learner st /\ features st' = features st /\ globals st' = globals st /\
    otree st' = splitTree (learner st) leaf d (AxisAligned (Z.of_nat feature) threshold)
                          hl hr (otree st).
Proof.
  unfold splitLeaf, BOOST_ASSERT. intros Hs.
  destruct (0 <=? bestFeatureO best) eqn:Ef; [|done].
  cbn [mbind outcome_bind] in Hs.
  destruct (nodeFeatures d !! Z.to_nat (bestFeatureO best)) as [feature|] eqn:Efeat; [|done].
  destruct (Z.of_nat feature <? D) eqn:ED; [|done].
  cbn [mbind outcome_bind] in Hs.
  destruct (nodeThresholds d !! Z.to_nat (bestFeatureO best) ≫= _) as [threshold|] eqn:Eth;
    [|done].
  destruct (leftChildStatistics d !! _) as [hl|] eqn:El; [|done].
  destruct (rightChildStatistics d !! _) as [hr|] eqn:Er; [|done].
  destruct (splitNode leaf _) as [t2 leftChild] eqn:Esplit.
  pose proof (length_splitNode
                (setSplit leaf (AxisAligned (Z.of_nat feature) threshold)
                          (setNodeData leaf d (otree st))) leaf) as [_ Hlc].
  rewrite Esplit in Hlc. cbn [snd] in Hlc.
  rewrite length_setSplit, length_setNodeData in Hlc.
  destruct (updateLeafNodeHistogram _ hl _ _) as [vl| | | |] eqn:Evl; try done.
  cbn [mbind outcome_bind] in Hs.
  destruct (updateLeafNodeHistogram _ hr _ _) as [vr| | | |] eqn:Evr; try done.
  cbn [mbind outcome_bind] in Hs.
  apply updateLeafNodeHistogram_inv in Evl as [Hhl ->].
  apply updateLeafNodeHistogram_inv in Evr as [Hhr ->].
  split; [lia|]. exists feature, threshold, hl, hr.
  assert (Est : st' = mkOnline (splitTree (learner st) leaf d
                                  (AxisAligned (Z.of_nat feature) threshold) hl hr (otree st))
                               (learner st) (features st) (globals st)).
  { unfold splitTree. rewrite Esplit. congruence. }
  assert (Eev : ev = Split leaf (length (otree st)) best) by congruence.
  rewrite Est. cbn [otree learner features globals].
  repeat split; auto; lia.
Qed.

End OnlineVisit.

(** ** The scan of the slots *)

Section Scan.

Context `{P : Platform}.

Lemma elem_of_scanOrder L f t :
  (f, t) ∈ scanOrder L <->
  (f < Z.to_nat (numFeatures L))%nat /\ (t < Z.to_nat (numThresholds L))%nat.
Proof.
  unfold scanOrder. rewrite list_elem_of_bind. split.
  - intros (f' & Hin & Hf). apply list_elem_of_bind in Hin as (t' & Hin & Ht).
    apply list_elem_of_singleton in Hin. inversion Hin; subst.
    apply elem_of_seq in Hf, Ht. lia.
  - intros [Hf Ht]. exists f. split; [|apply elem_of_seq; lia].
    apply list_elem_of_bind. exists t. split; [by apply list_elem_of_singleton|].
    apply elem_of_seq. lia.
Qed.

Lemma slot_allocated L f t :
  (f < Z.to_nat (numFeatures L))%nat -> (t < Z.to_nat (numThresholds L))%nat ->
  (slot L f t < Z.to_nat (numFeatures L * numThresholds L))%nat.
Proof.
  intros Hf Ht. unfold slot. rewrite Z2Nat.inj_mul by lia. nia.
Qed.

Lemma slotGain_lookup L d ft hl hr :
  leftChildStatistics d !! slot L (fst ft) (snd ft) = Some hl ->
  rightChildStatistics d !! slot L (fst ft) (snd ft) = Some hr ->
  slotGain L d ft = gain d hl hr.
Proof. unfold slotGain. by intros -> ->. Qed.

Lemma bestSlotOf_nil L d : bestSlotOf L d [] (mkBestSlot 0 (-1) (-1)).
Proof.
  split; [|by left]. intros ft Hin. by apply elem_of_nil in Hin.
Qed.

Lemma bestSlotOf_nonneg L d scanned best :
  bestSlotOf L d scanned best -> (0 <= bestObjectiveO best)%Q.
Proof.
  intros [_ [(-> & _)|(f & t & _ & _ & _ & Hpos & _)]]; [apply Qle_refl|].
  by apply Qlt_le_weak.
Qed.

(** One slot of the scan keeps [bestSlotOf]. *)
Lemma scanSlot_spec L d scanned ft best best' :
  bestSlotOf L d scanned best ->
  scanSlot L d ft best = Returns best' ->
  bestSlotOf L d (scanned ++ [ft]) best'.
Proof.
  intros Hbest Hscan. pose proof (bestSlotOf_nonneg _ _ _ _ Hbest) as Hnn.
  destruct Hbest as [Hmax Hwhich]. unfold scanSlot in Hscan.
  destruct (leftChildStatistics d !! _) as [hl|] eqn:El; [|done].
  destruct (rightChildStatistics d !! _) as [hr|] eqn:Er; [|done].
  pose proof (slotGain_lookup L d ft hl hr El Er) as Hgain.
  assert (Hkeep : ((forall ft', ft' = ft -> qualifies L d ft' ->
                                (slotGain L d ft' <= bestObjectiveO best)%Q) ->
                   bestSlotOf L d (scanned ++ [ft]) best)).
  { intros Hft. split.
    - intros ft' Hin Hq. apply elem_of_app in Hin as [Hin|Hin]; [by apply Hmax|].
      apply list_elem_of_singleton in Hin. by apply Hft.
    - destruct Hwhich as [?|(f & t & Hin & ?)]; [by left|right].
      exists f, t. split; [|done]. apply elem_of_app. by left. }
  destruct ((minChildSplitExamples L <? H.getMass hl)
            && (minChildSplitExamples L <? H.getMass hr)) eqn:Emass.
  - destruct (Qltb (bestObjectiveO best) (gain d hl hr)) eqn:Egain.
    + inversion Hscan; subst best'. clear Hscan Hkeep.
      apply Qltb_lt in Egain. apply andb_true_iff in Emass as [Hl Hr].
      split; cbn [bestObjectiveO bestThresholdO bestFeatureO].
      * intros ft' Hin Hq. apply elem_of_app in Hin as [Hin|Hin].
        -- eapply Qle_trans; [by apply Hmax|]. by apply Qlt_le_weak.
        -- apply list_elem_of_singleton in Hin. subst ft'. rewrite Hgain.
           apply Qle_refl.
      * right. exists (fst ft), (snd ft). repeat split.
        -- apply elem_of_app. right. apply list_elem_of_singleton. by destruct ft.
        -- exists hl, hr. cbn [fst snd]. repeat split; auto; lia.
        -- rewrite <- Hgain. by destruct ft.
        -- eapply Qle_lt_trans; eauto.
    + inversion Hscan; subst best'. apply Hkeep. intros ft' -> _.
      rewrite Hgain. by apply Qltb_ge.
  - inversion Hscan; subst best'. apply Hkeep. intros ft' -> (hl' & hr' & El' & Er' & Hl & Hr).
    rewrite El in El'. rewrite Er in Er'. inversion El'; inversion Er'; subst.
    apply andb_false_iff in Emass as [E|E]; lia.
Qed.

Lemma scan_spec L d (l : list (nat * nat)) : forall scanned best best',
  bestSlotOf L d scanned best ->
  forEach l (scanSlot L d) best = Returns best' ->
  bestSlotOf L d (scanned ++ l) best'.
Proof.
  induction l as [|ft l IH]; intros scanned best best' Hbest Hrun; simpl in Hrun.
  - inversion Hrun; subst. by rewrite app_nil_r.
  - destruct (scanSlot L d ft best) as [best1| | | |] eqn:E; try done.
    cbn [mbind outcome_bind] in Hrun.
    replace (scanned ++ ft :: l) with ((scanned ++ [ft]) ++ l) by (by rewrite <- app_assoc).
    eapply IH; [|exact Hrun]. eapply scanSlot_spec; eauto.
Qed.

(** Lines 953-978: what the scan returns. *)
Lemma bestSlot_spec L d best :
  bestSlot L d = Returns best -> bestSlotOf L d (scanOrder L) best.
Proof.
  intros Hrun. apply (scan_spec L d (scanOrder L) [] _ _ (bestSlotOf_nil L d) Hrun).
Qed.

(** The scan runs to its end over the slots of a prepared leaf. *)
Lemma bestSlot_runs L C D d :
  leafPrepared L C D d -> exists best, bestSlot L d = Returns best.
Proof.
  intros (_ & _ & _ & _ & _ & _ & Hl & Hr & _). unfold bestSlot.
  generalize (mkBestSlot 0 (-1) (-1)).
  assert (Hall : Forall (fun ft => (slot L (fst ft) (snd ft)
                                    < Z.to_nat (numFeatures L * numThresholds L))%nat)
                        (scanOrder L)).
  { apply Forall_forall. intros [f t] Hin. apply elem_of_scanOrder in Hin as [Hf Ht].
    by apply slot_allocated. }
  induction Hall as [|ft l Hft Hall IH]; intros best; simpl; [eauto|].
  unfold scanSlot.
  destruct (lookup_lt_is_Some_2 (leftChildStatistics d) (slot L (fst ft) (snd ft)))
    as [hl ->]; [lia|].
  destruct (lookup_lt_is_Some_2 (rightChildStatistics d) (slot L (fst ft) (snd ft)))
    as [hr ->]; [lia|].
  destruct (_ && _); [destruct (Qltb _ _)|]; cbn [mbind outcome_bind]; apply IH.
Qed.

End Scan.

(** ** The statistics of a leaf of the online learner *)

(** The sizes of lines 864-868 are accepted exactly when they are not
    negative and their product is an [int]. *)
Lemma slotTable_sizes {A : Type} (a b : Z) (k : Z -> outcome A) :
  (0 <= a /\ 0 <= a * b < 2 ^ 31 /\
   intMul a b ≫= (fun size => vectorSize 864 size ≫= (fun _ =>
     vectorSize 867 a ≫= (fun _ => k size))) = k (a * b)) \/
  ((a < 0 \/ a * b < 0 \/ 2 ^ 31 <= a * b) /\
   forall r,
     intMul a b ≫= (fun size => vectorSize 864 size ≫= (fun _ =>
       vectorSize 867 a ≫= (fun _ => k size))) <> Returns r).
Proof.
  unfold intMul, vectorSize.
  destruct (- 2 ^ 31 <=? a * b) eqn:E1; cbn [andb].
  - destruct (a * b <? 2 ^ 31) eqn:E2; cbn [mbind outcome_bind].
    + destruct (a * b <? 0) eqn:E3; cbn [mbind outcome_bind].
      * right. split; [right; left; lia|done].
      * destruct (a <? 0) eqn:E4; cbn [mbind outcome_bind].
        -- right. split; [left; lia|done].
        -- left. repeat split; try lia.
    + right. split; [right; right; lia|done].
  - right. split; [right; left; lia|done].
Qed.

(** A call that returned passed lines 864-868. *)
Ltac accept_sizes Hrun :=
  match type of Hrun with
  | intMul ?a ?b ≫= (fun size => _ ≫= (fun _ => _ ≫= (fun _ => @?k size))) = _ =>
      let Hnf := fresh "Hnf" in
      let Hsize := fresh "Hsize" in
      let Eq := fresh "Eq" in
      let Hno := fresh "Hno" in
      destruct (slotTable_sizes a b k) as [(Hnf & Hsize & Eq)|[_ Hno]];
      [rewrite Eq in Hrun; clear Eq; cbn beta in Hrun|by destruct (Hno _ Hrun)]
  end.

(** Sizes that are not negative, with a product that is an [int], pass
    lines 864-868. *)
Ltac pass_sizes :=
  match goal with
  | |- context [intMul ?a ?b ≫= (fun size => _ ≫= (fun _ => _ ≫= (fun _ => @?k size)))] =>
      let Hno := fresh "Hno" in
      destruct (slotTable_sizes a b k) as [(_ & _ & ->)|[Hno _]];
      [cbn beta|exfalso; nia]
  end.

Section LeafStatistics.

Context `{P : Platform}.

Lemma withGenerator_same L : L = withGenerator L (thresholdGenerator L).
Proof. by destruct L. Qed.

Lemma length_sampleThresholds count : forall feature previous tg,
  length (fst (sampleThresholds count feature previous tg)) = count.
Proof.
  induction count as [|count IH]; intros feature previous tg; simpl; [done|].
  destruct (tg_sample feature tg) as [c tg1].
  destruct (match previous with Some p => _ | None => _ end) as [c' tg2].
  specialize (IH feature (Some c') tg2).
  destruct (sampleThresholds count feature (Some c') tg2) as [rest tg3].
  simpl in *. by rewrite IH.
Qed.

Lemma sampleAllThresholds_inv L D nodeFeatures : forall tg tss tg',
  sampleAllThresholds L D nodeFeatures tg = Returns (tss, tg') ->
  Forall (fun feature => Z.of_nat feature < D) nodeFeatures /\
  length tss = length nodeFeatures /\
  Forall (fun ts => length ts = Z.to_nat (numThresholds L)) tss.
Proof.
  induction nodeFeatures as [|feature rest IH]; intros tg tss tg' Hrun; simpl in Hrun.
  - inversion Hrun; subst. by repeat constructor.
  - unfold BOOST_ASSERT in Hrun.
    destruct (Z.of_nat feature <? D) eqn:ED; [|done].
    cbn [mbind outcome_bind] in Hrun.
    pose proof (length_sampleThresholds (Z.to_nat (numThresholds L)) feature None tg) as Hlen.
    destruct (sampleThresholds _ feature None tg) as [ts tg1].
    destruct (sampleAllThresholds L D rest tg1) as [[tss1 tg2]| | | |] eqn:E; try done.
    cbn [mbind outcome_bind] in Hrun. inversion Hrun; subst.
    apply IH in E as (H1 & H2 & H3).
    repeat split; [constructor; [lia|done]|simpl; by rewrite H2|by constructor].
Qed.

Lemma leafPrepared_withGenerator L tg C D d :
  leafPrepared (withGenerator L tg) C D d <-> leafPrepared L C D d.
Proof. done. Qed.

(** Lines 860-922: the tree and the knobs of the learner stay; a fresh
    leaf is prepared. *)
Lemma prepareLeaf_inv C D st d st1 d1 :
  prepareLeaf C D st d = Returns (st1, d1) ->
  otree st1 = otree st /\
  learner st1 = withGenerator (learner st) (thresholdGenerator (learner st1)) /\
  (0 < C -> (nodeStatistics d <> [] -> leafPrepared (learner st) C D d) ->
   leafPrepared (learner st1) C D d1).
Proof.
  unfold prepareLeaf, H.getSize. intros Hrun.
  destruct (Z.of_nat (length (nodeStatistics d)) <=? 0) eqn:Efresh.
  - accept_sizes Hrun.
    destruct (rd_draw (rd (globals st))) as [sd r].
    destruct (Z.of_nat (length (shuffle (seed_engine sd) (features st)))
              <? numFeatures (learner st)) eqn:Elen; [done|].
    destruct (sampleAllThresholds _ _ _ _) as [[thresholds tg]| | | |] eqn:E; try done.
    cbn [mbind outcome_bind] in Hrun. inversion Hrun; subst.
    cbn [otree learner thresholdGenerator withGenerator].
    split; [done|]. split; [done|]. intros HC _.
    apply sampleAllThresholds_inv in E as (H1 & H2 & H3).
    apply leafPrepared_withGenerator.
    apply Z.ltb_ge in Elen.
    unfold leafPrepared.
    cbn [nodeStatistics nodeFeatures nodeThresholds leftChildStatistics
         rightChildStatistics].
    rewrite H2, length_take, !length_replicate. unfold H.resize. rewrite length_resize.
    repeat split; auto; try lia.
    + apply Forall_replicate. apply length_create.
    + apply Forall_replicate. apply length_create.
  - inversion Hrun; subst. split; [done|]. split; [apply withGenerator_same|].
    intros _ Hd. apply Hd. intros E. rewrite E in Efresh. simpl in Efresh. done.
Qed.

Lemma routeExample_sizes L features ts x label f t n c s s' :
  sameSizes n c s -> routeExample L features ts x label f t s = Returns s' ->
  sameSizes n c s'.
Proof.
  intros (H1 & H2 & H3 & H4). unfold routeExample.
  destruct (features !! f) as [feature|]; [|done].
  destruct (ts !! t) as [threshold|]; [|done].
  destruct (Qltb _ _).
  - destruct (addOneAt (fst s) _ label) as [a| | | |] eqn:E; try done.
    cbn [mbind outcome_bind]. intros Hr. inversion Hr; subst.
    apply addOneAt_inv in E as (h & Hh & ->). unfold sameSizes. cbn [fst snd].
    rewrite length_insert. repeat split; auto.
    apply Forall_insert; [done|]. rewrite length_addOne.
    by apply (Forall_lookup_1 _ _ _ _ H3 Hh).
  - destruct (addOneAt (snd s) _ label) as [a| | | |] eqn:E; try done.
    cbn [mbind outcome_bind]. intros Hr. inversion Hr; subst.
    apply addOneAt_inv in E as (h & Hh & ->). unfold sameSizes. cbn [fst snd].
    rewrite length_insert. repeat split; auto.
    apply Forall_insert; [done|]. rewrite length_addOne.
    by apply (Forall_lookup_1 _ _ _ _ H4 Hh).
Qed.

Lemma updateSplitStatistics_sizes L lefts rights features thresholds x label lefts' rights' n c :
  sameSizes n c (lefts, rights) ->
  OnlineDecisionTreeLearner_updateSplitStatistics L lefts rights features thresholds x label
  = Returns (lefts', rights') ->
  sameSizes n c (lefts', rights').
Proof.
  intros Hs Hrun. unfold OnlineDecisionTreeLearner_updateSplitStatistics in Hrun.
  eapply (forEach_invariant (sameSizes n c)); [|exact Hs|exact Hrun].
  intros f s s' _ Hq Hbody. cbv beta in Hbody.
  destruct (thresholds !! f) as [ts|]; [|done].
  eapply (forEach_invariant (sameSizes n c)); [|exact Hq|exact Hbody].
  intros t s1 s2 _ Hq1 Hb. eapply routeExample_sizes; eauto.
Qed.

(** Lines 931-938: counting an example keeps a prepared leaf prepared. *)
Lemma accumulate_prepared K L C D x label : forall d d',
  leafPrepared L C D d -> accumulate K L d x label = Returns d' ->
  leafPrepared L C D d'.
Proof.
  induction K as [|K IH]; intros d d' Hd Hrun; simpl in Hrun.
  - by inversion Hrun; subst.
  - destruct (OnlineDecisionTreeLearner_updateSplitStatistics _ _ _ _ _ _ _)
      as [[lefts rights]| | | |] eqn:E; try done.
    cbn [mbind outcome_bind] in Hrun.
    eapply IH; [|exact Hrun].
    destruct Hd as (H0 & H1 & H2 & H3 & H4 & H5 & H6 & H7 & H8 & H9).
    apply (updateSplitStatistics_sizes _ _ _ _ _ _ _ _ _
             (Z.to_nat (numFeatures L * numThresholds L)) (Z.to_nat C))
      in E as (E1 & E2 & E3 & E4); [|by repeat split].
    cbn [fst snd] in *. unfold leafPrepared.
    cbn [nodeStatistics nodeFeatures nodeThresholds leftChildStatistics rightChildStatistics].
    rewrite length_addOne. repeat split; auto.
Qed.

(** Lines 848-938: what the first part of a visit leaves. *)
Lemma countExample_inv C D st x label st2 d2 :
  countExample C D st x label = Returns (st2, d2) ->
  otree st2 = otree st /\
  learner st2 = withGenerator (learner st) (thresholdGenerator (learner st2)) /\
  (0 < C ->
   (nodeStatistics (getNodeData (otree st) (findLeafNode (otree st) x)) <> [] ->
    leafPrepared (learner st) C D (getNodeData (otree st) (findLeafNode (otree st) x))) ->
   leafPrepared (learner st2) C D d2).
Proof.
  unfold countExample. intros Hrun.
  destruct (prepareLeaf C D st _) as [[st1 d1]| | | |] eqn:Eprep; try done.
  cbn [mbind outcome_bind] in Hrun.
  apply prepareLeaf_inv in Eprep as (Et & EL & Hprep).
  destruct (if useBootstrap (learner st1) then _ else _) as [K gl].
  destruct (accumulate (Z.to_nat K) (learner st1) d1 x label) as [d| | | |] eqn:Eacc; try done.
  cbn [mbind outcome_bind] in Hrun. inversion Hrun; subst.
  cbn [otree learner]. split; [done|]. split; [done|].
  intros HC Hd. eapply accumulate_prepared; [|exact Eacc]. by apply Hprep.
Qed.

End LeafStatistics.

(** ** The structure of the online tree *)

Section OnlineStructure.

Context `{P : Platform}.

Lemma treeStructure_setNodeData node d (t : Tree) :
  treeStructure (setNodeData node d t) = treeStructure t.
Proof.
  unfold treeStructure, setNodeData. apply list_eq. intros i.
  rewrite !list_lookup_fmap.
  destruct (decide (node = i)) as [->|Hne].
  - rewrite list_lookup_alter_eq. by destruct (t !! i).
  - by rewrite list_lookup_alter_ne.
Qed.

Lemma treeStructure_setNodeConfig node c (t : Tree) :
  treeStructure (setNodeConfig node c t) = alter (fun _ => c) node (treeStructure t).
Proof.
  unfold treeStructure, setNodeConfig. apply list_eq. intros i.
  rewrite !list_lookup_fmap.
  destruct (decide (node = i)) as [->|Hne].
  - rewrite !list_lookup_alter_eq, list_lookup_fmap. by destruct (t !! i).
  - by rewrite !list_lookup_alter_ne, list_lookup_fmap.
Qed.

Lemma getNodeConfig_treeStructure (t t' : Tree) node :
  treeStructure t = treeStructure t' -> getNodeConfig t node = getNodeConfig t' node.
Proof.
  unfold treeStructure, getNodeConfig. intros E.
  by rewrite <- !list_lookup_fmap, E.
Qed.

Lemma length_treeStructure (t : Tree) : length (treeStructure t) = length t.
Proof. apply length_fmap. Qed.

Lemma treeStructure_app (t k : Tree) :
  treeStructure (t ++ k) = treeStructure t ++ treeStructure k.
Proof. apply fmap_app. Qed.

Lemma treeStructure_splitNode node (t : Tree) :
  treeStructure (fst (splitNode node t))
  = alter (fun _ => mkConfig (depth (getNodeConfig t node)) (split (getNodeConfig t node))
                             (Some (length t)))
          node (treeStructure t)
    ++ [freshConfig (depth (getNodeConfig t node) + 1);
        freshConfig (depth (getNodeConfig t node) + 1)].
Proof.
  unfold splitNode. cbn [fst].
  by rewrite treeStructure_app, treeStructure_setNodeData, treeStructure_setNodeConfig.
Qed.

(** The structure of a tree after a split depends on its structure
    only. *)
Lemma treeStructure_split (t t' : Tree) node desc :
  treeStructure t = treeStructure t' ->
  treeStructure (fst (splitNode node (setSplit node desc t)))
  = treeStructure (fst (splitNode node (setSplit node desc t'))).
Proof.
  intros E.
  assert (E1 : treeStructure (setSplit node desc t) = treeStructure (setSplit node desc t')).
  { unfold setSplit. rewrite !treeStructure_setNodeConfig.
    by rewrite (getNodeConfig_treeStructure t t' node E), E. }
  rewrite !treeStructure_splitNode.
  rewrite (getNodeConfig_treeStructure _ _ node E1), E1.
  rewrite <- (length_treeStructure (setSplit node desc t)), E1, length_treeStructure.
  done.
Qed.

(** Lines 994-1022: the structure of the tree is that of the split. *)
Lemma treeStructure_splitTree L leaf d desc hl hr (t : Tree) :
  treeStructure (splitTree L leaf d desc hl hr t)
  = treeStructure (fst (splitNode leaf (setSplit leaf desc t))).
Proof.
  unfold splitTree.
  destruct (splitNode leaf (setSplit leaf desc (setNodeData leaf d t)))
    as [t2 leftChild] eqn:E.
  rewrite !treeStructure_setNodeData.
  replace t2 with (fst (splitNode leaf (setSplit leaf desc (setNodeData leaf d t))))
    by (by rewrite E).
  apply treeStructure_split, treeStructure_setNodeData.
Qed.

End OnlineStructure.

(** ** The decision to split a leaf *)

Section SplitDecision.

Context `{P : Platform}.



(** Lines 940-1022 on a prepared leaf that passes the stop test: the
    scan returns, and the leaf is kept when the best gain is below the
    minimum and split otherwise. *)
Lemma decideSplit_spec C D st leaf depth d :
  leafPrepared (learner st) C D d ->
  stops (learner st) (nodeStatistics d) depth = false ->
  exists best,
    bestSlot (learner st) d = Returns best /\
    bestSlotOf (learner st) d (scanOrder (learner st)) best /\
    ((bestObjectiveO best < minSplitObjective (learner st))%Q ->
     decideSplit D st leaf depth d = keepLeaf st leaf d) /\
    ((minSplitObjective (learner st) <= bestObjectiveO best)%Q ->
     decideSplit D st leaf depth d = splitLeaf D st leaf d best).
Proof.
  intros Hprep Hstop.
  destruct (bestSlot_runs _ _ _ _ Hprep) as [best Hbest].
  exists best. split; [done|]. split; [by apply bestSlot_spec|].
  unfold decideSplit. rewrite Hstop, Hbest. cbn [mbind outcome_bind].
  split; intros Hcmp.
  - apply Qltb_lt in Hcmp. by rewrite Hcmp.
  - apply Qltb_ge in Hcmp. by rewrite Hcmp.
Qed.

End SplitDecision.

(** ** The visits of the online learner *)

Section OnlineVisits.

Context `{P : Platform}.

Lemma visit_counted C D st x label st2 d2 :
  countExample C D st x label = Returns (st2, d2) ->
  OnlineDecisionTreeLearner_visit C D st x label
  = decideSplit D st2 (findLeafNode (otree st) x)
                (getDepth (getNodeConfig (otree st) (findLeafNode (otree st) x))) d2.
Proof. unfold OnlineDecisionTreeLearner_visit. by intros ->. Qed.


End OnlineVisits.




(** ** The leaves the online learner writes *)

Section OnlineLeaves.

Context `{P : Platform}.

(** Lines 940-1022: a visit that returned kept the leaf or split it. *)
Lemma decideSplit_inv D st leaf depth d st' ev :
  decideSplit D st leaf depth d = Returns (st', ev) ->
  (ev = Kept leaf /\ keepLeaf st leaf d = Returns (st', ev)) \/
  (exists best,
     ev = Split leaf (length (otree st)) best /\
     stops (learner st) (nodeStatistics d) depth = false /\
     bestSlot (learner st) d = Returns best /\
     splitLeaf D st leaf d best = Returns (st', ev)).
Proof.
  unfold decideSplit. intros Hrun.
  destruct (stops (learner st) (nodeStatistics d) depth) eqn:Estop.
  - left. split; [|done]. by apply keepLeaf_inv in Hrun as (_ & -> & _).
  - destruct (bestSlot (learner st) d) as [best| | | |] eqn:Ebest; try done.
    cbn [mbind outcome_bind] in Hrun.
    destruct (Qltb (bestObjectiveO best) (minSplitObjective (learner st))).
    + left. split; [|done]. by apply keepLeaf_inv in Hrun as (_ & -> & _).
    + right. exists best. pose proof Hrun as Hinv.
      apply splitLeaf_inv in Hinv as (_ & ? & ? & ? & ? & _ & _ & _ & _ & _ & _ & _ & -> & _).
      done.
Qed.

(** The data of the three nodes a split writes. *)
Lemma splitTree_data L leaf d desc hl hr (t : Tree) :
  (leaf < length t)%nat ->
  getNodeData (splitTree L leaf d desc hl hr t) leaf
  = mkData [] (nodeStatistics d) [] [] [] [] /\
  getNodeData (splitTree L leaf d desc hl hr t) (length t)
  = setHistogram (smoothedVector hl (smoothingParameter L)) freshData /\
  getNodeData (splitTree L leaf d desc hl hr t) (S (length t))
  = setHistogram (smoothedVector hr (smoothingParameter L)) freshData.
Proof.
  intros Hleaf. unfold splitTree.
  destruct (splitNode leaf (setSplit leaf desc (setNodeData leaf d t)))
    as [t2 leftChild] eqn:E.
  pose proof (length_splitNode (setSplit leaf desc (setNodeData leaf d t)) leaf) as [Hlen Hlc].
  rewrite E in Hlen, Hlc. cbn [fst snd] in Hlen, Hlc.
  rewrite length_setSplit, length_setNodeData in Hlen, Hlc. subst leftChild.
  assert (Hfresh : forall k, (length t <= k < length t + 2)%nat -> getNodeData t2 k = freshData).
  { intros k Hk. replace t2 with (fst (splitNode leaf (setSplit leaf desc (setNodeData leaf d t))))
      by (by rewrite E).
    unfold splitNode. cbn [fst]. unfold getNodeData.
    rewrite lookup_app_r
      by (rewrite length_setNodeData, length_setNodeConfig, length_setSplit,
            length_setNodeData; lia).
    rewrite length_setNodeData, length_setNodeConfig, length_setSplit, length_setNodeData.
    destruct (k - length t)%nat as [|[|n]] eqn:Ek; [done|done|lia]. }
  split; [|split].
  - rewrite getNodeData_setNodeData; [done|]. rewrite !length_setNodeData. lia.
  - rewrite getNodeData_setNodeData_ne by lia.
    rewrite getNodeData_setNodeData_ne by lia.
    rewrite getNodeData_setNodeData by lia. rewrite Hfresh by lia. done.
  - rewrite getNodeData_setNodeData_ne by lia.
    rewrite getNodeData_setNodeData by (rewrite length_setNodeData; lia).
    rewrite getNodeData_setNodeData_ne by lia. rewrite Hfresh by lia. done.
Qed.


End OnlineLeaves.

Lemma onlineState2_returned :
  OnlineDecisionTreeLearner_visit 2 1 (Reference.onlineState1 2) [inject_Z 10] 1
  = Returns (Reference.onlineState2 2, Split 0 1 (mkBestSlot 2 0 0)).
Proof.
  assert (Hev : eventOf (OnlineDecisionTreeLearner_visit 2 1 (Reference.onlineState1 2)
                           [inject_Z 10] 1) = Some (Split 0 1 (mkBestSlot 2 0 0)))
    by (vm_compute; reflexivity).
  unfold Reference.onlineState2.
  destruct (OnlineDecisionTreeLearner_visit 2 1 (Reference.onlineState1 2) [inject_Z 10] 1)
    as [[s e]| | | |]; try done.
  simpl in Hev. by inversion Hev.
Qed.


(** ** The depth of the nodes *)

Section OnlineDepth.

Context `{P : Platform}.

Lemma depthBounded_splitTree m L leaf d desc hl hr (t : Tree) :
  depthBounded m t -> depth (getNodeConfig t leaf) < m ->
  depthBounded m (splitTree L leaf d desc hl hr t).
Proof.
  intros Ht Hd. unfold splitTree.
  destruct (splitNode leaf (setSplit leaf desc (setNodeData leaf d t)))
    as [t2 leftChild] eqn:E.
  do 3 apply depthBounded_setNodeData.
  replace t2 with (fst (splitNode leaf (setSplit leaf desc (setNodeData leaf d t))))
    by (by rewrite E).
  apply depthBounded_split; [by apply depthBounded_setNodeData|].
  by rewrite getNodeConfig_setNodeData.
Qed.

(** A visit keeps the depths within the bound, and keeps the bound. *)
Lemma visit_depth C D st x label st' ev :
  OnlineDecisionTreeLearner_visit C D st x label = Returns (st', ev) ->
  depthBounded (maxDepth (learner st)) (otree st) ->
  depthBounded (maxDepth (learner st')) (otree st') /\
  maxDepth (learner st') = maxDepth (learner st).
Proof.
  intros Hvisit Ht. unfold OnlineDecisionTreeLearner_visit in Hvisit.
  destruct (countExample C D st x label) as [[st2 d2]| | | |] eqn:Ecount; try done.
  cbn [mbind outcome_bind] in Hvisit.
  apply countExample_inv in Ecount as (Etree & EL & _).
  assert (Edepth : maxDepth (learner st2) = maxDepth (learner st)) by (by rewrite EL).
  apply decideSplit_inv in Hvisit as [[-> Hkeep]|(best & -> & Hstop & _ & Hsplit)].
  - apply keepLeaf_inv in Hkeep as (_ & _ & ->). cbn [otree learner].
    split; [|done]. rewrite Edepth, Etree. by apply depthBounded_setNodeData.
  - apply stops_false_depth in Hstop. unfold getDepth in Hstop.
    apply splitLeaf_inv in Hsplit
      as (_ & feature & threshold & hl & hr & _ & _ & _ & _ & _ & _ & _ & _ & EL' & _ & _ & ->).
    rewrite EL', Edepth, Etree. split; [|done].
    apply depthBounded_splitTree; [done|lia].
Qed.

Lemma OnlineDecisionTreeLearner_loop_depth C D exs : forall st st',
  OnlineDecisionTreeLearner_loop C D exs st = Returns st' ->
  depthBounded (maxDepth (learner st)) (otree st) ->
  depthBounded (maxDepth (learner st')) (otree st') /\
  maxDepth (learner st') = maxDepth (learner st).
Proof.
  induction exs as [|[x label] exs IH]; intros st st' Hrun Ht; simpl in Hrun.
  - by inversion Hrun; subst.
  - destruct (OnlineDecisionTreeLearner_visit C D st x label) as [[st1 ev]| | | |] eqn:E;
      try done.
    cbn [mbind outcome_bind] in Hrun.
    apply visit_depth in E as [Ht1 E1]; [|done].
    apply IH in Hrun as [Ht' E']; [|done]. split; [done|congruence].
Qed.

Lemma OnlineDecisionTreeLearner_learn_depth L storage t gl t' L' gl' :
  depthBounded (maxDepth L) t ->
  OnlineDecisionTreeLearner_learn L storage t gl = Returns (t', L', gl') ->
  depthBounded (maxDepth L) t'.
Proof.
  intros Ht Hrun. unfold OnlineDecisionTreeLearner_learn, BOOST_ASSERT in Hrun.
  destruct (_ && _); [|done]. cbn [mbind outcome_bind] in Hrun.
  destruct (_ =? _); [|done]. cbn [mbind outcome_bind] in Hrun.
  destruct (0 <? getNumNodes t); [|done]. cbn [mbind outcome_bind] in Hrun.
  destruct (OnlineDecisionTreeLearner_loop _ _ _ _) as [st| | | |] eqn:Eloop; try done.
  cbn [mbind outcome_bind] in Hrun. inversion Hrun; subst.
  apply OnlineDecisionTreeLearner_loop_depth in Eloop as [Hd E]; [|done].
  cbn [learner withNumFeatures maxDepth] in E. by rewrite <- E.
Qed.

(** C7.  In a tree that a learner returns (the three batch learners, and
    the online learner when the tree it was given is within the bound, as a
    tree with a root only is) no node is deeper than [maxDepth], and a node
    with children lies above [maxDepth]: a node of depth [maxDepth] or more
    has no children. *)
Theorem depth_is_bounded (L : Learner) (storage : DataStorage) (gl : Globals) (fuel : nat)
    (t0 t : Tree) (L' : Learner) (gl' : Globals) (k : nat) :
  DecisionTreeLearner_learn L storage gl fuel = Returns (t, gl') \/
  ProjectiveDecisionTreeLearner_learn L storage gl fuel = Returns (t, gl') \/
  DotProductDecisionTreeLearner_learn L storage gl fuel = Returns (t, gl') \/
  (depthBounded (maxDepth L) t0 /\
   OnlineDecisionTreeLearner_learn L storage t0 gl = Returns (t, L', gl')) ->
  (k < length t)%nat ->
  (0 <= maxDepth L -> depth (getNodeConfig t k) <= maxDepth L) /\
  (leftChild (getNodeConfig t k) <> None -> depth (getNodeConfig t k) < maxDepth L).
Proof.
  intros Hrun Hk.
  assert (Ht : depthBounded (maxDepth L) t).
  { destruct Hrun as [Hrun|[Hrun|[Hrun|[Ht0 Hrun]]]].
    - by eapply DecisionTreeLearner_learn_depth.
    - by eapply ProjectiveDecisionTreeLearner_learn_depth.
    - by eapply DotProductDecisionTreeLearner_learn_depth.
    - by eapply OnlineDecisionTreeLearner_learn_depth. }
  destruct (Ht k Hk) as [H1 H2]. split; [lia|done].
Qed.

End OnlineDepth.

Lemma learned_returned :
  DecisionTreeLearner_learn (Reference.config 1 5 1 1) Reference.fourPoints
                            Reference.globals0 10
  = Returns (fst Reference.learned, snd Reference.learned).
Proof.
  assert (Hr : returned (DecisionTreeLearner_learn (Reference.config 1 5 1 1)
                           Reference.fourPoints Reference.globals0 10) = true)
    by (vm_compute; reflexivity).
  unfold Reference.learned.
  destruct (DecisionTreeLearner_learn _ _ _ _) as [[t gl]| | | |]; done.
Qed.

(** The tree of the four points: its root has children and the depth 0,
    below the maximal depth 5. *)
Lemma depth_is_bounded_witness :
  (0 < length (fst Reference.learned))%nat /\
  ((0 <= 5 -> depth (getNodeConfig (fst Reference.learned) 0) <= 5) /\
   (leftChild (getNodeConfig (fst Reference.learned) 0) <> None ->
    depth (getNodeConfig (fst Reference.learned) 0) < 5)).
Proof.
  split; [vm_compute; lia|].
  apply (depth_is_bounded (Reference.config 1 5 1 1) Reference.fourPoints Reference.globals0
           10 [] (fst Reference.learned) (Reference.config 1 5 1 1) (snd Reference.learned) 0).
  - left. exact learned_returned.
  - vm_compute. lia.
Defined.

(** ** Data of one class *)

Section OneClass.

Context `{P : Platform}.

Lemma filter_zero (h : list Z) :
  (forall i, H.at_ h i = 0) -> filter (fun c : Z => c <> 0) h = [].
Proof.
  induction h as [|z h IH]; intros Hz; [done|].
  rewrite filter_cons_False by (intros Hne; apply Hne; apply (Hz 0%nat)).
  apply IH. intros i. apply (Hz (S i)).
Qed.

(** A histogram with one class at most is pure. *)
Lemma isPure_one_class (h : list Z) : forall c,
  (forall i, i <> c -> H.at_ h i = 0) -> H.isPure h = true.
Proof.
  unfold H.isPure. induction h as [|z h IH]; intros c Hc; [done|].
  destruct c as [|c].
  - assert (E : filter (fun c : Z => c <> 0) h = []).
    { apply filter_zero. intros i. apply (Hc (S i)). lia. }
    destruct (decide (z <> 0)).
    + rewrite filter_cons_True by done. by rewrite E.
    + rewrite filter_cons_False by done. by rewrite E.
  - rewrite filter_cons_False by (intros Hne; apply Hne; apply (Hc 0%nat); lia).
    apply (IH c). intros i Hi. apply (Hc (S i)). lia.
Qed.

Lemma at_addOne_ne c i (h : list Z) : i <> c -> H.at_ (H.addOne c h) i = H.at_ h i.
Proof.
  intros Hne. unfold H.at_, H.addOne. by rewrite list_lookup_alter_ne.
Qed.

Lemma at_create C i : H.at_ (H.create C) i = 0.
Proof.
  unfold H.at_, H.create.
  destruct (replicate (Z.to_nat C) 0 !! i) as [z|] eqn:E; [|done].
  by apply lookup_replicate in E as [-> _].
Qed.

Lemma nodeHistogram_one_class storage C l c :
  Forall (fun n => getClassLabel storage n = c) l ->
  H.isPure (nodeHistogram storage C l) = true.
Proof.
  intros Hl. apply (isPure_one_class _ c). unfold nodeHistogram.
  assert (Hfold : forall h, (forall i, i <> c -> H.at_ h i = 0) ->
            forall i, i <> c ->
              H.at_ (foldl (fun h n => H.addOne (getClassLabel storage n) h) h l) i = 0).
  { induction Hl as [|n l Hn Hl IH]; intros h Hh i Hi; simpl; [by apply Hh|].
    apply IH; [|done]. intros j Hj. rewrite Hn, at_addOne_ne by done. by apply Hh. }
  apply Hfold. intros i _. apply at_create.
Qed.

Lemma stops_pure L hist d : H.isPure hist = true -> stops L hist d = true.
Proof. unfold stops. intros ->. by rewrite orb_true_r. Qed.

(** The examples of a storage of one class have that class. *)
Lemma labels_one_class storage c :
  Forall (fun e => snd e = c) (examples storage) ->
  Forall (fun n => getClassLabel storage n = c) (seq 0 (length (examples storage))).
Proof.
  intros Hc. apply Forall_forall. intros n Hn. apply elem_of_seq in Hn.
  unfold getClassLabel.
  destruct (examples storage !! n) as [e|] eqn:E.
  - simpl. apply (Forall_lookup_1 _ _ _ _ Hc E).
  - apply lookup_ge_None in E. lia.
Qed.

Lemma bootstrap_draws_labels (Q : DataPoint * nat -> Prop) dataStorage k :
  Forall Q (examples dataStorage) ->
  forall e acc sampled, Forall Q acc ->
    Forall Q (fst (fst (bootstrap_draws k dataStorage e acc sampled))).
Proof.
  intros Hd. induction k as [|k IH]; intros e acc sampled Hacc; simpl; [done|].
  destruct (uniform_int 0 (getSize dataStorage - 1) e) as [i e'].
  destruct (examples dataStorage !! Z.to_nat i) as [ex|] eqn:E; [|by apply IH].
  apply IH. apply Forall_app. split; [done|].
  constructor; [|done]. apply (Forall_lookup_1 _ _ _ _ Hd E).
Qed.

(** The storage a learner works on: the data, or a bootstrap sample of
    it; it has the classes of the data and, with the data, one class. *)
Lemma working_storage_one_class (b : bool) count dataStorage gl c storage sampled gl1 :
  Forall (fun e => snd e = c) (examples dataStorage) ->
  (if b then bootstrap count dataStorage gl else (dataStorage, [], gl))
  = (storage, sampled, gl1) ->
  getClasscount storage = getClasscount dataStorage /\
  getDimensionality storage = getDimensionality dataStorage /\
  Forall (fun e => snd e = c) (examples storage).
Proof.
  intros Hc E. destruct b; [|by inversion E; subst].
  unfold bootstrap in E.
  pose proof (bootstrap_draws_labels (fun e => snd e = c) dataStorage (Z.to_nat count) Hc
                (sampler gl) [] (replicate (length (examples dataStorage)) false)
                (Forall_nil_2 _)) as Hb.
  destruct (bootstrap_draws _ _ _ _ _) as [[exs smp] e]. inversion E; subst. done.
Qed.

Lemma exampleList_initial storage e r :
  exampleList (initialState storage e r) 0
  = Returns (seq 0 (length (examples storage)), getSize storage).
Proof.
  unfold exampleList, initialState, getSize.
  cbn [trainingExamples trainingExamplesSizes lookup list_lookup].
  rewrite length_seq, Nat2Z.id.
  rewrite (take_ge (seq 0 (length (examples storage)))) by (by rewrite length_seq).
  by rewrite !(proj2 (Z.leb_le _ _)) by lia.
Qed.

Lemma treeStructure_updateHistograms t dataStorage smoothing :
  treeStructure (updateHistograms t dataStorage smoothing) = treeStructure t.
Proof.
  unfold treeStructure, updateHistograms. apply list_eq. intros i.
  rewrite !list_lookup_fmap, list_lookup_imap.
  destruct (t !! i) as [[c d]|]; [|done]. simpl. by destruct (leftChild c).
Qed.

(** The root is made a leaf: what lines 157-158 and their copies leave
    of a tree with a root only. *)
Lemma finalizeLeaf_root line hist smoothing boot :
  (0 < length hist)%nat ->
  exists t, finalizeLeaf line (fst (addNode [])) 0 hist smoothing boot = Returns t /\
            treeStructure t = [freshConfig 0].
Proof.
  intros Hh.
  destruct (finalizeLeaf_runs line (fst (addNode [])) 0 hist smoothing boot) as [t Ht];
    [simpl; lia|done|].
  exists t. split; [done|].
  apply finalizeLeaf_inv in Ht as (_ & _ & ->). by rewrite treeStructure_setNodeData.
Qed.

End OneClass.

(** ** The batch learners on data of one class *)

Section SingleLeaf.

Context `{P : Platform}.

Lemma root_stops L storage C c :
  Forall (fun e => snd e = c) (examples storage) ->
  stops L (nodeHistogram storage C (seq 0 (length (examples storage)))) 0 = true.
Proof.
  intros Hc. apply stops_pure. eapply nodeHistogram_one_class. by apply labels_one_class.
Qed.

Lemma DecisionTreeLearner_loop_one_class L storage _numFeatures C c fuel e r :
  0 < C -> Forall (fun e => snd e = c) (examples storage) -> (0 < fuel)%nat ->
  exists s,
    DecisionTreeLearner_loop fuel L storage _numFeatures C (initialState storage e r)
    = Returns s /\
    treeStructure (tree s) = [freshConfig 0].
Proof.
  intros HC Hc Hfuel. destruct fuel as [|fuel]; [lia|].
  destruct (finalizeLeaf_root 158 (nodeHistogram storage C (seq 0 (length (examples storage))))
              (smoothingParameter L) (useBootstrap L)) as (t & Ht & Hs).
  { rewrite length_nodeHistogram. lia. }
  cbn [DecisionTreeLearner_loop].
  change (splitStack (initialState storage e r)) with [0%nat]. cbv iota.
  unfold DecisionTreeLearner_turn.
  change (splitStack (initialState storage e r)) with [0%nat]. cbv iota.
  rewrite exampleList_initial. cbn [mbind outcome_bind].
  change (tree (initialState storage e r)) with (fst (addNode [])).
  change (getDepth (getNodeConfig (fst (addNode [])) 0)) with 0.
  rewrite (root_stops L storage C c Hc), Ht. cbn [mbind outcome_bind].
  unfold release. destruct fuel; cbn [DecisionTreeLearner_loop splitStack]; eauto.
Qed.

Lemma ProjectiveDecisionTreeLearner_loop_one_class L storage C D c fuel e r :
  0 < C -> Forall (fun e => snd e = c) (examples storage) -> (0 < fuel)%nat ->
  exists s,
    ProjectiveDecisionTreeLearner_loop fuel L storage C D (initialState storage e r)
    = Returns s /\
    treeStructure (tree s) = [freshConfig 0].
Proof.
  intros HC Hc Hfuel. destruct fuel as [|fuel]; [lia|].
  destruct (finalizeLeaf_root 427 (nodeHistogram storage C (seq 0 (length (examples storage))))
              (smoothingParameter L) (useBootstrap L)) as (t & Ht & Hs).
  { rewrite length_nodeHistogram. lia. }
  cbn [ProjectiveDecisionTreeLearner_loop].
  change (splitStack (initialState storage e r)) with [0%nat]. cbv iota.
  unfold ProjectiveDecisionTreeLearner_turn.
  change (splitStack (initialState storage e r)) with [0%nat]. cbv iota.
  rewrite exampleList_initial. cbn [mbind outcome_bind].
  change (tree (initialState storage e r)) with (fst (addNode [])).
  change (getDepth (getNodeConfig (fst (addNode [])) 0)) with 0.
  rewrite (root_stops L storage C c Hc), Ht. cbn [mbind outcome_bind].
  unfold release. destruct fuel; cbn [ProjectiveDecisionTreeLearner_loop splitStack]; eauto.
Qed.

Lemma DotProductDecisionTreeLearner_loop_one_class L storage C D c fuel e r :
  0 < C -> Forall (fun e => snd e = c) (examples storage) -> (0 < fuel)%nat ->
  exists s,
    DotProductDecisionTreeLearner_loop fuel L storage C D (initialState storage e r)
    = Returns s /\
    treeStructure (tree s) = [freshConfig 0].
Proof.
  intros HC Hc Hfuel. destruct fuel as [|fuel]; [lia|].
  destruct (finalizeLeaf_root 663 (nodeHistogram storage C (seq 0 (length (examples storage))))
              (smoothingParameter L) (useBootstrap L)) as (t & Ht & Hs).
  { rewrite length_nodeHistogram. lia. }
  cbn [DotProductDecisionTreeLearner_loop].
  change (splitStack (initialState storage e r)) with [0%nat]. cbv iota.
  unfold DotProductDecisionTreeLearner_turn.
  change (splitStack (initialState storage e r)) with [0%nat]. cbv iota.
  rewrite exampleList_initial. cbn [mbind outcome_bind].
  change (tree (initialState storage e r)) with (fst (addNode [])).
  change (getDepth (getNodeConfig (fst (addNode [])) 0)) with 0.
  rewrite (root_stops L storage C c Hc), Ht. cbn [mbind outcome_bind].
  unfold release. destruct fuel; cbn [DotProductDecisionTreeLearner_loop splitStack]; eauto.
Qed.

Lemma classcount_positive dataStorage :
  wf_storage dataStorage -> examples dataStorage <> [] -> 0 < getClasscount dataStorage.
Proof.
  intros [_ Hwf] Hne. destruct (examples dataStorage) as [|e exs]; [done|].
  apply Forall_cons in Hwf as [[He _] _]. lia.
Qed.

(** Line 90 accepts the storage the axis-aligned learner works on exactly
    when it is not empty. *)
Lemma reserve_nonempty (N : Z) :
  (0 < N -> vectorSize 90 (fastlog2 N) = Returns tt) /\
  (N <= 0 -> vectorSize 90 (fastlog2 N) = Throws 90).
Proof.
  unfold vectorSize, fastlog2. split; intros HN.
  - rewrite (proj2 (Z.leb_gt _ _) HN).
    pose proof (Z.log2_nonneg N). by rewrite (proj2 (Z.ltb_ge _ _) H).
  - by rewrite (proj2 (Z.leb_le _ _) HN).
Qed.

Lemma DecisionTreeLearner_storage_eq L dataStorage gl storage sampled gl1 :
  (if useBootstrap L
   then bootstrap (if numBootstrapExamples L <? 0 then getSize dataStorage
                   else numBootstrapExamples L) dataStorage gl
   else (dataStorage, [], gl)) = (storage, sampled, gl1) ->
  DecisionTreeLearner_storage L dataStorage gl = storage.
Proof.
  unfold DecisionTreeLearner_storage. destruct (useBootstrap L); intros E.
  - by rewrite E.
  - by inversion E.
Qed.

Lemma candidateLearner_storage_eq L dataStorage gl storage sampled gl1 :
  (if useBootstrap L
   then bootstrap (numBootstrapExamples L) dataStorage gl
   else (dataStorage, [], gl)) = (storage, sampled, gl1) ->
  candidateLearner_storage L dataStorage gl = storage.
Proof.
  unfold candidateLearner_storage. destruct (useBootstrap L); intros E.
  - by rewrite E.
  - by inversion E.
Qed.

(** C8, amended.  For a non-empty data set in which every example has the
    same class label, the projective and the dot-product learner return a
    tree of one node, the root, which is a leaf, whatever their
    configuration; the axis-aligned learner does so when its feature count
    is not above the dimensionality of the data (the condition checked at
    the start of its [learn]) and the storage it works on, which is the
    bootstrap sample when bootstrap is on, is not empty (line 90).  The
    loops are given at least one turn. *)
Theorem one_class_gives_single_leaf (L : Learner) (dataStorage : DataStorage)
    (gl : Globals) (fuel : nat) (c : nat) :
  wf_storage dataStorage ->
  examples dataStorage <> [] ->
  Forall (fun e => snd e = c) (examples dataStorage) ->
  (0 < fuel)%nat ->
  (numFeatures L <= getDimensionality dataStorage ->
   0 < getSize (DecisionTreeLearner_storage L dataStorage gl) ->
   exists t gl', DecisionTreeLearner_learn L dataStorage gl fuel = Returns (t, gl') /\
                 treeStructure t = [freshConfig 0]) /\
  (exists t gl', ProjectiveDecisionTreeLearner_learn L dataStorage gl fuel = Returns (t, gl') /\
                 treeStructure t = [freshConfig 0]) /\
  (exists t gl', DotProductDecisionTreeLearner_learn L dataStorage gl fuel = Returns (t, gl') /\
                 treeStructure t = [freshConfig 0]).
Proof.
  intros Hwf Hne Hc Hfuel.
  pose proof (classcount_positive dataStorage Hwf Hne) as HC.
  split; [|split].
  - intros HnF Hsize. unfold DecisionTreeLearner_learn, BOOST_ASSERT.
    rewrite (proj2 (Z.leb_le _ _) HnF). cbn [mbind outcome_bind].
    destruct (if useBootstrap L then _ else _) as [[storage sampled] gl1] eqn:Ework.
    rewrite (DecisionTreeLearner_storage_eq _ _ _ _ _ _ Ework) in Hsize.
    rewrite (proj1 (reserve_nonempty _) Hsize). cbn [mbind outcome_bind].
    apply (working_storage_one_class _ _ _ _ c) in Ework as (EC & _ & Hc'); [|done].
    destruct (DecisionTreeLearner_loop_one_class L storage
                (if numFeatures L <? 0 then Z.sqrt (getDimensionality dataStorage)
                 else numFeatures L)
                (getClasscount storage) c fuel (g gl1) (rd gl1)) as (s & -> & Hs);
      [lia|done|done|].
    cbn [mbind outcome_bind]. eexists _, _. split; [done|].
    destruct (useBootstrap L); [by rewrite treeStructure_updateHistograms|done].
  - unfold ProjectiveDecisionTreeLearner_learn.
    destruct (if useBootstrap L then _ else _) as [[storage sampled] gl1] eqn:Ework.
    apply (working_storage_one_class _ _ _ _ c) in Ework as (EC & _ & Hc'); [|done].
    destruct (rd_draw (rd gl1)) as [sd r].
    destruct (ProjectiveDecisionTreeLearner_loop_one_class L storage
                (getClasscount storage) (getDimensionality storage) c fuel
                (seed_engine sd) r) as (s & -> & Hs); [lia|done|done|].
    cbn [mbind outcome_bind]. eexists _, _. split; [done|].
    destruct (useBootstrap L); [by rewrite treeStructure_updateHistograms|done].
  - unfold DotProductDecisionTreeLearner_learn.
    destruct (if useBootstrap L then _ else _) as [[storage sampled] gl1] eqn:Ework.
    apply (working_storage_one_class _ _ _ _ c) in Ework as (EC & _ & Hc'); [|done].
    destruct (rd_draw (rd gl1)) as [sd r].
    destruct (DotProductDecisionTreeLearner_loop_one_class L storage
                (getClasscount storage) (getDimensionality storage) c fuel
                (seed_engine sd) r) as (s & -> & Hs); [lia|done|done|].
    cbn [mbind outcome_bind]. eexists _, _. split; [done|].
    destruct (useBootstrap L); [by rewrite treeStructure_updateHistograms|done].
Qed.

End SingleLeaf.

Lemma wf_oneClass : wf_storage Reference.oneClass.
Proof.
  split; [done|]. repeat constructor; simpl; lia.
Qed.

(** The two points of one class, with one feature asked: every batch
    learner returns the root alone. *)
Lemma one_class_gives_single_leaf_witness :
  (numFeatures (Reference.config 1 5 1 1) <= getDimensionality Reference.oneClass ->
   0 < getSize (DecisionTreeLearner_storage (Reference.config 1 5 1 1) Reference.oneClass
                  Reference.globals0) ->
   exists t gl',
     DecisionTreeLearner_learn (Reference.config 1 5 1 1) Reference.oneClass
                               Reference.globals0 10 = Returns (t, gl') /\
     treeStructure t = [freshConfig 0]) /\
  (exists t gl',
     ProjectiveDecisionTreeLearner_learn (Reference.config 1 5 1 1) Reference.oneClass
                                         Reference.globals0 10 = Returns (t, gl') /\
     treeStructure t = [freshConfig 0]) /\
  (exists t gl',
     DotProductDecisionTreeLearner_learn (Reference.config 1 5 1 1) Reference.oneClass
                                         Reference.globals0 10 = Returns (t, gl') /\
     treeStructure t = [freshConfig 0]).
Proof.
  apply (one_class_gives_single_leaf (Reference.config 1 5 1 1) Reference.oneClass
           Reference.globals0 10 0).
  - exact wf_oneClass.
  - discriminate.
  - repeat constructor.
  - lia.
Defined.

(** C8 as stated fails: with five features asked of the one-dimensional
    data of one class, the axis-aligned learner fails its assertion and
    returns no tree; with one feature and a bootstrap sample of no
    example, it throws at line 90. *)
Lemma one_class_rejected :
  Forall (fun e => snd e = 0%nat) (examples Reference.oneClass) /\
  length (examples Reference.oneClass) = 2%nat /\
  DecisionTreeLearner_learn (Reference.config 5 5 1 1) Reference.oneClass
                            Reference.globals0 10 = AssertFails 50 /\
  DecisionTreeLearner_learn (mkLearner 1 true 0 5 1 1 0 0 0 0 (0, [])) Reference.oneClass
                            Reference.globals0 10 = Throws 90.
Proof.
  split; [repeat constructor|]. split; [reflexivity|]. split; reflexivity.
Qed.

(** ** Runs that draw the same values *)

Section SameOutcome.

Context {A B : Type}.

Lemma sameOutcome_bind (R : A -> A -> Prop) (R' : B -> B -> Prop)
    (x1 x2 : outcome A) (f1 f2 : A -> outcome B) :
  sameOutcome R x1 x2 ->
  (forall a1 a2, R a1 a2 -> sameOutcome R' (f1 a1) (f2 a2)) ->
  sameOutcome R' (x1 ≫= f1) (x2 ≫= f2).
Proof.
  intros Hx Hf. destruct x1, x2; try done; cbn [mbind outcome_bind]; auto.
Qed.

Lemma sameOutcome_step (R' : B -> B -> Prop) (x : outcome A) (f1 f2 : A -> outcome B) :
  (forall a, sameOutcome R' (f1 a) (f2 a)) ->
  sameOutcome R' (x ≫= f1) (x ≫= f2).
Proof.
  intros Hf. destruct x; cbn [mbind outcome_bind]; [apply Hf|done..].
Qed.

End SameOutcome.

Section Determinism.

Context `{P : Platform}.

Lemma sameDraws_refl r : sameDraws r r.
Proof. by intros k. Qed.

Lemma rd_draw_same r1 r2 :
  sameDraws r1 r2 ->
  fst (rd_draw r1) = fst (rd_draw r2) /\ sameDraws (snd (rd_draw r1)) (snd (rd_draw r2)).
Proof.
  intros Hd. unfold rd_draw. cbn [fst snd]. split.
  - specialize (Hd 0%nat). by rewrite !Nat.add_0_r in Hd.
  - intros k. cbn [source drawn]. specialize (Hd (S k)).
    by rewrite <- !Nat.add_succ_comm in Hd.
Qed.

(** The relation between the results of two turns. *)
Lemma sameState_release s1 s2 node stack t sampled e r1 r2 :
  sameState s1 s2 -> sameDraws r1 r2 ->
  sameState (release s1 node stack t sampled e r1) (release s2 node stack t sampled e r2).
Proof.
  intros (Et & Est & Ete & Ets & Esf & Ee & Hd) Hr. unfold release, sameState.
  cbn [tree splitStack trainingExamples trainingExamplesSizes sampledFeatures engine device].
  by rewrite Ete, Ets.
Qed.

Lemma sameState_commit s1 s2 node stack desc leftList rightList leftSize rightSize
    sampled e r1 r2 :
  sameState s1 s2 -> sameDraws r1 r2 ->
  sameState (fst (commit s1 node stack desc leftList rightList leftSize rightSize sampled e r1))
            (fst (commit s2 node stack desc leftList rightList leftSize rightSize sampled e r2)).
Proof.
  intros (Et & Est & Ete & Ets & Esf & Ee & Hd) Hr. unfold commit. rewrite <- Et.
  destruct (splitNode node (setSplit node desc (tree s1))) as [t leftChild].
  unfold sameState.
  cbn [fst tree splitStack trainingExamples trainingExamplesSizes sampledFeatures engine
       device].
  by rewrite Ete, Ets.
Qed.

Lemma exampleList_same s1 s2 node :
  sameState s1 s2 -> exampleList s1 node = exampleList s2 node.
Proof.
  intros (_ & _ & Ete & Ets & _). unfold exampleList. by rewrite Ete, Ets.
Qed.

(** Lines 129-297: two turns of the axis-aligned learner from states that
    will draw the same values do the same. *)
Lemma DecisionTreeLearner_turn_same L storage _numFeatures C s1 s2 :
  sameState s1 s2 ->
  sameOutcome (fun a b => sameState (fst a) (fst b) /\ snd a = snd b)
              (DecisionTreeLearner_turn L storage _numFeatures C s1)
              (DecisionTreeLearner_turn L storage _numFeatures C s2).
Proof.
  intros Hs. pose proof Hs as (Et & Est & Ete & Ets & Esf & Ee & Hd).
  unfold DecisionTreeLearner_turn.
  rewrite <- Est. destruct (splitStack s1) as [|node stack]; [done|].
  rewrite <- (exampleList_same s1 s2) by done. rewrite <- Et, <- ?Esf, <- ?Ee.
  apply sameOutcome_step. intros [l N].
  destruct (stops L _ _).
  - apply sameOutcome_step. intros t. cbn [sameOutcome fst snd].
    split; [|done]. by apply sameState_release.
  - destruct (rd_draw_same _ _ Hd) as [Hsd Hd'].
    destruct (rd_draw (device s1)) as [sd r1], (rd_draw (device s2)) as [sd2 r2].
    cbn [fst snd] in Hsd, Hd'. subst sd2.
    apply sameOutcome_step. intros [best sorted].
    destruct (_ || _).
    + apply sameOutcome_step. intros t. cbn [sameOutcome fst snd].
      split; [|done]. by apply sameState_release.
    + apply sameOutcome_step. intros [[[leftList rightList] leftCounter] rightCounter].
      apply sameOutcome_step. intros _. apply sameOutcome_step. intros _.
      cbn [sameOutcome fst snd]. split; [|done]. by apply sameState_commit.
Qed.

Lemma ProjectiveDecisionTreeLearner_turn_same L storage C D s1 s2 :
  sameState s1 s2 ->
  sameOutcome (fun a b => sameState (fst a) (fst b) /\ snd a = snd b)
              (ProjectiveDecisionTreeLearner_turn L storage C D s1)
              (ProjectiveDecisionTreeLearner_turn L storage C D s2).
Proof.
  intros Hs. pose proof Hs as (Et & Est & Ete & Ets & Esf & Ee & Hd).
  unfold ProjectiveDecisionTreeLearner_turn.
  rewrite <- Est. destruct (splitStack s1) as [|node stack]; [done|].
  rewrite <- (exampleList_same s1 s2) by done. rewrite <- Et, <- ?Esf, <- ?Ee.
  apply sameOutcome_step. intros [l N].
  destruct (stops L _ _).
  - apply sameOutcome_step. intros t. cbn [sameOutcome fst snd].
    split; [|done]. by apply sameState_release.
  - apply sameOutcome_step. intros [best e].
    destruct (_ || _).
    + apply sameOutcome_step. intros t. cbn [sameOutcome fst snd].
      split; [|done]. by apply sameState_release.
    + apply sameOutcome_step. intros [[[leftList rightList] leftCounter] rightCounter].
      cbn [sameOutcome fst snd]. split; [|done]. by apply sameState_commit.
Qed.

Lemma DotProductDecisionTreeLearner_turn_same L storage C D s1 s2 :
  sameState s1 s2 ->
  sameOutcome (fun a b => sameState (fst a) (fst b) /\ snd a = snd b)
              (DotProductDecisionTreeLearner_turn L storage C D s1)
              (DotProductDecisionTreeLearner_turn L storage C D s2).
Proof.
  intros Hs. pose proof Hs as (Et & Est & Ete & Ets & Esf & Ee & Hd).
  unfold DotProductDecisionTreeLearner_turn.
  rewrite <- Est. destruct (splitStack s1) as [|node stack]; [done|].
  rewrite <- (exampleList_same s1 s2) by done. rewrite <- Et, <- ?Esf, <- ?Ee.
  apply sameOutcome_step. intros [l N].
  destruct (stops L _ _).
  - apply sameOutcome_step. intros t. cbn [sameOutcome fst snd].
    split; [|done]. by apply sameState_release.
  - apply sameOutcome_step. intros [best e].
    destruct (_ || _).
    + apply sameOutcome_step. intros t. cbn [sameOutcome fst snd].
      split; [|done]. by apply sameState_release.
    + apply sameOutcome_step. intros [[[leftList rightList] leftCounter] rightCounter].
      cbn [sameOutcome fst snd]. split; [|done]. by apply sameState_commit.
Qed.

End Determinism.

Section SameRuns.

Context `{P : Platform}.

Lemma sameState_refl_device s r1 r2 :
  sameDraws r1 r2 ->
  sameState (mkState (tree s) (splitStack s) (trainingExamples s) (trainingExamplesSizes s)
                     (sampledFeatures s) (engine s) r1)
            (mkState (tree s) (splitStack s) (trainingExamples s) (trainingExamplesSizes s)
                     (sampledFeatures s) (engine s) r2).
Proof. intros Hr. by repeat split. Qed.

Lemma DecisionTreeLearner_loop_same L storage _numFeatures C fuel : forall s1 s2,
  sameState s1 s2 ->
  sameOutcome sameState (DecisionTreeLearner_loop fuel L storage _numFeatures C s1)
                        (DecisionTreeLearner_loop fuel L storage _numFeatures C s2).
Proof.
  induction fuel as [|fuel IH]; intros s1 s2 Hs; pose proof Hs as (_ & Est & _);
    simpl; rewrite <- Est; destruct (splitStack s1); try done.
  eapply sameOutcome_bind; [by apply DecisionTreeLearner_turn_same|].
  intros [s1' ev1] [s2' ev2] [Hs' _]. by apply IH.
Qed.

Lemma ProjectiveDecisionTreeLearner_loop_same L storage C D fuel : forall s1 s2,
  sameState s1 s2 ->
  sameOutcome sameState (ProjectiveDecisionTreeLearner_loop fuel L storage C D s1)
                        (ProjectiveDecisionTreeLearner_loop fuel L storage C D s2).
Proof.
  induction fuel as [|fuel IH]; intros s1 s2 Hs; pose proof Hs as (_ & Est & _);
    simpl; rewrite <- Est; destruct (splitStack s1); try done.
  eapply sameOutcome_bind; [by apply ProjectiveDecisionTreeLearner_turn_same|].
  intros [s1' ev1] [s2' ev2] [Hs' _]. by apply IH.
Qed.

Lemma DotProductDecisionTreeLearner_loop_same L storage C D fuel : forall s1 s2,
  sameState s1 s2 ->
  sameOutcome sameState (DotProductDecisionTreeLearner_loop fuel L storage C D s1)
                        (DotProductDecisionTreeLearner_loop fuel L storage C D s2).
Proof.
  induction fuel as [|fuel IH]; intros s1 s2 Hs; pose proof Hs as (_ & Est & _);
    simpl; rewrite <- Est; destruct (splitStack s1); try done.
  eapply sameOutcome_bind; [by apply DotProductDecisionTreeLearner_turn_same|].
  intros [s1' ev1] [s2' ev2] [Hs' _]. by apply IH.
Qed.

(** The storage a learner works on depends on the sampler only. *)
Lemma working_storage_same (b : bool) count dataStorage gl1 gl2 :
  (b = true -> sampler gl1 = sampler gl2) ->
  exists storage sampled e1 e2,
    (if b then bootstrap count dataStorage gl1 else (dataStorage, [], gl1))
    = (storage, sampled, mkGlobals (rd gl1) (g gl1) e1) /\
    (if b then bootstrap count dataStorage gl2 else (dataStorage, [], gl2))
    = (storage, sampled, mkGlobals (rd gl2) (g gl2) e2).
Proof.
  intros Hg. destruct b.
  - unfold bootstrap. rewrite <- Hg by done.
    destruct (bootstrap_draws _ _ _ _ _) as [[exs sampled] e]. by eexists _, _, _, _.
  - exists dataStorage, [], (sampler gl1), (sampler gl2). split; [by destruct gl1|].
    by destruct gl2.
Qed.

Lemma sameState_initial storage e r1 r2 :
  sameDraws r1 r2 -> sameState (initialState storage e r1) (initialState storage e r2).
Proof. intros Hr. by repeat split. Qed.

(** C4, amended.  Two runs of the same batch learner on the same data
    end the same way, and when they return they return identical trees,
    provided that the file-static random device delivers the same values
    to both, the file-static engine is in the same state at their start
    and, when bootstrap is on, the generator of the data library from
    which the sample is drawn is in the same state too.  (The device and
    the engine are shared by all the calls: they are not owned by the
    call.) *)
Theorem same_draws_same_tree (L : Learner) (dataStorage : DataStorage)
    (gl1 gl2 : Globals) (fuel : nat) :
  sameDraws (rd gl1) (rd gl2) ->
  g gl1 = g gl2 ->
  (useBootstrap L = true -> sampler gl1 = sampler gl2) ->
  sameOutcome (fun a b => fst a = fst b)
              (DecisionTreeLearner_learn L dataStorage gl1 fuel)
              (DecisionTreeLearner_learn L dataStorage gl2 fuel) /\
  sameOutcome (fun a b => fst a = fst b)
              (ProjectiveDecisionTreeLearner_learn L dataStorage gl1 fuel)
              (ProjectiveDecisionTreeLearner_learn L dataStorage gl2 fuel) /\
  sameOutcome (fun a b => fst a = fst b)
              (DotProductDecisionTreeLearner_learn L dataStorage gl1 fuel)
              (DotProductDecisionTreeLearner_learn L dataStorage gl2 fuel).
Proof.
  intros Hrd Hg Hsampler.
  split; [|split].
  - unfold DecisionTreeLearner_learn.
    apply sameOutcome_step. intros _.
    destruct (working_storage_same (useBootstrap L)
                (if numBootstrapExamples L <? 0 then getSize dataStorage
                 else numBootstrapExamples L) dataStorage gl1 gl2 Hsampler)
      as (storage & sampled & e1 & e2 & -> & ->).
    cbn [rd g]. rewrite <- Hg.
    apply sameOutcome_step. intros _.
    eapply sameOutcome_bind;
      [apply DecisionTreeLearner_loop_same, sameState_initial, Hrd|].
    intros s1 s2 (Et & _). cbn [sameOutcome fst]. by rewrite Et.
  - unfold ProjectiveDecisionTreeLearner_learn.
    destruct (working_storage_same (useBootstrap L) (numBootstrapExamples L)
                dataStorage gl1 gl2 Hsampler) as (storage & sampled & e1 & e2 & -> & ->).
    cbn [rd g].
    destruct (rd_draw_same _ _ Hrd) as [Hsd Hd'].
    destruct (rd_draw (rd gl1)) as [sd r1], (rd_draw (rd gl2)) as [sd2 r2].
    cbn [fst snd] in Hsd, Hd'. subst sd2.
    eapply sameOutcome_bind;
      [apply ProjectiveDecisionTreeLearner_loop_same, sameState_initial, Hd'|].
    intros s1 s2 (Et & _). cbn [sameOutcome fst]. by rewrite Et.
  - unfold DotProductDecisionTreeLearner_learn.
    destruct (working_storage_same (useBootstrap L) (numBootstrapExamples L)
                dataStorage gl1 gl2 Hsampler) as (storage & sampled & e1 & e2 & -> & ->).
    cbn [rd g].
    destruct (rd_draw_same _ _ Hrd) as [Hsd Hd'].
    destruct (rd_draw (rd gl1)) as [sd r1], (rd_draw (rd gl2)) as [sd2 r2].
    cbn [fst snd] in Hsd, Hd'. subst sd2.
    eapply sameOutcome_bind;
      [apply DotProductDecisionTreeLearner_loop_same, sameState_initial, Hd'|].
    intros s1 s2 (Et & _). cbn [sameOutcome fst]. by rewrite Et.
Qed.

End SameRuns.

(** Two devices that deliver 1, 2, 3, ... from now on: the learners
    return the same trees for the four points with two features. *)
Lemma same_draws_same_tree_witness :
  sameDraws (rd Reference.globals0) (rd Reference.globals1) /\
  (sameOutcome (fun a b => fst a = fst b)
     (DecisionTreeLearner_learn (Reference.config 1 5 1 1) Reference.twoFeatures
                                Reference.globals0 10)
     (DecisionTreeLearner_learn (Reference.config 1 5 1 1) Reference.twoFeatures
                                Reference.globals1 10) /\
   sameOutcome (fun a b => fst a = fst b)
     (ProjectiveDecisionTreeLearner_learn (Reference.config 1 5 1 1) Reference.twoFeatures
                                          Reference.globals0 10)
     (ProjectiveDecisionTreeLearner_learn (Reference.config 1 5 1 1) Reference.twoFeatures
                                          Reference.globals1 10) /\
   sameOutcome (fun a b => fst a = fst b)
     (DotProductDecisionTreeLearner_learn (Reference.config 1 5 1 1) Reference.twoFeatures
                                          Reference.globals0 10)
     (DotProductDecisionTreeLearner_learn (Reference.config 1 5 1 1) Reference.twoFeatures
                                          Reference.globals1 10)).
Proof.
  assert (Hd : sameDraws (rd Reference.globals0) (rd Reference.globals1)).
  { intros k. cbn. lia. }
  split; [exact Hd|].
  apply (same_draws_same_tree (Reference.config 1 5 1 1) Reference.twoFeatures
           Reference.globals0 Reference.globals1 10 Hd).
  - reflexivity.
  - reflexivity.
Defined.

(** C4 as stated fails: the randomness is drawn from the file-static
    device, which a run leaves advanced.  The axis-aligned learner run
    twice, one run after the other, on the same four points with the same
    configuration: the first run draws one value from the device and splits
    the root on feature 0, the second run finds the device advanced and
    splits the root on feature 1. *)
Lemma two_runs_differ :
  drawn (rd Reference.globals0) = 0%nat /\
  drawn (rd Reference.globalsAfter) = 1%nat /\
  treeStructure <$> returnedTree (DecisionTreeLearner_learn (Reference.config 1 5 1 1)
                                    Reference.twoFeatures Reference.globals0 10)
  = Some [mkConfig 0 (AxisAligned 0 (11 # 2)) (Some 1%nat); freshConfig 1; freshConfig 1] /\
  treeStructure <$> returnedTree (DecisionTreeLearner_learn (Reference.config 1 5 1 1)
                                    Reference.twoFeatures Reference.globalsAfter 10)
  = Some [mkConfig 0 (AxisAligned 1 (11 # 1)) (Some 1%nat); freshConfig 1; freshConfig 1].
Proof.
  split; [reflexivity|]. split; [vm_compute; reflexivity|].
  split; vm_compute; reflexivity.
Qed.

(** * Further properties of the code *)

(** ** [updateLeafNodeHistogram] as a function *)

Section LeafVector.

Context `{P : Platform}.

Lemma length_smoothedVector hist smoothing :
  length (smoothedVector hist smoothing) = length hist.
Proof. unfold smoothedVector. by rewrite length_map, length_seq. Qed.

Lemma updateLeafNodeHistogram_empty leafNodeHistogram smoothing boot :
  updateLeafNodeHistogram leafNodeHistogram [] smoothing boot = AssertFails 34.
Proof.
  unfold updateLeafNodeHistogram, H.getSize, BOOST_ASSERT. by rewrite length_resize.
Qed.

(** X1.  [updateLeafNodeHistogram] (lines 29-43) fails the assertion of
    line 34 when the histogram has no classes, whatever the other
    arguments are.  For a histogram with classes it returns a vector with
    one entry per class; without bootstrap the vector does not depend on
    what the vector held before; and a second call on the result changes
    nothing. *)
Theorem leaf_vector_is_overwritten (leafNodeHistogram other : list Q) (hist : H.t)
    (smoothing : Q) (boot : bool) :
  (0 < length hist)%nat ->
  updateLeafNodeHistogram leafNodeHistogram [] smoothing boot = AssertFails 34 /\
  exists v,
    updateLeafNodeHistogram leafNodeHistogram hist smoothing boot = Returns v /\
    length v = length hist /\
    (boot = false -> updateLeafNodeHistogram other hist smoothing boot = Returns v) /\
    updateLeafNodeHistogram v hist smoothing boot = Returns v.
Proof.
  intros Hh. split; [apply updateLeafNodeHistogram_empty|].
  destruct (updateLeafNodeHistogram_runs leafNodeHistogram hist smoothing boot Hh) as [v Hv].
  exists v. split; [done|].
  pose proof Hv as Hinv. apply updateLeafNodeHistogram_inv in Hinv as [_ Ev].
  assert (Hlen : length v = length hist).
  { rewrite Ev. destruct boot; [apply length_resize|apply length_smoothedVector]. }
  split; [done|]. split.
  - intros ->. destruct (updateLeafNodeHistogram_runs other hist smoothing false Hh) as [w Hw].
    rewrite Hw. apply updateLeafNodeHistogram_inv in Hw as [_ ->]. by rewrite Ev.
  - destruct (updateLeafNodeHistogram_runs v hist smoothing boot Hh) as [w Hw].
    rewrite Hw. apply updateLeafNodeHistogram_inv in Hw as [_ ->].
    destruct boot; [|by rewrite Ev].
    rewrite resize_all_alt by done. done.
Qed.

End LeafVector.

(** A histogram of two classes and a stale vector of three entries. *)
Lemma leaf_vector_is_overwritten_witness :
  exists v,
    updateLeafNodeHistogram [1%Q; 1%Q; 1%Q] [2; 2] 0 false = Returns v /\
    length v = 2%nat /\
    updateLeafNodeHistogram [] [2; 2] 0 false = Returns v.
Proof.
  destruct (leaf_vector_is_overwritten [1%Q; 1%Q; 1%Q] [] [2; 2] 0 false)
    as (_ & v & Hv & Hlen & Hother & _); [simpl; lia|].
  exists v. split; [exact Hv|]. split; [exact Hlen|]. by apply Hother.
Defined.

(** ** [updateSplitStatistics]: every slot counts the example once *)

Section SlotStatistics.

Context `{P : Platform}.


Lemma routed_frame label isLeft st1 st2 st3 st4 k :
  fst st2 !! k = fst st1 !! k -> snd st2 !! k = snd st1 !! k ->
  fst st4 !! k = fst st3 !! k -> snd st4 !! k = snd st3 !! k ->
  routed label isLeft st2 st3 k -> routed label isLeft st1 st4 k.
Proof.
  unfold routed. intros E1 E2 E3 E4. destruct isLeft; intros [H1 H2].
  - by rewrite E3, E4, H1, H2, E1, E2.
  - by rewrite E3, E4, H1, H2, E1, E2.
Qed.

Lemma routeExample_at L features ts x label f t st st' feature threshold :
  routeExample L features ts x label f t st = Returns st' ->
  features !! f = Some feature -> ts !! t = Some threshold ->
  routed label (Qltb (coeff x feature) threshold) st st' (slot L f t).
Proof.
  unfold routeExample, routed. intros Hr Hf Ht. rewrite Hf, Ht in Hr.
  destruct (Qltb (coeff x feature) threshold).
  - destruct (addOneAt (fst st) (slot L f t) label) as [a| | | |] eqn:E; try done.
    cbn [mbind outcome_bind] in Hr. inversion Hr; subst. cbn [fst snd].
    apply addOneAt_inv in E as (h & Hh & ->).
    split; [|done]. rewrite Hh. apply list_lookup_insert_eq. by eapply lookup_lt_Some.
  - destruct (addOneAt (snd st) (slot L f t) label) as [a| | | |] eqn:E; try done.
    cbn [mbind outcome_bind] in Hr. inversion Hr; subst. cbn [fst snd].
    apply addOneAt_inv in E as (h & Hh & ->).
    split; [done|]. rewrite Hh. apply list_lookup_insert_eq. by eapply lookup_lt_Some.
Qed.

(** Lines 801-817: what the call does to the slot of threshold [t] of
    feature [f]. *)
Lemma updateSplitStatistics_at L lefts rights features thresholds x label
    lefts' rights' f t ts feature threshold :
  OnlineDecisionTreeLearner_updateSplitStatistics L lefts rights features thresholds x label
    = Returns (lefts', rights') ->
  (f < Z.to_nat (numFeatures L))%nat ->
  thresholds !! f = Some ts -> ts !! t = Some threshold ->
  features !! f = Some feature ->
  (forall f' ts', thresholds !! f' = Some ts' ->
                  (length ts' <= Z.to_nat (numThresholds L))%nat) ->
  routed label (Qltb (coeff x feature) threshold) (lefts, rights) (lefts', rights')
         (slot L f t).
Proof.
  intros Hrun Hf Hts Ht Hfeat Hlen.
  unfold OnlineDecisionTreeLearner_updateSplitStatistics in Hrun.
  set (body := fun (f0 : nat) (st : list H.t * list H.t) =>
                 match thresholds !! f0 with
                 | Some ts0 => forEach (seq 0 (length ts0))
                                       (routeExample L features ts0 x label f0) st
                 | None => Undefined
                 end) in Hrun.
  pose proof (lookup_lt_Some _ _ _ Ht) as Htlt.
  pose proof (Hlen _ _ Hts) as Htsle.
  assert (Hother : forall (l : list nat) st st',
             f ∉ l -> forEach l body st = Returns st' ->
             fst st' !! slot L f t = fst st !! slot L f t /\
             snd st' !! slot L f t = snd st !! slot L f t).
  { intros l st st' Hnot Hl.
    apply (forEach_invariant
             (fun s => fst s !! slot L f t = fst st !! slot L f t /\
                       snd s !! slot L f t = snd st !! slot L f t)
             l body) with (s := st); auto.
    intros f' s s' Hf' [H1 H2] Hbody. unfold body in Hbody.
    destruct (thresholds !! f') as [ts'|] eqn:Ets'; [|done].
    apply routeExample_frame with (k := slot L f t) in Hbody as [E1 E2].
    - by rewrite E1, E2.
    - intros t' Ht' Hslot. apply elem_of_seq in Ht'.
      pose proof (Hlen _ _ Ets').
      apply slot_inj in Hslot as [-> _]; [|lia|lia]. done. }
  replace (Z.to_nat (numFeatures L)) with (f + (1 + (Z.to_nat (numFeatures L) - f - 1)))%nat
    in Hrun by lia.
  rewrite !seq_app, !forEach_app in Hrun.
  destruct (forEach (seq 0 f) body (lefts, rights)) as [st1| | | |] eqn:E1; try done.
  simpl in Hrun.
  apply Hother in E1 as [A1 A2]; [|rewrite elem_of_seq; lia].
  destruct (body f st1) as [st2| | | |] eqn:E2; try done. simpl in Hrun.
  apply Hother in Hrun as [C1 C2]; [|rewrite elem_of_seq; lia].
  unfold body in E2. rewrite Hts in E2.
  replace (length ts) with (t + (1 + (length ts - t - 1)))%nat in E2 by lia.
  rewrite !seq_app, !forEach_app in E2.
  destruct (forEach (seq 0 t) (routeExample L features ts x label f) st1)
    as [st3| | | |] eqn:E3; try done.
  simpl in E2.
  apply routeExample_frame with (k := slot L f t) in E3 as [B1 B2].
  2:{ intros t' Ht' Hslot. apply elem_of_seq in Ht'.
      apply slot_inj in Hslot as [_ ->]; lia. }
  destruct (routeExample L features ts x label f t st3) as [st4| | | |] eqn:E4; try done.
  simpl in E2.
  apply routeExample_frame with (k := slot L f t) in E2 as [D1 D2].
  2:{ intros t' Ht' Hslot. apply elem_of_seq in Ht'.
      apply slot_inj in Hslot as [_ ->]; lia. }
  eapply routeExample_at in E4; eauto.
  apply (routed_frame label _ (lefts, rights) st3 st4 (lefts', rights')); cbn [fst snd] in *;
    try congruence.
Qed.



End SlotStatistics.



(** ** The statistics of the slots of a leaf add up *)

Section SlotsAddUp.

Context `{P : Platform}.

Lemma at_addOne label (h : list Z) c :
  H.at_ (H.addOne label h) c
  = H.at_ h c + (if decide (c = label /\ (label < length h)%nat) then 1 else 0).
Proof.
  unfold H.at_, H.addOne.
  destruct (decide (c = label /\ (label < length h)%nat)) as [[-> Hlt]|Hne].
  - rewrite list_lookup_alter_eq.
    destruct (lookup_lt_is_Some_2 h label Hlt) as [z ->]. simpl. lia.
  - destruct (decide (label = c)) as [->|Hc].
    + rewrite list_lookup_alter_eq.
      rewrite (proj2 (lookup_ge_None h c)); [simpl; lia|].
      destruct (decide (c < length h)%nat); [|lia]. exfalso. apply Hne. done.
    + rewrite list_lookup_alter_ne by done. lia.
Qed.

(** Masses add up when the counts do. *)
Lemma getMass_add_up (hl : list Z) : forall hr h,
  length hl = length h -> length hr = length h ->
  (forall c, H.at_ hl c + H.at_ hr c = H.at_ h c) ->
  H.getMass hl + H.getMass hr = H.getMass h.
Proof.
  unfold H.getMass.
  induction hl as [|a hl IH]; intros hr h Hl Hr Hc.
  - destruct h; [|done]. destruct hr; [|done]. done.
  - destruct h as [|z h]; [done|]. destruct hr as [|b hr]; [done|].
    simpl in *. pose proof (Hc 0%nat) as H0. unfold H.at_ in H0. simpl in H0.
    rewrite <- (IH hr h); [lia|lia|lia|].
    intros c. apply (Hc (S c)).
Qed.

Lemma slotsAddUp_fresh L C (stats : H.t) features thresholds hist :
  stats = [] ->
  slotsAddUp L (mkData hist (H.resize C stats) features thresholds
                  (replicate (Z.to_nat (numFeatures L * numThresholds L)) (H.create C))
                  (replicate (Z.to_nat (numFeatures L * numThresholds L)) (H.create C))).
Proof.
  intros -> f t hl hr _ _ El Er c.
  cbn [leftChildStatistics rightChildStatistics nodeStatistics] in *.
  apply lookup_replicate in El as [-> _]. apply lookup_replicate in Er as [-> _].
  rewrite !at_create. unfold H.resize, H.at_. rewrite resize_nil.
  destruct (replicate (Z.to_nat C) 0 !! c) as [z|] eqn:E; [|done].
  apply lookup_replicate in E as [-> _]. done.
Qed.

(** Lines 860-922: a fresh leaf is prepared with statistics that add up. *)
Lemma prepareLeaf_addUp C D st d st1 d1 :
  prepareLeaf C D st d = Returns (st1, d1) ->
  (nodeStatistics d <> [] -> slotsAddUp (learner st) d) ->
  slotsAddUp (learner st1) d1.
Proof.
  unfold prepareLeaf, H.getSize. intros Hrun Hd.
  destruct (Z.of_nat (length (nodeStatistics d)) <=? 0) eqn:Efresh.
  - accept_sizes Hrun.
    destruct (rd_draw (rd (globals st))) as [sd r].
    destruct (_ <? numFeatures (learner st)); [done|].
    destruct (sampleAllThresholds _ _ _ _) as [[thresholds tg]| | | |] eqn:E; try done.
    cbn [mbind outcome_bind] in Hrun. inversion Hrun; subst.
    cbn [learner].
    apply (slotsAddUp_fresh (withGenerator (learner st) tg)).
    apply Z.leb_le in Efresh. destruct (nodeStatistics d); [done|]. simpl in Efresh. lia.
  - inversion Hrun; subst. apply Hd. intros E. rewrite E in Efresh. done.
Qed.

(** Lines 931-938: counting an example keeps the statistics adding up. *)
Lemma accumulate_addUp K L C D x label : forall d d',
  leafPrepared L C D d -> slotsAddUp L d ->
  accumulate K L d x label = Returns d' ->
  slotsAddUp L d'.
Proof.
  induction K as [|K IH]; intros d d' Hprep Hadd Hrun; simpl in Hrun.
  - by inversion Hrun; subst.
  - destruct (OnlineDecisionTreeLearner_updateSplitStatistics _ _ _ _ _ _ _)
      as [[lefts rights]| | | |] eqn:E; try done.
    cbn [mbind outcome_bind] in Hrun.
    assert (Hprep' : leafPrepared L C D
                       (mkData (histogram d) (H.addOne label (nodeStatistics d))
                               (nodeFeatures d) (nodeThresholds d) lefts rights)).
    { apply (accumulate_prepared 1 L C D x label d); [done|].
      simpl. by rewrite E. }
    eapply IH; [exact Hprep'| |exact Hrun].
    pose proof Hprep as (HC & Hstat & Hf & HD & Hts & Hnt & Hl & Hr & Hcl & Hcr).
    intros f t hl' hr' Hflt Htlt El' Er' c.
    cbn [leftChildStatistics rightChildStatistics nodeStatistics] in *.
    destruct (lookup_lt_is_Some_2 (nodeFeatures d) f) as [feature Efeat]; [lia|].
    destruct (lookup_lt_is_Some_2 (nodeThresholds d) f) as [ts Ets]; [lia|].
    pose proof (Forall_lookup_1 _ _ _ _ Hnt Ets) as Hlen. cbv beta in Hlen.
    destruct (lookup_lt_is_Some_2 ts t) as [threshold Eth]; [lia|].
    pose proof (slot_allocated L f t Hflt Htlt) as Hslot.
    destruct (lookup_lt_is_Some_2 (leftChildStatistics d) (slot L f t)) as [hl El]; [lia|].
    destruct (lookup_lt_is_Some_2 (rightChildStatistics d) (slot L f t)) as [hr Er]; [lia|].
    pose proof (Forall_lookup_1 _ _ _ _ Hcl El) as Hhl. cbv beta in Hhl.
    pose proof (Forall_lookup_1 _ _ _ _ Hcr Er) as Hhr. cbv beta in Hhr.
    pose proof (Hadd f t hl hr Hflt Htlt El Er c) as Hc.
    assert (Hrouted : routed label (Qltb (coeff x feature) threshold)
                        (leftChildStatistics d, rightChildStatistics d) (lefts, rights)
                        (slot L f t)).
    { eapply updateSplitStatistics_at; eauto.
      intros f' ts' Ets'. by rewrite (Forall_lookup_1 _ _ _ _ Hnt Ets'). }
    unfold routed in Hrouted. cbn [fst snd] in Hrouted.
    rewrite El, Er, El', Er' in Hrouted. rewrite (at_addOne label (nodeStatistics d)).
    destruct (Qltb (coeff x feature) threshold); destruct Hrouted as [R1 R2];
      cbn [fmap option_fmap option_map] in R1, R2; inversion R1; inversion R2; subst.
    + rewrite at_addOne. rewrite Hhl, Hstat. lia.
    + rewrite at_addOne. rewrite Hhr, Hstat. lia.
Qed.

(** Lines 848-938: the statistics of the leaf of a visit add up after the
    example has been counted. *)
Lemma countExample_addUp C D st x label st2 d2 :
  0 < C ->
  (nodeStatistics (getNodeData (otree st) (findLeafNode (otree st) x)) <> [] ->
   leafPrepared (learner st) C D (getNodeData (otree st) (findLeafNode (otree st) x)) /\
   slotsAddUp (learner st) (getNodeData (otree st) (findLeafNode (otree st) x))) ->
  countExample C D st x label = Returns (st2, d2) ->
  leafPrepared (learner st2) C D d2 /\ slotsAddUp (learner st2) d2.
Proof.
  intros HC Hd Hrun.
  pose proof (countExample_inv _ _ _ _ _ _ _ Hrun) as (_ & _ & Hprep).
  split; [apply Hprep; [done|]; intros Hne; by apply Hd|].
  unfold countExample in Hrun.
  destruct (prepareLeaf C D st _) as [[st1 d1]| | | |] eqn:Eprep; try done.
  cbn [mbind outcome_bind] in Hrun.
  pose proof (prepareLeaf_inv _ _ _ _ _ _ Eprep) as (_ & _ & Hprep1).
  apply prepareLeaf_addUp in Eprep; [|intros Hne; by apply Hd].
  destruct (if useBootstrap (learner st1) then _ else _) as [K gl].
  destruct (accumulate (Z.to_nat K) (learner st1) d1 x label) as [d| | | |] eqn:Eacc; try done.
  cbn [mbind outcome_bind] in Hrun. inversion Hrun; subst. cbn [learner].
  eapply accumulate_addUp; [|exact Eprep|exact Eacc].
  apply Hprep1; [done|]. intros Hne. by apply Hd.
Qed.

End SlotsAddUp.

Section VisitsAddUp.

Context `{P : Platform}.

(** X3.  The online learner keeps, for every leaf it has prepared, the
    statistics of the two sides of every slot adding up class by class to
    the statistics of the leaf (lines 915-919 zero them, lines 931-938
    count every example once in the leaf and once in every slot).  A visit
    that keeps the leaf leaves it prepared with statistics that add up; a
    visit that splits it seeds the two children from statistics that add
    up, class by class and in mass, to the statistics that stay in the
    split node. *)
Theorem online_statistics_add_up (C D : Z) (st : OnlineState) (x : DataPoint) (label : nat)
    (st' : OnlineState) (ev : OnlineEvent) :
  0 < C ->
  (findLeafNode (otree st) x < length (otree st))%nat ->
  (nodeStatistics (getNodeData (otree st) (findLeafNode (otree st) x)) <> [] ->
   leafPrepared (learner st) C D (getNodeData (otree st) (findLeafNode (otree st) x)) /\
   slotsAddUp (learner st) (getNodeData (otree st) (findLeafNode (otree st) x))) ->
  OnlineDecisionTreeLearner_visit C D st x label = Returns (st', ev) ->
  match ev with
  | Kept leaf =>
      nodeStatistics (getNodeData (otree st') leaf) <> [] /\
      leafPrepared (learner st') C D (getNodeData (otree st') leaf) /\
      slotsAddUp (learner st') (getNodeData (otree st') leaf)
  | Split leaf leftChild best =>
      exists hl hr,
        histogram (getNodeData (otree st') leftChild)
        = smoothedVector hl (smoothingParameter (learner st')) /\
        histogram (getNodeData (otree st') (S leftChild))
        = smoothedVector hr (smoothingParameter (learner st')) /\
        (forall c, H.at_ hl c + H.at_ hr c
                   = H.at_ (nodeStatistics (getNodeData (otree st') leaf)) c) /\
        H.getMass hl + H.getMass hr
        = H.getMass (nodeStatistics (getNodeData (otree st') leaf))
  end.
Proof.
  intros HC Hleaf Hpre Hvisit. unfold OnlineDecisionTreeLearner_visit in Hvisit.
  destruct (countExample C D st x label) as [[st2 d2]| | | |] eqn:Ecount; try done.
  cbn [mbind outcome_bind] in Hvisit.
  pose proof (countExample_addUp C D st x label st2 d2 HC Hpre Ecount) as [Hprep Hadd].
  apply countExample_inv in Ecount as (Etree & _ & _).
  apply decideSplit_inv in Hvisit as [[-> Hkeep]|(best & -> & _ & Hbest & Hsplit)].
  - apply keepLeaf_inv in Hkeep as (Hne & _ & ->). cbn [otree learner].
    rewrite getNodeData_setNodeData by (by rewrite Etree).
    split; [|by split]. cbn [setHistogram nodeStatistics].
    intros E. rewrite E in Hne. simpl in Hne. lia.
  - apply bestSlot_spec in Hbest as [_ Hwhich].
    apply splitLeaf_inv in Hsplit
      as (Hfound & feature & threshold & hl & hr & _ & _ & _ & El & Er & _ & _ & _
          & EL & _ & _ & Et).
    destruct Hwhich as [(_ & _ & E)|(f & t & Hin & _ & _ & _ & Eth & Ef)]; [lia|].
    apply elem_of_scanOrder in Hin as [Hf Ht].
    rewrite Ef, Eth, !Nat2Z.id in El, Er.
    rewrite Et, EL, Etree.
    destruct (splitTree_data (learner st2) (findLeafNode (otree st) x) d2
                (AxisAligned (Z.of_nat feature) threshold) hl hr (otree st) Hleaf)
      as (E1 & E2 & E3).
    rewrite E1, E2, E3. cbn [setHistogram histogram nodeStatistics].
    exists hl, hr. split; [done|]. split; [done|].
    pose proof (Hadd f t hl hr Hf Ht El Er) as Hc. split; [done|].
    destruct Hprep as (_ & Hstat & _ & _ & _ & _ & _ & _ & Hcl & Hcr).
    apply getMass_add_up; [| |done].
    + rewrite (Forall_lookup_1 _ _ _ _ Hcl El). done.
    + rewrite (Forall_lookup_1 _ _ _ _ Hcr Er). done.
Qed.

End VisitsAddUp.

Lemma onlineState1_addUp :
  leafPrepared (learner (Reference.onlineState1 2)) 2 1
    (getNodeData (otree (Reference.onlineState1 2))
                 (findLeafNode (otree (Reference.onlineState1 2)) [inject_Z 10])) /\
  slotsAddUp (learner (Reference.onlineState1 2))
    (getNodeData (otree (Reference.onlineState1 2))
                 (findLeafNode (otree (Reference.onlineState1 2)) [inject_Z 10])).
Proof.
  split.
  - unfold leafPrepared. vm_compute. repeat split; repeat constructor.
  - intros f t hl hr Hf Ht El Er c.
    assert (f = 0%nat) as -> by (vm_compute in Hf; lia).
    assert (t = 0%nat) as -> by (vm_compute in Ht; lia).
    vm_compute in El, Er. inversion El; inversion Er; subst.
    destruct c as [|[|c]]; reflexivity.
Qed.

(** The second of the two points splits the root of the online tree: the
    children are seeded from the statistics of the two sides of the slot,
    which add up to the statistics of the root. *)
Lemma online_statistics_add_up_witness :
  exists hl hr,
    histogram (getNodeData (otree (Reference.onlineState2 2)) 1)
    = smoothedVector hl (smoothingParameter (learner (Reference.onlineState2 2))) /\
    histogram (getNodeData (otree (Reference.onlineState2 2)) 2)
    = smoothedVector hr (smoothingParameter (learner (Reference.onlineState2 2))) /\
    (forall c, H.at_ hl c + H.at_ hr c
               = H.at_ (nodeStatistics (getNodeData (otree (Reference.onlineState2 2)) 0)) c) /\
    H.getMass hl + H.getMass hr
    = H.getMass (nodeStatistics (getNodeData (otree (Reference.onlineState2 2)) 0)).
Proof.
  apply (online_statistics_add_up 2 1 (Reference.onlineState1 2) [inject_Z 10] 1
           (Reference.onlineState2 2) (Split 0 1 (mkBestSlot 2 0 0))).
  - lia.
  - vm_compute. lia.
  - intros _. exact onlineState1_addUp.
  - exact onlineState2_returned.
Defined.

(** ** The preparation of a fresh leaf *)

Section FreshLeaf.

Context `{P : Platform}.

Lemma sampleAllThresholds_runs L D nodeFeatures : forall tg,
  Forall (fun feature => Z.of_nat feature < D) nodeFeatures ->
  exists tss tg', sampleAllThresholds L D nodeFeatures tg = Returns (tss, tg').
Proof.
  induction nodeFeatures as [|feature rest IH]; intros tg Hall; simpl; [eauto|].
  apply Forall_cons in Hall as [Hf Hrest]. unfold BOOST_ASSERT.
  rewrite (proj2 (Z.ltb_lt _ _) Hf). cbn [mbind outcome_bind].
  destruct (sampleThresholds _ feature None tg) as [ts tg1].
  destruct (IH tg1 Hrest) as (tss & tg2 & ->). cbn [mbind outcome_bind]. eauto.
Qed.

(** X4.  The first visit of a leaf (lines 860-922), when the array of
    features holds the dimensions of the data in some order, the feature
    count is not above the dimensionality, the threshold count is not
    negative and the number of slots is an [int]: the preparation runs to
    its end; the leaf receives [numFeatures] features that are pairwise
    different dimensions of the data, [numThresholds] thresholds for each
    of them, and statistics of zero mass for the leaf and for both sides
    of every slot; the array of features still holds the dimensions. *)
Theorem fresh_leaf_is_prepared (C D : Z) (st : OnlineState) (d : NodeData) :
  0 < C ->
  features st ≡ₚ seq 0 (Z.to_nat D) ->
  0 <= numFeatures (learner st) <= D ->
  0 <= numThresholds (learner st) ->
  numFeatures (learner st) * numThresholds (learner st) < 2 ^ 31 ->
  nodeStatistics d = [] ->
  exists st1 d1,
    prepareLeaf C D st d = Returns (st1, d1) /\
    features st1 ≡ₚ seq 0 (Z.to_nat D) /\
    leafPrepared (learner st1) C D d1 /\
    NoDup (nodeFeatures d1) /\
    H.getMass (nodeStatistics d1) = 0 /\
    Forall (fun h => H.getMass h = 0) (leftChildStatistics d1) /\
    Forall (fun h => H.getMass h = 0) (rightChildStatistics d1).
Proof.
  intros HC Hperm HnF HnT Hint Hfresh. unfold prepareLeaf, H.getSize. rewrite Hfresh.
  cbn [length Z.of_nat Z.leb Z.compare].
  pass_sizes.
  destruct (rd_draw (rd (globals st))) as [sd r].
  set (shuffled := shuffle (seed_engine sd) (features st)).
  assert (Hsh : shuffled ≡ₚ seq 0 (Z.to_nat D)).
  { unfold shuffled. by rewrite shuffle_perm. }
  assert (Hlen : length shuffled = Z.to_nat D) by (by rewrite Hsh, length_seq).
  rewrite (proj2 (Z.ltb_ge _ _)) by lia.
  assert (Hvalid : Forall (fun feature => Z.of_nat feature < D)
                          (take (Z.to_nat (numFeatures (learner st))) shuffled)).
  { apply Forall_take. rewrite Hsh. apply Forall_forall. intros f Hf.
    apply elem_of_seq in Hf. lia. }
  destruct (sampleAllThresholds_runs (learner st) D _ (thresholdGenerator (learner st))
              Hvalid) as (tss & tg & Hrun).
  rewrite Hrun. cbn [mbind outcome_bind]. eexists _, _. split; [reflexivity|].
  cbn [features learner nodeFeatures nodeStatistics leftChildStatistics
       rightChildStatistics].
  split; [done|]. split; [|split; [|split; [|split]]].
  - apply sampleAllThresholds_inv in Hrun as (H1 & H2 & H3).
    apply leafPrepared_withGenerator. unfold leafPrepared.
    cbn [nodeStatistics nodeFeatures nodeThresholds leftChildStatistics
         rightChildStatistics].
    rewrite H2, length_take, !length_replicate. unfold H.resize. rewrite length_resize.
    repeat split; auto; try lia.
    + apply Forall_replicate. apply length_create.
    + apply Forall_replicate. apply length_create.
  - apply (sublist_NoDup _ shuffled); [|apply sublist_take].
    rewrite Hsh. apply NoDup_seq.
  - unfold H.resize. rewrite resize_nil. apply getMass_create.
  - apply Forall_replicate. apply getMass_create.
  - apply Forall_replicate. apply getMass_create.
Qed.

End FreshLeaf.

(** The root of the online tree before the first point. *)
Lemma fresh_leaf_is_prepared_witness :
  exists st1 d1,
    prepareLeaf 2 1 (Reference.onlineState0 2) freshData = Returns (st1, d1) /\
    NoDup (nodeFeatures d1) /\ H.getMass (nodeStatistics d1) = 0.
Proof.
  destruct (fresh_leaf_is_prepared 2 1 (Reference.onlineState0 2) freshData)
    as (st1 & d1 & Hrun & _ & _ & Hnd & Hmass & _).
  - lia.
  - reflexivity.
  - split; vm_compute; discriminate.
  - vm_compute; discriminate.
  - reflexivity.
  - reflexivity.
  - exists st1, d1. split; [exact Hrun|]. split; assumption.
Defined.

(** ** The bisector of two anchors *)

Section Bisector.

Context `{P : Platform}.

Lemma squaredNorm_nonneg (x : DataPoint) : (0 <= squaredNorm x)%Q.
Proof.
  unfold squaredNorm. induction x as [|a x IH]; simpl; [lra|].
  nra.
Qed.

Lemma squaredDistance_self (x : DataPoint) : (squaredDistance x x == 0)%Q.
Proof.
  unfold squaredDistance, squaredNorm. induction x as [|a x IH]; simpl; [lra|].
  rewrite IH. ring.
Qed.

(** The difference of the squared distances to two anchors. *)
Lemma squaredDistance_difference (x : DataPoint) : forall a b,
  length x = length a -> length x = length b ->
  (squaredDistance x a - squaredDistance x b
   == 2 * (inner x b - inner x a) - (squaredNorm b - squaredNorm a))%Q.
Proof.
  unfold squaredDistance, squaredNorm.
  induction x as [|x0 x IH]; intros a b Ha Hb.
  - destruct a; [|done]. destruct b; [|done]. simpl. lra.
  - destruct a as [|a0 a]; [done|]. destruct b as [|b0 b]; [done|].
    simpl in Ha, Hb. specialize (IH a b ltac:(lia) ltac:(lia)).
    simpl. nra.
Qed.

(** X5.  The test of the dot-product learner (lines 701-704 and 753-757)
    with the threshold of line 690, [0.5 * (|x2|^2 - |x1|^2)], is the test
    of the perpendicular bisector of the two anchors where its [float]
    operations do not round: when the discriminant of an example and the
    threshold are the values of their expressions, the example goes to
    the left exactly when it is strictly nearer to the anchor [x1] than to
    the anchor [x2], and an example at [x2] does not go to the left. *)
Theorem bisector_sends_nearer_to_x1_left (storage : DataStorage) (x1 x2 : DataPoint)
    (n : nat) :
  length (getDataPoint storage n) = length x1 ->
  length (getDataPoint storage n) = length x2 ->
  bisectorExact (getDataPoint storage n) x1 x2 ->
  (belowBisector storage x1 x2 (bisectorThreshold x1 x2) n = true
   <-> (squaredDistance (getDataPoint storage n) x1
        < squaredDistance (getDataPoint storage n) x2)%Q) /\
  (getDataPoint storage n = x2 ->
   belowBisector storage x1 x2 (bisectorThreshold x1 x2) n = false).
Proof.
  intros H1 H2 [Hd Ht].
  pose proof (squaredDistance_difference (getDataPoint storage n) x1 x2 H1 H2) as Hdiff.
  assert (Hiff : belowBisector storage x1 x2 (bisectorThreshold x1 x2) n = true
                 <-> (squaredDistance (getDataPoint storage n) x1
                      < squaredDistance (getDataPoint storage n) x2)%Q).
  { unfold belowBisector.
    destruct (fsub binary32 _ _) as [d|sd|]; [|done|done].
    destruct (bisectorThreshold x1 x2) as [t|st|]; [|done|done].
    cbn [feq] in Hd, Ht. unfold fltb. rewrite Qltb_lt. split; intros Hlt; lra. }
  split; [exact Hiff|].
  intros Ex. apply not_true_is_false. intros E.
  apply Hiff in E. rewrite Ex in E.
  pose proof (squaredDistance_self x2).
  pose proof (squaredNorm_nonneg (zip_with Qminus x2 x1)).
  unfold squaredDistance in *. lra.
Qed.

End Bisector.

(** Among the four points, with the anchors 0 and 11, no operation
    rounds: the point 1 is nearer to 0 and goes to the left. *)
Lemma bisector_sends_nearer_to_x1_left_witness :
  bisectorExact (getDataPoint Reference.fourPoints 1) [0%Q] [inject_Z 11] /\
  belowBisector Reference.fourPoints [0%Q] [inject_Z 11]
                (bisectorThreshold [0%Q] [inject_Z 11]) 1 = true /\
  (squaredDistance (getDataPoint Reference.fourPoints 1) [0%Q]
   < squaredDistance (getDataPoint Reference.fourPoints 1) [inject_Z 11])%Q.
Proof.
  assert (Hexact : bisectorExact (getDataPoint Reference.fourPoints 1) [0%Q] [inject_Z 11])
    by (split; by vm_compute).
  assert (Hnear : (squaredDistance (getDataPoint Reference.fourPoints 1) [0%Q]
                   < squaredDistance (getDataPoint Reference.fourPoints 1) [inject_Z 11])%Q)
    by (by vm_compute).
  split; [exact Hexact|]. split; [|exact Hnear].
  apply (proj1 (bisector_sends_nearer_to_x1_left Reference.fourPoints [0%Q] [inject_Z 11] 1
                  eq_refl eq_refl Hexact)).
  exact Hnear.
Defined.

Lemma nearPoints_turn :
  DotProductDecisionTreeLearner_turn (Reference.config 1 5 1 1) Reference.nearPoints 2 1
    Reference.nearState
  = Returns (Reference.nearSplit, Committed 0 2 [0; 1]%nat [1%nat] [0%nat] 1 1 0 0).
Proof. reflexivity. Qed.

(** X21.  The test of the dot-product learner is not the test of the
    bisector on every data set: its inner products and its threshold are
    rounded.  With the anchors [x1 = 16339879 / 2^24] and
    [x2 = 16339905 / 2^24] the threshold is [25.5 * 2^-24], the
    discriminant of the example at [x2] is [25 * 2^-24] and that of the
    example at [x1] is [26 * 2^-24]: the learner commits the split that
    sends the example at [x2] to the left and the example at [x1] to the
    right, each to the side of the other anchor. *)
Theorem rounded_bisector_swaps_the_anchors :
  DotProductDecisionTreeLearner_turn (Reference.config 1 5 1 1) Reference.nearPoints 2 1
    Reference.nearState
  = Returns (Reference.nearSplit, Committed 0 2 [0; 1]%nat [1%nat] [0%nat] 1 1 0 0) /\
  split (getNodeConfig (tree Reference.nearSplit) 0)
  = DotProduct (getDataPoint Reference.nearPoints 0) (getDataPoint Reference.nearPoints 1)
               (Finite (51 # 33554432)) /\
  feq (decisionValue (split (getNodeConfig (tree Reference.nearSplit) 0))
                     (getDataPoint Reference.nearPoints 1)) (Finite (25 # 16777216)) /\
  feq (decisionValue (split (getNodeConfig (tree Reference.nearSplit) 0))
                     (getDataPoint Reference.nearPoints 0)) (Finite (26 # 16777216)) /\
  goesLeft (split (getNodeConfig (tree Reference.nearSplit) 0))
           (getDataPoint Reference.nearPoints 1) = true /\
  goesLeft (split (getNodeConfig (tree Reference.nearSplit) 0))
           (getDataPoint Reference.nearPoints 0) = false /\
  (squaredDistance (getDataPoint Reference.nearPoints 1) (getDataPoint Reference.nearPoints 1)
   < squaredDistance (getDataPoint Reference.nearPoints 1) (getDataPoint Reference.nearPoints 0))%Q.
Proof.
  split; [exact nearPoints_turn|].
  split; [reflexivity|].
  split; [by vm_compute|]. split; [by vm_compute|].
  split; [by vm_compute|]. split; by vm_compute.
Qed.

(** ** The candidate projections of the projective learner *)

Section Projections.

Context `{P : Platform}.

Lemma setCoeff_inv projection d v projection' :
  setCoeff projection d v = Returns projection' ->
  (Z.to_nat d < length projection)%nat /\ projection' = <[Z.to_nat d := v]> projection.
Proof.
  unfold setCoeff. destruct (0 <=? d) eqn:E1; [|done].
  destruct (d <? Z.of_nat (length projection)) eqn:E2; [|done].
  simpl. intros Hr. inversion Hr; subst. split; [lia|done].
Qed.

Lemma nonzeros_insert (v : Q) (projection : DataPoint) : forall i,
  (nonzeros (<[i := v]> projection) <= S (nonzeros projection))%nat.
Proof.
  unfold nonzeros.
  induction projection as [|c projection IHp]; intros i; [destruct i; cbn; lia|].
  destruct i as [|i]; change (<[0%nat := v]> (c :: projection)) with (v :: projection) ||
                      change (<[S i := v]> (c :: projection)) with (c :: <[i := v]> projection).
  - destruct (negb (Qeq_bool v 0)) eqn:Ev, (negb (Qeq_bool c 0)) eqn:Ec;
      repeat first [rewrite filter_cons_True by (rewrite ?Ev, ?Ec; simpl; auto)
                   |rewrite filter_cons_False by (rewrite ?Ev, ?Ec; simpl; auto)];
      simpl; lia.
  - specialize (IHp i).
    destruct (negb (Qeq_bool c 0)) eqn:Ec;
      repeat first [rewrite filter_cons_True by (rewrite ?Ec; simpl; auto)
                   |rewrite filter_cons_False by (rewrite ?Ec; simpl; auto)];
      simpl; lia.
Qed.

Lemma nonzeros_Zero D : nonzeros (Zero D) = 0%nat.
Proof.
  unfold nonzeros, Zero. induction D as [|k IHk]; [done|]. simpl.
  rewrite filter_cons_False by (simpl; auto). done.
Qed.

(** Lines 454-457: every turn writes one coefficient, a sign. *)
Lemma sampleSigns_inv k D : forall projection e projection' e',
  sampleSigns k D projection e = Returns (projection', e') ->
  Forall isSign projection ->
  length projection' = length projection /\
  Forall isSign projection' /\
  (nonzeros projection' <= nonzeros projection + k)%nat.
Proof.
  induction k as [|k IH]; intros projection e projection' e' Hrun Hsign; simpl in Hrun.
  - inversion Hrun; subst. split; [done|]. split; [done|lia].
  - pose proof (uniform_int_range 0 1 e ltac:(lia)) as Hb.
    destruct (uniform_int 0 1 e) as [b e1]. cbn [fst] in Hb.
    destruct (uniform_int 0 (D - 1) e1) as [d e2].
    destruct (setCoeff projection d (inject_Z (2 * b - 1))) as [p1| | | |] eqn:Eset; try done.
    cbn [mbind outcome_bind] in Hrun.
    apply setCoeff_inv in Eset as [Hd ->].
    apply IH in Hrun as (Hlen & Hs & Hcount).
    + rewrite length_insert in Hlen. split; [done|]. split; [done|].
      pose proof (nonzeros_insert (inject_Z (2 * b - 1)) projection (Z.to_nat d)). lia.
    + apply Forall_insert; [done|].
      assert (b = 0 \/ b = 1) as [-> | ->] by lia; [by right; right|by right; left].
Qed.

(** X6.  A candidate projection of the projective learner (lines
    443-458) is a vector of the dimension of the data, zero except for at
    most three coefficients, which are plus or minus one, divided by the
    square root of three.  In dimension zero there is no coefficient to
    write, and the sampling is undefined. *)
Theorem projection_is_sparse (D : Z) (e : Engine) :
  (D <= 0 -> sampleProjection D e = Undefined) /\
  (0 < D ->
   exists signs e',
     sampleProjection D e
     = Returns (scale_div signs (fsqrt (inject_Z (Z.of_nat sparsity))), e') /\
     length signs = Z.to_nat D /\
     Forall isSign signs /\
     (nonzeros signs <= 3)%nat).
Proof.
  split.
  - intros HD. unfold sampleProjection, sparsity. cbn [sampleSigns].
    destruct (uniform_int 0 1 e) as [b e1].
    destruct (uniform_int 0 (D - 1) e1) as [d e2].
    replace (Z.to_nat D) with 0%nat by lia. unfold setCoeff. cbn [Zero replicate length].
    destruct (0 <=? d) eqn:E1; [|done]. apply Z.leb_le in E1.
    destruct (d <? Z.of_nat 0) eqn:E2; [|done]. apply Z.ltb_lt in E2. simpl in E2. lia.
  - intros HD.
    destruct (sampleSigns_runs sparsity D (Zero (Z.to_nat D)) e HD)
      as (signs & e' & Hrun); [apply length_replicate|].
    exists signs, e'. unfold sampleProjection. rewrite Hrun. cbn [mbind outcome_bind].
    split; [done|].
    apply sampleSigns_inv in Hrun as (Hlen & Hs & Hcount).
    + unfold Zero in Hlen. rewrite length_replicate in Hlen. split; [done|].
      split; [done|].
      rewrite nonzeros_Zero in Hcount. unfold sparsity in Hcount. lia.
    + unfold Zero. apply Forall_replicate. by left.
Qed.

End Projections.

(** A candidate projection in dimension two. *)
Lemma projection_is_sparse_witness :
  exists signs e',
    sampleProjection 2 (seed_engine 1)
    = Returns (scale_div signs (fsqrt (inject_Z (Z.of_nat sparsity))), e') /\
    length signs = 2%nat /\ Forall isSign signs.
Proof.
  destruct (proj2 (projection_is_sparse 2 (seed_engine 1))) as (signs & e' & H1 & H2 & H3 & _);
    [lia|].
  exists signs, e'. split; [exact H1|]. split; assumption.
Defined.

(** ** Well-formed trees *)

Section WellFormed.

Lemma isChild_setNodeData t node d k j :
  isChild (setNodeData node d t) k j <-> isChild t k j.
Proof. unfold isChild. by rewrite getNodeConfig_setNodeData. Qed.

Lemma wellFormed_setNodeData t node d :
  wellFormed t -> wellFormed (setNodeData node d t).
Proof.
  intros (H0 & Hroot & Hkids & Hparent). unfold wellFormed.
  rewrite length_setNodeData. split; [done|]. split; [by rewrite getNodeConfig_setNodeData|].
  split.
  - intros k l Hk. rewrite !getNodeConfig_setNodeData. by apply Hkids.
  - intros j Hj. destruct (Hparent j Hj) as (k & Hk & Hc & Huniq).
    exists k. split; [done|]. split; [by apply isChild_setNodeData|].
    intros k' Hk' Hc'. apply Huniq; [done|]. by apply isChild_setNodeData in Hc'.
Qed.

Lemma wellFormed_root : wellFormed (fst (addNode [])).
Proof.
  split; [simpl; lia|]. split; [done|]. split.
  - intros k l Hk. simpl in Hk. destruct k; [|lia]. done.
  - intros j Hj. simpl in Hj. lia.
Qed.

(** [splitNode] keeps a tree well-formed when the node is in the tree and
    has no children yet. *)
Lemma wellFormed_split t node desc :
  wellFormed t -> (node < length t)%nat -> leftChild (getNodeConfig t node) = None ->
  wellFormed (fst (splitNode node (setSplit node desc t))).
Proof.
  intros (H0 & Hroot & Hkids & Hparent) Hnode Hleaf.
  set (t' := fst (splitNode node (setSplit node desc t))).
  assert (Hlen : length t' = (length t + 2)%nat) by apply length_commit_tree.
  assert (Hcfg : forall k, getNodeConfig t' k =
            if decide (k = node)
            then mkConfig (depth (getNodeConfig t node)) desc (Some (length t))
            else if decide (k = length t \/ k = S (length t))
                 then freshConfig (depth (getNodeConfig t node) + 1)
                 else getNodeConfig t k).
  { intros k. unfold t'. rewrite getNodeConfig_split.
    destruct (decide (k = node)) as [->|Hne].
    - by rewrite decide_True.
    - rewrite decide_False by (intros [? _]; done). done. }
  assert (Hdepth : forall k, (k < length t)%nat ->
            depth (getNodeConfig t' k) = depth (getNodeConfig t k)).
  { intros k Hk. rewrite Hcfg. destruct (decide (k = node)) as [->|Hne]; [done|].
    rewrite decide_False by lia. done. }
  assert (Hchild : forall k j, (k < length t)%nat -> k <> node ->
            (isChild t' k j <-> isChild t k j)).
  { intros k j Hk Hne. unfold isChild. rewrite Hcfg, decide_False by done.
    rewrite decide_False by lia. done. }
  split; [lia|]. split; [rewrite Hdepth by lia; done|]. split.
  - intros k l Hk Hl. rewrite Hlen in Hk. rewrite (Hcfg k) in Hl.
    destruct (decide (k = node)) as [->|Hne].
    + simpl in Hl. inversion Hl; subst l. rewrite Hlen.
      rewrite (Hcfg (length t)), (Hcfg (S (length t))), (Hcfg node).
      repeat case_decide; try lia; simpl; repeat split; lia.
    + destruct (decide (k = length t \/ k = S (length t))) as [Hk'|Hk']; [done|].
      destruct (Hkids k l ltac:(lia) Hl) as (K1 & K2 & K3 & K4).
      rewrite Hlen, !Hdepth by lia. repeat split; auto; lia.
  - intros j Hj. rewrite Hlen in Hj.
    destruct (decide (j < length t)%nat) as [Hold|Hnew].
    + destruct (Hparent j ltac:(lia)) as (k & Hk & Hc & Huniq).
      assert (Hkn : k <> node).
      { intros ->. destruct Hc as (l & Hl & _). congruence. }
      exists k. split; [lia|]. split; [by apply Hchild|].
      intros k' Hk' Hc'. rewrite Hlen in Hk'.
      destruct (decide (k' = node)) as [->|Hne'].
      * exfalso. destruct Hc' as (l & Hl & Hjl). rewrite Hcfg, decide_True in Hl by done.
        simpl in Hl. inversion Hl; subst l. lia.
      * destruct (decide (k' < length t)%nat) as [Hk'old|Hk'new].
        -- apply Huniq; [done|]. by apply Hchild in Hc'.
        -- exfalso. destruct Hc' as (l & Hl & _). rewrite Hcfg, decide_False in Hl by done.
           rewrite decide_True in Hl by lia. done.
    + exists node. split; [lia|]. split.
      * exists (length t). rewrite Hcfg, decide_True by done. split; [done|lia].
      * intros k' Hk' Hc'. rewrite Hlen in Hk'.
        destruct (decide (k' = node)) as [->|Hne']; [done|]. exfalso.
        destruct Hc' as (l & Hl & Hjl). rewrite Hcfg, decide_False in Hl by done.
        destruct (decide (k' = length t \/ k' = S (length t))) as [|Hk'old]; [done|].
        destruct (Hkids k' l ltac:(lia) Hl) as (_ & K2 & _). lia.
Qed.

End WellFormed.

(** ** Leaves and split nodes *)

Section LeavesAndSplits.

(** The data of the nodes after a split: the node loses its leaf vector,
    the children are fresh. *)
Lemma getNodeData_split (t : Tree) node desc k :
  (node < length t)%nat ->
  getNodeData (fst (splitNode node (setSplit node desc t))) k =
  if decide (k = node) then setHistogram [] (getNodeData t node)
  else if decide (k = length t \/ k = S (length t)) then freshData
       else getNodeData t k.
Proof.
  intros Hnode. unfold splitNode. cbn [fst]. rewrite length_setSplit.
  assert (Hd0 : forall j, getNodeData (setSplit node desc t) j = getNodeData t j).
  { intros j. unfold setSplit. apply getNodeData_setNodeConfig. }
  destruct (decide (k < length t)%nat) as [Hk|Hk].
  - rewrite getNodeData_app_l
      by (rewrite length_setNodeData, length_setNodeConfig, length_setSplit; lia).
    destruct (decide (k = node)) as [->|Hne].
    + rewrite getNodeData_setNodeData
        by (rewrite length_setNodeConfig, length_setSplit; lia).
      by rewrite getNodeData_setNodeConfig, Hd0.
    + rewrite decide_False by lia.
      rewrite getNodeData_setNodeData_ne by done.
      by rewrite getNodeData_setNodeConfig, Hd0.
  - rewrite decide_False by lia. unfold getNodeData at 1.
    rewrite lookup_app_r
      by (rewrite length_setNodeData, length_setNodeConfig, length_setSplit; lia).
    rewrite length_setNodeData, length_setNodeConfig, length_setSplit.
    destruct (decide (k = length t \/ k = S (length t))) as [Hnew|Hout].
    + destruct Hnew as [-> | ->]; [by rewrite Nat.sub_diag|].
      by replace (S (length t) - length t)%nat with 1%nat by lia.
    + destruct (k - length t)%nat as [|[|m]] eqn:E; [lia|lia|].
      unfold getNodeData. rewrite (proj2 (lookup_ge_None t k)) by lia. done.
Qed.

Lemma leavesAndSplits_finalize good C node stack (t : Tree) v :
  leavesAndSplits good C (node :: stack) t ->
  leftChild (getNodeConfig t node) = None ->
  length v = Z.to_nat C ->
  leavesAndSplits good C stack (setNodeData node (setHistogram v (getNodeData t node)) t).
Proof.
  intros Hall Hleaf Hv k Hk. rewrite length_setNodeData in Hk.
  rewrite getNodeConfig_setNodeData. specialize (Hall k Hk).
  destruct (decide (k = node)) as [->|Hne].
  - rewrite Hleaf in *. destruct Hall as [Hsplit _]. split; [done|]. intros _.
    by rewrite getNodeData_setNodeData.
  - rewrite getNodeData_setNodeData_ne by done.
    destruct (leftChild (getNodeConfig t k)); [done|].
    destruct Hall as [Hsplit Hhist]. split; [done|]. intros Hnot. apply Hhist.
    rewrite elem_of_cons. intros [?|?]; done.
Qed.

Lemma leavesAndSplits_commit good C node stack (t : Tree) desc :
  leavesAndSplits good C (node :: stack) t ->
  (node < length t)%nat -> good desc ->
  leavesAndSplits good C (S (length t) :: length t :: stack)
                  (fst (splitNode node (setSplit node desc t))).
Proof.
  intros Hall Hnode Hgood k Hk. rewrite length_commit_tree in Hk.
  rewrite getNodeConfig_split, getNodeData_split by done.
  destruct (decide (k = node)) as [->|Hne].
  - rewrite decide_True by done. cbn [leftChild split]. done.
  - rewrite decide_False by (intros [? _]; done).
    destruct (decide (k = length t \/ k = S (length t))) as [Hnew|Hold].
    + cbn [freshConfig leftChild split]. split; [done|]. intros Hnot. exfalso.
      apply Hnot. rewrite !elem_of_cons. destruct Hnew; auto.
    + specialize (Hall k ltac:(lia)).
      destruct (leftChild (getNodeConfig t k)); [done|].
      destruct Hall as [Hsplit Hhist]. split; [done|]. intros Hnot. apply Hhist.
      rewrite !elem_of_cons in Hnot. rewrite elem_of_cons. intros [?|?]; [done|].
      apply Hnot. auto.
Qed.

End LeavesAndSplits.

(** ** The state of a batch learner between two turns *)

Section RunInvariant.

Context `{P : Platform}.

Lemma length_leaf_vector (boot : bool) (hist : H.t) (old : list Q) smoothing :
  length (if boot then resize (length hist) 0%Q old else smoothedVector hist smoothing)
  = length hist.
Proof.
  destruct boot; [by rewrite length_resize|].
  unfold smoothedVector. by rewrite length_map, length_seq.
Qed.

Lemma runInvariant_initial good C storage e r :
  runInvariant good C (initialState storage e r).
Proof.
  unfold runInvariant, initialState. cbn.
  split; [apply wellFormed_root|]. split.
  { intros k Hk. cbn in Hk. destruct k; [|lia]. cbn. split; [done|].
    intros Hn. exfalso. apply Hn. by apply list_elem_of_singleton. }
  split; [done|]. split; [done|]. split; [apply NoDup_singleton|]. split.
  { intros node. rewrite list_elem_of_singleton. split.
    - intros ->. eauto.
    - intros [arr Harr]. destruct node; [done|]. done. }
  intros node Hn. apply list_elem_of_singleton in Hn as ->. done.
Qed.

Lemma sizesRecorded_initial storage e r : sizesRecorded (initialState storage e r).
Proof.
  intros node arr Harr. destruct node; [|done]. cbn in *.
  inversion Harr; subst. unfold getSize. by rewrite length_seq.
Qed.

(** A turn keeps the invariant. *)
Lemma runInvariant_step good storage C L s s' ev :
  runInvariant good C s -> turnShape good storage C L s s' ev -> runInvariant good C s'.
Proof.
  intros Hinv (node & stack & l & N & Hstack & Hl & _ & Hev).
  destruct Hinv as (Hwf & Hls & Hlen & Hlens & Hnd & Hon & Hleaf).
  pose proof (exampleList_inv _ _ _ _ Hl) as (_ & _ & arr0 & Harr0 & _).
  assert (Hnode : (node < length (tree s))%nat).
  { rewrite <- Hlen. by apply lookup_lt_Some in Harr0. }
  rewrite Hstack in *.
  assert (Hnl : leftChild (getNodeConfig (tree s) node) = None).
  { apply Hleaf. by left. }
  apply NoDup_cons in Hnd as [Hnotin Hnd].
  destruct ev as [node' hist|node' N' parent leftList rightList leftSize rightSize lc rc].
  - destruct Hev as (-> & -> & [line Hfin] & Hst' & Hex' & Hsz').
    apply finalizeLeaf_inv in Hfin as (_ & _ & Ht').
    unfold runInvariant. rewrite Hst', Hex', Hsz', Ht'.
    rewrite length_setNodeData, length_insert.
    split; [by apply wellFormed_setNodeData|]. split.
    { apply leavesAndSplits_finalize; [done|done|].
      by rewrite length_leaf_vector, length_nodeHistogram. }
    split; [done|]. split; [done|]. split; [done|]. split.
    { intros k. destruct (decide (k = node)) as [->|Hne].
      - rewrite list_lookup_insert_eq by lia. split; [done|]. by intros [arr ?].
      - rewrite list_lookup_insert_ne by done. rewrite <- Hon. rewrite elem_of_cons.
        split; [auto|]. intros [?|?]; done. }
    intros k Hk. rewrite getNodeConfig_setNodeData. apply Hleaf. by right.
  - destruct Hev as (-> & -> & _ & (desc & Hgood & Ht') & Hst' & Hex' & Hsz').
    unfold runInvariant. rewrite Hst', Hex', Hsz', Ht'.
    rewrite length_commit_tree, length_insert, !length_app. cbn [length].
    split; [by apply wellFormed_split|]. split; [by apply leavesAndSplits_commit|].
    split; [lia|]. split; [lia|].
    assert (Hin : forall k, k ∈ stack -> (k < length (tree s))%nat).
    { intros k Hk. destruct (proj1 (Hon k)) as [arr Hk']; [by right|].
      apply lookup_lt_Some in Hk'. lia. }
    split.
    { apply NoDup_cons. split.
      - rewrite elem_of_cons. intros [?|Hk]; [lia|]. apply Hin in Hk. lia.
      - apply NoDup_cons. split; [|done]. intros Hk. apply Hin in Hk. lia. }
    split.
    { intros k. rewrite !elem_of_cons.
      destruct (decide (k = node)) as [->|Hne].
      - rewrite list_lookup_insert_eq by (rewrite length_app; cbn; lia). split.
        + intros [?|[?|?]]; [lia|lia|done].
        + by intros [arr ?].
      - rewrite list_lookup_insert_ne by done.
        destruct (decide (k < length (tree s))%nat) as [Hk|Hk].
        + rewrite lookup_app_l by lia. rewrite <- Hon, elem_of_cons. split.
          * intros [?|[?|?]]; [lia|lia|auto].
          * intros [?|?]; [done|auto].
        + rewrite lookup_app_r by lia. rewrite Hlen. split.
          * intros [->|[->|Hk']].
            -- replace (S (length (tree s)) - length (tree s))%nat with 1%nat by lia.
               cbn. eauto.
            -- rewrite Nat.sub_diag. cbn. eauto.
            -- apply Hin in Hk'. lia.
          * intros [arr Hk'].
            destruct (k - length (tree s))%nat as [|[|m]] eqn:E; [| |done].
            -- right. left. lia.
            -- left. lia. }
    intros k. rewrite !elem_of_cons, getNodeConfig_split.
    intros Hk. rewrite decide_False.
    2:{ intros [-> _]. destruct Hk as [?|[?|?]]; [lia|lia|done]. }
    destruct (decide (k = length (tree s) \/ k = S (length (tree s)))); [done|].
    apply Hleaf. right. destruct Hk as [?|[?|?]]; [lia|lia|done].
Qed.

(** A turn whose arrays have the recorded sizes keeps the sizes recorded. *)
Lemma sizesRecorded_step good storage C L s s' ev :
  runInvariant good C s -> sizesRecorded s ->
  turnShape good storage C L s s' ev -> sizesAgree ev -> sizesRecorded s'.
Proof.
  intros (_ & _ & Hlen & Hlens & _) Hsize (node & stack & l & N & Hstack & Hl & _ & Hev) Hag.
  pose proof (exampleList_inv _ _ _ _ Hl) as (_ & _ & arr0 & Harr0 & _).
  assert (Hnode : (node < length (tree s))%nat).
  { rewrite <- Hlen. by apply lookup_lt_Some in Harr0. }
  destruct ev as [node' hist|node' N' parent leftList rightList leftSize rightSize lc rc].
  - destruct Hev as (_ & _ & _ & _ & Hex' & Hsz').
    intros k arr. rewrite Hex', Hsz'. destruct (decide (k = node)) as [->|Hne].
    + by rewrite list_lookup_insert_eq by lia.
    + rewrite list_lookup_insert_ne by done. apply Hsize.
  - destruct Hev as (_ & _ & _ & _ & _ & Hex' & Hsz'). destruct Hag as (Hll & Hrl & _).
    intros k arr. rewrite Hex', Hsz'. destruct (decide (k = node)) as [->|Hne].
    + by rewrite list_lookup_insert_eq by (rewrite length_app; cbn; lia).
    + rewrite list_lookup_insert_ne by done.
      destruct (decide (k < length (tree s))%nat) as [Hk|Hk].
      * rewrite !lookup_app_l by lia. apply Hsize.
      * rewrite !lookup_app_r by lia. rewrite Hlen, Hlens.
        destruct (k - length (tree s))%nat as [|[|m]] eqn:E; [| |done]; cbn;
          intros Hk'; inversion Hk'; subst; by f_equal.
Qed.

(** The examples of a node on the stack are its whole array. *)
Lemma sizesRecorded_examples good C s node l N :
  runInvariant good C s -> sizesRecorded s -> exampleList s node = Returns (l, N) ->
  trainingExamples s !! node = Some (Some l) /\
  trainingExamplesSizes s !! node = Some N /\ N = Z.of_nat (length l) /\
  (node < length (tree s))%nat.
Proof.
  intros (_ & _ & Hlen & _) Hsize Hl.
  pose proof (exampleList_inv _ _ _ _ Hl) as (HN & HlN & arr & Harr & Ht).
  pose proof (Hsize _ _ Harr) as Hs.
  unfold exampleList in Hl. rewrite Harr, Hs in Hl.
  destruct (_ && _); [|done].
  assert (HN' : N = Z.of_nat (length arr)) by congruence.
  rewrite HN', Nat2Z.id, firstn_all in Ht. subst l.
  repeat split; try done; try congruence.
  rewrite <- Hlen. by apply lookup_lt_Some in Harr.
Qed.

End RunInvariant.

(** ** The turns still to come *)

Section Potential.

Context `{P : Platform}.

Lemma weight_positive N : 1 <= weight N.
Proof. unfold weight. lia. Qed.

Lemma weights_app (sizes extra : list Z) (stack : list nat) :
  (forall k, k ∈ stack -> (k < length sizes)%nat) ->
  foldr (fun node w => weight (default 0 ((sizes ++ extra) !! node)) + w) 0 stack
  = foldr (fun node w => weight (default 0 (sizes !! node)) + w) 0 stack.
Proof.
  induction stack as [|k stack IH]; intros Hin; [done|]. cbn [foldr].
  rewrite IH by (intros j Hj; apply Hin; by right).
  rewrite lookup_app_l by (apply Hin; by left). done.
Qed.

Lemma stackWeight_length s : Z.of_nat (length (splitStack s)) <= stackWeight s.
Proof.
  unfold stackWeight. induction (splitStack s) as [|k stack IH]; [done|].
  cbn [foldr length].
  pose proof (weight_positive (default 0 (trainingExamplesSizes s !! k))). lia.
Qed.

(** A turn uses up one of the turns still to come, and the potential does
    not grow. *)
Lemma stackWeight_step good storage C L s s' ev :
  runInvariant good C s -> sizesRecorded s ->
  turnShape good storage C L s s' ev -> sizesAgree ev -> childrenNonEmpty ev ->
  0 <= stackWeight s' < stackWeight s /\ potential s' <= potential s.
Proof.
  intros Hinv Hsize Hshape Hag Hne.
  pose proof (stackWeight_length s') as Hlow.
  pose proof Hshape as (node & stack & l & N & Hstack & Hl & _ & Hev).
  pose proof (sizesRecorded_examples _ _ _ _ _ _ Hinv Hsize Hl) as (Harr & HsN & HN & Hnode).
  destruct Hinv as (_ & _ & Hlen & Hlens & _ & Hon & _).
  assert (Hin : forall k, k ∈ stack -> (k < length (trainingExamplesSizes s))%nat).
  { intros k Hk. destruct (proj1 (Hon k)) as [arr Hk']; [rewrite Hstack; by right|].
    apply lookup_lt_Some in Hk'. lia. }
  unfold potential, stackWeight in *. rewrite Hstack. cbn [foldr length].
  rewrite HsN. cbn [default].
  set (W := foldr (fun node w => weight (default 0 (trainingExamplesSizes s !! node)) + w)
                  0 stack) in *.
  destruct ev as [node' hist|node' N' parent leftList rightList leftSize rightSize lc rc].
  - destruct Hev as (_ & _ & [line Hfin] & Hst' & _ & Hsz').
    apply finalizeLeaf_inv in Hfin as (_ & _ & Ht').
    rewrite Hst', Hsz' in Hlow. rewrite Hst', Hsz', Ht', length_setNodeData.
    fold W in Hlow |- *. pose proof (weight_positive N). unfold id. lia.
  - destruct Hev as (_ & -> & _ & (desc & _ & Ht') & Hst' & _ & Hsz').
    destruct Hag as (_ & _ & Hsum). destruct Hne as [Hl1 Hr1].
    rewrite Hst', Hsz', Ht', length_commit_tree. cbn [foldr length].
    rewrite weights_app by done. fold W.
    rewrite !lookup_app_r by lia. rewrite Hlens.
    replace (S (length (tree s)) - length (tree s))%nat with 1%nat by lia.
    rewrite Nat.sub_diag. cbn [lookup list_lookup default from_option id]. unfold id.
    pose proof (stackWeight_length (mkState [] stack [] (trainingExamplesSizes s) []
                                            (engine s) (device s))) as HW.
    unfold stackWeight in HW. cbn [splitStack trainingExamplesSizes] in HW. fold W in HW.
    unfold weight. lia.
Qed.

Lemma potential_initial storage e r :
  stackWeight (initialState storage e r) = weight (getSize storage) /\
  potential (initialState storage e r) = weight (getSize storage).
Proof. unfold potential, stackWeight, initialState. cbn. lia. Qed.

(** *** The loop *)

Lemma loopWith_invariant (Inv : State -> Prop) (turn : State -> outcome (State * Event)) :
  (forall s s' ev, Inv s -> splitStack s <> [] -> turn s = Returns (s', ev) -> Inv s') ->
  forall fuel s s', Inv s -> loopWith turn fuel s = Returns s' ->
    Inv s' /\ splitStack s' = [].
Proof.
  intros Hturn fuel. induction fuel as [|fuel IH]; intros s s' Hs Hrun; simpl in Hrun.
  - destruct (splitStack s) eqn:E; [by inversion Hrun; subst|done].
  - destruct (splitStack s) eqn:E; [by inversion Hrun; subst|].
    destruct (turn s) as [[s1 ev]| | | |] eqn:Et; try done.
    cbn [mbind outcome_bind] in Hrun. eapply IH; [|exact Hrun].
    eapply Hturn; eauto. by rewrite E.
Qed.

Lemma loopWith_runs (Inv : State -> Prop) (measure : State -> Z)
    (turn : State -> outcome (State * Event)) :
  (forall s, Inv s -> splitStack s <> [] ->
     exists s' ev, turn s = Returns (s', ev) /\ Inv s' /\ 0 <= measure s' < measure s) ->
  forall fuel s, Inv s -> measure s <= Z.of_nat fuel ->
    exists s', loopWith turn fuel s = Returns s'.
Proof.
  intros Hturn fuel. induction fuel as [|fuel IH]; intros s Hs Hm; simpl.
  - destruct (splitStack s) eqn:E; [eauto|].
    destruct (Hturn s Hs) as (s1 & ev & _ & _ & ?); [by rewrite E|lia].
  - destruct (splitStack s) eqn:E; [eauto|].
    destruct (Hturn s Hs) as (s1 & ev & -> & Hs1 & ?); [by rewrite E|].
    cbn [mbind outcome_bind]. apply IH; [done|lia].
Qed.

Lemma DecisionTreeLearner_loop_loopWith fuel L storage _numFeatures C s :
  DecisionTreeLearner_loop fuel L storage _numFeatures C s
  = loopWith (DecisionTreeLearner_turn L storage _numFeatures C) fuel s.
Proof.
  revert s. induction fuel as [|fuel IH]; intros s; simpl; [done|].
  destruct (splitStack s); [done|].
  destruct (DecisionTreeLearner_turn L storage _numFeatures C s) as [[s1 ev]| | | |]; try done.
  cbn [mbind outcome_bind]. apply IH.
Qed.

Lemma ProjectiveDecisionTreeLearner_loop_loopWith fuel L storage C D s :
  ProjectiveDecisionTreeLearner_loop fuel L storage C D s
  = loopWith (ProjectiveDecisionTreeLearner_turn L storage C D) fuel s.
Proof.
  revert s. induction fuel as [|fuel IH]; intros s; simpl; [done|].
  destruct (splitStack s); [done|].
  destruct (ProjectiveDecisionTreeLearner_turn L storage C D s) as [[s1 ev]| | | |]; try done.
  cbn [mbind outcome_bind]. apply IH.
Qed.

Lemma DotProductDecisionTreeLearner_loop_loopWith fuel L storage C D s :
  DotProductDecisionTreeLearner_loop fuel L storage C D s
  = loopWith (DotProductDecisionTreeLearner_turn L storage C D) fuel s.
Proof.
  revert s. induction fuel as [|fuel IH]; intros s; simpl; [done|].
  destruct (splitStack s); [done|].
  destruct (DotProductDecisionTreeLearner_turn L storage C D s) as [[s1 ev]| | | |]; try done.
  cbn [mbind outcome_bind]. apply IH.
Qed.

End Potential.

(** ** The shape of the turns of the three batch learners *)

Section TurnShapes.

Context `{P : Platform}.

Lemma commit_fields s node stack desc leftList rightList leftSize rightSize sampled e r s' :
  fst (commit s node stack desc leftList rightList leftSize rightSize sampled e r) = s' ->
  tree s' = fst (splitNode node (setSplit node desc (tree s))) /\
  splitStack s' = S (length (tree s)) :: length (tree s) :: stack /\
  trainingExamples s'
  = <[node := None]> (trainingExamples s ++ [Some leftList; Some rightList]) /\
  trainingExamplesSizes s' = trainingExamplesSizes s ++ [leftSize; rightSize] /\
  sampledFeatures s' = sampled.
Proof.
  unfold commit. intros <-.
  pose proof (length_splitNode (setSplit node desc (tree s)) node) as [_ Hleft].
  destruct (splitNode node (setSplit node desc (tree s))) as [t left].
  cbn in *. rewrite Hleft, length_setSplit. done.
Qed.

(** The sweep over a feature leaves the best feature or records its own. *)
Lemma sweep_feature storage feature rest : forall leftValue leftClass lh rh best,
  let best' := sweep storage feature rest leftValue leftClass lh rh best in
  bestFeature best' = bestFeature best \/ bestFeature best' = Z.of_nat feature.
Proof.
  induction rest as [|n rest IH]; intros leftValue leftClass lh rh best; simpl; [by left|].
  destruct (tooClose _ _); [apply IH|].
  match goal with |- context [sweep _ _ _ _ _ _ _ ?b] =>
    destruct (IH (featureValue storage feature n) (getClassLabel storage n)
                 (H.addOne leftClass lh) (H.subOne leftClass rh) b) as [E|E] end;
    [|by right].
  cbv zeta in E. rewrite E. destruct (Qltb _ _); [by right|by left].
Qed.

(** The loop over the features records one of the sampled features. *)
Lemma optimise_feature storage hist C sampled fs : forall l best best' l',
  optimise storage hist C sampled fs l best = Returns (best', l') ->
  bestFeature best' = bestFeature best \/
  exists feature, feature ∈ sampled /\ bestFeature best' = Z.of_nat feature.
Proof.
  induction fs as [|f fs IH]; intros l best best' l' Hrun; simpl in Hrun.
  - inversion Hrun; subst. by left.
  - destruct (sampled !! f) as [feature|] eqn:Ef; [|done].
    destruct (sortByFeature storage feature l) as [|n0 rest]; [done|].
    apply IH in Hrun as [E|E]; [|by right]. rewrite E.
    match goal with |- context [sweep ?a ?b ?c ?d ?e ?f ?g ?h] =>
      destruct (sweep_feature a b c d e f g h) as [E'|E'] end.
    + by left.
    + right. exists feature. split; [|done]. by eapply list_elem_of_lookup_2.
Qed.

Lemma DecisionTreeLearner_turn_shape L storage _numFeatures C D s s' ev :
  Forall (fun f => Z.of_nat f < D) (sampledFeatures s) ->
  DecisionTreeLearner_turn L storage _numFeatures C s = Returns (s', ev) ->
  turnShape (isAxisAligned D) storage C L s s' ev.
Proof.
  unfold DecisionTreeLearner_turn. intros Hfs Hrun.
  destruct (splitStack s) as [|n stack] eqn:Hstack; [done|].
  destruct (exampleList s n) as [[l N]| | | |] eqn:El; try done.
  cbn [mbind outcome_bind] in Hrun.
  exists n, stack, l, N. split; [done|]. split; [done|].
  destruct (stops L _ _) eqn:Hstop.
  - destruct (finalizeLeaf 158 _ _ _ _ _) as [t| | | |] eqn:Ef; try done.
    cbn [mbind outcome_bind] in Hrun. inversion Hrun; subst. cbn.
    split; [done|]. repeat split; eauto.
  - cbn [rd_draw] in Hrun.
    destruct (optimise _ _ _ _ _ _ _) as [[best sorted]| | | |] eqn:Eo; try done.
    cbn [mbind outcome_bind] in Hrun.
    destruct (_ || _) eqn:Echeck.
    + destruct (finalizeLeaf 241 _ _ _ _ _) as [t| | | |] eqn:Ef; try done.
      cbn [mbind outcome_bind] in Hrun. inversion Hrun; subst. cbn.
      split; [apply shuffle_perm|]. repeat split; eauto.
    + destruct (partitionExamples _ _ _ _ _ _) as [[[[LA RA] lc] rc]| | | |]; try done.
      cbn [mbind outcome_bind] in Hrun. unfold BOOST_ASSERT in Hrun.
      destruct (lc =? 0); [|done]. destruct (rc =? 0); [|done].
      cbn [mbind outcome_bind] in Hrun.
      match type of Hrun with Returns (?a, ?b) = _ =>
        assert (Hs' : a = s') by congruence; assert (Hev : b = ev) by congruence end.
      apply commit_fields in Hs' as (Ht & Hst & Hex & Hsz & Hsf). rewrite <- Hev.
      rewrite Hsf. split; [apply shuffle_perm|].
      split; [done|]. split; [done|]. split; [done|]. split; [|done].
      eexists. split; [|exact Ht].
      apply orb_false_iff in Echeck as [Echeck _].
      apply orb_false_iff in Echeck as [Efeature _]. apply Z.ltb_ge in Efeature.
      eexists _, _. split; [reflexivity|]. split; [done|].
      apply optimise_feature in Eo as [E|(feature & Hin & E)]; [cbn in E; lia|].
      rewrite E. rewrite shuffle_perm in Hin.
      rewrite Forall_forall in Hfs. by apply Hfs.
Qed.

Lemma ProjectiveDecisionTreeLearner_turn_shape L storage C D s s' ev :
  ProjectiveDecisionTreeLearner_turn L storage C D s = Returns (s', ev) ->
  turnShape isSparseProjection storage C L s s' ev.
Proof.
  unfold ProjectiveDecisionTreeLearner_turn. intros Hrun.
  destruct (splitStack s) as [|n stack] eqn:Hstack; [done|].
  destruct (exampleList s n) as [[l N]| | | |] eqn:El; try done.
  cbn [mbind outcome_bind] in Hrun.
  exists n, stack, l, N. split; [done|]. split; [done|].
  destruct (stops L _ _) eqn:Hstop.
  - destruct (finalizeLeaf 427 _ _ _ _ _) as [t| | | |] eqn:Ef; try done.
    cbn [mbind outcome_bind] in Hrun. inversion Hrun; subst. cbn.
    split; [done|]. repeat split; eauto.
  - destruct (optimiseProjection _ _ _ _ _ _ _ _) as [[best e]| | | |]; try done.
    cbn [mbind outcome_bind] in Hrun.
    destruct (_ || _).
    + destruct (finalizeLeaf 499 _ _ _ _ _) as [t| | | |] eqn:Ef; try done.
      cbn [mbind outcome_bind] in Hrun. inversion Hrun; subst. cbn.
      split; [done|]. repeat split; eauto.
    + destruct (partitionExamples _ _ _ _ _ _) as [[[[LA RA] lc] rc]| | | |]; try done.
      cbn [mbind outcome_bind] in Hrun.
      match type of Hrun with Returns (?a, ?b) = _ =>
        assert (Hs' : a = s') by congruence; assert (Hev : b = ev) by congruence end.
      apply commit_fields in Hs' as (Ht & Hst & Hex & Hsz & Hsf). rewrite <- Hev.
      rewrite Hsf. split; [done|].
      split; [done|]. split; [done|]. split; [done|]. split; [|done].
      eexists. split; [|exact Ht]. by eexists.
Qed.

Lemma DotProductDecisionTreeLearner_turn_shape L storage C D s s' ev :
  DotProductDecisionTreeLearner_turn L storage C D s = Returns (s', ev) ->
  turnShape isDotProduct storage C L s s' ev.
Proof.
  unfold DotProductDecisionTreeLearner_turn. intros Hrun.
  destruct (splitStack s) as [|n stack] eqn:Hstack; [done|].
  destruct (exampleList s n) as [[l N]| | | |] eqn:El; try done.
  cbn [mbind outcome_bind] in Hrun.
  exists n, stack, l, N. split; [done|]. split; [done|].
  destruct (stops L _ _) eqn:Hstop.
  - destruct (finalizeLeaf 663 _ _ _ _ _) as [t| | | |] eqn:Ef; try done.
    cbn [mbind outcome_bind] in Hrun. inversion Hrun; subst. cbn.
    split; [done|]. repeat split; eauto.
  - destruct (optimiseAnchors _ _ _ _ _ _ _) as [[best e]| | | |]; try done.
    cbn [mbind outcome_bind] in Hrun.
    destruct (_ || _).
    + destruct (finalizeLeaf 734 _ _ _ _ _) as [t| | | |] eqn:Ef; try done.
      cbn [mbind outcome_bind] in Hrun. inversion Hrun; subst. cbn.
      split; [done|]. repeat split; eauto.
    + destruct (partitionExamples _ _ _ _ _ _) as [[[[LA RA] lc] rc]| | | |]; try done.
      cbn [mbind outcome_bind] in Hrun.
      match type of Hrun with Returns (?a, ?b) = _ =>
        assert (Hs' : a = s') by congruence; assert (Hev : b = ev) by congruence end.
      apply commit_fields in Hs' as (Ht & Hst & Hex & Hsz & Hsf). rewrite <- Hev.
      rewrite Hsf. split; [done|].
      split; [done|]. split; [done|]. split; [done|]. split; [|done].
      eexists. split; [|exact Ht]. by eexists _, _, _.
Qed.

End TurnShapes.

(** ** The trees the batch learners return *)

Section ReturnedTrees.

Context `{P : Platform}.

Lemma wellFormed_updateHistograms t dataStorage smoothing :
  wellFormed t -> wellFormed (updateHistograms t dataStorage smoothing).
Proof.
  intros (H0 & Hroot & Hkids & Hparent). unfold wellFormed, isChild in *.
  rewrite length_updateHistograms.
  setoid_rewrite getNodeConfig_updateHistograms. done.
Qed.

Lemma leavesAndSplits_updateHistograms good t dataStorage smoothing :
  leavesAndSplits good (getClasscount dataStorage) [] t ->
  leavesAndSplits good (getClasscount dataStorage) []
                  (updateHistograms t dataStorage smoothing).
Proof.
  intros Hall k Hk. rewrite length_updateHistograms in Hk.
  rewrite getNodeConfig_updateHistograms. specialize (Hall k Hk).
  unfold getNodeData, updateHistograms. rewrite list_lookup_imap.
  unfold getNodeConfig, getNodeData in Hall |- *.
  destruct (t !! k) as [[c d]|] eqn:E; [|apply lookup_ge_None in E; lia].
  cbn in Hall |- *. destruct (leftChild c); [done|]. cbn.
  split; [tauto|]. intros _.
  unfold smoothedVector. by rewrite length_map, length_seq, length_nodeHistogram.
Qed.

(** The storage a learner works on has the classes and the dimension of
    the data, and examples of the data. *)
Lemma working_storage (b : bool) count dataStorage gl storage sampled gl1 :
  (if b then bootstrap count dataStorage gl else (dataStorage, [], gl))
  = (storage, sampled, gl1) ->
  getClasscount storage = getClasscount dataStorage /\
  getDimensionality storage = getDimensionality dataStorage /\
  (wf_storage dataStorage -> wf_storage storage).
Proof.
  intros E. destruct b; [|by inversion E; subst].
  unfold bootstrap in E.
  pose proof (fun Hd => bootstrap_draws_labels (wf_example dataStorage) dataStorage
                (Z.to_nat count) Hd
                (sampler gl) [] (replicate (length (examples dataStorage)) false)
                (Forall_nil_2 _)) as Hb.
  destruct (bootstrap_draws _ _ _ _ _) as [[exs smp] e]. inversion E; subst.
  split; [done|]. split; [done|]. intros [HD Hwf]. split; [done|]. by apply Hb.
Qed.

Lemma sampledFeatures_initial storage e r :
  Forall (fun f => Z.of_nat f < getDimensionality storage)
         (sampledFeatures (initialState storage e r)).
Proof.
  apply Forall_forall. intros f Hf. cbn in Hf. apply elem_of_seq in Hf. lia.
Qed.

Lemma DecisionTreeLearner_learn_structure L dataStorage gl fuel t gl' :
  DecisionTreeLearner_learn L dataStorage gl fuel = Returns (t, gl') ->
  wellFormed t /\
  leavesAndSplits (isAxisAligned (getDimensionality dataStorage))
                  (getClasscount dataStorage) [] t.
Proof.
  unfold DecisionTreeLearner_learn, BOOST_ASSERT. intros Hrun.
  destruct (numFeatures L <=? getDimensionality dataStorage); [|done].
  cbn [mbind outcome_bind] in Hrun.
  destruct (if useBootstrap L then _ else _) as [[storage sampled] gl1] eqn:Ew.
  apply working_storage in Ew as (EC & ED & _).
  destruct (vectorSize 90 _) as [[]| | | |]; try done.
  cbn [mbind outcome_bind] in Hrun.
  destruct (DecisionTreeLearner_loop _ _ _ _ _ _) as [s| | | |] eqn:Eloop; try done.
  cbn [mbind outcome_bind] in Hrun. inversion Hrun; subst.
  rewrite DecisionTreeLearner_loop_loopWith in Eloop.
  apply (loopWith_invariant
           (fun s => runInvariant (isAxisAligned (getDimensionality storage))
                                  (getClasscount storage) s /\
                     Forall (fun f => Z.of_nat f < getDimensionality storage)
                            (sampledFeatures s))) in Eloop.
  - destruct Eloop as [[(Hwf & Hls & _) _] Hstack]. rewrite Hstack, EC, ED in Hls.
    destruct (useBootstrap L);
      [split; [by apply wellFormed_updateHistograms
              |by apply leavesAndSplits_updateHistograms]|done].
  - intros s0 s1 ev [Hs0 Hf0] _ Hturn.
    pose proof (DecisionTreeLearner_turn_shape _ _ _ _ _ _ _ _ Hf0 Hturn) as Hshape.
    split; [by eapply runInvariant_step|].
    destruct Hshape as (_ & _ & _ & _ & _ & _ & Hperm & _). by rewrite Hperm.
  - split; [apply runInvariant_initial|apply sampledFeatures_initial].
Qed.

Lemma ProjectiveDecisionTreeLearner_learn_structure L dataStorage gl fuel t gl' :
  ProjectiveDecisionTreeLearner_learn L dataStorage gl fuel = Returns (t, gl') ->
  wellFormed t /\ leavesAndSplits isSparseProjection (getClasscount dataStorage) [] t.
Proof.
  unfold ProjectiveDecisionTreeLearner_learn. intros Hrun.
  destruct (if useBootstrap L then _ else _) as [[storage sampled] gl1] eqn:Ew.
  apply working_storage in Ew as (EC & ED & _).
  cbn [rd_draw] in Hrun.
  destruct (ProjectiveDecisionTreeLearner_loop _ _ _ _ _ _) as [s| | | |] eqn:Eloop; try done.
  cbn [mbind outcome_bind] in Hrun. inversion Hrun; subst.
  rewrite ProjectiveDecisionTreeLearner_loop_loopWith in Eloop.
  apply (loopWith_invariant
           (runInvariant isSparseProjection (getClasscount storage))) in Eloop.
  - destruct Eloop as [(Hwf & Hls & _) Hstack]. rewrite Hstack, EC in Hls.
    destruct (useBootstrap L);
      [split; [by apply wellFormed_updateHistograms
              |by apply leavesAndSplits_updateHistograms]|done].
  - intros s0 s1 ev Hs0 _ Hturn. eapply runInvariant_step; [exact Hs0|].
    eapply ProjectiveDecisionTreeLearner_turn_shape; eauto.
  - apply runInvariant_initial.
Qed.

Lemma DotProductDecisionTreeLearner_learn_structure L dataStorage gl fuel t gl' :
  DotProductDecisionTreeLearner_learn L dataStorage gl fuel = Returns (t, gl') ->
  wellFormed t /\ leavesAndSplits isDotProduct (getClasscount dataStorage) [] t.
Proof.
  unfold DotProductDecisionTreeLearner_learn. intros Hrun.
  destruct (if useBootstrap L then _ else _) as [[storage sampled] gl1] eqn:Ew.
  apply working_storage in Ew as (EC & ED & _).
  cbn [rd_draw] in Hrun.
  destruct (DotProductDecisionTreeLearner_loop _ _ _ _ _ _) as [s| | | |] eqn:Eloop; try done.
  cbn [mbind outcome_bind] in Hrun. inversion Hrun; subst.
  rewrite DotProductDecisionTreeLearner_loop_loopWith in Eloop.
  apply (loopWith_invariant
           (runInvariant isDotProduct (getClasscount storage))) in Eloop.
  - destruct Eloop as [(Hwf & Hls & _) Hstack]. rewrite Hstack, EC in Hls.
    destruct (useBootstrap L);
      [split; [by apply wellFormed_updateHistograms
              |by apply leavesAndSplits_updateHistograms]|done].
  - intros s0 s1 ev Hs0 _ Hturn. eapply runInvariant_step; [exact Hs0|].
    eapply DotProductDecisionTreeLearner_turn_shape; eauto.
  - apply runInvariant_initial.
Qed.

(** X7.  The tree a batch learner returns is well-formed, whatever the
    data and the configuration: it has a root, at depth 0; the children of
    a node are the two nodes of a contiguous pair that lies after the node
    in the table, one level below it; and every node but the root is a
    child of exactly one node. *)
Theorem returned_tree_is_well_formed (L : Learner) (dataStorage : DataStorage)
    (gl : Globals) (fuel : nat) (t : Tree) (gl' : Globals) :
  DecisionTreeLearner_learn L dataStorage gl fuel = Returns (t, gl') \/
  ProjectiveDecisionTreeLearner_learn L dataStorage gl fuel = Returns (t, gl') \/
  DotProductDecisionTreeLearner_learn L dataStorage gl fuel = Returns (t, gl') ->
  (0 < length t)%nat /\ depth (getNodeConfig t 0) = 0 /\
  (forall k l, (k < length t)%nat -> leftChild (getNodeConfig t k) = Some l ->
     (k < l)%nat /\ (S l < length t)%nat /\
     depth (getNodeConfig t l) = depth (getNodeConfig t k) + 1 /\
     depth (getNodeConfig t (S l)) = depth (getNodeConfig t k) + 1) /\
  (forall j, (0 < j < length t)%nat ->
     exists k, (k < length t)%nat /\ isChild t k j /\
               forall k', (k' < length t)%nat -> isChild t k' j -> k' = k).
Proof.
  intros [Hrun|[Hrun|Hrun]].
  - by apply DecisionTreeLearner_learn_structure in Hrun as [Hwf _].
  - by apply ProjectiveDecisionTreeLearner_learn_structure in Hrun as [Hwf _].
  - by apply DotProductDecisionTreeLearner_learn_structure in Hrun as [Hwf _].
Qed.

(** X8.  In the tree a batch learner returns every node is a split or a
    leaf.  A node with children carries the descriptor of the learner's
    kind (for the axis-aligned learner, of a feature of the data:
    [0 <= feature < D]) and an empty leaf vector.  A node without children
    carries no descriptor and a leaf vector with one entry per class. *)
Theorem returned_nodes_are_splits_or_leaves (L : Learner) (dataStorage : DataStorage)
    (gl : Globals) (fuel : nat) (t : Tree) (gl' : Globals)
    (good : SplitDescriptor -> Prop) (k : nat) :
  (DecisionTreeLearner_learn L dataStorage gl fuel = Returns (t, gl') /\
   good = isAxisAligned (getDimensionality dataStorage)) \/
  (ProjectiveDecisionTreeLearner_learn L dataStorage gl fuel = Returns (t, gl') /\
   good = isSparseProjection) \/
  (DotProductDecisionTreeLearner_learn L dataStorage gl fuel = Returns (t, gl') /\
   good = isDotProduct) ->
  (k < length t)%nat ->
  match leftChild (getNodeConfig t k) with
  | Some _ => good (split (getNodeConfig t k)) /\ histogram (getNodeData t k) = []
  | None => split (getNodeConfig t k) = NoSplit /\
            length (histogram (getNodeData t k)) = Z.to_nat (getClasscount dataStorage)
  end.
Proof.
  intros Hrun Hk.
  assert (Hls : leavesAndSplits good (getClasscount dataStorage) [] t).
  { destruct Hrun as [[Hrun ->]|[[Hrun ->]|[Hrun ->]]].
    - by apply DecisionTreeLearner_learn_structure in Hrun as [_ Hls].
    - by apply ProjectiveDecisionTreeLearner_learn_structure in Hrun as [_ Hls].
    - by apply DotProductDecisionTreeLearner_learn_structure in Hrun as [_ Hls]. }
  specialize (Hls k Hk). destruct (leftChild (getNodeConfig t k)); [done|].
  destruct Hls as [Hs Hh]. split; [done|]. apply Hh. apply not_elem_of_nil.
Qed.

End ReturnedTrees.

(** The tree of the four points is well-formed. *)
Lemma returned_tree_is_well_formed_witness :
  DecisionTreeLearner_learn (Reference.config 1 5 1 1) Reference.fourPoints
                            Reference.globals0 10
  = Returns (fst Reference.learned, snd Reference.learned) /\
  wellFormed (fst Reference.learned).
Proof.
  split; [exact learned_returned|].
  apply (returned_tree_is_well_formed (Reference.config 1 5 1 1) Reference.fourPoints
           Reference.globals0 10 (fst Reference.learned) (snd Reference.learned)).
  left. exact learned_returned.
Defined.

(** The root of the tree of the four points has children: it carries an
    axis-aligned split on the one feature and no leaf vector. *)
Lemma returned_nodes_are_splits_or_leaves_witness :
  (0 < length (fst Reference.learned))%nat /\
  leftChild (getNodeConfig (fst Reference.learned) 0) = Some 1%nat /\
  match leftChild (getNodeConfig (fst Reference.learned) 0) with
  | Some _ =>
      isAxisAligned (getDimensionality Reference.fourPoints)
                    (split (getNodeConfig (fst Reference.learned) 0)) /\
      histogram (getNodeData (fst Reference.learned) 0) = []
  | None =>
      split (getNodeConfig (fst Reference.learned) 0) = NoSplit /\
      length (histogram (getNodeData (fst Reference.learned) 0))
      = Z.to_nat (getClasscount Reference.fourPoints)
  end.
Proof.
  split; [vm_compute; lia|]. split; [vm_compute; reflexivity|].
  apply (returned_nodes_are_splits_or_leaves (Reference.config 1 5 1 1)
           Reference.fourPoints Reference.globals0 10 (fst Reference.learned)
           (snd Reference.learned)
           (isAxisAligned (getDimensionality Reference.fourPoints)) 0).
  - left. split; [exact learned_returned|reflexivity].
  - vm_compute. lia.
Defined.

(** ** The batch learners terminate *)

Section Termination.

Context `{P : Platform}.

Lemma exampleList_runs good C s node stack :
  runInvariant good C s -> sizesRecorded s -> splitStack s = node :: stack ->
  (node < length (tree s))%nat /\ exists l N, exampleList s node = Returns (l, N).
Proof.
  intros (_ & _ & Hlen & _ & _ & Hon & _) Hsize Hstack.
  destruct (proj1 (Hon node)) as [arr Harr]; [rewrite Hstack; by left|].
  split; [rewrite <- Hlen; by apply lookup_lt_Some in Harr|].
  unfold exampleList. rewrite Harr, (Hsize _ _ Harr).
  rewrite !(proj2 (Z.leb_le _ _)) by lia. cbn. eauto.
Qed.

Lemma exactPartition_sizesAgree L l ev : exactPartition L l ev -> sizesAgree ev.
Proof. destruct ev; [done|]. cbn. tauto. Qed.

Lemma exactPartition_children L l ev :
  1 <= minChildSplitExamples L -> exactPartition L l ev -> childrenNonEmpty ev.
Proof. destruct ev; [done|]. cbn. lia. Qed.

(** The axis-aligned learner splits at a split point: both children have
    an example, whatever the configured minimum. *)
Lemma DecisionTreeLearner_turn_children L storage _numFeatures s s' ev :
  wf_storage storage -> 0 < getClasscount storage ->
  DecisionTreeLearner_turn L storage _numFeatures (getClasscount storage) s
  = Returns (s', ev) ->
  childrenNonEmpty ev.
Proof.
  unfold DecisionTreeLearner_turn. intros Hwf HC Hrun.
  destruct (splitStack s) as [|n stack] eqn:Hstack; [done|].
  destruct (exampleList s n) as [[l N]| | | |] eqn:El; try done.
  cbn [mbind outcome_bind] in Hrun.
  pose proof (exampleList_inv _ _ _ _ El) as (HN & HlN & _).
  destruct (stops L _ _) eqn:Hstop.
  - destruct (finalizeLeaf 158 _ _ _ _ _) as [t| | | |] eqn:Ef; try done.
    cbn [mbind outcome_bind] in Hrun. by inversion Hrun; subst.
  - cbn [rd_draw] in Hrun.
    destruct (optimise _ _ _ _ _ _ _) as [[best sorted]| | | |] eqn:Eo; try done.
    cbn [mbind outcome_bind] in Hrun.
    destruct (_ || _) eqn:Echeck.
    + destruct (finalizeLeaf 241 _ _ _ _ _) as [t| | | |] eqn:Ef; try done.
      cbn [mbind outcome_bind] in Hrun. by inversion Hrun; subst.
    + destruct (partitionExamples _ _ _ _ _ _) as [[[[LA RA] lc] rc]| | | |]; try done.
      cbn [mbind outcome_bind] in Hrun. unfold BOOST_ASSERT in Hrun.
      destruct (lc =? 0); [|done]. destruct (rc =? 0); [|done].
      cbn [mbind outcome_bind] in Hrun.
      match type of Hrun with Returns (_, ?b) = _ =>
        assert (Hev : b = ev) by congruence end.
      rewrite <- Hev. cbn.
      apply orb_false_iff in Echeck as [Echeck _].
      apply orb_false_iff in Echeck as [Efeature _]. apply Z.ltb_ge in Efeature.
      apply optimise_good with (L := l) in Eo as [Hgood _]; auto.
      2:{ by apply labels_valid. }
      2:{ apply length_nodeHistogram. }
      2:{ apply getMass_nodeHistogram. by apply labels_valid. }
      2:{ by left. }
      destruct Hgood as [Hgood|Hgood]; [lia|].
      destruct Hgood as (feature & pre & a & b & post & _ & _ & _ & _ & _ & Hlm & Hrm).
      lia.
Qed.

(** A loop whose turns return, keep the sizes and give every child an
    example ends within the turns still to come, with at most as many
    nodes as the potential of its first state. *)
Lemma loopWith_terminates good storage C L (Extra : State -> Prop)
    (turn : State -> outcome (State * Event)) :
  (forall s, runInvariant good C s -> sizesRecorded s -> Extra s -> splitStack s <> [] ->
     exists s' ev, turn s = Returns (s', ev) /\ turnShape good storage C L s s' ev /\
                   sizesAgree ev /\ childrenNonEmpty ev /\ Extra s') ->
  forall fuel s,
    runInvariant good C s -> sizesRecorded s -> Extra s ->
    stackWeight s <= Z.of_nat fuel ->
    exists s', loopWith turn fuel s = Returns s' /\
               Z.of_nat (length (tree s')) <= potential s.
Proof.
  intros Hturn fuel s Hinv Hsize Hextra Hfuel.
  set (Inv := fun s0 => runInvariant good C s0 /\ sizesRecorded s0 /\ Extra s0).
  destruct (loopWith_runs Inv stackWeight turn) with (fuel := fuel) (s := s)
    as [s' Hrun]; [|done|done|].
  { intros s0 (Hi & Hs & He) Hne.
    destruct (Hturn s0 Hi Hs He Hne) as (s1 & ev & Ht & Hshape & Hag & Hch & He1).
    exists s1, ev. split; [done|]. split.
    - split; [by eapply runInvariant_step|]. split; [by eapply sizesRecorded_step|done].
    - by eapply stackWeight_step. }
  exists s'. split; [done|].
  apply (loopWith_invariant (fun s0 => Inv s0 /\ potential s0 <= potential s)) in Hrun.
  - destruct Hrun as [[_ Hpot] Hstack].
    assert (potential s' = Z.of_nat (length (tree s')))
      by (unfold potential, stackWeight; rewrite Hstack; cbn; lia).
    lia.
  - intros s0 s1 ev [(Hi & Hs & He) Hpot] Hne Ht.
    destruct (Hturn s0 Hi Hs He Hne) as (s1' & ev' & Ht' & Hshape & Hag & Hch & He1).
    assert (s1' = s1 /\ ev' = ev) as [-> ->] by (split; congruence).
    split.
    + split; [by eapply runInvariant_step|]. split; [by eapply sizesRecorded_step|done].
    + pose proof (stackWeight_step _ _ _ _ _ _ _ Hi Hs Hshape Hag Hch). lia.
  - split; [done|lia].
Qed.

(** A turn of the axis-aligned learner has no loop that is cut short. *)
Lemma partitionExamples_ends (p : nat -> bool) l : forall LA RA lc rc,
  partitionExamples p l LA RA lc rc <> OutOfFuel.
Proof.
  induction l as [|n l IH]; intros LA RA lc rc; simpl; [done|].
  unfold storeBack.
  destruct (p n).
  - destruct ((0 <=? lc - 1) && (lc - 1 <? Z.of_nat (length LA))); [|done].
    cbn [mbind outcome_bind]. apply IH.
  - destruct ((0 <=? rc - 1) && (rc - 1 <? Z.of_nat (length RA))); [|done].
    cbn [mbind outcome_bind]. apply IH.
Qed.

Lemma optimise_ends storage hist C sampled fs : forall l best,
  optimise storage hist C sampled fs l best <> OutOfFuel.
Proof.
  induction fs as [|f fs IH]; intros l best; simpl; [done|].
  destruct (sampled !! f) as [feature|]; [|done].
  destruct (sortByFeature storage feature l) as [|n0 rest]; [done|]. apply IH.
Qed.

Lemma finalizeLeaf_ends line t node hist smoothing boot :
  finalizeLeaf line t node hist smoothing boot <> OutOfFuel.
Proof.
  unfold finalizeLeaf, updateLeafNodeHistogram, BOOST_ASSERT.
  destruct (0 <? _); [|done]. cbn [mbind outcome_bind].
  destruct (negb boot); cbn [mbind outcome_bind]; by destruct (0 <? _).
Qed.

Lemma DecisionTreeLearner_turn_ends L storage _numFeatures C s :
  DecisionTreeLearner_turn L storage _numFeatures C s <> OutOfFuel.
Proof.
  unfold DecisionTreeLearner_turn.
  destruct (splitStack s) as [|node stack]; [done|].
  unfold exampleList.
  destruct (trainingExamples s !! node) as [[arr|]|]; try done.
  destruct (trainingExamplesSizes s !! node) as [N|]; try done.
  destruct ((0 <=? N) && (N <=? Z.of_nat (length arr))); [|done].
  cbn [mbind outcome_bind].
  destruct (stops L _ _).
  - pose proof (finalizeLeaf_ends 158 (tree s) node
                  (nodeHistogram storage C (take (Z.to_nat N) arr))
                  (smoothingParameter L) (useBootstrap L)) as Hf.
    by destruct (finalizeLeaf 158 _ _ _ _ _).
  - cbn [rd_draw].
    match goal with |- context [optimise ?a ?b ?c ?d ?e ?f ?g] =>
      pose proof (optimise_ends a b c d e f g) as Ho;
      destruct (optimise a b c d e f g) as [[best sorted]| | | |]; try done end.
    cbn [mbind outcome_bind].
    destruct (_ || _).
    + pose proof (finalizeLeaf_ends 241 (tree s) node
                    (nodeHistogram storage C (take (Z.to_nat N) arr))
                    (smoothingParameter L) (useBootstrap L)) as Hf.
      by destruct (finalizeLeaf 241 _ _ _ _ _).
    + match goal with |- context [partitionExamples ?a ?b ?c ?d ?e ?f] =>
        pose proof (partitionExamples_ends a b c d e f) as Hp;
        destruct (partitionExamples a b c d e f) as [[[[LA RA] lc] rc]| | | |]; try done end.
      cbn [mbind outcome_bind]. unfold BOOST_ASSERT.
      destruct (lc =? 0); [|done]. by destruct (rc =? 0).
Qed.

(** A loop whose turns, when they return, keep the sizes and give every
    child an example does not use up the turns still to come: it ends,
    and when it returns the tree has at most as many nodes as the
    potential of its first state. *)
Lemma loopWith_ends good storage C L (Extra : State -> Prop)
    (turn : State -> outcome (State * Event)) :
  (forall s, turn s <> OutOfFuel) ->
  (forall s s' ev, runInvariant good C s -> sizesRecorded s -> Extra s ->
     splitStack s <> [] -> turn s = Returns (s', ev) ->
     turnShape good storage C L s s' ev /\ sizesAgree ev /\ childrenNonEmpty ev /\
     Extra s') ->
  forall fuel s,
    runInvariant good C s -> sizesRecorded s -> Extra s ->
    stackWeight s <= Z.of_nat fuel ->
    loopWith turn fuel s <> OutOfFuel /\
    forall s', loopWith turn fuel s = Returns s' ->
               Z.of_nat (length (tree s')) <= potential s.
Proof.
  intros Hends Hturn fuel. induction fuel as [|fuel IH]; intros s Hinv Hsize Hextra Hfuel;
    pose proof (stackWeight_length s) as Hlow; simpl.
  - destruct (splitStack s) as [|node stack] eqn:Hstack; [|simpl in Hlow; lia].
    split; [done|]. intros s' E. inversion E; subst.
    unfold potential. rewrite Hstack. simpl. lia.
  - destruct (splitStack s) as [|node stack] eqn:Hstack.
    { split; [done|]. intros s' E. inversion E; subst.
      unfold potential. rewrite Hstack. simpl. lia. }
    pose proof (Hends s) as He.
    destruct (turn s) as [[s1 ev]| | | |] eqn:Et; try done.
    cbn [mbind outcome_bind].
    destruct (Hturn s s1 ev Hinv Hsize Hextra) as (Hshape & Hag & Hch & He1);
      [by rewrite Hstack|done|].
    pose proof (stackWeight_step _ _ _ _ _ _ _ Hinv Hsize Hshape Hag Hch) as [Hw Hp].
    destruct (IH s1) as [IH1 IH2].
    + by eapply runInvariant_step.
    + by eapply sizesRecorded_step.
    + done.
    + lia.
    + split; [done|]. intros s' E. specialize (IH2 s' E). lia.
Qed.

(** The loop of the axis-aligned learner, given the turns of the weight
    of its examples, is not cut short; a tree that it returns has at most
    that many nodes. *)
Lemma DecisionTreeLearner_loop_ends L storage _numFeatures fuel e r :
  wf_storage storage -> 0 < getClasscount storage ->
  weight (getSize storage) <= Z.of_nat fuel ->
  DecisionTreeLearner_loop fuel L storage _numFeatures (getClasscount storage)
                           (initialState storage e r) <> OutOfFuel /\
  forall s,
    DecisionTreeLearner_loop fuel L storage _numFeatures (getClasscount storage)
                             (initialState storage e r) = Returns s ->
    Z.of_nat (length (tree s)) <= weight (getSize storage).
Proof.
  intros Hwf HC Hfuel. rewrite DecisionTreeLearner_loop_loopWith.
  pose proof (potential_initial storage e r) as [HW HP]. rewrite <- HP.
  apply (loopWith_ends (isAxisAligned (getDimensionality storage)) storage
           (getClasscount storage) L
           (fun s => sampledFeatures s ≡ₚ seq 0 (Z.to_nat (getDimensionality storage)))).
  - apply DecisionTreeLearner_turn_ends.
  - intros s s' ev Hinv Hsize Hperm Hne Hturn.
    destruct (splitStack s) as [|node stack] eqn:Hstack; [done|].
    destruct (exampleList_runs _ _ _ _ _ Hinv Hsize Hstack) as (Hnode & l & N & Hl).
    destruct (DecisionTreeLearner_turn_spec L storage _numFeatures s node stack l N
                s' ev Hwf HC Hstack Hl Hturn) as (Hexact & _).
    assert (Hshape : turnShape (isAxisAligned (getDimensionality storage)) storage
                               (getClasscount storage) L s s' ev).
    { eapply DecisionTreeLearner_turn_shape; [|exact Hturn].
      apply Forall_forall. intros f Hf. rewrite Hperm in Hf.
      apply elem_of_seq in Hf. lia. }
    split; [done|].
    split; [by eapply exactPartition_sizesAgree|].
    split; [by eapply DecisionTreeLearner_turn_children|].
    destruct Hshape as (_ & _ & _ & _ & _ & _ & Hp & _). by rewrite Hp.
  - apply runInvariant_initial.
  - apply sizesRecorded_initial.
  - done.
  - by rewrite HW.
Qed.

Lemma ProjectiveDecisionTreeLearner_loop_terminates L storage fuel e r :
  wf_storage storage -> 0 < getClasscount storage -> 0 < getDimensionality storage ->
  1 <= minChildSplitExamples L ->
  weight (getSize storage) <= Z.of_nat fuel ->
  exists s,
    ProjectiveDecisionTreeLearner_loop fuel L storage (getClasscount storage)
      (getDimensionality storage) (initialState storage e r) = Returns s /\
    Z.of_nat (length (tree s)) <= weight (getSize storage).
Proof.
  intros Hwf HC HD Hmin Hfuel. rewrite ProjectiveDecisionTreeLearner_loop_loopWith.
  pose proof (potential_initial storage e r) as [HW HP]. rewrite <- HP.
  apply (loopWith_terminates isSparseProjection storage (getClasscount storage) L
           (fun _ => True)).
  - intros s Hinv Hsize _ Hne.
    destruct (splitStack s) as [|node stack] eqn:Hstack; [done|].
    destruct (exampleList_runs _ _ _ _ _ Hinv Hsize Hstack) as (Hnode & l & N & Hl).
    destruct (ProjectiveDecisionTreeLearner_turn_spec L storage s node stack l N)
      as (s' & ev & Hturn & Hexact & _); auto.
    exists s', ev. split; [done|].
    split; [by eapply ProjectiveDecisionTreeLearner_turn_shape|].
    split; [by eapply exactPartition_sizesAgree|].
    split; [by eapply exactPartition_children|done].
  - apply runInvariant_initial.
  - apply sizesRecorded_initial.
  - done.
  - by rewrite HW.
Qed.

Lemma DotProductDecisionTreeLearner_loop_terminates L storage fuel e r :
  wf_storage storage -> 0 < getClasscount storage ->
  1 <= minChildSplitExamples L ->
  weight (getSize storage) <= Z.of_nat fuel ->
  exists s,
    DotProductDecisionTreeLearner_loop fuel L storage (getClasscount storage)
      (getDimensionality storage) (initialState storage e r) = Returns s /\
    Z.of_nat (length (tree s)) <= weight (getSize storage).
Proof.
  intros Hwf HC Hmin Hfuel. rewrite DotProductDecisionTreeLearner_loop_loopWith.
  pose proof (potential_initial storage e r) as [HW HP]. rewrite <- HP.
  apply (loopWith_terminates isDotProduct storage (getClasscount storage) L
           (fun _ => True)).
  - intros s Hinv Hsize _ Hne.
    destruct (splitStack s) as [|node stack] eqn:Hstack; [done|].
    destruct (exampleList_runs _ _ _ _ _ Hinv Hsize Hstack) as (Hnode & l & N & Hl).
    destruct (DotProductDecisionTreeLearner_turn_spec L storage s node stack l N)
      as (s' & ev & Hturn & Hexact & _); auto.
    exists s', ev. split; [done|].
    split; [by eapply DotProductDecisionTreeLearner_turn_shape|].
    split; [by eapply exactPartition_sizesAgree|].
    split; [by eapply exactPartition_children|done].
  - apply runInvariant_initial.
  - apply sizesRecorded_initial.
  - done.
  - by rewrite HW.
Qed.

End Termination.

Section LearnersTerminate.

Context `{P : Platform}.

(** X9.  On well-formed data with at least one class, the axis-aligned
    learner needs no more than [2 max(N, 1) - 1] turns, [N] being the
    number of examples it works on (the data or its bootstrap sample):
    given that many, its loop is not cut short, and a tree that it returns
    has at most that many nodes.  (It need not return: line 90 throws on
    no example, and a threshold that rounds to the lower of its two values
    leaves an empty side.) *)
Theorem axis_aligned_learner_ends (L : Learner) (dataStorage : DataStorage)
    (gl : Globals) (fuel : nat) :
  wf_storage dataStorage -> 0 < getClasscount dataStorage ->
  2 * Z.max (getSize (DecisionTreeLearner_storage L dataStorage gl)) 1 - 1 <= Z.of_nat fuel ->
  DecisionTreeLearner_learn L dataStorage gl fuel <> OutOfFuel /\
  forall t gl',
    DecisionTreeLearner_learn L dataStorage gl fuel = Returns (t, gl') ->
    Z.of_nat (length t)
    <= 2 * Z.max (getSize (DecisionTreeLearner_storage L dataStorage gl)) 1 - 1.
Proof.
  intros Hwf HC. unfold DecisionTreeLearner_storage, DecisionTreeLearner_learn, BOOST_ASSERT.
  destruct (numFeatures L <=? getDimensionality dataStorage); [|by split].
  cbn [mbind outcome_bind].
  set (count := if numBootstrapExamples L <? 0 then getSize dataStorage
                else numBootstrapExamples L).
  intros Hfuel.
  assert (Est : (if useBootstrap L then fst (fst (bootstrap count dataStorage gl))
                 else dataStorage)
                = fst (fst (if useBootstrap L then bootstrap count dataStorage gl
                            else (dataStorage, [], gl)))) by (by destruct (useBootstrap L)).
  rewrite Est in *. clear Est.
  destruct (if useBootstrap L then _ else _) as [[storage sampled] gl1] eqn:Ew.
  cbn [fst] in *.
  apply working_storage in Ew as (EC & ED & Hwf'). specialize (Hwf' Hwf).
  unfold vectorSize. destruct (fastlog2 (getSize storage) <? 0); [by split|].
  cbn [mbind outcome_bind].
  destruct (DecisionTreeLearner_loop_ends L storage
              (if numFeatures L <? 0 then Z.sqrt (getDimensionality dataStorage)
               else numFeatures L) fuel (g gl1) (rd gl1)) as (Hends & Hlen); auto.
  { lia. }
  destruct (DecisionTreeLearner_loop _ _ _ _ _ _) as [s| | | |]; try (by split).
  cbn [mbind outcome_bind]. split; [done|]. intros t gl' E. inversion E; subst.
  specialize (Hlen s eq_refl). unfold weight in Hlen.
  destruct (useBootstrap L); [|done].
  by rewrite length_updateHistograms.
Qed.

(** X10.  With a minimum of at least one example for a child, the
    projective learner (on data of positive dimension) and the dot-product
    learner return a tree as soon as they are given [2 max(N, 1) - 1]
    turns, [N] being the number of examples they work on, and the tree has
    at most that many nodes. *)
Theorem candidate_learners_terminate (L : Learner) (dataStorage : DataStorage)
    (gl : Globals) (fuel : nat) :
  wf_storage dataStorage -> 0 < getClasscount dataStorage ->
  1 <= minChildSplitExamples L ->
  2 * Z.max (getSize (candidateLearner_storage L dataStorage gl)) 1 - 1 <= Z.of_nat fuel ->
  (0 < getDimensionality dataStorage ->
   exists t gl',
     ProjectiveDecisionTreeLearner_learn L dataStorage gl fuel = Returns (t, gl') /\
     Z.of_nat (length t)
     <= 2 * Z.max (getSize (candidateLearner_storage L dataStorage gl)) 1 - 1) /\
  (exists t gl',
     DotProductDecisionTreeLearner_learn L dataStorage gl fuel = Returns (t, gl') /\
     Z.of_nat (length t)
     <= 2 * Z.max (getSize (candidateLearner_storage L dataStorage gl)) 1 - 1).
Proof.
  intros Hwf HC Hmin.
  unfold candidateLearner_storage, ProjectiveDecisionTreeLearner_learn,
    DotProductDecisionTreeLearner_learn.
  intros Hfuel.
  assert (Est : (if useBootstrap L
                 then fst (fst (bootstrap (numBootstrapExamples L) dataStorage gl))
                 else dataStorage)
                = fst (fst (if useBootstrap L
                            then bootstrap (numBootstrapExamples L) dataStorage gl
                            else (dataStorage, [], gl)))) by (by destruct (useBootstrap L)).
  rewrite Est in *. clear Est.
  destruct (if useBootstrap L then _ else _) as [[storage sampled] gl1] eqn:Ew.
  cbn [fst rd_draw] in *.
  apply working_storage in Ew as (EC & ED & Hwf'). specialize (Hwf' Hwf).
  split.
  - intros HD.
    destruct (ProjectiveDecisionTreeLearner_loop_terminates L storage fuel
                (seed_engine (source (rd gl1) (drawn (rd gl1))))
                (mkDevice (source (rd gl1)) (S (drawn (rd gl1)))))
      as (s & Hloop & Hlen); auto; try lia.
    rewrite Hloop. cbn [mbind outcome_bind]. eexists _, _. split; [reflexivity|].
    unfold weight in Hlen. destruct (useBootstrap L); [|done].
    by rewrite length_updateHistograms.
  - destruct (DotProductDecisionTreeLearner_loop_terminates L storage fuel
                (seed_engine (source (rd gl1) (drawn (rd gl1))))
                (mkDevice (source (rd gl1)) (S (drawn (rd gl1)))))
      as (s & Hloop & Hlen); auto; try lia.
    rewrite Hloop. cbn [mbind outcome_bind]. eexists _, _. split; [reflexivity|].
    unfold weight in Hlen. destruct (useBootstrap L); [|done].
    by rewrite length_updateHistograms.
Qed.

End LearnersTerminate.

(** Given ten turns on the four points, for which seven are enough, the
    learner returns a tree, of at most seven nodes. *)
Lemma axis_aligned_learner_ends_witness :
  DecisionTreeLearner_learn (Reference.config 1 5 1 1) Reference.fourPoints
                            Reference.globals0 10
  = Returns (fst Reference.learned, snd Reference.learned) /\
  Z.of_nat (length (fst Reference.learned)) <= 7.
Proof.
  split; [exact learned_returned|].
  refine (proj2 (axis_aligned_learner_ends (Reference.config 1 5 1 1) Reference.fourPoints
                   Reference.globals0 10 wf_fourPoints _ _)
                _ _ learned_returned).
  - reflexivity.
  - apply Z.leb_le. vm_compute. reflexivity.
Defined.

(** Seven turns are enough for the dot-product learner on the four
    points. *)
Lemma candidate_learners_terminate_witness :
  exists t gl',
    DotProductDecisionTreeLearner_learn (Reference.config 1 5 1 1) Reference.fourPoints
                                        Reference.globals0 7 = Returns (t, gl') /\
    Z.of_nat (length t)
    <= 2 * Z.max (getSize (candidateLearner_storage (Reference.config 1 5 1 1)
                             Reference.fourPoints Reference.globals0)) 1 - 1.
Proof.
  apply (candidate_learners_terminate (Reference.config 1 5 1 1) Reference.fourPoints
           Reference.globals0 7).
  - exact wf_fourPoints.
  - reflexivity.
  - apply Z.leb_le. reflexivity.
  - apply Z.leb_le. vm_compute. reflexivity.
Defined.

(** ** The online learner grows the tree *)

Section OnlineGrowth.

Context `{P : Platform}.

Lemma wellFormed_structure (t t' : Tree) :
  treeStructure t = treeStructure t' -> wellFormed t -> wellFormed t'.
Proof.
  intros E (H0 & Hroot & Hkids & Hparent). unfold wellFormed, isChild in *.
  rewrite <- (length_treeStructure t'), <- E, length_treeStructure.
  setoid_rewrite <- (fun k => getNodeConfig_treeStructure t t' k E). done.
Qed.

(** In a well-formed tree the descent from a node ends at a node of the
    tree without children. *)
Lemma findLeafNode_from_leaf (t : Tree) x : wellFormed t ->
  forall fuel node, (node < length t)%nat -> (length t - node <= fuel)%nat ->
    (findLeafNode_from fuel t x node < length t)%nat /\
    leftChild (getNodeConfig t (findLeafNode_from fuel t x node)) = None.
Proof.
  intros (_ & _ & Hkids & _) fuel.
  induction fuel as [|fuel IH]; intros node Hnode Hfuel; [lia|]. simpl.
  destruct (leftChild (getNodeConfig t node)) as [l|] eqn:El; [|done].
  destruct (Hkids node l Hnode El) as (Hl & HSl & _).
  destruct (goesLeft _ _); apply IH; lia.
Qed.

Lemma findLeafNode_leaf (t : Tree) x : wellFormed t ->
  (findLeafNode t x < length t)%nat /\
  leftChild (getNodeConfig t (findLeafNode t x)) = None.
Proof.
  intros Hwf. apply findLeafNode_from_leaf; [done| |lia]. by destruct Hwf.
Qed.

Lemma grownFrom_refl t : grownFrom t t.
Proof. split; [done|]. by intros k Hk. Qed.

Lemma grownFrom_trans t0 t1 t2 : grownFrom t0 t1 -> grownFrom t1 t2 -> grownFrom t0 t2.
Proof.
  intros [Hl1 H1] [Hl2 H2]. split; [lia|]. intros k Hk.
  destruct (H1 k Hk) as [Hd1 Hc1]. destruct (H2 k ltac:(lia)) as [Hd2 Hc2].
  split; [congruence|]. intros Hc. rewrite <- (Hc1 Hc). apply Hc2. by rewrite (Hc1 Hc).
Qed.

Lemma grownFrom_structure (t t' : Tree) :
  treeStructure t = treeStructure t' -> grownFrom t t'.
Proof.
  intros E. split.
  - by rewrite <- (length_treeStructure t), E, length_treeStructure.
  - intros k Hk. by rewrite (getNodeConfig_treeStructure t t' k E).
Qed.

Lemma grownFrom_split (t : Tree) node desc :
  leftChild (getNodeConfig t node) = None ->
  grownFrom t (fst (splitNode node (setSplit node desc t))).
Proof.
  intros Hleaf. split; [rewrite length_commit_tree; lia|]. intros k Hk.
  rewrite getNodeConfig_split.
  destruct (decide (k = node /\ (node < length t)%nat)) as [[-> _]|Hne].
  - split; [done|]. by rewrite Hleaf.
  - by rewrite decide_False by lia.
Qed.

(** A visit keeps the tree well-formed and grows it. *)
Lemma visit_grows C D st x label st' ev :
  OnlineDecisionTreeLearner_visit C D st x label = Returns (st', ev) ->
  wellFormed (otree st) ->
  wellFormed (otree st') /\ grownFrom (otree st) (otree st').
Proof.
  intros Hvisit Hwf. unfold OnlineDecisionTreeLearner_visit in Hvisit.
  destruct (findLeafNode_leaf (otree st) x Hwf) as [Hleaf Hnone].
  destruct (countExample C D st x label) as [[st2 d2]| | | |] eqn:Ecount; try done.
  cbn [mbind outcome_bind] in Hvisit.
  apply countExample_inv in Ecount as (Etree & _ & _).
  apply decideSplit_inv in Hvisit as [[-> Hkeep]|(best & -> & _ & _ & Hsplit)].
  - apply keepLeaf_inv in Hkeep as (_ & _ & ->). cbn [otree]. rewrite Etree.
    split; [by apply wellFormed_setNodeData|].
    apply grownFrom_structure. by rewrite treeStructure_setNodeData.
  - apply splitLeaf_inv in Hsplit
      as (_ & feature & threshold & hl & hr & _ & _ & _ & _ & _ & _ & _ & _ & _ & _ & _ & ->).
    rewrite Etree.
    pose proof (treeStructure_splitTree (learner st2) (findLeafNode (otree st) x) d2
                  (AxisAligned (Z.of_nat feature) threshold) hl hr (otree st)) as E.
    split.
    + eapply wellFormed_structure; [symmetry; exact E|]. by apply wellFormed_split.
    + eapply grownFrom_trans; [|apply grownFrom_structure; symmetry; exact E].
      by apply grownFrom_split.
Qed.

Lemma OnlineDecisionTreeLearner_loop_grows C D exs : forall st st',
  OnlineDecisionTreeLearner_loop C D exs st = Returns st' ->
  wellFormed (otree st) ->
  wellFormed (otree st') /\ grownFrom (otree st) (otree st').
Proof.
  induction exs as [|[x label] exs IH]; intros st st' Hrun Hwf; simpl in Hrun.
  - inversion Hrun; subst. split; [done|apply grownFrom_refl].
  - destruct (OnlineDecisionTreeLearner_visit C D st x label) as [[st1 ev]| | | |] eqn:E;
      try done.
    cbn [mbind outcome_bind] in Hrun.
    apply visit_grows in E as [Hwf1 Hg1]; [|done].
    apply IH in Hrun as [Hwf' Hg']; [|done]. split; [done|].
    by eapply grownFrom_trans.
Qed.

(** X11.  The online learner only grows the tree: given a well-formed
    tree it returns a well-formed tree in which every node of the given
    tree is still a node at its depth, and a node that had children keeps
    its split descriptor and its children. *)
Theorem online_learner_grows_the_tree (L : Learner) (storage : DataStorage) (t0 : Tree)
    (gl : Globals) (t : Tree) (L' : Learner) (gl' : Globals) :
  wellFormed t0 ->
  OnlineDecisionTreeLearner_learn L storage t0 gl = Returns (t, L', gl') ->
  wellFormed t /\
  (length t0 <= length t)%nat /\
  forall k, (k < length t0)%nat ->
    depth (getNodeConfig t k) = depth (getNodeConfig t0 k) /\
    (leftChild (getNodeConfig t0 k) <> None -> getNodeConfig t k = getNodeConfig t0 k).
Proof.
  intros Hwf Hrun. unfold OnlineDecisionTreeLearner_learn, BOOST_ASSERT in Hrun.
  destruct (_ && _); [|done]. cbn [mbind outcome_bind] in Hrun.
  destruct (_ =? _); [|done]. cbn [mbind outcome_bind] in Hrun.
  destruct (0 <? getNumNodes t0); [|done]. cbn [mbind outcome_bind] in Hrun.
  destruct (OnlineDecisionTreeLearner_loop _ _ _ _) as [st| | | |] eqn:Eloop; try done.
  cbn [mbind outcome_bind] in Hrun. inversion Hrun; subst.
  apply OnlineDecisionTreeLearner_loop_grows in Eloop as [Hwf' Hg]; [|done].
  split; [done|]. exact Hg.
Qed.

End OnlineGrowth.

Lemma onlineLearned_returned :
  OnlineDecisionTreeLearner_learn (Reference.onlineConfig 0 [inject_Z 5]) Reference.twoPoints
                                  (fst (addNode [])) Reference.globals0
  = Returns (fst (fst Reference.onlineLearned), snd (fst Reference.onlineLearned),
             snd Reference.onlineLearned).
Proof.
  assert (Hr : returned (OnlineDecisionTreeLearner_learn
                           (Reference.onlineConfig 0 [inject_Z 5]) Reference.twoPoints
                           (fst (addNode [])) Reference.globals0) = true)
    by (vm_compute; reflexivity).
  unfold Reference.onlineLearned.
  destruct (OnlineDecisionTreeLearner_learn _ _ _ _) as [[[t L] gl]| | | |]; done.
Qed.

(** The online learner on the two points, from a root only: the tree it
    returns has three nodes. *)
Lemma online_learner_grows_the_tree_witness :
  length (fst (fst Reference.onlineLearned)) = 3%nat /\
  wellFormed (fst (fst Reference.onlineLearned)) /\
  grownFrom (fst (addNode [])) (fst (fst Reference.onlineLearned)).
Proof.
  split; [vm_compute; reflexivity|].
  apply (online_learner_grows_the_tree (Reference.onlineConfig 0 [inject_Z 5])
           Reference.twoPoints (fst (addNode [])) Reference.globals0
           (fst (fst Reference.onlineLearned)) (snd (fst Reference.onlineLearned))
           (snd Reference.onlineLearned)).
  - exact wellFormed_root.
  - exact onlineLearned_returned.
Defined.

(** ** The examples are counted where the tree routes them *)

Section Routes.

Context `{P : Platform}.

(** The descent depends on the structure of the tree only. *)
Lemma findLeafNode_structure (t t' : Tree) x :
  treeStructure t = treeStructure t' -> findLeafNode t x = findLeafNode t' x.
Proof.
  intros E. unfold findLeafNode.
  rewrite <- (length_treeStructure t), E, length_treeStructure.
  generalize (length t') 0%nat. intros fuel.
  induction fuel as [|fuel IH]; intros node; [done|]. simpl.
  rewrite (getNodeConfig_treeStructure t t' node E).
  destruct (leftChild (getNodeConfig t' node)); [|done].
  destruct (goesLeft _ _); apply IH.
Qed.

Lemma filter_equiv {A : Type} (Q1 Q2 : A -> Prop) `{forall x, Decision (Q1 x)}
    `{forall x, Decision (Q2 x)} (l : list A) :
  (forall x, x ∈ l -> Q1 x <-> Q2 x) -> filter Q1 l = filter Q2 l.
Proof.
  induction l as [|a l IH]; intros Hq; [done|].
  assert (Ha : Q1 a <-> Q2 a) by (apply Hq; by left).
  assert (Hl : filter Q1 l = filter Q2 l) by (apply IH; intros x Hx; apply Hq; by right).
  destruct (decide (Q1 a)) as [H1|H1].
  - rewrite !filter_cons_True by tauto. by rewrite Hl.
  - rewrite !filter_cons_False by tauto. done.
Qed.

Lemma routedTo_structure (t t' : Tree) storage node :
  treeStructure t = treeStructure t' -> routedTo t storage node = routedTo t' storage node.
Proof.
  intros E. unfold routedTo. apply filter_equiv. intros n _.
  by rewrite (findLeafNode_structure t t' _ E).
Qed.

(** The descent after a leaf has been split: the points that reached the
    leaf go on to one of its children, as the descriptor says; the others
    end where they did. *)
Lemma findLeafNode_from_split (t : Tree) node desc x :
  wellFormed t -> (node < length t)%nat -> leftChild (getNodeConfig t node) = None ->
  forall fuel k, (k < length t)%nat -> (length t - k <= fuel)%nat ->
    findLeafNode_from (S (S fuel)) (fst (splitNode node (setSplit node desc t))) x k
    = if decide (findLeafNode_from fuel t x k = node)
      then (if goesLeft desc x then length t else S (length t))
      else findLeafNode_from fuel t x k.
Proof.
  intros Hwf Hnode Hleaf. pose proof Hwf as (_ & _ & Hkids & _).
  set (t' := fst (splitNode node (setSplit node desc t))).
  assert (Hnew : forall fuel j, (j = length t \/ j = S (length t)) ->
                                findLeafNode_from fuel t' x j = j).
  { intros fuel j Hj. destruct fuel; [done|]. simpl. unfold t'.
    rewrite getNodeConfig_split. rewrite decide_False by lia.
    by rewrite decide_True by done. }
  induction fuel as [|fuel IH]; intros k Hk Hfuel; [lia|].
  change (findLeafNode_from (S (S (S fuel))) t' x k)
    with (match leftChild (getNodeConfig t' k) with
          | None => k
          | Some l => if goesLeft (split (getNodeConfig t' k)) x
                      then findLeafNode_from (S (S fuel)) t' x l
                      else findLeafNode_from (S (S fuel)) t' x (S l)
          end).
  change (findLeafNode_from (S fuel) t x k)
    with (match leftChild (getNodeConfig t k) with
          | None => k
          | Some l => if goesLeft (split (getNodeConfig t k)) x
                      then findLeafNode_from fuel t x l
                      else findLeafNode_from fuel t x (S l)
          end).
  unfold t' at 1 2. rewrite getNodeConfig_split. fold t'.
  destruct (decide (k = node /\ (node < length t)%nat)) as [[-> _]|Hne].
  - cbn [leftChild split]. rewrite Hleaf. rewrite decide_True by done.
    destruct (goesLeft desc x); apply Hnew; auto.
  - rewrite decide_False by lia.
    destruct (leftChild (getNodeConfig t k)) as [l|] eqn:El.
    + destruct (Hkids k l Hk El) as (Hl & HSl & _).
      destruct (goesLeft (split (getNodeConfig t k)) x); apply IH; lia.
    + rewrite decide_False; [done|]. intros ->. apply Hne. done.
Qed.

Lemma findLeafNode_split (t : Tree) node desc x :
  wellFormed t -> (node < length t)%nat -> leftChild (getNodeConfig t node) = None ->
  findLeafNode (fst (splitNode node (setSplit node desc t))) x
  = if decide (findLeafNode t x = node)
    then (if goesLeft desc x then length t else S (length t))
    else findLeafNode t x.
Proof.
  intros Hwf Hnode Hleaf. unfold findLeafNode. rewrite length_commit_tree.
  replace (length t + 2)%nat with (S (S (length t))) by lia.
  apply findLeafNode_from_split; try done; lia.
Qed.

(** The histogram of a list of examples does not depend on their order. *)
Lemma addOne_commute (a b : nat) (h : H.t) :
  H.addOne a (H.addOne b h) = H.addOne b (H.addOne a h).
Proof.
  unfold H.addOne. destruct (decide (a = b)) as [->|Hne]; [done|].
  by apply list_alter_alter_ne.
Qed.

Lemma nodeHistogram_perm storage C (l l' : list nat) :
  l ≡ₚ l' -> nodeHistogram storage C l = nodeHistogram storage C l'.
Proof.
  unfold nodeHistogram. intros Hp. generalize (H.create C).
  induction Hp as [|n l l' Hp IH|n m l|l l' l'' Hp1 IH1 Hp2 IH2]; intros h; simpl.
  - done.
  - apply IH.
  - by rewrite addOne_commute.
  - by rewrite IH1.
Qed.

End Routes.

Section RoutedExamples.

Context `{P : Platform}.

(** The examples routed to the nodes after a leaf has been split. *)
Lemma routedTo_split storage (t : Tree) node desc :
  wellFormed t -> (node < length t)%nat -> leftChild (getNodeConfig t node) = None ->
  (forall k, (k < length t)%nat -> k <> node ->
     routedTo (fst (splitNode node (setSplit node desc t))) storage k
     = routedTo t storage k) /\
  routedTo (fst (splitNode node (setSplit node desc t))) storage (length t)
  = filter (fun n => goesLeft desc (getDataPoint storage n)) (routedTo t storage node) /\
  routedTo (fst (splitNode node (setSplit node desc t))) storage (S (length t))
  = filter (fun n => negb (goesLeft desc (getDataPoint storage n))) (routedTo t storage node).
Proof.
  intros Hwf Hnode Hleaf.
  assert (Hf : forall x, findLeafNode (fst (splitNode node (setSplit node desc t))) x
                         = if decide (findLeafNode t x = node)
                           then (if goesLeft desc x then length t else S (length t))
                           else findLeafNode t x)
    by (intros x; by apply findLeafNode_split).
  assert (Hin : forall x, (findLeafNode t x < length t)%nat)
    by (intros x; by apply findLeafNode_leaf).
  unfold routedTo. split; [|split].
  - intros k Hk Hne. apply filter_equiv. intros n _. rewrite Hf.
    destruct (decide _) as [E|E]; [|done].
    destruct (goesLeft _ _); split; intros; lia.
  - rewrite list_filter_filter. apply filter_equiv. intros n _. rewrite Hf.
    pose proof (Hin (getDataPoint storage n)).
    destruct (decide _) as [E|E].
    + destruct (goesLeft _ _); cbn; split; intros; try lia; tauto.
    + split; [lia|tauto].
  - rewrite list_filter_filter. apply filter_equiv. intros n _. rewrite Hf.
    pose proof (Hin (getDataPoint storage n)).
    destruct (decide _) as [E|E].
    + destruct (goesLeft _ _); cbn; split; intros; try lia; tauto.
    + split; [lia|tauto].
Qed.

End RoutedExamples.

Section RoutedInvariant.

Context `{P : Platform}.

Lemma routedInvariant_initial storage C smoothing e r :
  routedInvariant storage C smoothing (initialState storage e r).
Proof.
  split.
  - intros node arr Harr. destruct node; [|done]. cbn in Harr. inversion Harr; subst.
    unfold routedTo. rewrite filter_all; [done|]. apply Forall_forall. by intros n _.
  - intros k Hk _ Hnot. cbn in Hk, Hnot. destruct k; [|lia].
    exfalso. apply Hnot. by left.
Qed.

(** A turn keeps the examples where the tree routes them. *)
Lemma routedInvariant_step good storage C L s s' ev :
  useBootstrap L = false ->
  runInvariant good C s -> sizesRecorded s ->
  routedInvariant storage C (smoothingParameter L) s ->
  turnShape good storage C L s s' ev -> partitionedBy storage s' ev ->
  (forall node stack l N, splitStack s = node :: stack ->
     exampleList s node = Returns (l, N) -> exactPartition L l ev) ->
  routedInvariant storage C (smoothingParameter L) s'.
Proof.
  intros Hboot Hinv Hsize [Hr1 Hr2] (node & stack & l & N & Hstack & Hl & _ & Hev) Hp Hexact.
  specialize (Hexact node stack l N Hstack Hl).
  pose proof (sizesRecorded_examples _ _ _ _ _ _ Hinv Hsize Hl) as (Harr & _ & _ & Hnode).
  destruct Hinv as (Hwf & _ & Hlen & _ & _ & _ & Hleaf).
  assert (Hnl : leftChild (getNodeConfig (tree s) node) = None).
  { apply Hleaf. rewrite Hstack. by left. }
  pose proof (Hr1 _ _ Harr) as Hrouted.
  destruct ev as [node' hist|node' N' parent leftList rightList leftSize rightSize lc rc].
  - destruct Hev as (-> & -> & [line Hfin] & Hst' & Hex' & _).
    apply finalizeLeaf_inv in Hfin as (_ & _ & Ht'). rewrite Hboot in Ht'.
    assert (E : treeStructure (tree s') = treeStructure (tree s))
      by (by rewrite Ht', treeStructure_setNodeData).
    split.
    + intros k arr. rewrite Hex', (routedTo_structure _ _ storage k E).
      destruct (decide (k = node)) as [->|Hne].
      * by rewrite list_lookup_insert_eq by lia.
      * rewrite list_lookup_insert_ne by done. apply Hr1.
    + intros k Hk Hleafk Hnot. rewrite (routedTo_structure _ _ storage k E).
      rewrite Hst' in Hnot. rewrite Ht' in Hk, Hleafk |- *.
      rewrite length_setNodeData in Hk. rewrite getNodeConfig_setNodeData in Hleafk.
      destruct (decide (k = node)) as [->|Hne].
      * rewrite getNodeData_setNodeData by done. cbn [histogram setHistogram].
        by rewrite (nodeHistogram_perm storage C _ _ Hrouted).
      * rewrite getNodeData_setNodeData_ne by done. apply Hr2; [done|done|].
        rewrite Hstack, elem_of_cons. intros [?|?]; done.
  - destruct Hev as (-> & -> & _ & (desc & _ & Ht') & Hst' & Hex' & _).
    destruct Hexact as (Hpar & _ & -> & -> & _).
    cbn [partitionedBy] in Hp. rewrite Ht', getNodeConfig_split in Hp.
    rewrite decide_True in Hp by done. cbn [split] in Hp.
    apply partitionExamples_lists in Hp as [Hll Hrl].
    destruct (routedTo_split storage (tree s) node desc Hwf Hnode Hnl)
      as (Hold & Hleft & Hright).
    split.
    + intros k arr. rewrite Hex', Ht'.
      destruct (decide (k = node)) as [->|Hne].
      { by rewrite list_lookup_insert_eq by (rewrite length_app; cbn; lia). }
      rewrite list_lookup_insert_ne by done.
      destruct (decide (k < length (tree s))%nat) as [Hk|Hk].
      { rewrite lookup_app_l by lia. rewrite Hold by done. apply Hr1. }
      rewrite lookup_app_r by lia. rewrite Hlen.
      destruct (k - length (tree s))%nat as [|[|m]] eqn:E; [| |done];
        cbn [lookup list_lookup]; intros Hk'; inversion Hk'; subst arr.
      * replace k with (length (tree s)) by lia.
        rewrite Hleft, Hll, reverse_Permutation. by rewrite Hpar, Hrouted.
      * replace k with (S (length (tree s))) by lia.
        rewrite Hright, Hrl, reverse_Permutation. by rewrite Hpar, Hrouted.
    + intros k Hk Hleafk Hnot. rewrite Hst' in Hnot. rewrite Ht' in Hk, Hleafk |- *.
      rewrite length_commit_tree in Hk. rewrite getNodeConfig_split in Hleafk.
      rewrite !elem_of_cons in Hnot.
      destruct (decide (k = node /\ (node < length (tree s))%nat)) as [[-> _]|Hne];
        [done|].
      assert (Hk' : (k < length (tree s))%nat) by lia.
      rewrite decide_False in Hleafk by lia.
      rewrite getNodeData_split by done.
      rewrite decide_False by (intros ->; apply Hne; done).
      rewrite decide_False by lia.
      rewrite Hold by (try done; intros ->; apply Hne; done).
      apply Hr2; [done|done|].
      rewrite Hstack, elem_of_cons. intros [->|?]; [apply Hne; done|tauto].
Qed.

(** A loop whose turns partition the examples exactly ends with every
    leaf holding the histogram of the examples routed to it. *)
Lemma loopWith_routed good storage C L (Extra : State -> Prop)
    (turn : State -> outcome (State * Event)) :
  useBootstrap L = false ->
  (forall s s' ev node stack l N,
     Extra s -> splitStack s = node :: stack -> (node < length (tree s))%nat ->
     exampleList s node = Returns (l, N) -> turn s = Returns (s', ev) ->
     turnShape good storage C L s s' ev /\ partitionedBy storage s' ev /\
     exactPartition L l ev /\ Extra s') ->
  forall fuel s s',
    runInvariant good C s -> sizesRecorded s ->
    routedInvariant storage C (smoothingParameter L) s -> Extra s ->
    loopWith turn fuel s = Returns s' ->
    routedInvariant storage C (smoothingParameter L) s' /\ splitStack s' = [].
Proof.
  intros Hboot Hturn fuel s s' Hinv Hsize Hrouted Hextra Hrun.
  apply (loopWith_invariant
           (fun s0 => runInvariant good C s0 /\ sizesRecorded s0 /\
                      routedInvariant storage C (smoothingParameter L) s0 /\ Extra s0))
    in Hrun.
  - destruct Hrun as [(_ & _ & Hr & _) Hstack]. done.
  - intros s0 s1 ev (Hi & Hs & Hr & He) Hne Ht.
    destruct (splitStack s0) as [|node stack] eqn:Hstack; [done|].
    destruct (exampleList_runs _ _ _ _ _ Hi Hs Hstack) as (Hnode & l & N & Hl).
    destruct (Hturn s0 s1 ev node stack l N He Hstack Hnode Hl Ht)
      as (Hshape & Hp & Hexact & He1).
    split; [by eapply runInvariant_step|].
    split; [eapply sizesRecorded_step; eauto; by eapply exactPartition_sizesAgree|].
    split; [|done].
    eapply routedInvariant_step; eauto.
    intros node' stack' l' N' Hstack' Hl'. rewrite Hstack in Hstack'.
    assert (node' = node) as -> by congruence.
    assert (l' = l) as -> by congruence. done.
  - done.
Qed.

End RoutedInvariant.

Section CountedWhereRouted.

Context `{P : Platform}.

Lemma DecisionTreeLearner_loop_routed L storage _numFeatures fuel e r s' :
  wf_storage storage -> 0 < getClasscount storage ->
  _numFeatures <= getDimensionality storage -> useBootstrap L = false ->
  DecisionTreeLearner_loop fuel L storage _numFeatures (getClasscount storage)
                           (initialState storage e r) = Returns s' ->
  routedInvariant storage (getClasscount storage) (smoothingParameter L) s' /\
  splitStack s' = [].
Proof.
  intros Hwf HC Hnf Hboot Hrun. rewrite DecisionTreeLearner_loop_loopWith in Hrun.
  eapply (loopWith_routed (isAxisAligned (getDimensionality storage)) storage
            (getClasscount storage) L
            (fun s => sampledFeatures s ≡ₚ seq 0 (Z.to_nat (getDimensionality storage))));
    [done| | | | | |exact Hrun].
  - intros s s1 ev node stack l N Hperm Hstack Hnode Hl Hturn.
    destruct (DecisionTreeLearner_turn_spec L storage _numFeatures s node stack l N
                s1 ev Hwf HC Hstack Hl Hturn) as (Hexact & _).
    assert (Hshape : turnShape (isAxisAligned (getDimensionality storage)) storage
                               (getClasscount storage) L s s1 ev).
    { eapply DecisionTreeLearner_turn_shape; [|exact Hturn].
      apply Forall_forall. intros f Hf. rewrite Hperm in Hf.
      apply elem_of_seq in Hf. lia. }
    split; [done|]. split.
    { eapply DecisionTreeLearner_turn_partitioned; [|exact Hturn].
      intros node' stack' Hst. rewrite Hstack in Hst. by inversion Hst; subst. }
    split; [done|].
    destruct Hshape as (_ & _ & _ & _ & _ & _ & Hp & _). by rewrite Hp.
  - apply runInvariant_initial.
  - apply sizesRecorded_initial.
  - apply routedInvariant_initial.
  - done.
Qed.

Lemma ProjectiveDecisionTreeLearner_loop_routed L storage fuel e r s' :
  wf_storage storage -> 0 < getClasscount storage -> 0 < getDimensionality storage ->
  useBootstrap L = false ->
  ProjectiveDecisionTreeLearner_loop fuel L storage (getClasscount storage)
    (getDimensionality storage) (initialState storage e r) = Returns s' ->
  routedInvariant storage (getClasscount storage) (smoothingParameter L) s' /\
  splitStack s' = [].
Proof.
  intros Hwf HC HD Hboot Hrun. rewrite ProjectiveDecisionTreeLearner_loop_loopWith in Hrun.
  eapply (loopWith_routed isSparseProjection storage (getClasscount storage) L
            (fun _ => True)); [done| | | | | |exact Hrun].
  - intros s s1 ev node stack l N _ Hstack Hnode Hl Hturn.
    destruct (ProjectiveDecisionTreeLearner_turn_spec L storage s node stack l N)
      as (s2 & ev2 & Hturn2 & Hexact & _); auto.
    assert (s2 = s1 /\ ev2 = ev) as [-> ->] by (split; congruence).
    split; [by eapply ProjectiveDecisionTreeLearner_turn_shape|]. split; [|done].
    eapply ProjectiveDecisionTreeLearner_turn_partitioned; [|exact Hturn].
    intros node' stack' Hst. rewrite Hstack in Hst. by inversion Hst; subst.
  - apply runInvariant_initial.
  - apply sizesRecorded_initial.
  - apply routedInvariant_initial.
  - done.
Qed.

Lemma DotProductDecisionTreeLearner_loop_routed L storage fuel e r s' :
  wf_storage storage -> 0 < getClasscount storage -> useBootstrap L = false ->
  DotProductDecisionTreeLearner_loop fuel L storage (getClasscount storage)
    (getDimensionality storage) (initialState storage e r) = Returns s' ->
  routedInvariant storage (getClasscount storage) (smoothingParameter L) s' /\
  splitStack s' = [].
Proof.
  intros Hwf HC Hboot Hrun. rewrite DotProductDecisionTreeLearner_loop_loopWith in Hrun.
  eapply (loopWith_routed isDotProduct storage (getClasscount storage) L
            (fun _ => True)); [done| | | | | |exact Hrun].
  - intros s s1 ev node stack l N _ Hstack Hnode Hl Hturn.
    destruct (DotProductDecisionTreeLearner_turn_spec L storage s node stack l N)
      as (s2 & ev2 & Hturn2 & Hexact & _); auto.
    assert (s2 = s1 /\ ev2 = ev) as [-> ->] by (split; congruence).
    split; [by eapply DotProductDecisionTreeLearner_turn_shape|]. split; [|done].
    eapply DotProductDecisionTreeLearner_turn_partitioned; [|exact Hturn].
    intros node' stack' Hst. rewrite Hstack in Hst. by inversion Hst; subst.
  - apply runInvariant_initial.
  - apply sizesRecorded_initial.
  - apply routedInvariant_initial.
  - done.
Qed.

(** X12.  Without bootstrap, on well-formed data with at least one class,
    every leaf of the tree a batch learner returns holds the smoothed
    histogram of exactly the training examples that the tree routes to
    that leaf: training and prediction agree on where an example
    belongs.  (The projective learner on data of positive dimension.) *)
Theorem leaves_count_the_examples_routed_to_them (L : Learner) (dataStorage : DataStorage)
    (gl : Globals) (fuel : nat) (t : Tree) (gl' : Globals) (k : nat) :
  wf_storage dataStorage -> 0 < getClasscount dataStorage -> useBootstrap L = false ->
  DecisionTreeLearner_learn L dataStorage gl fuel = Returns (t, gl') \/
  (0 < getDimensionality dataStorage /\
   ProjectiveDecisionTreeLearner_learn L dataStorage gl fuel = Returns (t, gl')) \/
  DotProductDecisionTreeLearner_learn L dataStorage gl fuel = Returns (t, gl') ->
  (k < length t)%nat -> leftChild (getNodeConfig t k) = None ->
  histogram (getNodeData t k)
  = smoothedVector (nodeHistogram dataStorage (getClasscount dataStorage)
                                  (routedTo t dataStorage k))
                   (smoothingParameter L).
Proof.
  intros Hwf HC Hboot Hrun Hk Hleaf.
  assert (Hr : exists s, t = tree s /\
                 routedInvariant dataStorage (getClasscount dataStorage)
                                 (smoothingParameter L) s /\ splitStack s = []).
  { destruct Hrun as [Hrun|[[HD Hrun]|Hrun]].
    - unfold DecisionTreeLearner_learn, BOOST_ASSERT in Hrun. rewrite Hboot in Hrun.
      destruct (numFeatures L <=? getDimensionality dataStorage) eqn:Enf; [|done].
      apply Z.leb_le in Enf. cbn [mbind outcome_bind] in Hrun.
      destruct (vectorSize 90 _) as [[]| | | |]; try done.
      cbn [mbind outcome_bind] in Hrun.
      destruct (DecisionTreeLearner_loop _ _ _ _ _ _) as [s| | | |] eqn:Eloop; try done.
      cbn [mbind outcome_bind] in Hrun. exists s. split; [congruence|].
      eapply DecisionTreeLearner_loop_routed; [done|done| |done|exact Eloop].
      destruct (numFeatures L <? 0); [|done]. apply Z.sqrt_le_lin. by destruct Hwf.
    - unfold ProjectiveDecisionTreeLearner_learn in Hrun. rewrite Hboot in Hrun.
      cbn [rd_draw] in Hrun.
      destruct (ProjectiveDecisionTreeLearner_loop _ _ _ _ _ _) as [s| | | |] eqn:Eloop;
        try done.
      cbn [mbind outcome_bind] in Hrun. exists s. split; [congruence|].
      eapply ProjectiveDecisionTreeLearner_loop_routed; [done|done|done|done|exact Eloop].
    - unfold DotProductDecisionTreeLearner_learn in Hrun. rewrite Hboot in Hrun.
      cbn [rd_draw] in Hrun.
      destruct (DotProductDecisionTreeLearner_loop _ _ _ _ _ _) as [s| | | |] eqn:Eloop;
        try done.
      cbn [mbind outcome_bind] in Hrun. exists s. split; [congruence|].
      eapply DotProductDecisionTreeLearner_loop_routed; [done|done|done|exact Eloop]. }
  destruct Hr as (s & -> & [_ Hr2] & Hstack).
  apply Hr2; [done|done|]. rewrite Hstack. apply not_elem_of_nil.
Qed.

End CountedWhereRouted.

(** The left leaf of the tree of the four points holds the smoothed
    histogram of the two examples it receives. *)
Lemma leaves_count_the_examples_routed_to_them_witness :
  routedTo (fst Reference.learned) Reference.fourPoints 1 = [0%nat; 1%nat] /\
  histogram (getNodeData (fst Reference.learned) 1)
  = smoothedVector (nodeHistogram Reference.fourPoints
                      (getClasscount Reference.fourPoints)
                      (routedTo (fst Reference.learned) Reference.fourPoints 1))
                   (smoothingParameter (Reference.config 1 5 1 1)).
Proof.
  split; [vm_compute; reflexivity|].
  apply (leaves_count_the_examples_routed_to_them (Reference.config 1 5 1 1)
           Reference.fourPoints Reference.globals0 10 (fst Reference.learned)
           (snd Reference.learned) 1).
  - exact wf_fourPoints.
  - reflexivity.
  - reflexivity.
  - left. exact learned_returned.
  - vm_compute. lia.
  - vm_compute. reflexivity.
Defined.

(** ** Configurations that leave the root a leaf *)

Section RootLeaf.

Context `{P : Platform}.

(** The stop test at the root, for a learner that may not grow the tree
    or has too few examples. *)
Lemma root_stops_small L storage :
  wf_storage storage -> 0 < getClasscount storage ->
  maxDepth L <= 0 \/ getSize storage < minSplitExamples L ->
  stops L (nodeHistogram storage (getClasscount storage)
                         (seq 0 (length (examples storage)))) 0 = true.
Proof.
  intros Hwf HC Hsmall. unfold stops.
  rewrite getMass_nodeHistogram by (by apply labels_valid). rewrite length_seq.
  destruct Hsmall as [Hd|Hn].
  - rewrite (proj2 (Z.leb_le _ _) Hd). by rewrite !orb_true_r.
  - unfold getSize in Hn. by rewrite (proj2 (Z.ltb_lt _ _) Hn).
Qed.

Lemma DecisionTreeLearner_loop_root_leaf L storage _numFeatures fuel e r :
  0 < getClasscount storage -> (0 < fuel)%nat ->
  stops L (nodeHistogram storage (getClasscount storage)
                         (seq 0 (length (examples storage)))) 0 = true \/
  _numFeatures <= 0 ->
  exists s,
    DecisionTreeLearner_loop fuel L storage _numFeatures (getClasscount storage)
                             (initialState storage e r) = Returns s /\
    treeStructure (tree s) = [freshConfig 0].
Proof.
  intros HC Hfuel Hcase. destruct fuel as [|fuel]; [lia|].
  set (hist := nodeHistogram storage (getClasscount storage)
                             (seq 0 (length (examples storage)))) in *.
  assert (Hh : (0 < length hist)%nat) by (unfold hist; rewrite length_nodeHistogram; lia).
  destruct (finalizeLeaf_root 158 hist (smoothingParameter L) (useBootstrap L) Hh)
    as (t1 & Ht1 & Hs1).
  destruct (finalizeLeaf_root 241 hist (smoothingParameter L) (useBootstrap L) Hh)
    as (t2 & Ht2 & Hs2).
  cbn [DecisionTreeLearner_loop].
  change (splitStack (initialState storage e r)) with [0%nat]. cbv iota.
  unfold DecisionTreeLearner_turn.
  change (splitStack (initialState storage e r)) with [0%nat]. cbv iota.
  rewrite exampleList_initial. cbn [mbind outcome_bind].
  change (tree (initialState storage e r)) with (fst (addNode [])).
  change (getDepth (getNodeConfig (fst (addNode [])) 0)) with 0. fold hist.
  destruct (stops L hist 0) eqn:Hstop.
  - rewrite Ht1. cbn [mbind outcome_bind].
    unfold release. destruct fuel; cbn [DecisionTreeLearner_loop splitStack]; eauto.
  - destruct Hcase as [?|Hnf]; [congruence|].
    replace (Z.to_nat _numFeatures) with 0%nat by lia.
    cbn [rd_draw seq optimise mbind outcome_bind bestFeature]. cbn [Z.ltb Z.compare orb].
    rewrite Ht2. cbn [mbind outcome_bind].
    unfold release. destruct fuel; cbn [DecisionTreeLearner_loop splitStack]; eauto.
Qed.

Lemma ProjectiveDecisionTreeLearner_loop_root_leaf L storage fuel e r :
  0 < getClasscount storage -> (0 < fuel)%nat ->
  stops L (nodeHistogram storage (getClasscount storage)
                         (seq 0 (length (examples storage)))) 0 = true \/
  numFeatures L <= 0 ->
  exists s,
    ProjectiveDecisionTreeLearner_loop fuel L storage (getClasscount storage)
      (getDimensionality storage) (initialState storage e r) = Returns s /\
    treeStructure (tree s) = [freshConfig 0].
Proof.
  intros HC Hfuel Hcase. destruct fuel as [|fuel]; [lia|].
  set (hist := nodeHistogram storage (getClasscount storage)
                             (seq 0 (length (examples storage)))) in *.
  assert (Hh : (0 < length hist)%nat) by (unfold hist; rewrite length_nodeHistogram; lia).
  destruct (finalizeLeaf_root 427 hist (smoothingParameter L) (useBootstrap L) Hh)
    as (t1 & Ht1 & Hs1).
  destruct (finalizeLeaf_root 499 hist (smoothingParameter L) (useBootstrap L) Hh)
    as (t2 & Ht2 & Hs2).
  cbn [ProjectiveDecisionTreeLearner_loop].
  change (splitStack (initialState storage e r)) with [0%nat]. cbv iota.
  unfold ProjectiveDecisionTreeLearner_turn.
  change (splitStack (initialState storage e r)) with [0%nat]. cbv iota.
  rewrite exampleList_initial. cbn [mbind outcome_bind].
  change (tree (initialState storage e r)) with (fst (addNode [])).
  change (getDepth (getNodeConfig (fst (addNode [])) 0)) with 0. fold hist.
  destruct (stops L hist 0) eqn:Hstop.
  - rewrite Ht1. cbn [mbind outcome_bind].
    unfold release. destruct fuel; cbn [ProjectiveDecisionTreeLearner_loop splitStack]; eauto.
  - destruct Hcase as [?|Hnf]; [congruence|].
    replace (Z.to_nat (numFeatures L)) with 0%nat by lia.
    cbn [optimiseProjection mbind outcome_bind bestObjectiveP].
    assert (Hhuge : Qltb large huge = true) by (vm_compute; reflexivity).
    rewrite Hhuge. cbn [orb]. rewrite Ht2. cbn [mbind outcome_bind].
    unfold release. destruct fuel; cbn [ProjectiveDecisionTreeLearner_loop splitStack]; eauto.
Qed.

Lemma DotProductDecisionTreeLearner_loop_root_leaf L storage fuel e r :
  0 < getClasscount storage -> (0 < fuel)%nat ->
  stops L (nodeHistogram storage (getClasscount storage)
                         (seq 0 (length (examples storage)))) 0 = true \/
  numFeatures L <= 0 ->
  exists s,
    DotProductDecisionTreeLearner_loop fuel L storage (getClasscount storage)
      (getDimensionality storage) (initialState storage e r) = Returns s /\
    treeStructure (tree s) = [freshConfig 0].
Proof.
  intros HC Hfuel Hcase. destruct fuel as [|fuel]; [lia|].
  set (hist := nodeHistogram storage (getClasscount storage)
                             (seq 0 (length (examples storage)))) in *.
  assert (Hh : (0 < length hist)%nat) by (unfold hist; rewrite length_nodeHistogram; lia).
  destruct (finalizeLeaf_root 663 hist (smoothingParameter L) (useBootstrap L) Hh)
    as (t1 & Ht1 & Hs1).
  destruct (finalizeLeaf_root 734 hist (smoothingParameter L) (useBootstrap L) Hh)
    as (t2 & Ht2 & Hs2).
  cbn [DotProductDecisionTreeLearner_loop].
  change (splitStack (initialState storage e r)) with [0%nat]. cbv iota.
  unfold DotProductDecisionTreeLearner_turn.
  change (splitStack (initialState storage e r)) with [0%nat]. cbv iota.
  rewrite exampleList_initial. cbn [mbind outcome_bind].
  change (tree (initialState storage e r)) with (fst (addNode [])).
  change (getDepth (getNodeConfig (fst (addNode [])) 0)) with 0. fold hist.
  destruct (stops L hist 0) eqn:Hstop.
  - rewrite Ht1. cbn [mbind outcome_bind].
    unfold release. destruct fuel; cbn [DotProductDecisionTreeLearner_loop splitStack]; eauto.
  - destruct Hcase as [?|Hnf]; [congruence|].
    replace (Z.to_nat (numFeatures L)) with 0%nat by lia.
    cbn [optimiseAnchors mbind outcome_bind bestObjectiveD].
    assert (Hhuge : Qltb large huge = true) by (vm_compute; reflexivity).
    rewrite Hhuge. cbn [orb]. rewrite Ht2. cbn [mbind outcome_bind].
    unfold release. destruct fuel; cbn [DotProductDecisionTreeLearner_loop splitStack]; eauto.
Qed.

(** X13.  Configurations that cannot split the root: on well-formed data
    with at least one class, a batch learner that is given at least one
    turn returns a tree of one node, the root, when [maxDepth] is zero or
    less, when it works on fewer examples than [minSplitExamples], or
    when it has no feature or candidate to try ([numFeatures] zero; for
    the projective and the dot-product learner zero or less).  The
    axis-aligned learner checks its feature count first (line 50) and
    needs at least one example to work on (line 90). *)
Theorem small_configurations_give_a_single_leaf (L : Learner) (dataStorage : DataStorage)
    (gl : Globals) (fuel : nat) :
  wf_storage dataStorage -> 0 < getClasscount dataStorage -> (0 < fuel)%nat ->
  (numFeatures L <= getDimensionality dataStorage ->
   0 < getSize (DecisionTreeLearner_storage L dataStorage gl) ->
   maxDepth L <= 0 \/
   getSize (DecisionTreeLearner_storage L dataStorage gl) < minSplitExamples L \/
   numFeatures L = 0 ->
   exists t gl', DecisionTreeLearner_learn L dataStorage gl fuel = Returns (t, gl') /\
                 treeStructure t = [freshConfig 0]) /\
  (maxDepth L <= 0 \/
   getSize (candidateLearner_storage L dataStorage gl) < minSplitExamples L \/
   numFeatures L <= 0 ->
   (exists t gl', ProjectiveDecisionTreeLearner_learn L dataStorage gl fuel = Returns (t, gl') /\
                  treeStructure t = [freshConfig 0]) /\
   (exists t gl', DotProductDecisionTreeLearner_learn L dataStorage gl fuel = Returns (t, gl') /\
                  treeStructure t = [freshConfig 0])).
Proof.
  intros Hwf HC Hfuel. split.
  - intros Hnf.
    unfold DecisionTreeLearner_storage, DecisionTreeLearner_learn, BOOST_ASSERT.
    rewrite (proj2 (Z.leb_le _ _) Hnf). cbn [mbind outcome_bind].
    set (count := if numBootstrapExamples L <? 0 then getSize dataStorage
                  else numBootstrapExamples L).
    intros Hsize Hcase.
    assert (Est : (if useBootstrap L then fst (fst (bootstrap count dataStorage gl))
                   else dataStorage)
                  = fst (fst (if useBootstrap L then bootstrap count dataStorage gl
                              else (dataStorage, [], gl)))) by (by destruct (useBootstrap L)).
    rewrite Est in Hcase, Hsize. clear Est.
    destruct (if useBootstrap L then _ else _) as [[storage sampled] gl1] eqn:Ew.
    cbn [fst] in Hcase, Hsize.
    rewrite (proj1 (reserve_nonempty _) Hsize). cbn [mbind outcome_bind].
    apply working_storage in Ew as (EC & ED & Hwf'). specialize (Hwf' Hwf).
    destruct (DecisionTreeLearner_loop_root_leaf L storage
                (if numFeatures L <? 0 then Z.sqrt (getDimensionality dataStorage)
                 else numFeatures L) fuel (g gl1) (rd gl1)) as (s & -> & Hs);
      [lia|done| |].
    { destruct Hcase as [Hd|[Hn|Hz]].
      - left. apply root_stops_small; [done|lia|by left].
      - left. apply root_stops_small; [done|lia|by right].
      - right. rewrite Hz. cbn. lia. }
    cbn [mbind outcome_bind]. eexists _, _. split; [done|].
    destruct (useBootstrap L); [by rewrite treeStructure_updateHistograms|done].
  - unfold candidateLearner_storage, ProjectiveDecisionTreeLearner_learn,
      DotProductDecisionTreeLearner_learn.
    intros Hcase.
    assert (Est : (if useBootstrap L
                   then fst (fst (bootstrap (numBootstrapExamples L) dataStorage gl))
                   else dataStorage)
                  = fst (fst (if useBootstrap L
                              then bootstrap (numBootstrapExamples L) dataStorage gl
                              else (dataStorage, [], gl)))) by (by destruct (useBootstrap L)).
    rewrite Est in Hcase. clear Est.
    destruct (if useBootstrap L then _ else _) as [[storage sampled] gl1] eqn:Ew.
    cbn [fst rd_draw] in *.
    apply working_storage in Ew as (EC & ED & Hwf'). specialize (Hwf' Hwf).
    assert (Hroot : stops L (nodeHistogram storage (getClasscount storage)
                               (seq 0 (length (examples storage)))) 0 = true \/
                    numFeatures L <= 0).
    { destruct Hcase as [Hd|[Hn|Hz]].
      - left. apply root_stops_small; [done|lia|by left].
      - left. apply root_stops_small; [done|lia|by right].
      - by right. }
    split.
    + destruct (ProjectiveDecisionTreeLearner_loop_root_leaf L storage fuel
                  (seed_engine (source (rd gl1) (drawn (rd gl1))))
                  (mkDevice (source (rd gl1)) (S (drawn (rd gl1)))))
        as (s & -> & Hs); [lia|done|done|].
      cbn [mbind outcome_bind]. eexists _, _. split; [done|].
      destruct (useBootstrap L); [by rewrite treeStructure_updateHistograms|done].
    + destruct (DotProductDecisionTreeLearner_loop_root_leaf L storage fuel
                  (seed_engine (source (rd gl1) (drawn (rd gl1))))
                  (mkDevice (source (rd gl1)) (S (drawn (rd gl1)))))
        as (s & -> & Hs); [lia|done|done|].
      cbn [mbind outcome_bind]. eexists _, _. split; [done|].
      destruct (useBootstrap L); [by rewrite treeStructure_updateHistograms|done].
Qed.

End RootLeaf.

(** The axis-aligned learner with no feature to try leaves the four
    points in one leaf. *)
Lemma small_configurations_give_a_single_leaf_witness :
  exists t gl',
    DecisionTreeLearner_learn (Reference.config 0 5 1 1) Reference.fourPoints
                              Reference.globals0 1 = Returns (t, gl') /\
    treeStructure t = [freshConfig 0].
Proof.
  refine (proj1 (small_configurations_give_a_single_leaf (Reference.config 0 5 1 1)
                   Reference.fourPoints Reference.globals0 1 wf_fourPoints _ _) _ _ _).
  - reflexivity.
  - lia.
  - apply Z.leb_le. reflexivity.
  - reflexivity.
  - right. right. reflexivity.
Defined.

(** ** The example arrays *)

Section ExampleArrays.

Context `{P : Platform}.

Lemma runInvariant_released good C s :
  runInvariant good C s -> splitStack s = [] ->
  length (trainingExamples s) = length (tree s) /\
  Forall (fun a => a = None) (trainingExamples s).
Proof.
  intros (_ & _ & Hlen & _ & _ & Hon & _) Hstack. split; [done|].
  apply Forall_forall. intros a Ha. apply list_elem_of_lookup in Ha as [k Hk].
  destruct a as [arr|]; [|done].
  assert (Hin : k ∈ splitStack s) by (apply Hon; eauto).
  rewrite Hstack in Hin. by apply elem_of_nil in Hin.
Qed.

(** X14.  When the loop of a batch learner ends, every example array it
    allocated has been released: the table of arrays has one entry per
    node of the tree, and none of them still holds an array. *)
Theorem every_array_is_released (L : Learner) (storage : DataStorage)
    (_numFeatures C : Z) (fuel : nat) (e : Engine) (r : random_device) (s : State) :
  DecisionTreeLearner_loop fuel L storage _numFeatures C (initialState storage e r)
  = Returns s \/
  ProjectiveDecisionTreeLearner_loop fuel L storage C (getDimensionality storage)
    (initialState storage e r) = Returns s \/
  DotProductDecisionTreeLearner_loop fuel L storage C (getDimensionality storage)
    (initialState storage e r) = Returns s ->
  length (trainingExamples s) = length (tree s) /\
  Forall (fun a => a = None) (trainingExamples s).
Proof.
  intros [Hrun|[Hrun|Hrun]].
  - rewrite DecisionTreeLearner_loop_loopWith in Hrun.
    apply (loopWith_invariant
             (fun s => runInvariant (isAxisAligned (getDimensionality storage)) C s /\
                       Forall (fun f => Z.of_nat f < getDimensionality storage)
                              (sampledFeatures s))) in Hrun.
    + destruct Hrun as [[Hinv _] Hstack]. by eapply runInvariant_released.
    + intros s0 s1 ev [Hs0 Hf0] _ Hturn.
      pose proof (DecisionTreeLearner_turn_shape _ _ _ _ _ _ _ _ Hf0 Hturn) as Hshape.
      split; [by eapply runInvariant_step|].
      destruct Hshape as (_ & _ & _ & _ & _ & _ & Hperm & _). by rewrite Hperm.
    + split; [apply runInvariant_initial|apply sampledFeatures_initial].
  - rewrite ProjectiveDecisionTreeLearner_loop_loopWith in Hrun.
    apply (loopWith_invariant (runInvariant isSparseProjection C)) in Hrun.
    + destruct Hrun as [Hinv Hstack]. by eapply runInvariant_released.
    + intros s0 s1 ev Hs0 _ Hturn. eapply runInvariant_step; [exact Hs0|].
      eapply ProjectiveDecisionTreeLearner_turn_shape; eauto.
    + apply runInvariant_initial.
  - rewrite DotProductDecisionTreeLearner_loop_loopWith in Hrun.
    apply (loopWith_invariant (runInvariant isDotProduct C)) in Hrun.
    + destruct Hrun as [Hinv Hstack]. by eapply runInvariant_released.
    + intros s0 s1 ev Hs0 _ Hturn. eapply runInvariant_step; [exact Hs0|].
      eapply DotProductDecisionTreeLearner_turn_shape; eauto.
    + apply runInvariant_initial.
Qed.

End ExampleArrays.

Lemma finalState_returned :
  DecisionTreeLearner_loop 10 (Reference.config 1 5 1 1) Reference.fourPoints 1 2
    (initialState Reference.fourPoints 1 (mkDevice (fun k => Z.of_nat k + 1) 0))
  = Returns Reference.finalState.
Proof.
  assert (Hr : returned (DecisionTreeLearner_loop 10 (Reference.config 1 5 1 1)
                           Reference.fourPoints 1 2 Reference.rootState) = true)
    by (vm_compute; reflexivity).
  unfold Reference.finalState. fold Reference.rootState.
  destruct (DecisionTreeLearner_loop _ _ _ _ _ _) as [s| | | |]; done.
Qed.

(** The loop of the axis-aligned learner on the four points ends with
    three nodes and three released arrays. *)
Lemma every_array_is_released_witness :
  length (tree Reference.finalState) = 3%nat /\
  length (trainingExamples Reference.finalState) = length (tree Reference.finalState) /\
  Forall (fun a => a = None) (trainingExamples Reference.finalState).
Proof.
  split; [vm_compute; reflexivity|].
  apply (every_array_is_released (Reference.config 1 5 1 1) Reference.fourPoints 1 2 10
           1 (mkDevice (fun k => Z.of_nat k + 1) 0) Reference.finalState).
  left. exact finalState_returned.
Defined.

(** ** The splits of the online learner *)

Section OnlineSplits.

Context `{P : Platform}.

Lemma splitsOf_structure good (t0 t t' : Tree) :
  treeStructure t = treeStructure t' -> splitsOf good t0 t -> splitsOf good t0 t'.
Proof.
  intros E Ht k Hk. rewrite <- (getNodeConfig_treeStructure t t' k E).
  apply Ht. by rewrite <- (length_treeStructure t), E, length_treeStructure.
Qed.

Lemma splitsOf_split good (t0 t : Tree) node desc :
  good desc -> splitsOf good t0 t ->
  splitsOf good t0 (fst (splitNode node (setSplit node desc t))).
Proof.
  intros Hgood Ht k Hk. rewrite length_commit_tree in Hk. rewrite getNodeConfig_split.
  destruct (decide (k = node /\ (node < length t)%nat)) as [[-> _]|Hne].
  - intros _. by right.
  - destruct (decide (k = length t \/ k = S (length t))) as [Hnew|Hold]; [done|].
    apply Ht. lia.
Qed.

(** A visit adds axis-aligned splits on features of the data only. *)
Lemma visit_splits C D st x label st' ev t0 :
  OnlineDecisionTreeLearner_visit C D st x label = Returns (st', ev) ->
  splitsOf (isAxisAligned D) t0 (otree st) -> splitsOf (isAxisAligned D) t0 (otree st').
Proof.
  intros Hvisit Ht. unfold OnlineDecisionTreeLearner_visit in Hvisit.
  destruct (countExample C D st x label) as [[st2 d2]| | | |] eqn:Ecount; try done.
  cbn [mbind outcome_bind] in Hvisit.
  apply countExample_inv in Ecount as (Etree & _ & _).
  apply decideSplit_inv in Hvisit as [[-> Hkeep]|(best & -> & _ & _ & Hsplit)].
  - apply keepLeaf_inv in Hkeep as (_ & _ & ->). cbn [otree]. rewrite Etree.
    eapply splitsOf_structure; [|exact Ht]. by rewrite treeStructure_setNodeData.
  - apply splitLeaf_inv in Hsplit
      as (_ & feature & threshold & hl & hr & _ & HD & _ & _ & _ & _ & _ & _ & _ & _ & _ & ->).
    rewrite Etree.
    eapply splitsOf_structure; [symmetry; apply treeStructure_splitTree|].
    apply splitsOf_split; [|done]. exists (Z.of_nat feature), threshold.
    split; [done|lia].
Qed.

Lemma OnlineDecisionTreeLearner_loop_splits C D exs t0 : forall st st',
  OnlineDecisionTreeLearner_loop C D exs st = Returns st' ->
  splitsOf (isAxisAligned D) t0 (otree st) -> splitsOf (isAxisAligned D) t0 (otree st').
Proof.
  induction exs as [|[x label] exs IH]; intros st st' Hrun Ht; simpl in Hrun.
  - by inversion Hrun; subst.
  - destruct (OnlineDecisionTreeLearner_visit C D st x label) as [[st1 ev]| | | |] eqn:E;
      try done.
    cbn [mbind outcome_bind] in Hrun.
    eapply IH; [exact Hrun|]. eapply visit_splits; eauto.
Qed.

(** X15.  Every split that the online learner adds to the tree is an
    axis-aligned split on a feature of the data: a node with children in
    the returned tree had children in the given tree already, or it
    carries a descriptor with a feature index [0 <= feature < D]. *)
Theorem online_splits_test_features_of_the_data (L : Learner) (storage : DataStorage)
    (t0 : Tree) (gl : Globals) (t : Tree) (L' : Learner) (gl' : Globals) (k : nat) :
  OnlineDecisionTreeLearner_learn L storage t0 gl = Returns (t, L', gl') ->
  (k < length t)%nat -> leftChild (getNodeConfig t k) <> None ->
  ((k < length t0)%nat /\ leftChild (getNodeConfig t0 k) <> None) \/
  exists feature threshold,
    split (getNodeConfig t k) = AxisAligned feature threshold /\
    0 <= feature < getDimensionality storage.
Proof.
  intros Hrun. unfold OnlineDecisionTreeLearner_learn, BOOST_ASSERT in Hrun.
  destruct (_ && _); [|done]. cbn [mbind outcome_bind] in Hrun.
  destruct (_ =? _); [|done]. cbn [mbind outcome_bind] in Hrun.
  destruct (0 <? getNumNodes t0); [|done]. cbn [mbind outcome_bind] in Hrun.
  destruct (OnlineDecisionTreeLearner_loop _ _ _ _) as [st| | | |] eqn:Eloop; try done.
  cbn [mbind outcome_bind] in Hrun. inversion Hrun; subst.
  apply (OnlineDecisionTreeLearner_loop_splits _ _ _ t0) in Eloop.
  - intros Hk Hc. apply (Eloop k Hk Hc).
  - intros j Hj Hc. left. done.
Qed.

End OnlineSplits.

(** The root of the tree the online learner returns on the two points is
    split on the one feature of the data. *)
Lemma online_splits_test_features_of_the_data_witness :
  ((0 < length (fst (addNode [])))%nat /\
   leftChild (getNodeConfig (fst (addNode [])) 0) <> None) \/
  exists feature threshold,
    split (getNodeConfig (fst (fst Reference.onlineLearned)) 0)
    = AxisAligned feature threshold /\
    0 <= feature < getDimensionality Reference.twoPoints.
Proof.
  apply (online_splits_test_features_of_the_data (Reference.onlineConfig 0 [inject_Z 5])
           Reference.twoPoints (fst (addNode [])) Reference.globals0
           (fst (fst Reference.onlineLearned)) (snd (fst Reference.onlineLearned))
           (snd Reference.onlineLearned) 0).
  - exact onlineLearned_returned.
  - vm_compute. lia.
  - vm_compute. discriminate.
Defined.

(** ** The best split of the axis-aligned learner *)

Section BestSplit.

Context `{P : Platform}.






End BestSplit.

Section BestSplitOfExamples.

Context `{P : Platform}.





End BestSplitOfExamples.



(** ** A visit without a slot to split at *)

Section NoSlot.

Context `{P : Platform}.

(** X17.  The assertion of line 990 can fail.  When [minSplitObjective]
    is zero or less, a visit whose leaf passes the stop test after the
    example has been counted, and none of whose considered slots has a
    gain above zero, is not kept as a leaf (the best objective, still 0,
    is not below the minimum): it reaches line 990 with no best feature
    and fails the assertion [bestFeature >= 0]. *)
Theorem no_slot_fails_the_assertion (C D : Z) (st : OnlineState) (x : DataPoint)
    (label : nat) (st2 : OnlineState) (d2 : NodeData) :
  0 < C ->
  (nodeStatistics (getNodeData (otree st) (findLeafNode (otree st) x)) <> [] ->
   leafPrepared (learner st) C D (getNodeData (otree st) (findLeafNode (otree st) x))) ->
  countExample C D st x label = Returns (st2, d2) ->
  stops (learner st2) (nodeStatistics d2)
        (getDepth (getNodeConfig (otree st) (findLeafNode (otree st) x))) = false ->
  (minSplitObjective (learner st2) <= 0)%Q ->
  (forall ft, ft ∈ scanOrder (learner st2) -> qualifies (learner st2) d2 ft ->
              (slotGain (learner st2) d2 ft <= 0)%Q) ->
  OnlineDecisionTreeLearner_visit C D st x label = AssertFails 990.
Proof.
  intros HC Hleaf Hcount Hstop Hmin Hnone.
  pose proof (visit_counted _ _ _ _ _ _ _ Hcount) as Hvisit.
  apply countExample_inv in Hcount as (_ & _ & Hprep).
  specialize (Hprep HC Hleaf).
  destruct (decideSplit_spec C D st2 (findLeafNode (otree st) x) _ d2 Hprep Hstop)
    as (best & _ & [_ Hwhich] & _ & Hsplit).
  destruct Hwhich as [(Eo & _ & Ef)|(f & t & Hin & Hq & Eo & Hpos & _)].
  - rewrite Hvisit, Hsplit by (by rewrite Eo).
    unfold splitLeaf, BOOST_ASSERT. by rewrite Ef.
  - exfalso. specialize (Hnone (f, t) Hin Hq). rewrite <- Eo in Hnone.
    by apply (Qlt_not_le _ _ Hpos).
Qed.

End NoSlot.

Lemma onlineFarCounted_returned :
  countExample 2 1 Reference.onlineFar1 [inject_Z 10] 1
  = Returns (fst Reference.onlineFarCounted, snd Reference.onlineFarCounted).
Proof.
  assert (Hr : returned (countExample 2 1 Reference.onlineFar1 [inject_Z 10] 1) = true)
    by (vm_compute; reflexivity).
  unfold Reference.onlineFarCounted.
  destruct (countExample 2 1 Reference.onlineFar1 [inject_Z 10] 1) as [[st d]| | | |]; done.
Qed.

(** With the threshold 100 both of the two points lie on the left of the
    one slot, which is not considered: the visit of the second point
    fails the assertion. *)
Lemma no_slot_fails_the_assertion_witness :
  OnlineDecisionTreeLearner_visit 2 1 Reference.onlineFar1 [inject_Z 10] 1
  = AssertFails 990.
Proof.
  apply (no_slot_fails_the_assertion 2 1 Reference.onlineFar1 [inject_Z 10] 1
           (fst Reference.onlineFarCounted) (snd Reference.onlineFarCounted)).
  - lia.
  - intros _. vm_compute. repeat split; try lia; repeat constructor.
  - exact onlineFarCounted_returned.
  - vm_compute. reflexivity.
  - apply Qle_bool_iff. vm_compute. reflexivity.
  - intros [f t] Hin (hl & hr & El & Er & Hl & Hr). exfalso.
    apply elem_of_scanOrder in Hin as [Hf Ht].
    assert (f = 0%nat) as -> by (vm_compute in Hf; lia).
    assert (t = 0%nat) as -> by (vm_compute in Ht; lia).
    vm_compute in Er. inversion Er; subst. vm_compute in Hr. discriminate.
Defined.

(** ** Data without classes *)

Section NoClasses.

Context `{P : Platform}.

Lemma nodeHistogram_no_classes storage C l : C <= 0 -> nodeHistogram storage C l = [].
Proof.
  intros HC. apply nil_length_inv. rewrite length_nodeHistogram. lia.
Qed.

Lemma finalizeLeaf_no_classes line t node smoothing boot :
  finalizeLeaf line t node [] smoothing boot = AssertFails 34.
Proof.
  unfold finalizeLeaf. by rewrite updateLeafNodeHistogram_empty.
Qed.

Lemma stops_no_classes L d : stops L [] d = true.
Proof. apply stops_pure. apply (isPure_create 0). Qed.

Lemma DecisionTreeLearner_loop_no_classes L storage _numFeatures C fuel e r :
  C <= 0 -> (0 < fuel)%nat ->
  DecisionTreeLearner_loop fuel L storage _numFeatures C (initialState storage e r)
  = AssertFails 34.
Proof.
  intros HC Hfuel. destruct fuel as [|fuel]; [lia|].
  cbn [DecisionTreeLearner_loop].
  change (splitStack (initialState storage e r)) with [0%nat]. cbv iota.
  unfold DecisionTreeLearner_turn.
  change (splitStack (initialState storage e r)) with [0%nat]. cbv iota.
  rewrite exampleList_initial. cbn [mbind outcome_bind].
  rewrite nodeHistogram_no_classes by done.
  by rewrite stops_no_classes, finalizeLeaf_no_classes.
Qed.





End NoClasses.


(** ** The online learner runs to its end *)

Section OnlineRuns.

Context `{P : Platform}.








End OnlineRuns.

